(** * SaraNcpClient: the u-blox SARA cellular network co-processor client

    A shallow embedding of [SaraNcpClient] (sara_ncp_client.cpp) and the
    properties of its state machines: registration reconciliation, the
    registration watchdog, the power sequencer, the data-channel write
    window, the operator query and the enable/disable life cycle.

    Conventions.
    - The C++ object and the hardware around it form one [World] that every
      member function transforms (explicit state passing).  Member
      functions that cannot loop for ever are total functions on [World];
      the ones that reach [waitForPowerOff] take a [fuel] bound on the
      iterations of its [do .. while] loop and return [None] when the bound
      is used up.
    - Whatever the client calls but does not define (GPIO input, the
      multiplexer, the AT parser, the reset-reason query) is an [Env]: each
      answer is a function of the clock and of the history of calls made so
      far, so that two reads with nothing in between agree, and nothing
      else is assumed about the answers.  A call into the multiplexer or
      the parser returns before anything else happens to the client: the
      channel-state callback and [disable], which run on other threads in
      the firmware, are entry points of their own here.
    - Time is the millisecond clock of the [World].  A delay moves it by the
      time asked for, an exchange with the parser by the time the
      environment says it took, and everything else takes no time.
    - Constants and enumerators declared in headers outside this
      translation unit are fields of a [Platform]; every theorem holds for
      every platform. *)

From Stdlib Require Import ZArith List Bool String Ascii Lia.
Import ListNotations.
Local Open Scope Z_scope.

(** ** Enumerations *)

Inductive NcpState := OFF | ON | DISABLED.
Inductive NcpConnectionState := DISCONNECTED | CONNECTING | CONNECTED.
Inductive RegistrationState := NotRegistered | Registered.
Inductive Pin := UBPWR | UBRST | BUFEN | UBVINT.
Inductive UrcPrefix := URC_CREG | URC_CGREG | URC_CEREG.

Definition NcpState_eq_dec (a b : NcpState) : {a = b} + {a <> b}.
Proof. decide equality. Defined.

Definition NcpConnectionState_eq_dec (a b : NcpConnectionState) : {a = b} + {a <> b}.
Proof. decide equality. Defined.

(** ** Constants of the translation unit (anonymous namespace) *)

Definition UBLOX_NCP_R4_APP_FW_VERSION_MEMORY_LEAK_ISSUE : Z := 200.
Definition UBLOX_NCP_R4_APP_FW_VERSION_NO_HW_FLOW_CONTROL_MIN : Z := 200.
Definition UBLOX_NCP_R4_APP_FW_VERSION_NO_HW_FLOW_CONTROL_MAX : Z := 203.
Definition UBLOX_NCP_AT_CHANNEL : Z := 1.
Definition UBLOX_NCP_PPP_CHANNEL : Z := 2.
Definition REGISTRATION_CHECK_INTERVAL : Z := 15 * 1000.
Definition REGISTRATION_TIMEOUT : Z := 10 * 60 * 1000.
Definition UBLOX_NCP_R4_BYTES_PER_WINDOW_THRESHOLD : Z := 512.
Definition UBLOX_NCP_R4_WINDOW_SIZE_MS : Z := 50.

(** ** Constants declared outside the translation unit

    The numeric values of these names live in headers that are not part of
    the sources at hand (system_error.h, platform_ncp.h, the cellular HAL,
    the AT parser, the multiplexer).  They are parameters of the model. *)

Record Platform := {
  PLATFORM_NCP_SARA_R410 : Z;
  SYSTEM_ERROR_NONE : Z;
  SYSTEM_ERROR_INVALID_STATE : Z;
  SYSTEM_ERROR_BAD_DATA : Z;
  SYSTEM_ERROR_AT_NOT_OK : Z;
  SYSTEM_ERROR_AT_RESPONSE_UNEXPECTED : Z;
  AtResponse_OK : Z;
  GSM0710_ERROR_FLOW_CONTROL : Z;
  CGI_FLAG_TWO_DIGIT_MNC : Z;
  RESET_REASON_POWER_DOWN : Z;
  RESET_REASON_POWER_BROWNOUT : Z;
  (* std::numeric_limits<LacType>::max() and <CidType>::max() *)
  LacType_max : Z;
  CidType_max : Z;
  (* enum class CellularAccessTechnology, by underlying value *)
  ACT_NONE : Z;
  ACT_GSM : Z;
  ACT_GSM_COMPACT : Z;
  ACT_UTRAN : Z;
  ACT_GSM_EDGE : Z;
  ACT_UTRAN_HSDPA : Z;
  ACT_UTRAN_HSUPA : Z;
  ACT_UTRAN_HSDPA_HSUPA : Z;
  ACT_LTE : Z;
  ACT_LTE_CAT_M1 : Z;
  ACT_LTE_NB_IOT : Z
}.

(** ** Data model *)

(** [CellularGlobalIdentity], the fields the client writes. *)
Record CellularGlobalIdentity := {
  cgi_flags : Z;
  mobile_country_code : Z;
  mobile_network_code : Z;
  location_area_code : Z;
  cell_id : Z
}.

(** [CellularNcpClientConfig]: the chip family and whether the callbacks
    are installed. *)
Record CellularNcpClientConfig := {
  ncpIdentifier : Z;
  eventHandler : bool;
  dataHandler : bool
}.

(** What the client does to the outside, in order of occurrence. *)
Inductive Event :=
| GpioWrite (pin : Pin) (value : Z)
| DelayMs (ms : Z)
| DelayUs (us : Z)
| MuxStop
| MuxOpenChannel (channel : Z)
| MuxWriteChannel (channel : Z) (size : Z)
| AtCommand (cmd : string)
| ProcessUrc
| NcpStateChangedEvent (state : NcpState)
| ConnectionStateChangedEvent (state : NcpConnectionState)
| CellularNcpAuthEvent.

(** The outcome of one [sscanf] over a registration line: the return value
    and the converted numbers, in the order of the conversions. *)
Record Scan := {
  scan_r : Z;
  scan_vals : list Z
}.

(** One line handed to a URC handler: its prefix, the result of
    [reader->readLine], and the outcome of the two scans the handler tries
    on the copy of the line. *)
Record UrcLine := {
  urc_prefix : UrcPrefix;
  urc_readLine : Z;
  urc_scan_mode : Scan;    (* format with the leading "%*u," *)
  urc_scan_plain : Scan    (* format without it *)
}.

(** What the AT parser hands back for one exchange: the lines it dispatched
    to the URC handlers meanwhile, the time the exchange took, the result
    of [scanf] on the response (when the caller scans it) with the
    converted strings and integers, and the final result code. *)
Record ParserReply := {
  reply_urcs : list UrcLine;
  reply_elapsed : N;
  reply_scanf : Z;
  reply_strs : list string;
  reply_ints : list Z;
  reply_result : Z
}.

(** The environment of the client. *)
Record Env := {
  HAL_GPIO_Read_UBVINT : Z -> list Event -> bool;
  muxer_openChannel : Z -> list Event -> Z;
  muxer_writeChannel : Z -> list Event -> Z;
  parser_reply : Z -> list Event -> ParserReply;
  (* HAL_Core_Get_Last_Reset_Info: return value and reason *)
  HAL_Core_Get_Last_Reset_Info : Z * Z
}.

(** The members of [SaraNcpClient] followed by the state of the hardware
    abstraction layer: the millisecond clock (not wrapped), the history of
    events (latest first), the enabled flags of the two streams and the
    [std::once_flag] of [modemPowerOff]. *)
Record World := {
  conf_ : CellularNcpClientConfig;
  ncpState_ : NcpState;
  prevNcpState_ : NcpState;
  connState_ : NcpConnectionState;
  creg_ : RegistrationState;
  cgreg_ : RegistrationState;
  cereg_ : RegistrationState;
  regStartTime_ : Z;
  regCheckTime_ : Z;
  powerOnTime_ : Z;
  registeredTime_ : Z;
  memoryIssuePresent_ : bool;
  parserError_ : Z;
  ready_ : bool;
  registrationTimeout_ : Z;
  cgi_ : CellularGlobalIdentity;
  act_ : Z;
  fwVersion_ : Z;
  lastWindow_ : Z;
  bytesInWindow_ : Z;
  clock : Z;
  log : list Event;
  serial_enabled : bool;
  muxerAtStream_enabled : bool;
  powerOff_once : bool
}.

(** Field updates. *)

Definition set_ncpState (v : NcpState) (w : World) : World :=
  let '(Build_World a0 _ a2 a3 a4 a5 a6 a7 a8 a9 b0 b1 b2 b3 b4 b5 b6 b7 b8 b9 c0 c1 c2 c3 c4) := w in
  Build_World a0 v a2 a3 a4 a5 a6 a7 a8 a9 b0 b1 b2 b3 b4 b5 b6 b7 b8 b9 c0 c1 c2 c3 c4.

Definition set_prevNcpState (v : NcpState) (w : World) : World :=
  let '(Build_World a0 a1 _ a3 a4 a5 a6 a7 a8 a9 b0 b1 b2 b3 b4 b5 b6 b7 b8 b9 c0 c1 c2 c3 c4) := w in
  Build_World a0 a1 v a3 a4 a5 a6 a7 a8 a9 b0 b1 b2 b3 b4 b5 b6 b7 b8 b9 c0 c1 c2 c3 c4.

Definition set_connState (v : NcpConnectionState) (w : World) : World :=
  let '(Build_World a0 a1 a2 _ a4 a5 a6 a7 a8 a9 b0 b1 b2 b3 b4 b5 b6 b7 b8 b9 c0 c1 c2 c3 c4) := w in
  Build_World a0 a1 a2 v a4 a5 a6 a7 a8 a9 b0 b1 b2 b3 b4 b5 b6 b7 b8 b9 c0 c1 c2 c3 c4.

Definition set_creg (v : RegistrationState) (w : World) : World :=
  let '(Build_World a0 a1 a2 a3 _ a5 a6 a7 a8 a9 b0 b1 b2 b3 b4 b5 b6 b7 b8 b9 c0 c1 c2 c3 c4) := w in
  Build_World a0 a1 a2 a3 v a5 a6 a7 a8 a9 b0 b1 b2 b3 b4 b5 b6 b7 b8 b9 c0 c1 c2 c3 c4.

Definition set_cgreg (v : RegistrationState) (w : World) : World :=
  let '(Build_World a0 a1 a2 a3 a4 _ a6 a7 a8 a9 b0 b1 b2 b3 b4 b5 b6 b7 b8 b9 c0 c1 c2 c3 c4) := w in
  Build_World a0 a1 a2 a3 a4 v a6 a7 a8 a9 b0 b1 b2 b3 b4 b5 b6 b7 b8 b9 c0 c1 c2 c3 c4.

Definition set_cereg (v : RegistrationState) (w : World) : World :=
  let '(Build_World a0 a1 a2 a3 a4 a5 _ a7 a8 a9 b0 b1 b2 b3 b4 b5 b6 b7 b8 b9 c0 c1 c2 c3 c4) := w in
  Build_World a0 a1 a2 a3 a4 a5 v a7 a8 a9 b0 b1 b2 b3 b4 b5 b6 b7 b8 b9 c0 c1 c2 c3 c4.

Definition set_regStartTime (v : Z) (w : World) : World :=
  let '(Build_World a0 a1 a2 a3 a4 a5 a6 _ a8 a9 b0 b1 b2 b3 b4 b5 b6 b7 b8 b9 c0 c1 c2 c3 c4) := w in
  Build_World a0 a1 a2 a3 a4 a5 a6 v a8 a9 b0 b1 b2 b3 b4 b5 b6 b7 b8 b9 c0 c1 c2 c3 c4.

Definition set_regCheckTime (v : Z) (w : World) : World :=
  let '(Build_World a0 a1 a2 a3 a4 a5 a6 a7 _ a9 b0 b1 b2 b3 b4 b5 b6 b7 b8 b9 c0 c1 c2 c3 c4) := w in
  Build_World a0 a1 a2 a3 a4 a5 a6 a7 v a9 b0 b1 b2 b3 b4 b5 b6 b7 b8 b9 c0 c1 c2 c3 c4.

Definition set_powerOnTime (v : Z) (w : World) : World :=
  let '(Build_World a0 a1 a2 a3 a4 a5 a6 a7 a8 _ b0 b1 b2 b3 b4 b5 b6 b7 b8 b9 c0 c1 c2 c3 c4) := w in
  Build_World a0 a1 a2 a3 a4 a5 a6 a7 a8 v b0 b1 b2 b3 b4 b5 b6 b7 b8 b9 c0 c1 c2 c3 c4.

Definition set_registeredTime (v : Z) (w : World) : World :=
  let '(Build_World a0 a1 a2 a3 a4 a5 a6 a7 a8 a9 _ b1 b2 b3 b4 b5 b6 b7 b8 b9 c0 c1 c2 c3 c4) := w in
  Build_World a0 a1 a2 a3 a4 a5 a6 a7 a8 a9 v b1 b2 b3 b4 b5 b6 b7 b8 b9 c0 c1 c2 c3 c4.

Definition set_parserError (v : Z) (w : World) : World :=
  let '(Build_World a0 a1 a2 a3 a4 a5 a6 a7 a8 a9 b0 b1 _ b3 b4 b5 b6 b7 b8 b9 c0 c1 c2 c3 c4) := w in
  Build_World a0 a1 a2 a3 a4 a5 a6 a7 a8 a9 b0 b1 v b3 b4 b5 b6 b7 b8 b9 c0 c1 c2 c3 c4.

Definition set_ready (v : bool) (w : World) : World :=
  let '(Build_World a0 a1 a2 a3 a4 a5 a6 a7 a8 a9 b0 b1 b2 _ b4 b5 b6 b7 b8 b9 c0 c1 c2 c3 c4) := w in
  Build_World a0 a1 a2 a3 a4 a5 a6 a7 a8 a9 b0 b1 b2 v b4 b5 b6 b7 b8 b9 c0 c1 c2 c3 c4.

Definition set_registrationTimeout (v : Z) (w : World) : World :=
  let '(Build_World a0 a1 a2 a3 a4 a5 a6 a7 a8 a9 b0 b1 b2 b3 _ b5 b6 b7 b8 b9 c0 c1 c2 c3 c4) := w in
  Build_World a0 a1 a2 a3 a4 a5 a6 a7 a8 a9 b0 b1 b2 b3 v b5 b6 b7 b8 b9 c0 c1 c2 c3 c4.

Definition set_cgi (v : CellularGlobalIdentity) (w : World) : World :=
  let '(Build_World a0 a1 a2 a3 a4 a5 a6 a7 a8 a9 b0 b1 b2 b3 b4 _ b6 b7 b8 b9 c0 c1 c2 c3 c4) := w in
  Build_World a0 a1 a2 a3 a4 a5 a6 a7 a8 a9 b0 b1 b2 b3 b4 v b6 b7 b8 b9 c0 c1 c2 c3 c4.

Definition set_lastWindow (v : Z) (w : World) : World :=
  let '(Build_World a0 a1 a2 a3 a4 a5 a6 a7 a8 a9 b0 b1 b2 b3 b4 b5 b6 b7 _ b9 c0 c1 c2 c3 c4) := w in
  Build_World a0 a1 a2 a3 a4 a5 a6 a7 a8 a9 b0 b1 b2 b3 b4 b5 b6 b7 v b9 c0 c1 c2 c3 c4.

Definition set_bytesInWindow (v : Z) (w : World) : World :=
  let '(Build_World a0 a1 a2 a3 a4 a5 a6 a7 a8 a9 b0 b1 b2 b3 b4 b5 b6 b7 b8 _ c0 c1 c2 c3 c4) := w in
  Build_World a0 a1 a2 a3 a4 a5 a6 a7 a8 a9 b0 b1 b2 b3 b4 b5 b6 b7 b8 v c0 c1 c2 c3 c4.

Definition set_clock (v : Z) (w : World) : World :=
  let '(Build_World a0 a1 a2 a3 a4 a5 a6 a7 a8 a9 b0 b1 b2 b3 b4 b5 b6 b7 b8 b9 _ c1 c2 c3 c4) := w in
  Build_World a0 a1 a2 a3 a4 a5 a6 a7 a8 a9 b0 b1 b2 b3 b4 b5 b6 b7 b8 b9 v c1 c2 c3 c4.

Definition set_log (v : list Event) (w : World) : World :=
  let '(Build_World a0 a1 a2 a3 a4 a5 a6 a7 a8 a9 b0 b1 b2 b3 b4 b5 b6 b7 b8 b9 c0 _ c2 c3 c4) := w in
  Build_World a0 a1 a2 a3 a4 a5 a6 a7 a8 a9 b0 b1 b2 b3 b4 b5 b6 b7 b8 b9 c0 v c2 c3 c4.

Definition set_serial_enabled (v : bool) (w : World) : World :=
  let '(Build_World a0 a1 a2 a3 a4 a5 a6 a7 a8 a9 b0 b1 b2 b3 b4 b5 b6 b7 b8 b9 c0 c1 _ c3 c4) := w in
  Build_World a0 a1 a2 a3 a4 a5 a6 a7 a8 a9 b0 b1 b2 b3 b4 b5 b6 b7 b8 b9 c0 c1 v c3 c4.

Definition set_muxerAtStream_enabled (v : bool) (w : World) : World :=
  let '(Build_World a0 a1 a2 a3 a4 a5 a6 a7 a8 a9 b0 b1 b2 b3 b4 b5 b6 b7 b8 b9 c0 c1 c2 _ c4) := w in
  Build_World a0 a1 a2 a3 a4 a5 a6 a7 a8 a9 b0 b1 b2 b3 b4 b5 b6 b7 b8 b9 c0 c1 c2 v c4.

Definition set_powerOff_once (v : bool) (w : World) : World :=
  let '(Build_World a0 a1 a2 a3 a4 a5 a6 a7 a8 a9 b0 b1 b2 b3 b4 b5 b6 b7 b8 b9 c0 c1 c2 c3 _) := w in
  Build_World a0 a1 a2 a3 a4 a5 a6 a7 a8 a9 b0 b1 b2 b3 b4 b5 b6 b7 b8 b9 c0 c1 c2 c3 v.

(** ** Machine arithmetic *)

(** [system_tick_t], [unsigned] and [size_t] are 32 bits wide on the
    target; differences of ticks wrap around. *)
Definition u32 (z : Z) : Z := z mod 2 ^ 32.

Definition u16 (z : Z) : Z := z mod 2 ^ 16.

(** Elapsed ticks [now - since] in [system_tick_t] arithmetic. *)
Definition ticks_since (now since : Z) : Z := u32 (now - since).

(** [static_cast] of an [unsigned] to an enumeration with underlying type
    [int]. *)
Definition s32 (z : Z) : Z := (z + 2 ^ 31) mod 2 ^ 32 - 2 ^ 31.

(** ** C library functions used by the client *)

Definition is_space (c : ascii) : bool :=
  let n := Z.of_nat (nat_of_ascii c) in
  (n =? 32) || ((9 <=? n) && (n <=? 13)).

Definition digit_of (c : ascii) : option Z :=
  let n := Z.of_nat (nat_of_ascii c) in
  if (48 <=? n) && (n <=? 57) then Some (n - 48) else None.

Fixpoint skip_spaces (s : string) : string :=
  match s with
  | String c r => if is_space c then skip_spaces r else s
  | EmptyString => s
  end.

Fixpoint atoi_digits (s : string) (acc : Z) : Z :=
  match s with
  | String c r =>
    match digit_of c with
    | Some d => atoi_digits r (10 * acc + d)
    | None => acc
    end
  | EmptyString => acc
  end.

(** [atoi]: leading white space, an optional sign, then decimal digits up
    to the first other character; zero when there is no digit.  (Overflow
    of [int] is undefined in C and is not modelled.) *)
Definition atoi (s : string) : Z :=
  match skip_spaces s with
  | String "-"%char r => - atoi_digits r 0
  | String "+"%char r => atoi_digits r 0
  | r => atoi_digits r 0
  end.

(** [strnlen]. *)
Definition strnlen (s : string) (maxlen : Z) : Z :=
  Z.min (Z.of_nat (String.length s)) maxlen.

(** ** The client *)

Section Client.

Variable P : Platform.
Variable E : Env.

(** *** Hardware abstraction layer *)

Definition emit (e : Event) (w : World) : World := set_log (e :: log w) w.

(** [HAL_Timer_Get_Milli_Seconds]. *)
Definition millis (w : World) : Z := u32 (clock w).

(** A delay is recorded and moves the clock by the time asked for. *)
Definition HAL_Delay_Milliseconds (ms : Z) (w : World) : World :=
  let w := emit (DelayMs ms) w in
  set_clock (clock w + ms) w.

Definition HAL_Delay_Microseconds (us : Z) (w : World) : World :=
  emit (DelayUs us) w.

Definition HAL_GPIO_Write (pin : Pin) (value : Z) (w : World) : World :=
  emit (GpioWrite pin value) w.

(** [modemPowerState]: [HAL_GPIO_Read(UBVINT)]. *)
Definition modemPowerState (w : World) : bool :=
  HAL_GPIO_Read_UBVINT E (clock w) (log w).

(** [modemSetUartState]: BUFEN is active low. *)
Definition modemSetUartState (state : bool) (w : World) : Z * World :=
  (0, HAL_GPIO_Write BUFEN (if state then 0 else 1) w).

Definition ncpId (w : World) : Z := ncpIdentifier (conf_ w).

Definition muxer_stop (w : World) : World := emit MuxStop w.

(** *** Connection and NCP state *)

(** [connectionState(NcpConnectionState state)]. *)
Definition connectionState (state : NcpConnectionState) (w : World) : World :=
  if NcpState_eq_dec (ncpState_ w) DISABLED then w else
  if NcpConnectionState_eq_dec (connState_ w) state then w else
  let w := set_connState state w in
  let w :=
    if NcpConnectionState_eq_dec (connState_ w) CONNECTED then
      (* Open data channel *)
      let w := emit (MuxOpenChannel UBLOX_NCP_PPP_CHANNEL) w in
      let r := muxer_openChannel E (clock w) (log w) in
      if negb (r =? 0) then set_connState DISCONNECTED (set_ready false w) else w
    else w in
  if eventHandler (conf_ w) then
    let w := if NcpConnectionState_eq_dec state CONNECTED
             then emit CellularNcpAuthEvent w else w in
    emit (ConnectionStateChangedEvent (connState_ w)) w
  else w.

(** [ncpState(NcpState state)]. *)
Definition ncpState (state : NcpState) (w : World) : World :=
  if NcpState_eq_dec (ncpState_ w) DISABLED then w else
  let w := if NcpState_eq_dec state OFF
           then connectionState DISCONNECTED (set_ready false w) else w in
  if NcpState_eq_dec (ncpState_ w) state then w else
  let w := set_ncpState state w in
  if eventHandler (conf_ w) then emit (NcpStateChangedEvent (ncpState_ w)) w else w.

(** [resetRegistrationState]. *)
Definition resetRegistrationState (w : World) : World :=
  let w := set_creg NotRegistered w in
  let w := set_cgreg NotRegistered w in
  let w := set_cereg NotRegistered w in
  let w := set_regStartTime (millis w) w in
  set_regCheckTime (regStartTime_ w) w.

(** The condition under which the modem counts as registered. *)
Definition registered (w : World) : bool :=
  match creg_ w, cgreg_ w, cereg_ w with
  | Registered, Registered, _ => true
  | _, _, Registered => true
  | _, _, _ => false
  end.

(** [checkRegistrationState]. *)
Definition checkRegistrationState (w : World) : World :=
  match connState_ w with
  | DISCONNECTED => w
  | _ =>
    if registered w then
      let w := if memoryIssuePresent_ w &&
                  (if NcpConnectionState_eq_dec (connState_ w) CONNECTED then false else true)
               then set_registeredTime (millis w) w else w in
      connectionState CONNECTED w
    else if NcpConnectionState_eq_dec (connState_ w) CONNECTED then
      let w := connectionState CONNECTING w in
      let w := set_regStartTime (millis w) w in
      let w := set_regCheckTime (regStartTime_ w) w in
      set_registeredTime 0 w
    else w
  end.

(** *** AT parser: errors and URC handlers *)

(** Modelled from the spec: [parserError(int)] is defined in the class
    header, which is not among the sources; section 9 of the spec says a
    parser-level failure first notifies the session of the parser error
    before it propagates, and [checkParser] reads [parserError_]. *)
Definition parserError (r : Z) (w : World) : World := set_parserError r w.

(** [val[i]] after a scan into the zero-initialised [unsigned val[4]]: the
    first [scan_r] entries are assigned. *)
Definition scan_val (s : Scan) (i : nat) : Z :=
  if Z.of_nat i <? scan_r s then u32 (nth i (scan_vals s) 0) else 0.

(** The two-pass scan shared by the three handlers: the line is read, then
    scanned with the format that skips a leading mode field and, when that
    converts nothing, scanned again with the format without it. *)
Definition scanRegistrationLine (line : UrcLine) (w : World) : World * (Z + Scan) :=
  if urc_readLine line <? 0
  then (parserError (urc_readLine line) w, inl (urc_readLine line))
  else
    let r := scan_r (urc_scan_mode line) in
    if 0 >=? r then
      let r2 := scan_r (urc_scan_plain line) in
      if r2 <? 0 then (parserError r2 w, inl r2)
      else (w, inr (urc_scan_plain line))
    else (w, inr (urc_scan_mode line)).

(** Home network or roaming. *)
Definition registrationOf (stat : Z) : RegistrationState :=
  if (stat =? 1) || (stat =? 5) then Registered else NotRegistered.

Definition set_lac_cid (lac cid : Z) (w : World) : World :=
  set_cgi {| cgi_flags := cgi_flags (cgi_ w);
             mobile_country_code := mobile_country_code (cgi_ w);
             mobile_network_code := mobile_network_code (cgi_ w);
             location_area_code := lac;
             cell_id := cid |} w.

(** [static_cast<LacType>] and [static_cast<CidType>]. *)
Definition to_LacType (v : Z) : Z := v mod (LacType_max P + 1).
Definition to_CidType (v : Z) : Z := v mod (CidType_max P + 1).

(** The [case] labels of the +CGREG handler. *)
Definition is_gsm_utran_rat (rat : Z) : bool :=
  existsb (Z.eqb rat)
    [ACT_GSM P; ACT_GSM_COMPACT P; ACT_UTRAN P; ACT_GSM_EDGE P;
     ACT_UTRAN_HSDPA P; ACT_UTRAN_HSUPA P; ACT_UTRAN_HSDPA_HSUPA P].

(** The [case] labels of the +CEREG handler. *)
Definition is_lte_rat (rat : Z) : bool :=
  existsb (Z.eqb rat) [ACT_LTE P; ACT_LTE_CAT_M1 P; ACT_LTE_NB_IOT P].

(** Handler of "+CREG". *)
Definition urc_CREG (line : UrcLine) (w : World) : Z * World :=
  match scanRegistrationLine line w with
  | (w, inl e) => (e, w)
  | (w, inr sc) =>
    let r := scan_r sc in
    if negb (r >=? 1) then (SYSTEM_ERROR_AT_RESPONSE_UNEXPECTED P, w) else
    let w := set_creg (registrationOf (scan_val sc 0)) w in
    let w := checkRegistrationState w in
    (* Only update if unset *)
    let w :=
      if r >=? 3 then
        if (location_area_code (cgi_ w) =? LacType_max P) &&
           (cell_id (cgi_ w) =? CidType_max P)
        then set_lac_cid (to_LacType (scan_val sc 1)) (to_CidType (scan_val sc 2)) w
        else w
      else w in
    (0, w)
  end.

(** Handler of "+CGREG". *)
Definition urc_CGREG (line : UrcLine) (w : World) : Z * World :=
  match scanRegistrationLine line w with
  | (w, inl e) => (e, w)
  | (w, inr sc) =>
    let r := scan_r sc in
    if negb (r >=? 1) then (SYSTEM_ERROR_AT_RESPONSE_UNEXPECTED P, w) else
    let w := set_cgreg (registrationOf (scan_val sc 0)) w in
    let w := checkRegistrationState w in
    let w :=
      if r >=? 3 then
        let rat := if r >=? 4 then s32 (scan_val sc 3) else act_ w in
        if is_gsm_utran_rat rat
        then set_lac_cid (to_LacType (scan_val sc 1)) (to_CidType (scan_val sc 2)) w
        else w
      else w in
    (0, w)
  end.

(** Handler of "+CEREG". *)
Definition urc_CEREG (line : UrcLine) (w : World) : Z * World :=
  match scanRegistrationLine line w with
  | (w, inl e) => (e, w)
  | (w, inr sc) =>
    let r := scan_r sc in
    if negb (r >=? 1) then (SYSTEM_ERROR_AT_RESPONSE_UNEXPECTED P, w) else
    let w := set_cereg (registrationOf (scan_val sc 0)) w in
    let w := checkRegistrationState w in
    let w :=
      if r >=? 3 then
        let rat := if r >=? 4 then s32 (scan_val sc 3) else act_ w in
        if is_lte_rat rat
        then set_lac_cid (to_LacType (scan_val sc 1)) (to_CidType (scan_val sc 2)) w
        else w
      else w in
    (0, w)
  end.

(** The parser calls the handler registered for the prefix of the line. *)
Definition urcHandler (line : UrcLine) (w : World) : Z * World :=
  match urc_prefix line with
  | URC_CREG => urc_CREG line w
  | URC_CGREG => urc_CGREG line w
  | URC_CEREG => urc_CEREG line w
  end.

Definition dispatchUrcs (lines : list UrcLine) (w : World) : World :=
  fold_left (fun w line => snd (urcHandler line w)) lines w.

(** One exchange with the parser: the request is recorded, the environment
    answers, the time of the exchange passes, and the lines that arrived
    meanwhile go through the URC handlers. *)
Definition parser_exchange (request : Event) (w : World) : ParserReply * World :=
  let w := emit request w in
  let reply := parser_reply E (clock w) (log w) in
  let w := set_clock (clock w + Z.of_N (reply_elapsed reply)) w in
  (reply, dispatchUrcs (reply_urcs reply) w).

(** [parser_.execCommand(cmd)]. *)
Definition execCommand (cmd : string) (w : World) : Z * World :=
  let (reply, w) := parser_exchange (AtCommand cmd) w in
  (reply_result reply, w).

(** [parser_.processUrc()]. *)
Definition processUrc (w : World) : Z * World :=
  let (reply, w) := parser_exchange ProcessUrc w in
  (reply_result reply, w).

(** [CHECK_PARSER_OK(parser_.execCommand(cmd))]: [inl] is the value the
    enclosing function returns early. *)
Definition check_parser_ok (cmd : string) (w : World) : (Z + unit) * World :=
  let (r, w) := execCommand cmd w in
  if r <? 0 then (inl r, parserError r w)
  else if negb (r =? AtResponse_OK P) then (inl (SYSTEM_ERROR_AT_NOT_OK P), w)
  else (inr tt, w).

(** *** Power sequencer *)

(** The polling loops of [modemPowerOn] and [modemPowerOff]: up to [n]
    reads of the power-good input, 100 ms apart, left as soon as the input
    shows [target]. *)
Fixpoint pollPowerState (target : bool) (n : nat) (w : World) : World :=
  match n with
  | O => w
  | S n' =>
    if Bool.eqb (modemPowerState w) target then w
    else pollPowerState target n' (HAL_Delay_Milliseconds 100 w)
  end.

(** The power-on sequence of [modemPowerOn], by chip family. *)
Definition powerOnSequence (w : World) : World :=
  if negb (ncpId w =? PLATFORM_NCP_SARA_R410 P) then
    (* U201, low pulse 50-80us inside ATOMIC_BLOCK *)
    let w := HAL_GPIO_Write UBPWR 0 w in
    let w := HAL_Delay_Microseconds 50 w in
    HAL_GPIO_Write UBPWR 1 w
  else
    (* R410, low pulse 150-3200ms *)
    let w := HAL_GPIO_Write UBPWR 0 w in
    let w := HAL_Delay_Milliseconds 150 w in
    HAL_GPIO_Write UBPWR 1 w.

(** [modemPowerOn]. *)
Definition modemPowerOn (w : World) : Z * World :=
  let w :=
    if negb (modemPowerState w)
    then pollPowerState true 10 (powerOnSequence w)
    else w in
  if negb (modemPowerState w) then (SYSTEM_ERROR_INVALID_STATE P, w) else (0, w).

(** The body of the [do .. while (modemPowerState())] loop of
    [waitForPowerOff]; [None] when [fuel] iterations were not enough. *)
Fixpoint waitForPowerOff_loop (fuel : nat) (w : World) : option World :=
  match fuel with
  | O => None
  | S fuel' =>
    let now := millis w in
    let timeout :=
      if negb (registeredTime_ w =? 0)
      then ticks_since now (registeredTime_ w) >=? 20000
      else negb (powerOnTime_ w =? 0) && (ticks_since now (powerOnTime_ w) >=? 30000) in
    if timeout then Some w
    else
      let w := HAL_Delay_Milliseconds 100 w in
      if modemPowerState w then waitForPowerOff_loop fuel' w else Some w
  end.

(** [waitForPowerOff]. *)
Definition waitForPowerOff (fuel : nat) (w : World) : option World :=
  let now := millis w in
  let w := if powerOnTime_ w =? 0 then set_powerOnTime now w else w in
  match waitForPowerOff_loop fuel w with
  | None => None
  | Some w => Some (set_powerOnTime 0 (set_registeredTime 0 w))
  end.

(** The [std::call_once] block at the head of [modemPowerOff]. *)
Definition powerOff_startup_guard (w : World) : World :=
  if powerOff_once w then w else
  let w := set_powerOff_once true w in
  if negb (ncpId w =? PLATFORM_NCP_SARA_R410 P) && modemPowerState w then
    let (rc, reason) := HAL_Core_Get_Last_Reset_Info E in
    if (rc =? 0) && ((reason =? RESET_REASON_POWER_DOWN P) ||
                     (reason =? RESET_REASON_POWER_BROWNOUT P)) then
      let now := millis w in
      if now <? 5000 then HAL_Delay_Milliseconds (5000 - now) w else w
    else w
  else w.

(** The power-off sequence of [modemPowerOff], by chip family; on the R410
    with the memory issue the aging guard comes first. *)
Definition powerOffSequence (fuel : nat) (w : World) : option World :=
  if negb (ncpId w =? PLATFORM_NCP_SARA_R410 P) then
    (* U201, low pulse 1s+ *)
    let w := HAL_GPIO_Write UBPWR 0 w in
    let w := HAL_Delay_Milliseconds 1500 w in
    Some (HAL_GPIO_Write UBPWR 1 w)
  else
    match (if memoryIssuePresent_ w then waitForPowerOff fuel w else Some w) with
    | None => None
    | Some w =>
      (* R410, low pulse 1.5s+ *)
      let w := HAL_GPIO_Write UBPWR 0 w in
      let w := HAL_Delay_Milliseconds 1600 w in
      Some (HAL_GPIO_Write UBPWR 1 w)
    end.

(** [modemPowerOff]. *)
Definition modemPowerOff (fuel : nat) (w : World) : option (Z * World) :=
  let w := powerOff_startup_guard w in
  let pulsed :=
    if modemPowerState w then
      (* the voltage translator must be disabled or V_INT never goes low *)
      let w := snd (modemSetUartState false w) in
      match powerOffSequence fuel w with
      | None => None
      | Some w => Some (pollPowerState false 100 w)
      end
    else Some w in
  match pulsed with
  | None => None
  | Some w =>
    if modemPowerState w then Some (SYSTEM_ERROR_INVALID_STATE P, w) else Some (0, w)
  end.

(** [modemHardReset(bool powerOff)]. *)
Definition modemHardReset (fuel : nat) (powerOff : bool) (w : World) : option (Z * World) :=
  if negb (modemPowerState w) then Some (SYSTEM_ERROR_INVALID_STATE P, w) else
  if negb (ncpId w =? PLATFORM_NCP_SARA_R410 P) then
    (* U201, low pulse for 50ms; powerOff is ignored *)
    let w := HAL_GPIO_Write UBRST 0 w in
    let w := HAL_Delay_Milliseconds 50 w in
    let w := HAL_GPIO_Write UBRST 1 w in
    let w := HAL_Delay_Milliseconds 1000 w in
    Some (0, w)
  else
    match (if memoryIssuePresent_ w then waitForPowerOff fuel w else Some w) with
    | None => None
    | Some w =>
      (* R410, low pulse for 10s *)
      let w := HAL_GPIO_Write UBRST 0 w in
      let w := HAL_Delay_Milliseconds 10000 w in
      let w := HAL_GPIO_Write UBRST 1 w in
      let w := HAL_Delay_Milliseconds 1000 w in
      if negb powerOff then Some (modemPowerOn w) else Some (0, w)
    end.

(** *** Life cycle *)

(** The boot sequence [waitReady] (with [initReady]) is not embedded: [on]
    is modelled for an arbitrary one. *)
Variable waitReady : nat -> World -> option (Z * World).

(** [on]. *)
Definition on (fuel : nat) (w : World) : option (Z * World) :=
  if NcpState_eq_dec (ncpState_ w) DISABLED then Some (SYSTEM_ERROR_INVALID_STATE P, w) else
  if NcpState_eq_dec (ncpState_ w) ON then Some (0, w) else
  (* Power on the modem *)
  let (r, w) := modemPowerOn w in
  if r <? 0 then Some (r, w) else
  match waitReady fuel w with
  | None => None
  | Some (r, w) => if r <? 0 then Some (r, w) else Some (0, w)
  end.

(** [off]. *)
Definition off (fuel : nat) (w : World) : option (Z * World) :=
  if NcpState_eq_dec (ncpState_ w) DISABLED then Some (SYSTEM_ERROR_INVALID_STATE P, w) else
  let w := muxer_stop w in
  (* Disable voltage translator *)
  let w := snd (modemSetUartState false w) in
  (* Power down *)
  match modemPowerOff fuel w with
  | None => None
  | Some (_, w) =>
    let w := set_ready false w in
    let w := ncpState OFF w in
    Some (0, w)
  end.

(** [enable]. *)
Definition enable (fuel : nat) (w : World) : option (Z * World) :=
  if NcpState_eq_dec (ncpState_ w) DISABLED then
    let w := set_serial_enabled true w in
    let w := set_muxerAtStream_enabled true w in
    let w := set_ncpState (prevNcpState_ w) w in
    match off fuel w with
    | None => None
    | Some (_, w) => Some (0, w)
    end
  else Some (0, w).

(** [disable]. *)
Definition disable (w : World) : World :=
  let state := ncpState_ w in
  if NcpState_eq_dec state DISABLED then w else
  let w := set_prevNcpState state w in
  let w := set_ncpState DISABLED w in
  let w := set_serial_enabled false w in
  set_muxerAtStream_enabled false w.

(** [muxChannelStateCb]; [closed] tells whether the new channel state is
    [ChannelState::Closed]. *)
Definition muxChannelStateCb (channel : Z) (closed : bool) (w : World) : Z * World :=
  if closed then
    if channel =? 0 then (0, disable w)
    else if channel =? UBLOX_NCP_PPP_CHANNEL then
      match connState_ w with
      | DISCONNECTED => (0, w)
      | _ => (0, connectionState CONNECTING w)
      end
    else (0, w)
  else (0, w).

(** [setRegistrationTimeout]. *)
Definition setRegistrationTimeout (timeout : Z) (w : World) : Z * World :=
  (0, set_registrationTimeout (Z.max timeout REGISTRATION_TIMEOUT) w).

(** *** Data channel *)

(** The chip family and firmware range whose writes are rate limited. *)
Definition rate_limited (w : World) : bool :=
  (ncpId w =? PLATFORM_NCP_SARA_R410 P) &&
  (fwVersion_ w <=? UBLOX_NCP_R4_APP_FW_VERSION_NO_HW_FLOW_CONTROL_MAX).

(** [dataChannelWrite(id, data, size)]; the bytes themselves play no part,
    [size] is their number. *)
Definition dataChannelWrite (id : Z) (size : Z) (w : World) : Z * World :=
  let w :=
    if rate_limited w then
      if ticks_since (millis w) (lastWindow_ w) >=? UBLOX_NCP_R4_WINDOW_SIZE_MS
      then set_bytesInWindow 0 (set_lastWindow (millis w) w)
      else w
    else w in
  if rate_limited w && (bytesInWindow_ w >=? UBLOX_NCP_R4_BYTES_PER_WINDOW_THRESHOLD)
  then (* Dropping: not an error *) (0, w)
  else
    let w := emit (MuxWriteChannel UBLOX_NCP_PPP_CHANNEL size) w in
    let err := muxer_writeChannel E (clock w) (log w) in
    let err := if err =? GSM0710_ERROR_FLOW_CONTROL P then 0 else err in
    let w :=
      if rate_limited w then
        let w := set_bytesInWindow (u32 (bytesInWindow_ w + size)) w in
        if bytesInWindow_ w >=? UBLOX_NCP_R4_BYTES_PER_WINDOW_THRESHOLD
        then set_lastWindow (millis w) w
        else w
      else w in
    let w := if negb (err =? 0) then disable w else w in
    (err, w).

(** *** Operator query *)

Definition set_cgi_flags (v : Z) (g : CellularGlobalIdentity) : CellularGlobalIdentity :=
  {| cgi_flags := v;
     mobile_country_code := mobile_country_code g;
     mobile_network_code := mobile_network_code g;
     location_area_code := location_area_code g;
     cell_id := cell_id g |}.

Definition set_mcc_mnc (mcc mnc : Z) (g : CellularGlobalIdentity) : CellularGlobalIdentity :=
  {| cgi_flags := cgi_flags g;
     mobile_country_code := mcc;
     mobile_network_code := mnc;
     location_area_code := location_area_code g;
     cell_id := cell_id g |}.

(** The [case] labels of the access technologies [queryAndParseAtCops]
    accepts. *)
Definition is_known_act (act : Z) : bool :=
  existsb (Z.eqb act)
    [ACT_NONE P; ACT_GSM P; ACT_GSM_COMPACT P; ACT_UTRAN P; ACT_GSM_EDGE P;
     ACT_UTRAN_HSDPA P; ACT_UTRAN_HSUPA P; ACT_UTRAN_HSDPA_HSUPA P;
     ACT_LTE P; ACT_LTE_CAT_M1 P; ACT_LTE_NB_IOT P].

(** [queryAndParseAtCops(qual)].  [qual] is [None] for a null pointer and
    otherwise holds the access technology of the object pointed to; the
    second component of the result is that object afterwards.  The reply to
    "AT+COPS?" carries the outcome of the [scanf]: its return value, the
    two digit strings and the integer it converted. *)
Definition queryAndParseAtCops (qual : option Z) (w : World) : Z * option Z * World :=
  (* Reformat the operator string to be numeric *)
  let (r, w) := execCommand "AT+COPS=3,2" w in
  if r <? 0 then (r, qual, parserError r w) else
  if negb (r =? AtResponse_OK P) then (SYSTEM_ERROR_AT_NOT_OK P, qual, w) else
  let (resp, w) := parser_exchange (AtCommand "AT+COPS?") w in
  let mobileCountryCode := nth 0 (reply_strs resp) EmptyString in
  let mobileNetworkCode := nth 1 (reply_strs resp) EmptyString in
  let act := nth 0 (reply_ints resp) 0 in
  let r := reply_scanf resp in
  if r <? 0 then (r, qual, parserError r w) else
  if negb (r =? 3) then (SYSTEM_ERROR_AT_RESPONSE_UNEXPECTED P, qual, w) else
  let r := reply_result resp in
  if r <? 0 then (r, qual, parserError r w) else
  if negb (r =? AtResponse_OK P) then (SYSTEM_ERROR_AT_NOT_OK P, qual, w) else
  (* Preserve digit format data *)
  let mnc_digits := strnlen mobileNetworkCode 4 in
  if negb ((2 =? mnc_digits) || (3 =? mnc_digits)) then (SYSTEM_ERROR_BAD_DATA P, qual, w) else
  let w :=
    if 2 =? mnc_digits
    then set_cgi (set_cgi_flags (Z.lor (cgi_flags (cgi_ w)) (CGI_FLAG_TWO_DIGIT_MNC P)) (cgi_ w)) w
    else set_cgi (set_cgi_flags (Z.land (cgi_flags (cgi_ w)) (Z.lnot (CGI_FLAG_TWO_DIGIT_MNC P))) (cgi_ w)) w in
  let w := set_cgi (set_mcc_mnc (u16 (atoi mobileCountryCode)) (u16 (atoi mobileNetworkCode)) (cgi_ w)) w in
  let act :=
    if (ncpId w =? PLATFORM_NCP_SARA_R410 P) && (act =? ACT_LTE P)
    then ACT_LTE_CAT_M1 P else act in
  if negb (is_known_act act) then (SYSTEM_ERROR_BAD_DATA P, qual, w) else
  let qual := match qual with Some _ => Some act | None => None end in
  (SYSTEM_ERROR_NONE P, qual, w).

(** *** Registration watchdog *)

(** The registration status queries of [processEventsImpl], each under
    [CHECK_PARSER_OK]. *)
Definition registrationQueries (w : World) : (Z + unit) * World :=
  if negb (ncpId w =? PLATFORM_NCP_SARA_R410 P) then
    match check_parser_ok "AT+CREG?" w with
    | (inl e, w) => (inl e, w)
    | (inr _, w) => check_parser_ok "AT+CGREG?" w
    end
  else check_parser_ok "AT+CEREG?" w.

(** The condition of the final [if] of [processEventsImpl]. *)
Definition registrationTimedOut (w : World) : bool :=
  (if NcpConnectionState_eq_dec (connState_ w) CONNECTING then true else false) &&
  (ticks_since (millis w) (regStartTime_ w) >=? registrationTimeout_ w).

(** The body of that [if]: "Resetting the modem due to the network
    registration timeout". *)
Definition registrationTimeoutReset (fuel : nat) (w : World) : option World :=
  let w := muxer_stop w in
  match modemPowerOff fuel w with
  | None => None
  | Some (rv, w) =>
    match (if negb (rv =? 0) then modemHardReset fuel true w else Some (0, w)) with
    | None => None
    | Some (_, w) => Some (ncpState OFF w)
    end
  end.

(** The head of [processEventsImpl] up to the first [return 0]: pending
    URCs are processed and the registration state is reconciled. *)
Definition processEvents_reconcile (w : World) : World :=
  let w := snd (processUrc w) in
  checkRegistrationState w.

(** Whether [processEventsImpl] returns before polling. *)
Definition pollNotDue (w : World) : bool :=
  (if NcpConnectionState_eq_dec (connState_ w) CONNECTING then false else true) ||
  (ticks_since (millis w) (regCheckTime_ w) <? REGISTRATION_CHECK_INTERVAL).

(** The [SCOPE_GUARD] of [processEventsImpl]. *)
Definition regCheckTime_guard (w : World) : World := set_regCheckTime (millis w) w.

(** [processEventsImpl]. *)
Definition processEventsImpl (fuel : nat) (w : World) : option (Z * World) :=
  if NcpState_eq_dec (ncpState_ w) ON then
    let w := processEvents_reconcile w in
    if pollNotDue w then Some (0, w) else
    match registrationQueries w with
    | (inl e, w) => Some (e, regCheckTime_guard w)
    | (inr _, w) =>
      if registrationTimedOut w then
        match registrationTimeoutReset fuel w with
        | None => None
        | Some w => Some (0, regCheckTime_guard w)
        end
      else Some (0, regCheckTime_guard w)
    end
  else Some (SYSTEM_ERROR_INVALID_STATE P, w).


End Client.

(** ** The rest of the client: boot sequence, SIM, network and queries

    The member functions that bring the modem up ([waitReady], [initReady],
    [selectSimCard]), that join and leave the network ([connect],
    [disconnect]) and that query the modem, embedded on top of the
    definitions above.

    Conventions, in addition to the ones at the head of the file.
    - These functions return early from many places ([CHECK],
      [CHECK_TRUE], [CHECK_PARSER], [CHECK_PARSER_OK], plain [return]), so
      they are written in a small monad [Run]: a computation either goes on
      with a value or leaves the enclosing function with its return value,
      and it gives nothing when the [fuel] of a loop without a bound in the
      code is used up.
    - The [World] is extended to a [Client] by the two members that the
      functions above do not touch (the SIM slot of the configuration and
      [netConf_]) and by the history of the calls into the serial stream,
      the parser set-up and the multiplexer set-up ([HostCall]).  The
      answer to such a call is a function of that history, of the clock
      and of the events so far.
    - One exchange with the parser ([sendCommand] with the reads that
      follow it on the response, up to [readResult]) is one step, as in
      [parser_exchange]: the environment gives the outcome of every read
      of the exchange at once. *)

From Stdlib Require Import DecimalString.

(** Further constants and enumerators declared outside the translation
    unit (system_error.h, the cellular HAL, sara_ncp_client.h). *)
Record Headers := {
  SYSTEM_ERROR_UNKNOWN : Z;
  SYSTEM_ERROR_NOT_SUPPORTED : Z;
  SYSTEM_ERROR_TIMEOUT : Z;
  SYSTEM_ERROR_NO_MEMORY : Z;
  SYSTEM_ERROR_INVALID_ARGUMENT : Z;
  (* enum class UbloxSaraUmnoprof, by underlying value *)
  UMNOPROF_NONE : Z;
  UMNOPROF_SW_DEFAULT : Z;
  UMNOPROF_SIM_SELECT : Z;
  CGI_VERSION_1 : Z;
  (* sizeof(cgi_) *)
  sizeof_cgi : Z
}.

Inductive SimType := INTERNAL | EXTERNAL.
Inductive PinMode := OUTPUT | INPUT.
Inductive Stream := SerialStream | MuxerAtStream.

Module CellularQualityUnits.
Inductive t := NONE | RXQUAL | ECN0 | RSRQ | MEAN_BEP.
End CellularQualityUnits.

Module CellularStrengthUnits.
Inductive t := NONE | RXLEV | RSCP | RSRP.
End CellularStrengthUnits.

(** [CellularNetworkConfig], by what its accessors return. *)
Record CellularNetworkConfig := {
  isValid : bool;
  hasApn : bool;
  apn : string;
  hasUser : bool;
  hasPassword : bool
}.

(** Modelled from the spec: [CellularSignalQuality] is declared in the
    cellular HAL, which is not among the sources; section 3 of the spec
    lists what it holds (strength, quality, the unit kinds, the access
    technology).  A setter stores its argument and the getter of the same
    name gives it back; the unit kinds that the getters report are left to
    the environment ([strengthUnits] and [qualityUnits] of [Host]). *)
Record CellularSignalQuality := {
  accessTechnology : Z;
  strength : Z;
  quality : Z;
  qualityUnits_set : option CellularQualityUnits.t
}.

(** The structure the caller of [getCellularGlobalIdentity] passes in. *)
Record CgiArgument := {
  cgi_size : Z;
  cgi_version : Z;
  cgi_identity : CellularGlobalIdentity
}.

(** Calls into the HAL that configure a pin (with the members of the
    [hal_gpio_config_t] passed: the mode, and the level to set when
    [set_value] holds), calls into the serial stream, the parser and the
    multiplexer that configure them, and the allocations of [init]. *)
Inductive HostCall :=
| HAL_Pin_Configure (pin : Pin) (mode : PinMode) (set_value : bool) (value : Z)
| NewSerialStream (baud : Z)
| NewMuxerStream (channel : Z)
| MuxerStreamInit (size : Z)
| StreamReset (stream : Stream)
| SerialSetBaudRate (baud : Z)
| SkipAll (timeout : Z)
| ParserDestroy
| ParserInit (stream : Stream)
| ParserAddUrcHandler (prefix : UrcPrefix)
| ParserReset
| VectorAppend (value : Z)
| MuxSetStream
| MuxSetMaxFrameSize (size : Z)
| MuxSetKeepAlivePeriod (ms : Z)
| MuxSetKeepAliveMaxMissed (n : Z)
| MuxUseMscAsKeepAlive (use : bool)
| MuxSetMaxRetransmissions (n : Z)
| MuxSetAckTimeout (ms : Z)
| MuxSetControlResponseTimeout (ms : Z)
| MuxSetChannelStateHandler
| MuxStart
| MuxResumeChannel (channel : Z).

(** The environment of these functions, beside [Env]. *)
Record Host := {
  (* the result of the latest call of the history *)
  host_result : list HostCall -> Z -> list Event -> Z;
  (* the time [skipAll] took *)
  host_elapsed : list HostCall -> Z -> list Event -> N;
  (* [resp.readLine]: the return value and the line stored in the buffer *)
  response_readLine : Z -> list Event -> Z * string;
  (* the information lines that [resp.hasNextLine()] announces, each with
     the outcome of the [scanf] made on it *)
  response_lines : Z -> list Event -> list Scan;
  (* [qual->strengthUnits()] and [qual->qualityUnits()] *)
  strengthUnits : CellularSignalQuality -> CellularStrengthUnits.t;
  qualityUnits : CellularSignalQuality -> CellularQualityUnits.t;
  networkConfigForImsi : string -> CellularNetworkConfig
}.

(** The members of [SaraNcpClient]: the [World] above, the SIM slot of
    [conf_] and [netConf_]; and the history of host calls, latest first. *)
Record Client := {
  world : World;
  simType : SimType;
  netConf_ : CellularNetworkConfig;
  calls : list HostCall
}.

Definition set_world (w : World) (c : Client) : Client :=
  {| world := w; simType := simType c; netConf_ := netConf_ c; calls := calls c |}.


Definition set_netConf (v : CellularNetworkConfig) (c : Client) : Client :=
  {| world := world c; simType := simType c; netConf_ := v; calls := calls c |}.

Definition set_calls (v : list HostCall) (c : Client) : Client :=
  {| world := world c; simType := simType c; netConf_ := netConf_ c; calls := v |}.

(** Field updates of the [World] that the functions above do not need. *)


Definition set_memoryIssuePresent (v : bool) (w : World) : World :=
  let '(Build_World a0 a1 a2 a3 a4 a5 a6 a7 a8 a9 b0 _ b2 b3 b4 b5 b6 b7 b8 b9 c0 c1 c2 c3 c4) := w in
  Build_World a0 a1 a2 a3 a4 a5 a6 a7 a8 a9 b0 v b2 b3 b4 b5 b6 b7 b8 b9 c0 c1 c2 c3 c4.

Definition set_act (v : Z) (w : World) : World :=
  let '(Build_World a0 a1 a2 a3 a4 a5 a6 a7 a8 a9 b0 b1 b2 b3 b4 b5 _ b7 b8 b9 c0 c1 c2 c3 c4) := w in
  Build_World a0 a1 a2 a3 a4 a5 a6 a7 a8 a9 b0 b1 b2 b3 b4 b5 v b7 b8 b9 c0 c1 c2 c3 c4.

Definition set_fwVersion (v : Z) (w : World) : World :=
  let '(Build_World a0 a1 a2 a3 a4 a5 a6 a7 a8 a9 b0 b1 b2 b3 b4 b5 b6 _ b8 b9 c0 c1 c2 c3 c4) := w in
  Build_World a0 a1 a2 a3 a4 a5 a6 a7 a8 a9 b0 b1 b2 b3 b4 b5 b6 v b8 b9 c0 c1 c2 c3 c4.

(** Setters of [CellularSignalQuality]. *)

Definition set_accessTechnology (v : Z) (q : CellularSignalQuality) : CellularSignalQuality :=
  {| accessTechnology := v; strength := strength q; quality := quality q;
     qualityUnits_set := qualityUnits_set q |}.

Definition set_strength (v : Z) (q : CellularSignalQuality) : CellularSignalQuality :=
  {| accessTechnology := accessTechnology q; strength := v; quality := quality q;
     qualityUnits_set := qualityUnits_set q |}.

Definition set_quality (v : Z) (q : CellularSignalQuality) : CellularSignalQuality :=
  {| accessTechnology := accessTechnology q; strength := strength q; quality := v;
     qualityUnits_set := qualityUnits_set q |}.

Definition set_qualityUnits (v : CellularQualityUnits.t) (q : CellularSignalQuality)
  : CellularSignalQuality :=
  {| accessTechnology := accessTechnology q; strength := strength q; quality := quality q;
     qualityUnits_set := Some v |}.

(** *** Text of the commands *)

(** The conversions [%d] and [%u] of the command formats. *)
Definition decimal (z : Z) : string := NilZero.string_of_int (Z.to_int z).

(** The double quote of the command formats. *)
Definition dquote : string := String "034"%char EmptyString.

(** [strlen]; a [string] holds the characters before the terminating
    zero. *)
Definition strlen (s : string) : Z := Z.of_nat (String.length s).

(** *** Computations with early return *)

(** A computation over a state [S].  [None]: out of fuel.  [inl r]: the
    enclosing function returns [r].  [inr a]: the computation goes on with
    [a]. *)
Definition Run (S A : Type) : Type := S -> option ((Z + A) * S).

Definition ret {S A : Type} (a : A) : Run S A := fun s => Some (inr a, s).

(** A [return] statement. *)
Definition Return {S A : Type} (r : Z) : Run S A := fun s => Some (inl r, s).

Definition bind {S A B : Type} (m : Run S A) (k : A -> Run S B) : Run S B :=
  fun s =>
    match m s with
    | None => None
    | Some (inl r, s) => Some (inl r, s)
    | Some (inr a, s) => k a s
    end.

Declare Scope run_scope.
Delimit Scope run_scope with run.
Bind Scope run_scope with Run.

Notation "x <- m ;; k" := (bind m (fun x => k))
  (at level 61, m at next level, right associativity) : run_scope.
Notation "m ;; k" := (bind m (fun _ => k))
  (at level 61, right associativity) : run_scope.

(** A function body seen from its caller: what it returns, from whichever
    [return] statement. *)
Definition fn {S : Type} (body : Run S Z) : Run S Z :=
  fun s =>
    match body s with
    | None => None
    | Some (inl r, s) => Some (inr r, s)
    | Some (inr r, s) => Some (inr r, s)
    end.

(** A member function called from outside. *)
Definition run {S : Type} (body : Run S Z) (s : S) : option (Z * S) :=
  match body s with
  | None => None
  | Some (inl r, s) => Some (r, s)
  | Some (inr r, s) => Some (r, s)
  end.

(** [CHECK_TRUE(cond, ret)]. *)
Definition CHECK_TRUE {S : Type} (cond : bool) (r : Z) : Run S unit :=
  if cond then ret tt else Return r.

(** [CHECK(expr)]: a negative value is returned at once. *)
Definition CHECK {S : Type} (m : Run S Z) : Run S Z :=
  bind m (fun r => if r <? 0 then Return r else ret r).

(** Reading and writing the members of the [World], and calling the
    functions defined on it. *)

Definition read {A : Type} (f : World -> A) : Run Client A :=
  fun c => Some (inr (f (world c)), c).

Definition modify (f : World -> World) : Run Client unit :=
  fun c => Some (inr tt, set_world (f (world c)) c).

Definition call {A : Type} (f : World -> A * World) : Run Client A :=
  fun c => let (a, w) := f (world c) in Some (inr a, set_world w c).

Definition call_fuel {A : Type} (f : World -> option (A * World)) : Run Client A :=
  fun c =>
    match f (world c) with
    | None => None
    | Some (a, w) => Some (inr a, set_world w c)
    end.

(** A computation on the client inside a function that also holds an
    object of its caller. *)
Definition on_client {T A : Type} (m : Run Client A) : Run (Client * T) A :=
  fun s =>
    match m (fst s) with
    | None => None
    | Some (res, c) => Some (res, (c, snd s))
    end.

(** An update of the object of the caller. *)
Definition on_object {T : Type} (f : T -> T) : Run (Client * T) unit :=
  fun s => Some (inr tt, (fst s, f (snd s))).

Definition object {T : Type} : Run (Client * T) T :=
  fun s => Some (inr (snd s), s).

(** [SCOPE_GUARD]: the clean-up runs when the scope is left by a [return]
    before the guard is dismissed. *)
Definition scope_guard {A : Type} (cleanup : World -> World) (body : Run Client A)
  : Run Client A :=
  fun c =>
    match body c with
    | None => None
    | Some (inl r, c) => Some (inl r, set_world (cleanup (world c)) c)
    | Some (inr a, c) => Some (inr a, c)
    end.

(** *** Constants of the translation unit used by the boot sequence *)

Definition UBLOX_NCP_DEFAULT_SERIAL_BAUDRATE : Z := 115200.
Definition UBLOX_NCP_RUNTIME_SERIAL_BAUDRATE_U2 : Z := 115200.
Definition UBLOX_NCP_RUNTIME_SERIAL_BAUDRATE_R4 : Z := 460800.
Definition UBLOX_NCP_MAX_MUXER_FRAME_SIZE : Z := 1509.
Definition UBLOX_NCP_KEEPALIVE_PERIOD : Z := 5000.
Definition UBLOX_NCP_KEEPALIVE_MAX_MISSED : Z := 5.
Definition UBLOX_NCP_SIM_SELECT_PIN : Z := 23.
Definition UBLOX_DEFAULT_CID : Z := 1.
Definition UBLOX_DEFAULT_PDP_TYPE : string := "IP".

(** The response to a command sent with [sendCommand]: the reply of the
    parser with what the environment gives for [readLine] and for the
    lines read in a [hasNextLine] loop. *)
Record Response := {
  response_reply : ParserReply;
  response_line : Z * string;
  response_scans : list Scan
}.

(** [resp.scanf(...)]: the return value; [scanned_int] and [scanned_str]
    are what it stored by [%d], [%u] and by [%s], [%[...]]. *)
Definition scanf (resp : Response) : Z := reply_scanf (response_reply resp).

Definition scanned_int (resp : Response) (i : nat) : Z :=
  nth i (reply_ints (response_reply resp)) 0.

Definition scanned_str (resp : Response) (i : nat) : string :=
  nth i (reply_strs (response_reply resp)) EmptyString.

(** [resp.readResult()]. *)
Definition readResult (resp : Response) : Z := reply_result (response_reply resp).

(** [resp.readLine(buf, size)]: the return value and the content of the
    buffer. *)
Definition readLine (resp : Response) : Z := fst (response_line resp).

Definition line_read (resp : Response) : string := snd (response_line resp).

(** The [i]-th number converted on a line of a [hasNextLine] loop. *)
Definition line_int (l : Scan) (i : nat) : Z := nth i (scan_vals l) 0.

Section Boot.

Variable P : Platform.
Variable H : Headers.
Variable E : Env.
Variable X : Host.

Local Open Scope run_scope.

(** *** Host calls and parser exchanges *)

(** A call into the host: it joins the history and the environment gives
    its result. *)
Definition host (h : HostCall) : Run Client Z :=
  fun c =>
    let c := set_calls (h :: calls c) c in
    Some (inr (host_result X (calls c) (clock (world c)) (log (world c))), c).

(** [skipAll(serial_.get(), timeout)]: the result is not used; the time it
    took passes. *)
Definition skipAll (timeout : Z) : Run Client unit :=
  fun c =>
    let c := set_calls (SkipAll timeout :: calls c) c in
    let dt := host_elapsed X (calls c) (clock (world c)) (log (world c)) in
    Some (inr tt, set_world (set_clock (clock (world c) + Z.of_N dt) (world c)) c).

(** [parser_.sendCommand(cmd)] and the reads on the response. *)
Definition sendCommand (cmd : string) : Run Client Response :=
  fun c =>
    let w0 := emit (AtCommand cmd) (world c) in
    let (reply, w) := parser_exchange P E (AtCommand cmd) (world c) in
    Some (inr {| response_reply := reply;
                 response_line := response_readLine X (clock w0) (log w0);
                 response_scans := response_lines X (clock w0) (log w0) |},
          set_world w c).

(** [parser_.execCommand(cmd)] and [parser_.execCommand(timeout, cmd)]: the
    time limit is the business of the environment, which says how long
    the exchange took. *)
Definition exec (cmd : string) : Run Client Z := call (execCommand P E cmd).

Definition exec_timeout (timeout : option Z) (cmd : string) : Run Client Z :=
  call (execCommand P E cmd).

Definition sendCommand_timeout (timeout : option Z) (cmd : string) : Run Client Response :=
  sendCommand cmd.

(** Reading a member that is not part of the [World]. *)
Definition member {A : Type} (f : Client -> A) : Run Client A :=
  fun c => Some (inr (f c), c).

(** Writing a member that is not part of the [World]. *)
Definition assign (f : Client -> Client) : Run Client unit :=
  fun c => Some (inr tt, f c).

(** [CHECK_PARSER(expr)]. *)
Definition CHECK_PARSER (m : Run Client Z) : Run Client Z :=
  r <- m ;;
  if r <? 0 then modify (parserError r) ;; Return r else ret r.

(** [CHECK_PARSER_OK(expr)]. *)
Definition CHECK_PARSER_OK (m : Run Client Z) : Run Client unit :=
  r <- m ;;
  if r <? 0 then modify (parserError r) ;; Return r
  else if negb (r =? AtResponse_OK P) then Return (SYSTEM_ERROR_AT_NOT_OK P)
  else ret tt.

(** *** Low level initialisation *)

(** [modemInit].  The one [hal_gpio_config_t] is passed to the four
    calls with [set_value = true] and [value = 1]; only its mode is
    changed in between. *)
Definition modemInit : Run Client Z :=
  fn (
    (* Configure PWR_ON and RESET_N pins as Open-Drain and set to high by default *)
    CHECK (host (HAL_Pin_Configure UBPWR OUTPUT true 1)) ;;
    CHECK (host (HAL_Pin_Configure UBRST OUTPUT true 1)) ;;
    (* Configure BUFEN as Push-Pull Output and default to 1 (disabled) *)
    CHECK (host (HAL_Pin_Configure BUFEN OUTPUT true 1)) ;;
    (* Configure VINT as Input for modem power state monitoring *)
    CHECK (host (HAL_Pin_Configure UBVINT INPUT true 1)) ;;
    ret 0).

(** [initParser(stream)].  The three handlers are [urc_CREG], [urc_CGREG]
    and [urc_CEREG] above; the parser calls them through [urcHandler]. *)
Definition initParser (stream : Stream) : Run Client Z :=
  fn (
    host ParserDestroy ;;
    CHECK (host (ParserInit stream)) ;;
    CHECK (host (ParserAddUrcHandler URC_CREG)) ;;
    CHECK (host (ParserAddUrcHandler URC_CGREG)) ;;
    CHECK (host (ParserAddUrcHandler URC_CEREG)) ;;
    ret 0).

(** *** Waiting for the modem to answer *)

(** The [for (;;)] loop of [waitAtResponse]; it ends with [ret tt] at the
    [break]. *)
Fixpoint waitAtResponse_loop (fuel : nat) (t1 timeout : Z) (period : option Z)
  : Run Client unit :=
  match fuel with
  | O => fun _ => None
  | S fuel' =>
    r <- exec_timeout period "AT" ;;
    if (r <? 0) && negb (r =? SYSTEM_ERROR_TIMEOUT H) then Return r else
    if r =? AtResponse_OK P then Return 0 else
    t2 <- read millis ;;
    if ticks_since t2 t1 >=? timeout then ret tt
    else waitAtResponse_loop fuel' t1 timeout period
  end.

(** [waitAtResponse(timeout, period)]; [period] is [None] where the call
    leaves it to the default argument of the declaration. *)
Definition waitAtResponse (fuel : nat) (timeout : Z) (period : option Z) : Run Client Z :=
  fn (
    t1 <- read millis ;;
    waitAtResponse_loop fuel t1 timeout period ;;
    Return (SYSTEM_ERROR_TIMEOUT H)).

(** *** SIM card *)

(** [checkSimCard]. *)
Definition checkSimCard : Run Client Z :=
  fn (
    resp <- sendCommand "AT+CPIN?" ;;
    let code := scanned_str resp 0 in
    r <- CHECK_PARSER (ret (scanf resp)) ;;
    CHECK_TRUE (r =? 1) (SYSTEM_ERROR_AT_RESPONSE_UNEXPECTED P) ;;
    r <- CHECK_PARSER (ret (readResult resp)) ;;
    CHECK_TRUE (r =? AtResponse_OK P) (SYSTEM_ERROR_AT_NOT_OK P) ;;
    if String.eqb code "READY" then
      r <- exec "AT+CCID" ;;
      CHECK_TRUE (r =? AtResponse_OK P) (SYSTEM_ERROR_AT_NOT_OK P) ;;
      Return 0
    else Return (SYSTEM_ERROR_UNKNOWN H)).

(** The [while (resp.hasNextLine())] loop of [selectSimCard] over the
    lines of the response to "AT+UGPIOC?". *)
Fixpoint scanGpioConfiguration (lines : list Scan) (mode : Z) : Run Client Z :=
  match lines with
  | [] => ret mode
  | l :: rest =>
    r <- CHECK_PARSER (ret (scan_r l)) ;;
    let p := line_int l 0 in
    let m := line_int l 1 in
    scanGpioConfiguration rest
      (if (r =? 2) && (p =? UBLOX_NCP_SIM_SELECT_PIN) then m else mode)
  end.

(** The [for (unsigned i = 0; i < 10; ++i)] loop of [selectSimCard]. *)
Fixpoint pollSimCard (n : nat) (simState : Z) : Run Client Z :=
  match n with
  | O => ret simState
  | S n' =>
    simState <- checkSimCard ;;
    if simState =? 0 then ret simState
    else modify (HAL_Delay_Milliseconds 1000) ;; pollSimCard n' simState
  end.

(** [selectSimCard]. *)
Definition selectSimCard (fuel : nat) : Run Client Z :=
  fn (
    (* Read current GPIO configuration *)
    resp <- sendCommand "AT+UGPIOC?" ;;
    CHECK_PARSER (ret (readLine resp)) ;;
    mode <- (if String.eqb (line_read resp) "+UGPIOC:"
             then scanGpioConfiguration (response_scans resp) (-1)
             else ret (-1)) ;;
    r <- CHECK_PARSER (ret (readResult resp)) ;;
    CHECK_TRUE (r =? AtResponse_OK P) (SYSTEM_ERROR_AT_NOT_OK P) ;;
    value <- (if mode =? 0 then
                resp <- sendCommand ("AT+UGPIOR=" ++ decimal UBLOX_NCP_SIM_SELECT_PIN)%string ;;
                r <- CHECK_PARSER (ret (scanf resp)) ;;
                let p := scanned_int resp 0 in
                let v := scanned_int resp 1 in
                let value := if (r =? 2) && (p =? UBLOX_NCP_SIM_SELECT_PIN) then v else -1 in
                r <- CHECK_PARSER (ret (readResult resp)) ;;
                CHECK_TRUE (r =? AtResponse_OK P) (SYSTEM_ERROR_AT_NOT_OK P) ;;
                ret value
              else ret (-1)) ;;
    sim <- member simType ;;
    id <- read ncpId ;;
    reset <-
      match sim with
      | EXTERNAL =>
        (* Using external Nano SIM card *)
        let externalSimMode := 0 in
        let externalSimValue := 0 in
        if negb (mode =? externalSimMode) || negb (externalSimValue =? value) then
          r <- CHECK_PARSER (exec ("AT+UGPIOC=" ++ decimal UBLOX_NCP_SIM_SELECT_PIN ++ ","
                                     ++ decimal externalSimMode ++ ","
                                     ++ decimal externalSimValue)%string) ;;
          CHECK_TRUE (r =? AtResponse_OK P) (SYSTEM_ERROR_AT_NOT_OK P) ;;
          ret true
        else ret false
      | INTERNAL =>
        (* Using internal SIM card *)
        if negb (id =? PLATFORM_NCP_SARA_R410 P) then
          let internalSimMode := 255 in
          if negb (mode =? internalSimMode) then
            r <- CHECK_PARSER (exec ("AT+UGPIOC=" ++ decimal UBLOX_NCP_SIM_SELECT_PIN ++ ","
                                       ++ decimal internalSimMode)%string) ;;
            CHECK_TRUE (r =? AtResponse_OK P) (SYSTEM_ERROR_AT_NOT_OK P) ;;
            ret true
          else ret false
        else
          let internalSimMode := 0 in
          let internalSimValue := 1 in
          if negb (mode =? internalSimMode) || negb (value =? internalSimValue) then
            r <- CHECK_PARSER (exec ("AT+UGPIOC=" ++ decimal UBLOX_NCP_SIM_SELECT_PIN ++ ","
                                       ++ decimal internalSimMode ++ ","
                                       ++ decimal internalSimValue)%string) ;;
            CHECK_TRUE (r =? AtResponse_OK P) (SYSTEM_ERROR_AT_NOT_OK P) ;;
            ret true
          else ret false
      end ;;
    (if reset : bool then
       id <- read ncpId ;;
       (if negb (id =? PLATFORM_NCP_SARA_R410 P) then
          (* U201 *)
          r <- CHECK_PARSER (exec "AT+CFUN=16") ;;
          CHECK_TRUE (r =? AtResponse_OK P) (SYSTEM_ERROR_AT_NOT_OK P) ;;
          modify (HAL_Delay_Milliseconds 1000)
        else
          (* R410 *)
          r <- CHECK_PARSER (exec "AT+CFUN=15") ;;
          CHECK_TRUE (r =? AtResponse_OK P) (SYSTEM_ERROR_AT_NOT_OK P) ;;
          modify (HAL_Delay_Milliseconds 10000)) ;;
       CHECK (waitAtResponse fuel 20000 None) ;;
       ret tt
     else ret tt) ;;
    simState <- pollSimCard 10 0 ;;
    Return simState).

(** *** Early initialisation *)

(** [changeBaudRate(baud)]. *)
Definition changeBaudRate (baud : Z) : Run Client Z :=
  fn (
    resp <- sendCommand ("AT+IPR=" ++ decimal baud)%string ;;
    r <- CHECK_PARSER (ret (readResult resp)) ;;
    CHECK_TRUE (r =? AtResponse_OK P) (SYSTEM_ERROR_AT_NOT_OK P) ;;
    r <- host (SerialSetBaudRate baud) ;;
    Return r).

(** [getAppFirmwareVersion]: the reply to "ATI9" ends in the application
    version, "A.02.00" or "A01.13". *)
Definition getAppFirmwareVersion : Run Client Z :=
  fn (
    resp <- sendCommand "ATI9" ;;
    let major := scanned_int resp 0 in
    let minor := scanned_int resp 1 in
    r <- CHECK_PARSER (ret (scanf resp)) ;;
    CHECK_TRUE (r =? 2) (SYSTEM_ERROR_AT_RESPONSE_UNEXPECTED P) ;;
    CHECK_PARSER_OK (ret (readResult resp)) ;;
    Return (major * 100 + minor)).

(** The [while (resp.hasNextLine())] loop of [initReady] over the lines of
    the response to "AT+CEDRXS?": the access technologies reported, in the
    order of the lines. *)
Fixpoint scanEdrxActs (lines : list Scan) (acts : list Z) : Run Client (list Z) :=
  match lines with
  | [] => ret acts
  | l :: rest =>
    let r := scan_r l in
    let act := u32 (line_int l 0) in
    if r =? 1 then (* Ignore scanf() errors *)
      ok <- host (VectorAppend act) ;;
      CHECK_TRUE (negb (ok =? 0)) (SYSTEM_ERROR_NO_MEMORY H) ;;
      scanEdrxActs rest (acts ++ [act])
    else scanEdrxActs rest acts
  end.

(** The [for (unsigned act: acts)] loop of [initReady]. *)
Fixpoint disableEdrx (acts : list Z) (lastError : Z) : Run Client Z :=
  match acts with
  | [] => ret lastError
  | act :: rest =>
    (* 3: Disable the use of eDRX *)
    r <- CHECK_PARSER (exec ("AT+CEDRXS=3," ++ decimal act)%string) ;;
    disableEdrx rest (if negb (r =? AtResponse_OK P) then r else lastError)
  end.

(** [initReady]. *)
Definition initReady (fuel : nat) : Run Client Z :=
  fn (
    (* Select either internal or external SIM card slot depending on the configuration *)
    CHECK (selectSimCard fuel) ;;
    (* Reformat the operator string to be numeric *)
    CHECK_PARSER (exec "AT+COPS=3,2") ;;
    id <- read ncpId ;;
    (if negb (id =? PLATFORM_NCP_SARA_R410 P) then
       CHECK (changeBaudRate UBLOX_NCP_RUNTIME_SERIAL_BAUDRATE_U2) ;; ret tt
     else
       v <- getAppFirmwareVersion ;;
       modify (set_fwVersion v) ;;
       fw <- read fwVersion_ ;;
       (if fw >? 0 then
          (* L0.0.00.00.05.06,A.02.00 has a memory issue *)
          modify (set_memoryIssuePresent (fw =? UBLOX_NCP_R4_APP_FW_VERSION_MEMORY_LEAK_ISSUE))
        else ret tt) ;;
       (* Revert to 115200 on SARA R4-based devices *)
       CHECK (changeBaudRate UBLOX_NCP_DEFAULT_SERIAL_BAUDRATE) ;; ret tt) ;;
    (* Check that the modem is responsive at the new baudrate *)
    skipAll 1000 ;;
    CHECK (waitAtResponse fuel 10000 None) ;;
    (* Make sure flow control is enabled as well *)
    CHECK_PARSER_OK (exec "AT+IFC=2,2") ;;
    CHECK (waitAtResponse fuel 10000 None) ;;
    id <- read ncpId ;;
    (if id =? PLATFORM_NCP_SARA_R410 P then
       (* Set UMNOPROF = SIM_SELECT *)
       resp <- sendCommand "AT+UMNOPROF?" ;;
       let umnoprof := scanned_int resp 0 in
       r <- CHECK_PARSER (ret (scanf resp)) ;;
       CHECK_PARSER_OK (ret (readResult resp)) ;;
       reset <-
         (if (r =? 1) && (umnoprof =? UMNOPROF_SW_DEFAULT H) then
            (* Disconnect before making changes to the UMNOPROF *)
            r <- CHECK_PARSER (exec "AT+COPS=2,2") ;;
            if r =? AtResponse_OK P then
              (* This is a persistent setting; not checking for error since
                 we will reset either way *)
              sendCommand_timeout (Some 1000)
                ("AT+UMNOPROF=" ++ decimal (UMNOPROF_SIM_SELECT H))%string ;;
              ret true
            else ret false
          else ret false) ;;
       (if reset : bool then
          respCfun <- CHECK_PARSER (exec "AT+CFUN=15") ;;
          CHECK_TRUE (respCfun =? AtResponse_OK P) (SYSTEM_ERROR_AT_NOT_OK P) ;;
          modify (HAL_Delay_Milliseconds 10000) ;;
          CHECK (waitAtResponse fuel 20000 None) ;;
          ret tt
        else ret tt) ;;
       (* Force Cat M1-only mode *)
       resp <- sendCommand "AT+URAT?" ;;
       let selectAct := u32 (scanned_int resp 0) in
       let preferAct1 := u32 (scanned_int resp 1) in
       let preferAct2 := u32 (scanned_int resp 2) in
       let r := scanf resp in
       (if r >? 0 then
          if negb (selectAct =? 7) || ((r >=? 2) && negb (preferAct1 =? 7))
             || ((r >=? 3) && negb (preferAct2 =? 7)) (* 7: LTE Cat M1 *)
          then
            (* Disconnect before making changes to URAT *)
            r <- CHECK_PARSER (exec "AT+COPS=2,2") ;;
            if r =? AtResponse_OK P then
              (* This is a persistent setting *)
              CHECK_PARSER_OK (exec "AT+URAT=7")
            else ret tt
          else ret tt
        else ret tt) ;;
       (* Force eDRX mode to be disabled for each reported RAT individually *)
       resp <- sendCommand "AT+CEDRXS?" ;;
       acts <- scanEdrxActs (response_scans resp) [] ;;
       CHECK_PARSER_OK (ret (readResult resp)) ;;
       lastError <- disableEdrx acts (AtResponse_OK P) ;;
       CHECK_PARSER_OK (ret lastError) ;;
       (* Force Power Saving mode to be disabled *)
       CHECK_PARSER_OK (exec "AT+CPSMS=0")
     else
       (* Force Power Saving mode to be disabled *)
       CHECK_PARSER_OK (exec "AT+UPSV=0")) ;;
    (* Send AT+CMUX and initialize multiplexer *)
    r <- CHECK_PARSER (exec ("AT+CMUX=0,0,," ++ decimal UBLOX_NCP_MAX_MUXER_FRAME_SIZE
                               ++ ",,,,,")%string) ;;
    CHECK_TRUE (r =? AtResponse_OK P) (SYSTEM_ERROR_AT_NOT_OK P) ;;
    (* Initialize muxer *)
    host MuxSetStream ;;
    host (MuxSetMaxFrameSize UBLOX_NCP_MAX_MUXER_FRAME_SIZE) ;;
    id <- read ncpId ;;
    (if negb (id =? PLATFORM_NCP_SARA_R410 P) then
       host (MuxSetKeepAlivePeriod UBLOX_NCP_KEEPALIVE_PERIOD) ;;
       host (MuxSetKeepAliveMaxMissed UBLOX_NCP_KEEPALIVE_MAX_MISSED) ;;
       host (MuxSetMaxRetransmissions 10) ;;
       host (MuxSetAckTimeout 100) ;;
       host (MuxSetControlResponseTimeout 500)
     else
       host (MuxSetKeepAlivePeriod (UBLOX_NCP_KEEPALIVE_PERIOD * 2)) ;;
       host (MuxSetKeepAliveMaxMissed UBLOX_NCP_KEEPALIVE_MAX_MISSED) ;;
       host (MuxUseMscAsKeepAlive true) ;;
       host (MuxSetMaxRetransmissions 3) ;;
       host (MuxSetAckTimeout 2530) ;;
       host (MuxSetControlResponseTimeout 2540)) ;;
    (* Set channel state handler *)
    host MuxSetChannelStateHandler ;;
    scope_guard muxer_stop (
      (* Start muxer (blocking call) *)
      started <- host MuxStart ;;
      CHECK_TRUE (started =? 0) (SYSTEM_ERROR_UNKNOWN H) ;;
      (* Open AT channel and connect it to AT channel stream *)
      modify (emit (MuxOpenChannel UBLOX_NCP_AT_CHANNEL)) ;;
      opened <- read (fun w => muxer_openChannel E (clock w) (log w)) ;;
      (if negb (opened =? 0) then
         (* Failed to open AT channel *)
         Return (SYSTEM_ERROR_UNKNOWN H)
       else ret tt) ;;
      (* Just in case resume AT channel *)
      host (MuxResumeChannel UBLOX_NCP_AT_CHANNEL) ;;
      (* Reinitialize parser with a muxer-based stream *)
      CHECK (initParser MuxerAtStream) ;;
      id <- read ncpId ;;
      (if negb (id =? PLATFORM_NCP_SARA_R410 P) then
         CHECK (waitAtResponse fuel 10000 None)
       else
         CHECK (waitAtResponse fuel 20000 (Some 5000))) ;;
      modify (ncpState E ON)
      (* muxerSg.dismiss() *)) ;;
    Return 0).

(** *** Boot sequence *)

(** [waitReady]. *)
Definition waitReady (fuel : nat) : Run Client Z :=
  fn (
    ready <- read ready_ ;;
    if ready : bool then Return 0 else
    modify muxer_stop ;;
    CHECK (host (SerialSetBaudRate UBLOX_NCP_DEFAULT_SERIAL_BAUDRATE)) ;;
    CHECK (initParser SerialStream) ;;
    (* Enable voltage translator *)
    CHECK (call (modemSetUartState true)) ;;
    skipAll 1000 ;;
    host ParserReset ;;
    r <- waitAtResponse fuel 20000 None ;;
    modify (set_ready (r =? 0)) ;;
    ready <- read ready_ ;;
    id <- read ncpId ;;
    (if negb ready && (id =? PLATFORM_NCP_SARA_R410 P) then
       (* Additionally attempt to talk @ 460800 *)
       CHECK (host (SerialSetBaudRate UBLOX_NCP_RUNTIME_SERIAL_BAUDRATE_R4)) ;;
       skipAll 1000 ;;
       host ParserReset ;;
       r <- waitAtResponse fuel 20000 None ;;
       modify (set_ready (r =? 0))
     else ret tt) ;;
    ready <- read ready_ ;;
    (if ready : bool then
       (* start power on timer for memory issue power off delays, assume not registered *)
       now <- read millis ;;
       modify (set_powerOnTime now) ;;
       modify (set_registeredTime 0) ;;
       skipAll 1000 ;;
       host ParserReset ;;
       modify (set_parserError 0) ;;
       r <- initReady fuel ;;
       if negb (r =? SYSTEM_ERROR_NONE P) then
         (* Failed to perform early initialization *)
         modify (set_ready false)
       else ret tt
     else (* No response from NCP *) ret tt) ;;
    ready <- read ready_ ;;
    (if negb ready then
       (* Disable voltage translator *)
       call (modemSetUartState false) ;;
       (* Hard reset the modem *)
       call_fuel (modemHardReset P E fuel true) ;;
       modify (ncpState E OFF) ;;
       Return (SYSTEM_ERROR_INVALID_STATE P)
     else ret tt) ;;
    Return 0).

(** [checkParser]. *)
Definition checkParser (fuel : nat) : Run Client Z :=
  fn (
    ns <- read ncpState_ ;;
    (if NcpState_eq_dec ns ON then ret tt else Return (SYSTEM_ERROR_INVALID_STATE P)) ;;
    ready <- read ready_ ;;
    pe <- read parserError_ ;;
    (if ready && negb (pe =? 0) then
       r <- exec_timeout (Some 1000) "AT" ;;
       if r =? AtResponse_OK P then modify (set_parserError 0)
       else modify (set_ready false)
     else ret tt) ;;
    CHECK (waitReady fuel) ;;
    Return 0).

(** *** Construction and destruction *)



(** *** Joining and leaving the network *)

(** [disconnect]. *)
Definition disconnect (fuel : nat) : Run Client Z :=
  fn (
    ns <- read ncpState_ ;;
    (if NcpState_eq_dec ns DISABLED then Return (SYSTEM_ERROR_INVALID_STATE P) else ret tt) ;;
    cs <- read connState_ ;;
    (if NcpConnectionState_eq_dec cs DISCONNECTED then Return 0 else ret tt) ;;
    CHECK (checkParser fuel) ;;
    CHECK_PARSER (exec "AT+COPS=2,2") ;;
    modify resetRegistrationState ;;
    modify (connectionState E DISCONNECTED) ;;
    Return 0).

(** [configureApn(conf)]. *)
Definition configureApn (conf : CellularNetworkConfig) : Run Client Z :=
  fn (
    assign (set_netConf conf) ;;
    valid <- member (fun c => isValid (netConf_ c)) ;;
    (if negb valid then
       (* Look for network settings based on IMSI *)
       resp <- sendCommand "AT+CIMI" ;;
       CHECK_PARSER (ret (readLine resp)) ;;
       r <- CHECK_PARSER (ret (readResult resp)) ;;
       CHECK_TRUE (r =? AtResponse_OK P) (SYSTEM_ERROR_AT_NOT_OK P) ;;
       assign (set_netConf (networkConfigForImsi X (line_read resp)))
     else ret tt) ;;
    nc <- member netConf_ ;;
    resp <- sendCommand ("AT+CGDCONT=" ++ decimal UBLOX_DEFAULT_CID ++ ","
                           ++ dquote ++ UBLOX_DEFAULT_PDP_TYPE ++ dquote ++ ","
                           ++ dquote ++ (if hasUser nc && hasPassword nc then "CHAP:" else "")
                           ++ (if hasApn nc then apn nc else "") ++ dquote)%string ;;
    r <- CHECK_PARSER (ret (readResult resp)) ;;
    CHECK_TRUE (r =? AtResponse_OK P) (SYSTEM_ERROR_AT_NOT_OK P) ;;
    Return 0).

(** [registerNet]. *)
Definition registerNet : Run Client Z :=
  fn (
    id <- read ncpId ;;
    (if negb (id =? PLATFORM_NCP_SARA_R410 P) then
       r <- CHECK_PARSER (exec "AT+CREG=2") ;;
       CHECK_TRUE (r =? AtResponse_OK P) (SYSTEM_ERROR_AT_NOT_OK P) ;;
       r <- CHECK_PARSER (exec "AT+CGREG=2") ;;
       CHECK_TRUE (r =? AtResponse_OK P) (SYSTEM_ERROR_AT_NOT_OK P)
     else
       r <- CHECK_PARSER (exec "AT+CEREG=2") ;;
       CHECK_TRUE (r =? AtResponse_OK P) (SYSTEM_ERROR_AT_NOT_OK P)) ;;
    modify (connectionState E CONNECTING) ;;
    modify (set_registeredTime 0) ;;
    resp <- sendCommand "AT+COPS?" ;;
    let copsState := scanned_int resp 0 in
    r <- CHECK_PARSER (ret (scanf resp)) ;;
    CHECK_TRUE (r =? 1) (SYSTEM_ERROR_AT_RESPONSE_UNEXPECTED P) ;;
    r <- CHECK_PARSER (ret (readResult resp)) ;;
    CHECK_TRUE (r =? AtResponse_OK P) (SYSTEM_ERROR_AT_NOT_OK P) ;;
    (if negb (copsState =? 0) then
       (* If the set command with <mode>=0 is issued, a further set command
          with <mode>=0 is managed as a user reselection *)
       CHECK_PARSER (exec_timeout (Some (5 * 60 * 1000)) "AT+COPS=0,2") ;; ret tt
     else ret tt) ;;
    (* Ignore response code here *)
    id <- read ncpId ;;
    (if negb (id =? PLATFORM_NCP_SARA_R410 P) then
       r <- CHECK_PARSER (exec "AT+CREG?") ;;
       CHECK_TRUE (r =? AtResponse_OK P) (SYSTEM_ERROR_AT_NOT_OK P) ;;
       r <- CHECK_PARSER (exec "AT+CGREG?") ;;
       CHECK_TRUE (r =? AtResponse_OK P) (SYSTEM_ERROR_AT_NOT_OK P)
     else
       r <- CHECK_PARSER (exec "AT+CEREG?") ;;
       CHECK_TRUE (r =? AtResponse_OK P) (SYSTEM_ERROR_AT_NOT_OK P)) ;;
    now <- read millis ;;
    modify (set_regStartTime now) ;;
    regStartTime <- read regStartTime_ ;;
    modify (set_regCheckTime regStartTime) ;;
    Return 0).

(** [connect(conf)]. *)
Definition connect (fuel : nat) (conf : CellularNetworkConfig) : Run Client Z :=
  fn (
    cs <- read connState_ ;;
    CHECK_TRUE (if NcpConnectionState_eq_dec cs DISCONNECTED then true else false)
      (SYSTEM_ERROR_INVALID_STATE P) ;;
    CHECK (checkParser fuel) ;;
    modify resetRegistrationState ;;
    CHECK (configureApn conf) ;;
    CHECK registerNet ;;
    modify (checkRegistrationState E) ;;
    Return 0).

(** *** Queries *)

(** A member function called from outside with an object of the caller
    that it writes to. *)
Definition run_with {T : Type} (body : Run (Client * T) Z) (obj : T) (c : Client)
  : option (Z * T * Client) :=
  match body (c, obj) with
  | None => None
  | Some (inl r, (c, obj)) => Some (r, obj, c)
  | Some (inr r, (c, obj)) => Some (r, obj, c)
  end.

(** [getFirmwareVersionString(buf, size)]; the object is the content of
    [buf], which [readLine] writes. *)
Definition getFirmwareVersionString (fuel : nat) (size : Z) : Run (Client * string) Z :=
  fn (
    on_client (CHECK (checkParser fuel)) ;;
    resp <- on_client (sendCommand "AT+CGMR") ;;
    on_object (fun _ => line_read resp) ;;
    on_client (CHECK_PARSER (ret (readLine resp))) ;;
    r <- on_client (CHECK_PARSER (ret (readResult resp))) ;;
    CHECK_TRUE (r =? AtResponse_OK P) (SYSTEM_ERROR_AT_NOT_OK P) ;;
    Return 0).

(** [getFirmwareModuleVersion(ver)]. *)
Definition getFirmwareModuleVersion : Run Client Z :=
  fn (Return (SYSTEM_ERROR_NOT_SUPPORTED H)).

(** [updateFirmware(file, size)]. *)
Definition updateFirmware (size : Z) : Run Client Z :=
  fn (Return (SYSTEM_ERROR_NOT_SUPPORTED H)).

(** [memcpy(dst, src, n)] and [dst[i] = v] on the bytes of a buffer; a
    write past the end of the list is not modelled (the code stays inside
    [size]). *)
Definition memcpy (dst src : list ascii) (n : nat) : list ascii :=
  firstn n src ++ skipn n dst.

Definition store (dst : list ascii) (i : nat) (v : ascii) : list ascii :=
  firstn i dst ++ v :: skipn (S i) dst.

(** [getIccid(buf, size)]; the object is the content of the [size] bytes
    at [buf].  "%31s" stores at most 31 characters in [iccid]. *)
Definition getIccid (fuel : nat) (size : Z) : Run (Client * list ascii) Z :=
  fn (
    on_client (CHECK (checkParser fuel)) ;;
    resp <- on_client (sendCommand "AT+CCID") ;;
    let iccid := substring 0 31 (scanned_str resp 0) in
    r <- on_client (CHECK_PARSER (ret (scanf resp))) ;;
    CHECK_TRUE (r =? 1) (SYSTEM_ERROR_AT_RESPONSE_UNEXPECTED P) ;;
    r <- on_client (CHECK_PARSER (ret (readResult resp))) ;;
    CHECK_TRUE (r =? AtResponse_OK P) (SYSTEM_ERROR_AT_NOT_OK P) ;;
    let n := Z.min (strlen iccid) size in
    on_object (fun buf => memcpy buf (list_ascii_of_string iccid) (Z.to_nat n)) ;;
    n <- (if size >? 0 then
            let n := if n =? size then n - 1 else n in
            on_object (fun buf => store buf (Z.to_nat n) zero) ;;
            ret n
          else ret n) ;;
    Return n).

(** [getImei(buf, size)]; the object is the content of [buf], which
    [readLine] writes. *)
Definition getImei (fuel : nat) (size : Z) : Run (Client * string) Z :=
  fn (
    on_client (CHECK (checkParser fuel)) ;;
    resp <- on_client (sendCommand "AT+CGSN") ;;
    on_object (fun _ => line_read resp) ;;
    n <- on_client (CHECK_PARSER (ret (readLine resp))) ;;
    on_client (CHECK_PARSER_OK (ret (readResult resp))) ;;
    Return n).

(** [queryAndParseAtCops(qual)] on the object of the caller. *)
Definition queryAndParseAtCops_on (qual : CellularSignalQuality -> option Z)
  : Run (Client * CellularSignalQuality) Z :=
  fun s =>
    let '(r, act, w) := queryAndParseAtCops P E (qual (snd s)) (world (fst s)) in
    Some (inr r,
          (set_world w (fst s),
           match act with
           | Some a => set_accessTechnology a (snd s)
           | None => snd s
           end)).

(** [getCellularGlobalIdentity(cgi)]; the object is [*cgi], [None] for a
    null pointer.  [qual] is the local signal quality object as
    constructed: it is passed to [queryAndParseAtCops] and read after that
    has written to it. *)
Definition getCellularGlobalIdentity (fuel : nat) (qual : CellularSignalQuality)
  : Run (Client * option CgiArgument) Z :=
  fn (
    cs <- on_client (read connState_) ;;
    CHECK_TRUE (if NcpConnectionState_eq_dec cs DISCONNECTED then false else true)
      (SYSTEM_ERROR_INVALID_STATE P) ;;
    cgi <- object ;;
    CHECK_TRUE (match cgi with Some _ => true | None => false end)
      (SYSTEM_ERROR_INVALID_ARGUMENT H) ;;
    on_client (CHECK (checkParser fuel)) ;;
    (* FIXME: this is a workaround for CH28408 *)
    r_act <- on_client (call (fun w =>
               let '(r, act, w) := queryAndParseAtCops P E (Some (accessTechnology qual)) w in
               ((r, act), w))) ;;
    CHECK (ret (fst r_act)) ;;
    let qual := match snd r_act with
                | Some a => set_accessTechnology a qual
                | None => qual
                end in
    CHECK_TRUE (negb (accessTechnology qual =? ACT_NONE P)) (SYSTEM_ERROR_INVALID_STATE P) ;;
    (* Update current RAT *)
    on_client (modify (set_act (accessTechnology qual))) ;;
    (* Invalidate LAC and Cell ID *)
    on_client (modify (set_lac_cid (LacType_max P) (CidType_max P))) ;;
    (* Fill in LAC and Cell ID based on current RAT, prefer PSD and EPS, fallback to CSD *)
    id <- on_client (read ncpId) ;;
    (if negb (id =? PLATFORM_NCP_SARA_R410 P) then
       on_client (CHECK_PARSER_OK (exec "AT+CGREG?")) ;;
       on_client (CHECK_PARSER_OK (exec "AT+CREG?"))
     else
       on_client (CHECK_PARSER_OK (exec "AT+CEREG?")) ;;
       on_client (CHECK_PARSER_OK (exec "AT+CREG?"))) ;;
    (* case CGI_VERSION_1: default: *)
    (* Confirm user is expecting the correct amount of data *)
    cgi <- object ;;
    CHECK_TRUE (match cgi with Some a => cgi_size a >=? sizeof_cgi H | None => false end)
      (SYSTEM_ERROR_INVALID_ARGUMENT H) ;;
    stored <- on_client (read cgi_) ;;
    on_object (fun _ => Some {| cgi_size := sizeof_cgi H;
                                cgi_version := CGI_VERSION_1 H;
                                cgi_identity := stored |}) ;;
    Return (SYSTEM_ERROR_NONE P)).

(** The strength reported for an RSRP value (R410). *)
Definition rsrp_strength (rsrp : Z) : Z :=
  if (rsrp <? -140) && (rsrp >=? -200) then 0
  else if (rsrp >=? -44) && (rsrp <=? 0) then 97
  else if (rsrp >=? -140) && (rsrp <? -44) then rsrp + 141
  else (* If RSRP is not in the expected range *) 255.

(** The quality reported for an RSRQ value given as integer part and
    fraction (R410): [rsrq_n * 100 - rsrq_f] is computed in [unsigned
    long] and stored in an [int]. *)
Definition rsrq_quality (rsrq_n rsrq_f : Z) : Z :=
  let min_rsrq_mul_by_100 := -1950 in
  let max_rsrq_mul_by_100 := -300 in
  let rsrq_mul_100 := s32 (rsrq_n * 100 - rsrq_f) in
  if (rsrq_mul_100 <? min_rsrq_mul_by_100) && (rsrq_mul_100 >=? -2000) then 0
  else if (rsrq_mul_100 >=? max_rsrq_mul_by_100) && (rsrq_mul_100 <=? 0) then 34
  else if (rsrq_mul_100 >=? min_rsrq_mul_by_100) && (rsrq_mul_100 <? max_rsrq_mul_by_100)
  then Z.quot (rsrq_mul_100 + 2000) 50
  else (* If RSRQ is not in the expected range *) 255.

(** The [while (resp.hasNextLine())] loop of [getSignalQuality] over the
    lines of the response to "AT+UCGED?": each line gives the character
    after "+RSR", the integer part and the fraction. *)
Fixpoint scanUcged (lines : list Scan) : Run (Client * CellularSignalQuality) unit :=
  match lines with
  | [] => ret tt
  | l :: rest =>
    let type := line_int l 0 in
    let val := line_int l 1 in
    let val2 := u32 (line_int l 2) in
    r <- on_client (CHECK_PARSER (ret (scan_r l))) ;;
    (if r >=? 2 then
       if type =? Z.of_nat (nat_of_ascii "P") then
         on_object (set_strength (rsrp_strength val))
       else if (type =? Z.of_nat (nat_of_ascii "Q")) && (r =? 3) then
         on_object (set_quality (rsrq_quality val val2))
       else ret tt
     else ret tt) ;;
    scanUcged rest
  end.

(** The quality reported for the second value of "+CSQ", by units. *)
Definition csq_quality (units : CellularQualityUnits.t) (rxqual : Z) : option Z :=
  match units with
  | CellularQualityUnits.RXQUAL | CellularQualityUnits.MEAN_BEP => Some rxqual
  | CellularQualityUnits.ECN0 =>
    Some (if negb (rxqual =? 99) then Z.min (7 + (7 - rxqual) * 6) 44 else 255)
  | CellularQualityUnits.RSRQ =>
    Some (if negb (rxqual =? 99) then Z.quot (rxqual * 34) 7 else 255)
  | CellularQualityUnits.NONE => (* Do nothing *) None
  end.

(** The strength reported for the first value of "+CSQ", by units;
    [quality] is the quality of the object at that point. *)
Definition csq_strength (units : CellularStrengthUnits.t) (rxlev quality : Z) : option Z :=
  match units with
  | CellularStrengthUnits.RXLEV => Some (if negb (rxlev =? 99) then 2 * rxlev else rxlev)
  | CellularStrengthUnits.RSCP =>
    if negb (quality =? 255) then
      (* Convert to Ec/Io in dB * 100 *)
      let ecio100 := quality * 50 - 2450 in
      (* RSCP = RSSI + Ec/Io *)
      if negb (rxlev =? 99) then
        let rssi100 := -11250 + Z.quot (500 * rxlev) 2 in
        let rscp := Z.quot (rssi100 + ecio100) 100 in
        (* Convert from dBm [-121, -25] to RSCP_LEV number *)
        Some (if rscp <? -120 then 0
              else if rscp >=? -25 then 96
              else if (rscp >=? -120) && (rscp <? -25) then rscp + 121
              else 255)
      else Some 255
    else
      (* Naively map to CESQ range (which is wrong) *)
      Some (if negb (rxlev =? 99) then 3 + 2 * rxlev else 255)
  | CellularStrengthUnits.RSRP =>
    Some (if negb (rxlev =? 99) then Z.quot (rxlev * 97) 31 else 255)
  | CellularStrengthUnits.NONE => (* Do nothing *) None
  end.

(** [getSignalQuality(qual)] for a pointer that is not null; the object is
    [*qual]. *)
Definition getSignalQuality_on (fuel : nat) : Run (Client * CellularSignalQuality) Z :=
  fn (
    on_client (CHECK (checkParser fuel)) ;;
    CHECK (queryAndParseAtCops_on (fun q => Some (accessTechnology q))) ;;
    id <- on_client (read ncpId) ;;
    (if id =? PLATFORM_NCP_SARA_R410 P then
       (* Default to 255 in case RSRP/Q are not found *)
       on_object (set_strength 255) ;;
       on_object (set_quality 255) ;;
       (* Set UCGED to mode 5 for RSRP/RSRQ values on R410M *)
       on_client (CHECK_PARSER_OK (exec "AT+UCGED=5")) ;;
       resp <- on_client (sendCommand "AT+UCGED?") ;;
       scanUcged (response_scans resp) ;;
       r <- on_client (CHECK_PARSER (ret (readResult resp))) ;;
       CHECK_TRUE (r =? AtResponse_OK P) (SYSTEM_ERROR_AT_NOT_OK P)
     else
       resp <- on_client (sendCommand "AT+CSQ") ;;
       let rxlev := scanned_int resp 0 in
       let rxqual := scanned_int resp 1 in
       r <- on_client (CHECK_PARSER (ret (scanf resp))) ;;
       CHECK_TRUE (r =? 2) (SYSTEM_ERROR_AT_RESPONSE_UNEXPECTED P) ;;
       r <- on_client (CHECK_PARSER (ret (readResult resp))) ;;
       CHECK_TRUE (r =? AtResponse_OK P) (SYSTEM_ERROR_AT_NOT_OK P) ;;
       (* Fixup values *)
       q <- object ;;
       (if accessTechnology q =? ACT_GSM_EDGE P
        then on_object (set_qualityUnits CellularQualityUnits.MEAN_BEP)
        else ret tt) ;;
       q <- object ;;
       match csq_quality (qualityUnits X q) rxqual with
       | Some v => on_object (set_quality v)
       | None => ret tt
       end ;;
       q <- object ;;
       match csq_strength (strengthUnits X q) rxlev (quality q) with
       | Some v => on_object (set_strength v)
       | None => ret tt
       end) ;;
    Return 0).

(** [getSignalQuality(qual)]; [qual] is [None] for a null pointer. *)
Definition getSignalQuality (fuel : nat) (qual : option CellularSignalQuality) (c : Client)
  : option (Z * option CellularSignalQuality * Client) :=
  if NcpConnectionState_eq_dec (connState_ (world c)) DISCONNECTED
  then Some (SYSTEM_ERROR_INVALID_STATE P, qual, c) else
  match qual with
  | None => Some (SYSTEM_ERROR_INVALID_ARGUMENT H, qual, c)
  | Some q =>
    match run_with (getSignalQuality_on fuel) q c with
    | None => None
    | Some (r, q, c) => Some (r, Some q, c)
    end
  end.

(** [on] with the boot sequence above as its [waitReady]: the one of the
    client [c], seen on the [World]. *)
Definition waitReady_of (c : Client) (fuel : nat) (w : World) : option (Z * World) :=
  match run (waitReady fuel) (set_world w c) with
  | None => None
  | Some (r, c') => Some (r, world c')
  end.

End Boot.

(** ** Sample platform, environments and worlds

    Used by the worked examples below; the theorems are stated for every
    platform and every environment. *)

(** A platform with the 3GPP TS 27.007 numbering of the access
    technologies, 16-bit area codes and 32-bit cell identifiers. *)
Definition sample_platform : Platform := {|
  PLATFORM_NCP_SARA_R410 := 68;
  SYSTEM_ERROR_NONE := 0;
  SYSTEM_ERROR_INVALID_STATE := -210;
  SYSTEM_ERROR_BAD_DATA := -280;
  SYSTEM_ERROR_AT_NOT_OK := -1200;
  SYSTEM_ERROR_AT_RESPONSE_UNEXPECTED := -1210;
  AtResponse_OK := 0;
  GSM0710_ERROR_FLOW_CONTROL := -8;
  CGI_FLAG_TWO_DIGIT_MNC := 1;
  RESET_REASON_POWER_DOWN := 40;
  RESET_REASON_POWER_BROWNOUT := 50;
  LacType_max := 65535;
  CidType_max := 4294967295;
  ACT_NONE := -1;
  ACT_GSM := 0;
  ACT_GSM_COMPACT := 1;
  ACT_UTRAN := 2;
  ACT_GSM_EDGE := 3;
  ACT_UTRAN_HSDPA := 4;
  ACT_UTRAN_HSUPA := 5;
  ACT_UTRAN_HSDPA_HSUPA := 6;
  ACT_LTE := 7;
  ACT_LTE_CAT_M1 := 8;
  ACT_LTE_NB_IOT := 9
|}.

(** A reply without URC lines that took no time. *)
Definition plain_reply (result : Z) : ParserReply := {|
  reply_urcs := [];
  reply_elapsed := 0;
  reply_scanf := 0;
  reply_strs := [];
  reply_ints := [];
  reply_result := result
|}.

(** An environment that always gives the same answers. *)
Definition steady_env (vint : bool) (open_r write_r : Z) (reply : ParserReply) : Env := {|
  HAL_GPIO_Read_UBVINT := fun _ _ => vint;
  muxer_openChannel := fun _ _ => open_r;
  muxer_writeChannel := fun _ _ => write_r;
  parser_reply := fun _ _ => reply;
  HAL_Core_Get_Last_Reset_Info := (0, 0)
|}.

(** A modem that follows its power pin: power-good is high exactly when the
    number of completed low pulses on PWR_ON so far is odd. *)
Definition pulses (evs : list Event) : nat :=
  List.length (filter (fun e => match e with GpioWrite UBPWR 1 => true | _ => false end) evs).

Definition obedient_env (reply : ParserReply) : Env := {|
  HAL_GPIO_Read_UBVINT := fun _ evs => Nat.odd (pulses evs);
  muxer_openChannel := fun _ _ => 0;
  muxer_writeChannel := fun _ _ => 0;
  parser_reply := fun _ _ => reply;
  HAL_Core_Get_Last_Reset_Info := (0, 0)
|}.

Definition unset_cgi (P : Platform) : CellularGlobalIdentity := {|
  cgi_flags := 0;
  mobile_country_code := 0;
  mobile_network_code := 0;
  location_area_code := LacType_max P;
  cell_id := CidType_max P
|}.

(** The members as [init] leaves them, for a chip family [ncp], at time
    [now] of the clock. *)
Definition initial_world (P : Platform) (ncp : Z) (now : Z) : World := {|
  conf_ := {| ncpIdentifier := ncp; eventHandler := true; dataHandler := true |};
  ncpState_ := OFF;
  prevNcpState_ := OFF;
  connState_ := DISCONNECTED;
  creg_ := NotRegistered;
  cgreg_ := NotRegistered;
  cereg_ := NotRegistered;
  regStartTime_ := u32 now;
  regCheckTime_ := u32 now;
  powerOnTime_ := 0;
  registeredTime_ := 0;
  memoryIssuePresent_ := false;
  parserError_ := 0;
  ready_ := false;
  registrationTimeout_ := REGISTRATION_TIMEOUT;
  cgi_ := unset_cgi P;
  act_ := ACT_NONE P;
  fwVersion_ := 0;
  lastWindow_ := 0;
  bytesInWindow_ := 0;
  clock := now;
  log := [];
  serial_enabled := true;
  muxerAtStream_enabled := true;
  powerOff_once := false
|}.

(** The history of a modem that was powered on by one pulse. *)
Definition powered_log : list Event :=
  [GpioWrite UBPWR 1; DelayMs 150; GpioWrite UBPWR 0].

(** A session that is switched on and looking for the network since
    [since], on chip family [ncp]. *)
Definition connecting_world (P : Platform) (ncp : Z) (since now : Z) : World :=
  set_log powered_log
    (set_regCheckTime (u32 since) (set_regStartTime (u32 since)
      (set_ready true (set_connState CONNECTING (set_ncpState ON (initial_world P ncp now)))))).

(** The same session with the LTE registration flag raised. *)
Definition lte_registered_world : World :=
  set_cereg Registered (connecting_world sample_platform 68 0 1000).

(** An environment in which the data channel cannot be opened. *)
Definition env_open_fails : Env := steady_env true (-1) 0 (plain_reply 0).

(** An environment in which every request succeeds. *)
Definition env_ok : Env := steady_env true 0 0 (plain_reply 0).


(** A session whose identity was captured before: area 0x1234, cell
    0x5678, on GSM. *)
Definition identified_world : World :=
  set_cgi {| cgi_flags := 0; mobile_country_code := 310; mobile_network_code := 260;
             location_area_code := 0x1234; cell_id := 0x5678 |}
    (connecting_world sample_platform 35 0 1000).

(** The line [+CGREG: 1,"1A2B","00C3D4E5",0] (or +CREG, +CEREG, with the
    access technology [act]): the scan with a leading mode field converts
    nothing, the scan without it converts four fields. *)
Definition registration_line (prefix : UrcPrefix) (lac cid act : Z) : UrcLine := {|
  urc_prefix := prefix;
  urc_readLine := 28;
  urc_scan_mode := {| scan_r := 0; scan_vals := [] |};
  urc_scan_plain := {| scan_r := 4; scan_vals := [1; lac; cid; act] |}
|}.

(** A rate-limited session (R410, application firmware 2.02) whose write
    window started long ago. *)
Definition rate_limited_world : World :=
  let w := connecting_world sample_platform 68 0 1000 in
  {| conf_ := conf_ w; ncpState_ := ON; prevNcpState_ := OFF; connState_ := CONNECTED;
     creg_ := NotRegistered; cgreg_ := NotRegistered; cereg_ := Registered;
     regStartTime_ := 0; regCheckTime_ := 0; powerOnTime_ := 0; registeredTime_ := 0;
     memoryIssuePresent_ := false; parserError_ := 0; ready_ := true;
     registrationTimeout_ := REGISTRATION_TIMEOUT; cgi_ := cgi_ w; act_ := 8;
     fwVersion_ := 202; lastWindow_ := 0; bytesInWindow_ := 0;
     clock := 1000; log := powered_log; serial_enabled := true;
     muxerAtStream_enabled := true; powerOff_once := false |}.

(** The reply to "AT+COPS?" for an operator with the given country and
    network code strings on access technology [act]: three fields
    converted, result OK. *)
Definition cops_reply (mcc mnc : string) (act : Z) : ParserReply := {|
  reply_urcs := [];
  reply_elapsed := 0;
  reply_scanf := 3;
  reply_strs := [mcc; mnc];
  reply_ints := [act];
  reply_result := 0
|}.


(** ** Samples for the rest of the client *)

(** The values of system_error.h for the further error codes. *)
Definition sample_headers : Headers := {|
  SYSTEM_ERROR_UNKNOWN := -100;
  SYSTEM_ERROR_NOT_SUPPORTED := -120;
  SYSTEM_ERROR_TIMEOUT := -160;
  SYSTEM_ERROR_NO_MEMORY := -260;
  SYSTEM_ERROR_INVALID_ARGUMENT := -270;
  UMNOPROF_NONE := -1;
  UMNOPROF_SW_DEFAULT := 0;
  UMNOPROF_SIM_SELECT := 1;
  CGI_VERSION_1 := 1;
  sizeof_cgi := 20
|}.

(** A host in which every allocation and every call succeeds and the
    response has no further lines. *)
Definition sample_host : Host := {|
  host_result := fun calls _ _ =>
    match calls with
    | NewSerialStream _ :: _ | NewMuxerStream _ :: _ | VectorAppend _ :: _ => 1
    | _ => 0
    end;
  host_elapsed := fun _ _ _ => 0%N;
  response_readLine := fun _ _ => (0, EmptyString);
  response_lines := fun _ _ => [];
  strengthUnits := fun _ => CellularStrengthUnits.RXLEV;
  qualityUnits := fun _ => CellularQualityUnits.RXQUAL;
  networkConfigForImsi := fun _ =>
    {| isValid := true; hasApn := false; apn := EmptyString;
       hasUser := false; hasPassword := false |}
|}.

(** The reply "+CPIN: READY" with the result OK, after [ms] milliseconds:
    one field converted. *)
Definition ready_reply (ms : N) : ParserReply := {|
  reply_urcs := [];
  reply_elapsed := ms;
  reply_scanf := 1;
  reply_strs := ["READY"%string];
  reply_ints := [];
  reply_result := 0
|}.

(** A modem that is powered and answers every command with that reply
    after 10 ms. *)
Definition env_boot : Env := steady_env true 0 0 (ready_reply 10).

(** The line "+CREG: 2,2" (or +CGREG, +CEREG) of a modem that is
    searching: the state, 2, is the one field converted. *)
Definition searching_line (prefix : UrcPrefix) : UrcLine := {|
  urc_prefix := prefix;
  urc_readLine := 10;
  urc_scan_mode := {| scan_r := 1; scan_vals := [2] |};
  urc_scan_plain := {| scan_r := 1; scan_vals := [2] |}
|}.

(** A modem that is powered and searching: it answers every command as
    above after 10 ms, and with every answer the three handlers are handed
    the line that tells so. *)
Definition env_searching : Env :=
  steady_env true 0 0
    {| reply_urcs := [searching_line URC_CREG; searching_line URC_CGREG;
                      searching_line URC_CEREG];
       reply_elapsed := 10; reply_scanf := 1; reply_strs := ["READY"%string];
       reply_ints := []; reply_result := 0 |}.

(** A modem that is powered and does not answer: every command runs into
    its time limit of one second. *)
Definition env_silent : Env :=
  steady_env true 0 0
    {| reply_urcs := []; reply_elapsed := 1000; reply_scanf := 0; reply_strs := [];
       reply_ints := []; reply_result := -160 |}.

(** A client as [init] leaves it, on chip family [ncp] at time [now]. *)
Definition sample_client (ncp now : Z) : Client := {|
  world := initial_world sample_platform ncp now;
  simType := INTERNAL;
  netConf_ := {| isValid := false; hasApn := false; apn := EmptyString;
                 hasUser := false; hasPassword := false |};
  calls := []
|}.

(** A client whose world is [w]. *)
Definition client_of (w : World) : Client := set_world w (sample_client 35 0).

(** The reply "+CCID: 8991101200003204510" with the result OK. *)
Definition iccid_reply : ParserReply := {|
  reply_urcs := [];
  reply_elapsed := 10;
  reply_scanf := 1;
  reply_strs := ["8991101200003204510"%string];
  reply_ints := [];
  reply_result := 0
|}.

Definition env_iccid : Env := steady_env true 0 0 iccid_reply.

(** A client that is On and ready, with a Connecting session. *)
Definition ready_client : Client :=
  client_of (connecting_world sample_platform 35 0 1000).

(** A modem registered with operator 310/260 on UTRAN that answers every
    command with the reply to "AT+COPS?". *)
Definition env_operator : Env := steady_env true 0 0 (cops_reply "310" "260" 2).

(** A signal quality object as constructed. *)
Definition fresh_quality : CellularSignalQuality := {|
  accessTechnology := -1;
  strength := 0;
  quality := 0;
  qualityUnits_set := None
|}.

(** An R410 registered on LTE that answers every command with the reply
    to "AT+COPS?". *)
Definition env_lte : Env := steady_env true 0 0 (cops_reply "310" "260" 7).

(** A host whose response to "AT+UCGED?" has the two lines
    [+RSRP: 162,5110,"-100.00"] and [+RSRQ: 162,5110,"-10.50"]. *)
Definition ucged_host : Host := {|
  host_result := host_result sample_host;
  host_elapsed := host_elapsed sample_host;
  response_readLine := response_readLine sample_host;
  response_lines := fun _ _ =>
    [ {| scan_r := 3; scan_vals := [Z.of_nat (nat_of_ascii "P"); -100; 0] |};
      {| scan_r := 3; scan_vals := [Z.of_nat (nat_of_ascii "Q"); -10; 50] |} ];
  strengthUnits := strengthUnits sample_host;
  qualityUnits := qualityUnits sample_host;
  networkConfigForImsi := networkConfigForImsi sample_host
|}.

(** A client on the R410 that is On and ready, with a Connecting
    session. *)
Definition ready_client_r410 : Client :=
  client_of (connecting_world sample_platform 68 0 1000).

(** The reply to "ATI9" of an R410 with application firmware 2.00: two
    numbers converted. *)
Definition version_reply : ParserReply := {|
  reply_urcs := [];
  reply_elapsed := 10;
  reply_scanf := 2;
  reply_strs := [];
  reply_ints := [2; 0];
  reply_result := 0
|}.

(** An R410 with that firmware: it answers "ATI9" with its version and
    every other command like [env_boot]. *)
Definition env_r410 : Env := {|
  HAL_GPIO_Read_UBVINT := fun _ _ => true;
  muxer_openChannel := fun _ _ => 0;
  muxer_writeChannel := fun _ _ => 0;
  parser_reply := fun _ evs =>
    match evs with
    | AtCommand cmd :: _ => if String.eqb cmd "ATI9" then version_reply else ready_reply 10
    | _ => ready_reply 10
    end;
  HAL_Core_Get_Last_Reset_Info := (0, 0)
|}.


(** An R410 with the memory issue, On and Connecting, at the moment its
    32-bit tick counter has wrapped to 0, with neither timer of the aging
    guard set (the guard clears both whenever it ends). *)
Definition unreferenced_world : World :=
  set_memoryIssuePresent true (connecting_world sample_platform 68 4294000000 4294967296).

(** ** Vocabulary of the statements about the rest of the client *)

(** [wp m Post s]: when [m] started in [s] comes to an end, [Post] holds
    of how it ended and of the state it left. *)
Definition wp {S A : Type} (m : Run S A) (Post : Z + A -> S -> Prop) (s : S) : Prop :=
  match m s with
  | None => True
  | Some (res, s') => Post res s'
  end.

(** What a function returned, from its last statement or from an early
    [return]. *)
Definition returned (res : Z + Z) : Z :=
  match res with
  | inl r => r
  | inr r => r
  end.

(** A Hoare triple: from a state in [I], an early return with [e] leaves a
    state in [E e] and a normal end with [a] a state in [Q a]. *)
Definition triple {S A : Type} (I : S -> Prop) (m : Run S A)
    (E : Z -> S -> Prop) (Q : A -> S -> Prop) : Prop :=
  forall s, I s ->
    wp m (fun res s' => match res with inl e => E e s' | inr a => Q a s' end) s.

(** What no URC handler and no exchange with the parser writes. *)
Definition settings (w : World) :=
  (conf_ w, ncpState_ w, prevNcpState_ w,
   (memoryIssuePresent_ w, fwVersion_ w, registrationTimeout_ w, act_ w),
   (powerOnTime_ w, lastWindow_ w, bytesInWindow_ w),
   (serial_enabled w, muxerAtStream_enabled w, powerOff_once w)).

(** From [w] to [w'] the settings stayed, readiness was not gained, a
    Disconnected session stayed Disconnected, the history grew and the
    clock did not go back. *)
Definition parserFrame (w w' : World) : Prop :=
  settings w' = settings w /\
  (ready_ w' = true -> ready_ w = true) /\
  (connState_ w = DISCONNECTED -> connState_ w' = DISCONNECTED) /\
  (exists evs, log w' = evs ++ log w) /\
  clock w <= clock w'.

(** What the boot sequence keeps of a session in state [s0] with the
    configuration [cf]; with [d], also that it is Disconnected. *)
Definition booting (s0 : NcpState) (cf : CellularNcpClientConfig) (d : bool) (w : World) : Prop :=
  ncpState_ w = s0 /\ conf_ w = cf /\ (d = true -> connState_ w = DISCONNECTED).

(** The state after [ncpState(NcpState::ON)]. *)
Definition booted (s0 : NcpState) : NcpState :=
  match s0 with DISABLED => DISABLED | _ => ON end.

(** Whether the session is Disconnected. *)
Definition isDisconnected (w : World) : bool :=
  if NcpConnectionState_eq_dec (connState_ w) DISCONNECTED then true else false.

(** A registration line that tells of a state other than registered (at
    home or roaming), whichever of the two scans converts it. *)
Definition reportsUnregistered (line : UrcLine) : Prop :=
  registrationOf (scan_val (urc_scan_mode line) 0) = NotRegistered /\
  registrationOf (scan_val (urc_scan_plain line) 0) = NotRegistered.

(** No registration line that the parser hands to the URC handlers, be it
    unsolicited or the direct response to a query, tells of a
    registration. *)
Definition unregistered (E : Env) : Prop :=
  forall t evs line,
    In line (reply_urcs (parser_reply E t evs)) -> reportsUnregistered line.

(** The registration state as [registerNet] leaves it: looking for the
    network since now, with no flag raised. *)
Definition registering (w : World) : Prop :=
  ncpState_ w = ON /\ connState_ w = CONNECTING /\
  creg_ w = NotRegistered /\ cgreg_ w = NotRegistered /\ cereg_ w = NotRegistered /\
  registeredTime_ w = 0 /\
  regStartTime_ w = millis w /\ regCheckTime_ w = millis w.

(** The values [getSignalQuality] reports on the R410: an index of the
    RSRP scale and one of the RSRQ scale, or 255 for "not known". *)
Definition rsrpIndex (v : Z) : Prop := 0 <= v <= 97 \/ v = 255.

Definition rsrqIndex (v : Z) : Prop := 0 <= v <= 34 \/ v = 255.


(** The application firmware version and the memory-issue flag, with the
    configuration. *)
Definition firmware (fw : Z) (mip : bool) (cf : CellularNcpClientConfig) (w : World) : Prop :=
  fwVersion_ w = fw /\ memoryIssuePresent_ w = mip /\ conf_ w = cf.

(** The aging guard of [waitForPowerOff]: the time it allows, 20 s from
    the registration or 30 s from power-on, and the time gone by on the
    tick counter since that reference. *)
Definition guardLimit (w : World) : Z :=
  if registeredTime_ w =? 0 then 30000 else 20000.

Definition guardElapsed (w : World) : Z :=
  ticks_since (u32 (clock w))
    (if registeredTime_ w =? 0 then powerOnTime_ w else registeredTime_ w).

(** The reference time [waitForPowerOff] goes by: the registration time
    when it is set, else the power-on time, which it sets to the current
    tick when it is not set. *)
Definition guardReference (w : World) : Z :=
  if registeredTime_ w =? 0
  then (if powerOnTime_ w =? 0 then u32 (clock w) else powerOnTime_ w)
  else registeredTime_ w.

(** The connection state of the latest [ConnectionStateChangedEvent] of a
    history, Disconnected when there is none; the history has the latest
    event first. *)
Fixpoint notifiedConnection (evs : list Event) : NcpConnectionState :=
  match evs with
  | [] => DISCONNECTED
  | ConnectionStateChangedEvent s :: _ => s
  | _ :: evs => notifiedConnection evs
  end.

(** The state of the latest [NcpStateChangedEvent], Off when there is
    none. *)
Fixpoint notifiedNcp (evs : list Event) : NcpState :=
  match evs with
  | [] => OFF
  | NcpStateChangedEvent s :: _ => s
  | _ :: evs => notifiedNcp evs
  end.

(** The NCP state apart from the disabling: while the client is disabled,
    the state [enable] comes back to. *)
Definition standingNcpState (w : World) : NcpState :=
  if NcpState_eq_dec (ncpState_ w) DISABLED then prevNcpState_ w else ncpState_ w.

(** What the event handler is told about and what it heard last. *)
Definition told (w : World) :=
  (conf_ w, connState_ w, ncpState_ w, prevNcpState_ w,
   notifiedConnection (log w), notifiedNcp (log w)).

(** The event handler is up to date: there is one, and the states it was
    notified of last are the connection state and the NCP state of the
    client. *)
Definition informed (w : World) : Prop :=
  eventHandler (conf_ w) = true /\
  notifiedConnection (log w) = connState_ w /\
  notifiedNcp (log w) = standingNcpState w.



Section BootVocabulary.

Variable P : Platform.
Variable H : Headers.
Variable E : Env.
Variable X : Host.

(** The error codes are negative and success is zero, as in
    system_error.h. *)
Definition errorCodes : Prop :=
  SYSTEM_ERROR_NONE P = 0 /\
  SYSTEM_ERROR_INVALID_STATE P < 0 /\
  SYSTEM_ERROR_BAD_DATA P < 0 /\
  SYSTEM_ERROR_AT_NOT_OK P < 0 /\
  SYSTEM_ERROR_AT_RESPONSE_UNEXPECTED P < 0 /\
  SYSTEM_ERROR_UNKNOWN H < 0 /\
  SYSTEM_ERROR_NOT_SUPPORTED H < 0 /\
  SYSTEM_ERROR_TIMEOUT H < 0 /\
  SYSTEM_ERROR_NO_MEMORY H < 0 /\
  SYSTEM_ERROR_INVALID_ARGUMENT H < 0.

(** The values with which the checks of the client return early: what a
    callee returned (negative) or one of the named codes. *)
Definition exitCode (e : Z) : Prop :=
  e < 0 \/ e = SYSTEM_ERROR_INVALID_STATE P \/ e = SYSTEM_ERROR_AT_NOT_OK P \/
  e = SYSTEM_ERROR_AT_RESPONSE_UNEXPECTED P \/ e = SYSTEM_ERROR_UNKNOWN H \/
  e = SYSTEM_ERROR_NO_MEMORY H \/ e = SYSTEM_ERROR_INVALID_ARGUMENT H.

(** [E] holds at every early return with such a value from a state in
    [J]. *)
Definition admits (J : World -> Prop) (E : Z -> Client -> Prop) : Prop :=
  forall e c, J (world c) -> exitCode e -> E e c.

(** [m] keeps the property [J] of the [World], however it ends. *)
Definition inv {A : Type} (J : World -> Prop) (m : Run Client A) : Prop :=
  triple (fun c => J (world c)) m (fun _ c => J (world c)) (fun _ c => J (world c)).

(** [m] keeps the property [J] of the [World] and does not return
    early. *)
Definition keeps {A : Type} (J : World -> Prop) (m : Run Client A) : Prop :=
  forall E : Z -> Client -> Prop,
    triple (fun c => J (world c)) m E (fun _ c => J (world c)).

(** [m] keeps [J] and returns early with the values above only. *)
Definition checks {A : Type} (J : World -> Prop) (m : Run Client A) : Prop :=
  forall E : Z -> Client -> Prop, admits J E ->
    triple (fun c => J (world c)) m E (fun _ c => J (world c)).

(** The configuration is [cf]. *)
Definition configured (cf : CellularNcpClientConfig) (w : World) : Prop := conf_ w = cf.

Arguments configured cf w /.

(** [m] comes to an end from every state in [J], and keeps [J]. *)
Definition total {A : Type} (J : World -> Prop) (m : Run Client A) : Prop :=
  forall c, J (world c) -> exists res c', m c = Some (res, c') /\ J (world c').

(** A property of the [World] that no AT command exchanged with the
    parser, no delay and no report of a parser error can break. *)
Record Stable (J : World -> Prop) : Prop := {
  stable_exchange : forall cmd w, J w -> J (snd (parser_exchange P E (AtCommand cmd) w));
  stable_delay : forall ms w, J w -> J (HAL_Delay_Milliseconds ms w);
  stable_parserError : forall r w, J w -> J (parserError r w);
  stable_clock : forall t w, J w -> J (set_clock t w)
}.

End BootVocabulary.

(** ** Properties *)

Section Properties.

Variable P : Platform.
Variable E : Env.

(** The boot sequence that [on] runs, left open. *)
Variable waitReady : nat -> World -> option (Z * World).

(** The part of the world that the hardware abstraction layer cannot
    change. *)
Definition session (w : World) :=
  (conf_ w, ncpState_ w, prevNcpState_ w, connState_ w,
   (creg_ w, cgreg_ w, cereg_ w), (regStartTime_ w, regCheckTime_ w),
   (memoryIssuePresent_ w, parserError_ w, ready_ w, registrationTimeout_ w),
   (cgi_ w, act_ w, fwVersion_ w, lastWindow_ w, bytesInWindow_ w),
   (serial_enabled w, muxerAtStream_enabled w)).

(** [w'] extends the history of [w]. *)
Definition extends (w w' : World) : Prop := exists evs, log w' = evs ++ log w.

(** *** Vocabulary of the statements *)

(** A client that is Off has no session. *)
Definition offIsDisconnected (w : World) : Prop :=
  ncpState_ w = OFF -> connState_ w = DISCONNECTED.

(** The answer of the multiplexer to the request to open the data channel,
    were it made in [w]. *)
Definition dataChannelOpens (w : World) : Z :=
  muxer_openChannel E (clock w) (MuxOpenChannel UBLOX_NCP_PPP_CHANNEL :: log w).

(** Number of requests to open the data channel in a history. *)
Fixpoint opens (evs : list Event) : nat :=
  match evs with
  | [] => O
  | MuxOpenChannel ch :: r => if ch =? UBLOX_NCP_PPP_CHANNEL then S (opens r) else opens r
  | _ :: r => opens r
  end.

(** The access technology a packet-switched or LTE handler goes by: the
    fourth converted field when there is one, else the current one. *)
Definition reportedRat (sc : Scan) (w : World) : Z :=
  if scan_r sc >=? 4 then s32 (scan_val sc 3) else act_ w.

(** The location/cell pair of the identity. *)
Definition lac_cid (w : World) : Z * Z :=
  (location_area_code (cgi_ w), cell_id (cgi_ w)).

Definition scanned_lac_cid (sc : Scan) : Z * Z :=
  (to_LacType P (scan_val sc 1), to_CidType P (scan_val sc 2)).

(** Whether a handler writes the location/cell pair for a scanned line:
    the circuit-switched handler fills the pair while both fields are
    unset, the packet-switched and LTE handlers go by the family of the
    access technology. *)
Definition identityUpdateDue (prefix : UrcPrefix) (sc : Scan) (w : World) : bool :=
  (scan_r sc >=? 3) &&
  match prefix with
  | URC_CREG =>
    (location_area_code (cgi_ w) =? LacType_max P) && (cell_id (cgi_ w) =? CidType_max P)
  | URC_CGREG => is_gsm_utran_rat P (reportedRat sc w)
  | URC_CEREG => is_lte_rat P (reportedRat sc w)
  end.

(** Whether the 50 ms window that started at [lastWindow_] is over. *)
Definition windowRolledOver (w : World) : bool :=
  ticks_since (millis w) (lastWindow_ w) >=? UBLOX_NCP_R4_WINDOW_SIZE_MS.

(** The byte count a write finds: zero in a new window. *)
Definition bytesCounted (w : World) : Z :=
  if windowRolledOver w then 0 else bytesInWindow_ w.

(** Whether a write is dropped. *)
Definition writeDropped (w : World) : bool :=
  rate_limited P w && (bytesCounted w >=? UBLOX_NCP_R4_BYTES_PER_WINDOW_THRESHOLD).

(** What [writeChannel] returns for a write of [size] bytes made in [w],
    with the flow-control rejection turned into success. *)
Definition writeOutcome (size : Z) (w : World) : Z :=
  let err := muxer_writeChannel E (clock w)
               (MuxWriteChannel UBLOX_NCP_PPP_CHANNEL size :: log w) in
  if err =? GSM0710_ERROR_FLOW_CONTROL P then 0 else err.

(** Bytes handed to the multiplexer on the data channel in a history. *)
Fixpoint bytesWritten (evs : list Event) : Z :=
  match evs with
  | [] => 0
  | MuxWriteChannel _ size :: r => size + bytesWritten r
  | _ :: r => bytesWritten r
  end.

(** Specification side (spec 4.7 and scenario 6): how a reader of the
    stored identity writes the network code, two digits wide when the
    two-digit flag is set and three digits wide otherwise. *)
Definition digit_char (d : Z) : ascii := ascii_of_nat (Z.to_nat (48 + d)).

Fixpoint render_digits (width : nat) (v : Z) : string :=
  match width with
  | O => EmptyString
  | S k => (render_digits k (v / 10) ++ String (digit_char (v mod 10)) EmptyString)%string
  end.

Definition mnc_string (g : CellularGlobalIdentity) : string :=
  render_digits
    (if Z.land (cgi_flags g) (CGI_FLAG_TWO_DIGIT_MNC P) =? 0 then 3 else 2)
    (mobile_network_code g).

Fixpoint all_digits (s : string) : bool :=
  match s with
  | EmptyString => true
  | String c r => match digit_of c with Some _ => all_digits r | None => false end
  end.

(** The events of the power-on pulse, latest first. *)
Definition powerOnPulse (w : World) : list Event :=
  if negb (ncpId w =? PLATFORM_NCP_SARA_R410 P)
  then [GpioWrite UBPWR 1; DelayUs 50; GpioWrite UBPWR 0]
  else [GpioWrite UBPWR 1; DelayMs 150; GpioWrite UBPWR 0].

(** The fields that only the aging guard and the start-up guard write. *)
Definition guardTimers (w : World) := (powerOnTime_ w, registeredTime_ w).

(** The aging guard is bounded as long as one of its two reference times
    is set or can be set: zero doubles as "unset" for both. *)
Definition agingGuardBounded (w : World) : Prop :=
  registeredTime_ w <> 0 \/ powerOnTime_ w <> 0 \/ millis w <> 0.

(** The events of the power-off pulse, latest first. *)
Definition powerOffPulse (w : World) : list Event :=
  if negb (ncpId w =? PLATFORM_NCP_SARA_R410 P)
  then [GpioWrite UBPWR 1; DelayMs 1500; GpioWrite UBPWR 0]
  else [GpioWrite UBPWR 1; DelayMs 1600; GpioWrite UBPWR 0].

(** What the URC handlers and the parser exchanges leave alone. *)
Definition sameNcp (w w' : World) : Prop :=
  ncpState_ w' = ncpState_ w /\ conf_ w' = conf_ w.

(** While the session is Connecting, the last poll happened just now: the
    state in which [processEventsImpl] finds a session that a URC has
    demoted during the same call. *)
Definition justDemoted (w : World) : Prop :=
  connState_ w = CONNECTING -> regCheckTime_ w = millis w.

(** What a URC handler preserves. *)
Definition urcStep (w w' : World) : Prop :=
  sameNcp w w' /\ clock w' = clock w /\ (justDemoted w -> justDemoted w').




(** *** Basic facts *)

Lemma extends_refl w : extends w w.
Proof. exists []. reflexivity. Qed.

Lemma extends_trans w1 w2 w3 : extends w1 w2 -> extends w2 w3 -> extends w1 w3.
Proof.
  intros [e1 H1] [e2 H2]. exists (e2 ++ e1). rewrite H2, H1. now rewrite app_assoc.
Qed.

Lemma extends_emit e w : extends w (emit e w).
Proof. exists [e]. destruct w; reflexivity. Qed.

(** *** setRegistrationTimeout *)

(** C9: for every requested timeout [t], [setRegistrationTimeout t] returns
    0 and leaves [max t 600000] as the registration timeout, which is
    therefore never below the ten-minute default and never below [t];
    nothing else changes. *)
Theorem setRegistrationTimeout_max (t : Z) (w : World) :
  let '(r, w') := setRegistrationTimeout t w in
  r = 0 /\
  registrationTimeout_ w' = Z.max t 600000 /\
  600000 <= registrationTimeout_ w' /\
  t <= registrationTimeout_ w' /\
  w' = set_registrationTimeout (registrationTimeout_ w') w.
Proof.
  destruct w; cbn. unfold REGISTRATION_TIMEOUT.
  repeat split; try lia.
Qed.

(** *** Reconciliation of the registration state *)

Lemma registered_iff (w : World) :
  registered w = true <->
  (creg_ w = Registered /\ cgreg_ w = Registered) \/ cereg_ w = Registered.
Proof.
  unfold registered.
  destruct (creg_ w), (cgreg_ w), (cereg_ w); split; intros H;
    try reflexivity; try discriminate; auto;
    destruct H as [[? ?] | ?]; discriminate.
Qed.

(** C1, as amended: reconciliation leaves a Disconnected session alone,
    hence also the session of a client that is Off, and never changes the
    connection state of a Disabled client; with NcpState = On and the
    session not Disconnected, the session ends up Connected iff (creg and
    cgreg registered) or cereg registered and, when it was Connecting, the
    data channel opened (a failed open leaves it Disconnected and not
    ready); when the condition fails the session ends up Connecting, and a
    demotion from Connected sets the attempt-start and last-poll times to
    now and clears the last-registered time. *)
Theorem checkRegistrationState_reconciles (w : World) :
  let w' := checkRegistrationState E w in
  (registered w = true <->
     (creg_ w = Registered /\ cgreg_ w = Registered) \/ cereg_ w = Registered) /\
  (connState_ w = DISCONNECTED -> w' = w) /\
  (ncpState_ w = OFF -> offIsDisconnected w -> w' = w) /\
  (ncpState_ w = DISABLED -> connState_ w' = connState_ w) /\
  (ncpState_ w = ON -> connState_ w <> DISCONNECTED ->
     (connState_ w' = CONNECTED <->
        registered w = true /\ (connState_ w = CONNECTED \/ dataChannelOpens w = 0)) /\
     (registered w = true -> connState_ w = CONNECTING -> dataChannelOpens w <> 0 ->
        connState_ w' = DISCONNECTED /\ ready_ w' = false) /\
     (registered w = false ->
        connState_ w' = CONNECTING /\
        (connState_ w = CONNECTED ->
           regStartTime_ w' = millis w /\ regCheckTime_ w' = millis w /\
           registeredTime_ w' = 0))).
Proof.
  split; [apply registered_iff|].
  unfold checkRegistrationState, connectionState, dataChannelOpens, millis.
  destruct w as [cf ns pns cs cr cg ce rst rct pot rgt mip pe rdy rto cgi act fw lw biw clk lg se me po].
  cbn. split; [|split; [|split]].
  - intros ->. reflexivity.
  - unfold offIsDisconnected. cbn. intros Hoff Hinv. now rewrite (Hinv Hoff).
  - intros ->. destruct cs; cbn; try reflexivity; destruct (registered _); cbn;
      try reflexivity; destruct mip; reflexivity.
  - intros -> Hcs. destruct cs; [congruence| |]; cbn;
    destruct (registered _) eqn:Hreg; cbn; try destruct mip; cbn;
    try (destruct (muxer_openChannel E clk (MuxOpenChannel UBLOX_NCP_PPP_CHANNEL :: lg) =? 0) eqn:Ho;
          [apply Z.eqb_eq in Ho | apply Z.eqb_neq in Ho]);
    cbn; destruct (eventHandler cf); cbn;
    intuition (try congruence).
Qed.

(** *** The data channel is opened on Connecting -> Connected only *)

Lemma connectionState_opens (state : NcpConnectionState) (w : World) :
  opens (log (connectionState E state w)) =
  match state, ncpState_ w, connState_ w with
  | CONNECTED, DISABLED, _ => opens (log w)
  | CONNECTED, _, CONNECTED => opens (log w)
  | CONNECTED, _, _ => S (opens (log w))
  | _, _, _ => opens (log w)
  end.
Proof.
  unfold connectionState.
  destruct w as [cf ns pns cs cr cg ce rst rct pot rgt mip pe rdy rto cgi act fw lw biw clk lg se me po].
  cbn. destruct state, ns, cs; cbn; try reflexivity;
    try (destruct (eventHandler cf); reflexivity);
    destruct (muxer_openChannel E clk _ =? 0); cbn;
    destruct (eventHandler cf); reflexivity.
Qed.

Lemma connectionState_open_outcome (w : World) :
  ncpState_ w <> DISABLED -> connState_ w <> CONNECTED ->
  let w' := connectionState E CONNECTED w in
  (dataChannelOpens w = 0 -> connState_ w' = CONNECTED /\ ready_ w' = ready_ w) /\
  (dataChannelOpens w <> 0 -> connState_ w' = DISCONNECTED /\ ready_ w' = false).
Proof.
  unfold connectionState, dataChannelOpens.
  destruct w as [cf ns pns cs cr cg ce rst rct pot rgt mip pe rdy rto cgi act fw lw biw clk lg se me po].
  cbn. intros Hns Hcs.
  destruct (NcpState_eq_dec ns DISABLED); [congruence|].
  destruct (NcpConnectionState_eq_dec cs CONNECTED); [congruence|]. cbn.
  destruct (muxer_openChannel E clk _ =? 0) eqn:Ho;
    [apply Z.eqb_eq in Ho | apply Z.eqb_neq in Ho];
    cbn; destruct (eventHandler cf); cbn; intuition congruence.
Qed.

Lemma checkRegistrationState_opens (w : World) :
  opens (log (checkRegistrationState E w)) <> opens (log w) ->
  connState_ w = CONNECTING /\ ncpState_ w <> DISABLED /\ registered w = true.
Proof.
  unfold checkRegistrationState.
  destruct (connState_ w) eqn:Hcs; [congruence| |];
    destruct (registered w) eqn:Hreg.
  - destruct (memoryIssuePresent_ w); cbn; rewrite connectionState_opens;
      destruct w; cbn in *; subst; destruct ncpState_0; cbn; intuition congruence.
  - destruct (NcpConnectionState_eq_dec CONNECTING CONNECTED); congruence.
  - destruct (memoryIssuePresent_ w); cbn; rewrite connectionState_opens;
      destruct w; cbn in *; subst; destruct ncpState_0; cbn; intuition congruence.
  - destruct (NcpConnectionState_eq_dec CONNECTED CONNECTED); [|congruence].
    destruct w; cbn in *; subst. unfold connectionState; cbn.
    destruct ncpState_0; cbn; try congruence; destruct (eventHandler conf_0); cbn; congruence.
Qed.

Lemma ncpState_opens (state : NcpState) (w : World) :
  opens (log (ncpState E state w)) = opens (log w).
Proof.
  unfold ncpState.
  destruct (NcpState_eq_dec (ncpState_ w) DISABLED); [reflexivity|].
  set (w1 := if NcpState_eq_dec state OFF then _ else w).
  assert (H1 : opens (log w1) = opens (log w)).
  { subst w1. destruct (NcpState_eq_dec state OFF); [|reflexivity].
    rewrite connectionState_opens. destruct w; reflexivity. }
  destruct (NcpState_eq_dec (ncpState_ w1) state); [exact H1|].
  destruct w1; cbn in *. destruct (eventHandler conf_0); cbn; exact H1.
Qed.

Lemma muxChannelStateCb_opens (channel : Z) (closed : bool) (w : World) :
  opens (log (snd (muxChannelStateCb E channel closed w))) = opens (log w).
Proof.
  unfold muxChannelStateCb.
  destruct closed; [|reflexivity].
  destruct (channel =? 0); [destruct w; cbn; unfold disable; cbn; destruct ncpState_0; reflexivity|].
  destruct (channel =? UBLOX_NCP_PPP_CHANNEL); [|reflexivity].
  destruct (connState_ w); cbn; try reflexivity; apply connectionState_opens.
Qed.

(** C6: a call of [connectionState] asks the multiplexer to open the data
    channel exactly when it is a transition to Connected of a client that
    is not Disabled; [checkRegistrationState], the one caller that asks for
    Connected, does so from Connecting only; [ncpState] and the channel
    state callback never open it.  When the open fails on such a
    transition the session is left Disconnected with the readiness flag
    cleared, and when it succeeds the session is Connected. *)
Theorem dataChannel_opened_on_connect_only (w : World) :
  (forall state,
     opens (log (connectionState E state w)) =
     match state, ncpState_ w, connState_ w with
     | CONNECTED, DISABLED, _ => opens (log w)
     | CONNECTED, _, CONNECTED => opens (log w)
     | CONNECTED, _, _ => S (opens (log w))
     | _, _, _ => opens (log w)
     end) /\
  (opens (log (checkRegistrationState E w)) <> opens (log w) ->
     connState_ w = CONNECTING /\ ncpState_ w <> DISABLED /\ registered w = true) /\
  (forall state, opens (log (ncpState E state w)) = opens (log w)) /\
  (forall channel closed,
     opens (log (snd (muxChannelStateCb E channel closed w))) = opens (log w)) /\
  (ncpState_ w <> DISABLED -> connState_ w = CONNECTING ->
     let w' := connectionState E CONNECTED w in
     (dataChannelOpens w = 0 -> connState_ w' = CONNECTED /\ ready_ w' = ready_ w) /\
     (dataChannelOpens w <> 0 -> connState_ w' = DISCONNECTED /\ ready_ w' = false)).
Proof.
  split; [intros; apply connectionState_opens|].
  split; [apply checkRegistrationState_opens|].
  split; [intros; apply ncpState_opens|].
  split; [intros; apply muxChannelStateCb_opens|].
  intros Hns Hcs. apply connectionState_open_outcome; congruence.
Qed.

(** *** Identity fields written by the registration handlers *)

Lemma connectionState_identity (state : NcpConnectionState) (w : World) :
  cgi_ (connectionState E state w) = cgi_ w /\ act_ (connectionState E state w) = act_ w.
Proof.
  unfold connectionState.
  destruct w as [cf ns pns cs cr cg ce rst rct pot rgt mip pe rdy rto cgi act fw lw biw clk lg se me po].
  cbn. destruct (NcpState_eq_dec ns DISABLED); [auto|].
  destruct (NcpConnectionState_eq_dec cs state); [auto|]. cbn.
  destruct (NcpConnectionState_eq_dec state CONNECTED); cbn;
    [destruct (negb _); cbn|]; destruct (eventHandler cf); cbn; auto.
Qed.

Lemma checkRegistrationState_identity (w : World) :
  cgi_ (checkRegistrationState E w) = cgi_ w /\ act_ (checkRegistrationState E w) = act_ w.
Proof.
  unfold checkRegistrationState.
  destruct (connState_ w) eqn:Hcs; [auto| |];
    destruct (registered w).
  - destruct (_ && _);
      match goal with |- context [connectionState E CONNECTED ?x] =>
        destruct (connectionState_identity CONNECTED x) as [H1 H2]; rewrite H1, H2 end;
      destruct w; auto.
  - destruct (NcpConnectionState_eq_dec _ _); [discriminate|auto].
  - destruct (_ && _);
      match goal with |- context [connectionState E CONNECTED ?x] =>
        destruct (connectionState_identity CONNECTED x) as [H1 H2]; rewrite H1, H2 end;
      destruct w; auto.
  - destruct (NcpConnectionState_eq_dec _ _); [|auto].
    destruct (connectionState_identity CONNECTING w) as [H1 H2].
    destruct (connectionState E CONNECTING w); cbn in *; auto.
Qed.

Lemma scanRegistrationLine_identity (line : UrcLine) (w w1 : World) (res : Z + Scan) :
  scanRegistrationLine line w = (w1, res) ->
  cgi_ w1 = cgi_ w /\ act_ w1 = act_ w.
Proof.
  unfold scanRegistrationLine, parserError.
  destruct (urc_readLine line <? 0).
  - intros H; injection H as <- _; destruct w; auto.
  - destruct (0 >=? _).
    + destruct (_ <? 0); intros H; injection H as <- _; destruct w; auto.
    + intros H; injection H as <- _; auto.
Qed.

#[local] Arguments is_gsm_utran_rat : simpl never.
#[local] Arguments is_lte_rat : simpl never.

Lemma urc_CREG_identity (line : UrcLine) (w w1 : World) (sc : Scan) :
  scanRegistrationLine line w = (w1, inr sc) ->
  let w' := snd (urc_CREG P E line w) in
  lac_cid w' =
    (if (scan_r sc >=? 3) &&
        ((location_area_code (cgi_ w) =? LacType_max P) &&
         (cell_id (cgi_ w) =? CidType_max P))
     then scanned_lac_cid sc else lac_cid w) /\
  cgi_flags (cgi_ w') = cgi_flags (cgi_ w) /\
  mobile_country_code (cgi_ w') = mobile_country_code (cgi_ w) /\
  mobile_network_code (cgi_ w') = mobile_network_code (cgi_ w).
Proof.
  intros Hs. unfold urc_CREG. rewrite Hs.
  destruct (scanRegistrationLine_identity _ _ _ _ Hs) as [Hc Ha].
  unfold lac_cid, scanned_lac_cid. rewrite <- Hc.
  destruct (scan_r sc >=? 1) eqn:H1; cbn.
  - match goal with |- context [checkRegistrationState E ?x] =>
      destruct (checkRegistrationState_identity x) as [Hc2 Ha2];
      set (w2 := checkRegistrationState E x) in * end.
    assert (Hc3 : cgi_ w2 = cgi_ w1) by (rewrite Hc2; destruct w1; reflexivity).
    clearbody w2. rewrite Hc3.
    destruct (scan_r sc >=? 3); cbn; [|rewrite Hc3; auto].
    destruct (_ && _); cbn; [|rewrite Hc3; auto].
    unfold set_lac_cid. rewrite Hc3. destruct w2; cbn. auto.
  - assert ((scan_r sc >=? 3) = false) as -> by lia. cbn. auto.
Qed.

Lemma urc_CGREG_identity (line : UrcLine) (w w1 : World) (sc : Scan) :
  scanRegistrationLine line w = (w1, inr sc) ->
  let w' := snd (urc_CGREG P E line w) in
  lac_cid w' =
    (if (scan_r sc >=? 3) && is_gsm_utran_rat P (reportedRat sc w)
     then scanned_lac_cid sc else lac_cid w) /\
  cgi_flags (cgi_ w') = cgi_flags (cgi_ w) /\
  mobile_country_code (cgi_ w') = mobile_country_code (cgi_ w) /\
  mobile_network_code (cgi_ w') = mobile_network_code (cgi_ w).
Proof.
  intros Hs. unfold urc_CGREG. rewrite Hs.
  destruct (scanRegistrationLine_identity _ _ _ _ Hs) as [Hc Ha].
  unfold lac_cid, scanned_lac_cid, reportedRat. rewrite <- Hc, <- Ha.
  destruct (scan_r sc >=? 1) eqn:H1; cbn.
  - match goal with |- context [checkRegistrationState E ?x] =>
      destruct (checkRegistrationState_identity x) as [Hc2 Ha2];
      set (w2 := checkRegistrationState E x) in * end.
    assert (Hc3 : cgi_ w2 = cgi_ w1) by (rewrite Hc2; destruct w1; reflexivity).
    assert (Ha3 : act_ w2 = act_ w1) by (rewrite Ha2; destruct w1; reflexivity).
    clearbody w2. rewrite Ha3.
    destruct (scan_r sc >=? 3); cbn; [|rewrite Hc3; auto].
    destruct (is_gsm_utran_rat _ _); cbn; [|rewrite Hc3; auto].
    unfold set_lac_cid. rewrite Hc3. destruct w2; cbn. auto.
  - assert ((scan_r sc >=? 3) = false) as -> by lia. cbn. auto.
Qed.

Lemma urc_CEREG_identity (line : UrcLine) (w w1 : World) (sc : Scan) :
  scanRegistrationLine line w = (w1, inr sc) ->
  let w' := snd (urc_CEREG P E line w) in
  lac_cid w' =
    (if (scan_r sc >=? 3) && is_lte_rat P (reportedRat sc w)
     then scanned_lac_cid sc else lac_cid w) /\
  cgi_flags (cgi_ w') = cgi_flags (cgi_ w) /\
  mobile_country_code (cgi_ w') = mobile_country_code (cgi_ w) /\
  mobile_network_code (cgi_ w') = mobile_network_code (cgi_ w).
Proof.
  intros Hs. unfold urc_CEREG. rewrite Hs.
  destruct (scanRegistrationLine_identity _ _ _ _ Hs) as [Hc Ha].
  unfold lac_cid, scanned_lac_cid, reportedRat. rewrite <- Hc, <- Ha.
  destruct (scan_r sc >=? 1) eqn:H1; cbn.
  - match goal with |- context [checkRegistrationState E ?x] =>
      destruct (checkRegistrationState_identity x) as [Hc2 Ha2];
      set (w2 := checkRegistrationState E x) in * end.
    assert (Hc3 : cgi_ w2 = cgi_ w1) by (rewrite Hc2; destruct w1; reflexivity).
    assert (Ha3 : act_ w2 = act_ w1) by (rewrite Ha2; destruct w1; reflexivity).
    clearbody w2. rewrite Ha3.
    destruct (scan_r sc >=? 3); cbn; [|rewrite Hc3; auto].
    destruct (is_lte_rat _ _); cbn; [|rewrite Hc3; auto].
    unfold set_lac_cid. rewrite Hc3. destruct w2; cbn. auto.
  - assert ((scan_r sc >=? 3) = false) as -> by lia. cbn. auto.
Qed.

Lemma urc_failed_scan_identity (line : UrcLine) (w w1 : World) (e : Z) :
  scanRegistrationLine line w = (w1, inl e) ->
  cgi_ (snd (urcHandler P E line w)) = cgi_ w.
Proof.
  intros Hs. destruct (scanRegistrationLine_identity _ _ _ _ Hs) as [Hc _].
  unfold urcHandler, urc_CREG, urc_CGREG, urc_CEREG.
  destruct (urc_prefix line); rewrite Hs; exact Hc.
Qed.

(** C2, as amended: a registration handler touches no identity field other
    than the location/cell pair, and not even those when the line cannot be
    read or scanned, or fewer than three fields were converted.  The +CREG
    handler writes the pair only while both fields still hold the unset
    sentinel, whatever access technology is reported; the +CGREG and +CEREG
    handlers write the pair whenever the access technology (the reported
    one, else the current one) belongs to their own family, whether or not
    the fields were set before, and leave it alone for any other
    technology.  What is written is the scanned pair, cast to the field
    types. *)
Theorem registration_urc_identity_updates (line : UrcLine) (w : World) :
  let w' := snd (urcHandler P E line w) in
  (forall w1 e, scanRegistrationLine line w = (w1, inl e) -> cgi_ w' = cgi_ w) /\
  (forall w1 sc, scanRegistrationLine line w = (w1, inr sc) ->
     lac_cid w' =
       (if identityUpdateDue (urc_prefix line) sc w then scanned_lac_cid sc else lac_cid w) /\
     cgi_flags (cgi_ w') = cgi_flags (cgi_ w) /\
     mobile_country_code (cgi_ w') = mobile_country_code (cgi_ w) /\
     mobile_network_code (cgi_ w') = mobile_network_code (cgi_ w)).
Proof.
  split.
  - intros w1 e Hs. exact (urc_failed_scan_identity _ _ _ _ Hs).
  - intros w1 sc Hs. unfold urcHandler, identityUpdateDue.
    destruct (urc_prefix line).
    + exact (urc_CREG_identity _ _ _ _ Hs).
    + exact (urc_CGREG_identity _ _ _ _ Hs).
    + exact (urc_CEREG_identity _ _ _ _ Hs).
Qed.

(** *** The write window of the data channel *)

(** C4, as amended: on the rate-limited chip family and firmware range a
    write is dropped, whole, exactly when the byte count of the current 50
    ms window has already reached 512 when the write arrives; a dropped
    write returns 0 and hands nothing to the multiplexer.  Every other
    write is handed to the multiplexer whole, also when it takes the count
    past 512; the count then grows by its size and, once it reaches 512,
    the window restarts at the time of that write.  A write that arrives 50
    ms or more after the window started finds the count at zero and is
    accepted.  A write that is handed over returns the multiplexer's result
    (0 for a flow-control rejection), and any other result disables the
    client. *)
Theorem dataChannelWrite_window (id size : Z) (w : World) :
  let r := fst (dataChannelWrite P E id size w) in
  let w' := snd (dataChannelWrite P E id size w) in
  (writeDropped w = true ->
     r = 0 /\ log w' = log w /\ ncpState_ w' = ncpState_ w /\
     bytesInWindow_ w' = bytesCounted w) /\
  (writeDropped w = false ->
     log w' = MuxWriteChannel UBLOX_NCP_PPP_CHANNEL size :: log w /\
     r = writeOutcome size w /\
     (r <> 0 -> ncpState_ w' = DISABLED) /\
     (rate_limited P w = true ->
        bytesInWindow_ w' = u32 (bytesCounted w + size) /\
        (bytesInWindow_ w' >= UBLOX_NCP_R4_BYTES_PER_WINDOW_THRESHOLD ->
           lastWindow_ w' = millis w))) /\
  (rate_limited P w = true -> windowRolledOver w = true -> writeDropped w = false).
Proof.
  unfold dataChannelWrite, writeDropped, bytesCounted, windowRolledOver, writeOutcome,
    rate_limited, ncpId, disable, millis.
  destruct w as [cf ns pns cs cr cg ce rst rct pot rgt mip pe rdy rto cgi act fw lw biw clk lg se me po].
  cbn.
  destruct ((ncpIdentifier cf =? PLATFORM_NCP_SARA_R410 P) &&
            (fw <=? UBLOX_NCP_R4_APP_FW_VERSION_NO_HW_FLOW_CONTROL_MAX)) eqn:Hlim; cbn;
  repeat (match goal with
          | |- context [if ?c then _ else _] => destruct c eqn:?
          end; cbn in *; rewrite ?Hlim in *; cbn in *).
  all: repeat split; intros; try reflexivity; try discriminate; try congruence; try lia.
Qed.

(** *** Digit count of the mobile network code *)

Lemma land_lor_same (a b : Z) : Z.land (Z.lor a b) b = b.
Proof.
  apply Z.bits_inj'. intros n Hn.
  rewrite Z.land_spec, Z.lor_spec.
  destruct (Z.testbit a n), (Z.testbit b n); reflexivity.
Qed.

Lemma land_lnot_same (a b : Z) : Z.land (Z.land a (Z.lnot b)) b = 0.
Proof.
  apply Z.bits_inj'. intros n Hn.
  rewrite !Z.land_spec, Z.lnot_spec, Z.bits_0 by assumption.
  destruct (Z.testbit a n), (Z.testbit b n); reflexivity.
Qed.

Lemma digit_of_spec (c : ascii) (d : Z) :
  digit_of c = Some d ->
  0 <= d <= 9 /\ digit_char d = c /\
  forall r, atoi (String c r) = atoi_digits (String c r) 0.
Proof.
  destruct c as [[] [] [] [] [] [] [] []]; cbv [digit_of]; cbn;
    intros H; try discriminate; injection H as <-;
    (split; [lia | split; [reflexivity | intros r; reflexivity]]).
Qed.

Lemma mnc_two_digits_roundtrip (s : string) :
  all_digits s = true -> String.length s = 2%nat ->
  0 <= atoi s < 100 /\ render_digits 2 (atoi s) = s.
Proof.
  destruct s as [|c1 [|c2 [|c3 s]]]; try discriminate. cbn [all_digits].
  destruct (digit_of c1) as [d1|] eqn:H1; [|discriminate].
  destruct (digit_of c2) as [d2|] eqn:H2; [|discriminate].
  intros _ _.
  destruct (digit_of_spec _ _ H1) as (B1 & C1 & A1).
  destruct (digit_of_spec _ _ H2) as (B2 & C2 & _).
  rewrite A1. cbn [atoi_digits]. rewrite H1, H2.
  replace (10 * (10 * 0 + d1) + d2) with (d2 + d1 * 10) by lia.
  split; [lia|]. cbn [render_digits].
  rewrite Z.mod_add, Z.div_add by lia.
  rewrite (Z.mod_small d2), (Z.div_small d2), Z.add_0_l, (Z.mod_small d1) by lia.
  rewrite C1, C2. reflexivity.
Qed.

Lemma mnc_three_digits_roundtrip (s : string) :
  all_digits s = true -> String.length s = 3%nat ->
  0 <= atoi s < 1000 /\ render_digits 3 (atoi s) = s.
Proof.
  destruct s as [|c1 [|c2 [|c3 [|c4 s]]]]; try discriminate. cbn [all_digits].
  destruct (digit_of c1) as [d1|] eqn:H1; [|discriminate].
  destruct (digit_of c2) as [d2|] eqn:H2; [|discriminate].
  destruct (digit_of c3) as [d3|] eqn:H3; [|discriminate].
  intros _ _.
  destruct (digit_of_spec _ _ H1) as (B1 & C1 & A1).
  destruct (digit_of_spec _ _ H2) as (B2 & C2 & _).
  destruct (digit_of_spec _ _ H3) as (B3 & C3 & _).
  rewrite A1. cbn [atoi_digits]. rewrite H1, H2, H3.
  replace (10 * (10 * (10 * 0 + d1) + d2) + d3) with (d3 + (d2 + d1 * 10) * 10) by lia.
  split; [lia|]. cbn [render_digits].
  rewrite Z.mod_add, Z.div_add by lia.
  rewrite (Z.mod_small d3), (Z.div_small d3), Z.add_0_l by lia.
  rewrite Z.mod_add, Z.div_add by lia.
  rewrite (Z.mod_small d2), (Z.div_small d2), Z.add_0_l, (Z.mod_small d1) by lia.
  rewrite C1, C2, C3. reflexivity.
Qed.

#[local] Arguments is_known_act : simpl never.

(** C8: when the operator query gets as far as the digit check (both
    exchanges answered OK, three fields converted), a two-digit network
    code string sets the two-digit flag and a three-digit string clears it,
    the code is stored with its decimal value, and any other length makes
    the query fail with bad-data before anything of the identity is
    written.  So the digit string can be read back from the identity: for a
    string of two or three digits, writing the stored code two or three
    digits wide, as the flag says, gives the string again (08 stays 08,
    260 stays 260).  With a known access technology the query then returns
    success. *)
Theorem queryAndParseAtCops_mnc_digits (qual : option Z) (w : World) :
  let r1 := fst (execCommand P E "AT+COPS=3,2" w) in
  let w1 := snd (execCommand P E "AT+COPS=3,2" w) in
  let resp := fst (parser_exchange P E (AtCommand "AT+COPS?") w1) in
  let w2 := snd (parser_exchange P E (AtCommand "AT+COPS?") w1) in
  let mnc := nth 1 (reply_strs resp) EmptyString in
  let act := nth 0 (reply_ints resp) 0 in
  let r := fst (fst (queryAndParseAtCops P E qual w)) in
  let w' := snd (queryAndParseAtCops P E qual w) in
  0 <= r1 -> r1 = AtResponse_OK P ->
  reply_scanf resp = 3 ->
  0 <= reply_result resp -> reply_result resp = AtResponse_OK P ->
  (String.length mnc = 2%nat ->
     Z.land (cgi_flags (cgi_ w')) (CGI_FLAG_TWO_DIGIT_MNC P) = CGI_FLAG_TWO_DIGIT_MNC P /\
     mobile_network_code (cgi_ w') = u16 (atoi mnc)) /\
  (String.length mnc = 3%nat ->
     Z.land (cgi_flags (cgi_ w')) (CGI_FLAG_TWO_DIGIT_MNC P) = 0 /\
     mobile_network_code (cgi_ w') = u16 (atoi mnc)) /\
  (String.length mnc <> 2%nat -> String.length mnc <> 3%nat ->
     r = SYSTEM_ERROR_BAD_DATA P /\ w' = w2) /\
  (CGI_FLAG_TWO_DIGIT_MNC P <> 0 -> all_digits mnc = true ->
     String.length mnc = 2%nat \/ String.length mnc = 3%nat ->
     mnc_string (cgi_ w') = mnc) /\
  (String.length mnc = 2%nat \/ String.length mnc = 3%nat ->
     is_known_act P
       (if (ncpId w2 =? PLATFORM_NCP_SARA_R410 P) && (act =? ACT_LTE P)
        then ACT_LTE_CAT_M1 P else act) = true ->
     r = SYSTEM_ERROR_NONE P).
Proof.
  unfold queryAndParseAtCops.
  destruct (execCommand P E "AT+COPS=3,2" w) as [r1 w1]. cbn [fst snd].
  destruct (parser_exchange P E (AtCommand "AT+COPS?") w1) as [resp w2]. cbn [fst snd].
  intros H1 H1' Hs H2 H2'.
  assert ((r1 <? 0) = false) as -> by lia.
  assert ((r1 =? AtResponse_OK P) = true) as -> by lia.
  assert ((reply_scanf resp <? 0) = false) as -> by lia.
  assert ((reply_scanf resp =? 3) = true) as -> by lia.
  assert ((reply_result resp <? 0) = false) as -> by lia.
  assert ((reply_result resp =? AtResponse_OK P) = true) as -> by lia.
  cbn [negb].
  set (mnc := nth 1 (reply_strs resp) EmptyString).
  set (mcc := nth 0 (reply_strs resp) EmptyString).
  unfold strnlen, ncpId, mnc_string.
  destruct w2 as [cf ns pns cs cr cg ce rst rct pot rgt mip pe rdy rto cgi act fw lw biw clk lg se me po].
  assert (Hlen : String.length mnc = 2%nat \/ String.length mnc = 3%nat \/
                 (String.length mnc <> 2%nat /\ String.length mnc <> 3%nat)) by lia.
  destruct Hlen as [L | [L | [L2 L3]]].
  - rewrite L. cbn -[Z.land Z.lor Z.lnot atoi u16 is_known_act].
    destruct (is_known_act P _) eqn:Hk; cbn -[Z.land Z.lor Z.lnot atoi u16 is_known_act];
      (split; [intros _; split; [apply land_lor_same | reflexivity]|]);
      (split; [intros; lia|]); (split; [intros; lia|]);
      (split; [| intros; congruence]);
      intros HF Hd _; rewrite land_lor_same;
      destruct (Z.eqb_spec (CGI_FLAG_TWO_DIGIT_MNC P) 0); [contradiction| |contradiction|];
      destruct (mnc_two_digits_roundtrip mnc Hd L) as [Hb Hr];
      unfold u16; rewrite Z.mod_small by lia; exact Hr.
  - rewrite L. cbn -[Z.land Z.lor Z.lnot atoi u16 is_known_act].
    destruct (is_known_act P _) eqn:Hk; cbn -[Z.land Z.lor Z.lnot atoi u16 is_known_act];
      (split; [intros; lia|]);
      (split; [intros _; split; [apply land_lnot_same | reflexivity]|]);
      (split; [intros; lia|]);
      (split; [| intros; congruence]);
      intros HF Hd _; rewrite land_lnot_same; cbn [Z.eqb];
      destruct (mnc_three_digits_roundtrip mnc Hd L) as [Hb Hr];
      unfold u16; rewrite Z.mod_small by lia; exact Hr.
  - assert (((2 =? Z.min (Z.of_nat (String.length mnc)) 4) ||
             (3 =? Z.min (Z.of_nat (String.length mnc)) 4)) = false) as -> by lia.
    cbn. repeat split; intros; try lia; try congruence.
Qed.

(** *** Power sequencer *)

Lemma session_HAL_GPIO_Write pin v w : session (HAL_GPIO_Write pin v w) = session w.
Proof. destruct w; reflexivity. Qed.

Lemma session_HAL_Delay_Milliseconds ms w : session (HAL_Delay_Milliseconds ms w) = session w.
Proof. destruct w; reflexivity. Qed.

Lemma session_HAL_Delay_Microseconds us w : session (HAL_Delay_Microseconds us w) = session w.
Proof. destruct w; reflexivity. Qed.

Lemma session_set_powerOnTime v w : session (set_powerOnTime v w) = session w.
Proof. destruct w; reflexivity. Qed.

Lemma session_set_registeredTime v w : session (set_registeredTime v w) = session w.
Proof. destruct w; reflexivity. Qed.

Lemma session_set_powerOff_once v w : session (set_powerOff_once v w) = session w.
Proof. destruct w; reflexivity. Qed.

Lemma session_muxer_stop w : session (muxer_stop w) = session w.
Proof. destruct w; reflexivity. Qed.

Lemma extends_HAL_GPIO_Write pin v w : extends w (HAL_GPIO_Write pin v w).
Proof. apply extends_emit. Qed.

Lemma extends_HAL_Delay_Milliseconds ms w : extends w (HAL_Delay_Milliseconds ms w).
Proof. exists [DelayMs ms]. destruct w; reflexivity. Qed.

Lemma repeat_shift {A} (x : A) (k : nat) (l : list A) :
  repeat x k ++ x :: l = x :: repeat x k ++ l.
Proof. induction k as [|k IH]; cbn; [reflexivity | now rewrite IH]. Qed.

(** The polling loop reads the input at most [n] times, waits 100 ms after
    each read that misses the target, and stops early only on the target. *)
Lemma pollPowerState_spec (target : bool) (n : nat) (w : World) :
  exists k : nat,
    (k <= n)%nat /\
    log (pollPowerState E target n w) = repeat (DelayMs 100) k ++ log w /\
    clock (pollPowerState E target n w) = clock w + 100 * Z.of_nat k /\
    session (pollPowerState E target n w) = session w /\
    ((k < n)%nat -> modemPowerState E (pollPowerState E target n w) = target).
Proof.
  revert w. induction n as [|n IH]; intros w; cbn [pollPowerState].
  - exists O. repeat split; try reflexivity; try lia.
  - destruct (Bool.eqb (modemPowerState E w) target) eqn:Hp.
    + exists O. repeat split; try reflexivity; try lia.
      intros _. now apply Bool.eqb_prop.
    + destruct (IH (HAL_Delay_Milliseconds 100 w)) as (k & Hk & Hl & Hc & Hs & Ht).
      exists (S k). split; [lia|]. split; [|split; [|split]].
      * rewrite Hl. destruct w; cbn. apply repeat_shift.
      * rewrite Hc, Nat2Z.inj_succ. destruct w.
        unfold HAL_Delay_Milliseconds, emit, set_clock, set_log, clock, log. lia.
      * rewrite Hs. apply session_HAL_Delay_Milliseconds.
      * intros Hlt. apply Ht. lia.
Qed.

Lemma modemPowerOn_already_on (w : World) :
  modemPowerState E w = true -> modemPowerOn P E w = (0, w).
Proof. unfold modemPowerOn. intros H. rewrite H. cbn [negb]. rewrite H. reflexivity. Qed.

Lemma powerOnSequence_spec (w : World) :
  session (powerOnSequence P w) = session w /\
  log (powerOnSequence P w) = powerOnPulse w ++ log w.
Proof.
  unfold powerOnSequence, powerOnPulse.
  destruct (negb (ncpId w =? PLATFORM_NCP_SARA_R410 P)); destruct w; auto.
Qed.

Lemma modemPowerOn_outcome (w : World) :
  let w' := snd (modemPowerOn P E w) in
  fst (modemPowerOn P E w) =
    (if modemPowerState E w' then 0 else SYSTEM_ERROR_INVALID_STATE P) /\
  session w' = session w.
Proof.
  unfold modemPowerOn.
  set (w1 := if negb (modemPowerState E w) then _ else w).
  assert (Hs : session w1 = session w).
  { subst w1. destruct (negb (modemPowerState E w)); [|reflexivity].
    destruct (pollPowerState_spec true 10 (powerOnSequence P w)) as (k & _ & _ & _ & Hs & _).
    rewrite Hs. apply powerOnSequence_spec. }
  clearbody w1. destruct (modemPowerState E w1) eqn:Hp; cbn; rewrite ?Hp; auto.
Qed.

Lemma modemPowerOn_pulse (w : World) :
  modemPowerState E w = false ->
  let w' := snd (modemPowerOn P E w) in
  exists k : nat,
    (k <= 10)%nat /\
    log w' = repeat (DelayMs 100) k ++ powerOnPulse w ++ log w /\
    ((k < 10)%nat -> modemPowerState E w' = true).
Proof.
  unfold modemPowerOn. intros ->. cbn [negb].
  destruct (pollPowerState_spec true 10 (powerOnSequence P w)) as (k & Hk & Hl & _ & _ & Ht).
  set (w1 := pollPowerState E true 10 (powerOnSequence P w)) in *.
  assert (Hw : snd (if negb (modemPowerState E w1)
                    then (SYSTEM_ERROR_INVALID_STATE P, w1) else (0, w1)) = w1)
    by (destruct (negb (modemPowerState E w1)); reflexivity).
  cbn zeta. rewrite Hw. exists k. split; [exact Hk|]. split; [|exact Ht].
  rewrite Hl. f_equal. apply powerOnSequence_spec.
Qed.

Lemma session_fields (w w' : World) :
  session w' = session w ->
  ncpId w' = ncpId w /\ ncpState_ w' = ncpState_ w /\ prevNcpState_ w' = prevNcpState_ w /\
  connState_ w' = connState_ w /\ ready_ w' = ready_ w /\
  memoryIssuePresent_ w' = memoryIssuePresent_ w /\
  regStartTime_ w' = regStartTime_ w /\ regCheckTime_ w' = regCheckTime_ w /\
  registrationTimeout_ w' = registrationTimeout_ w /\
  serial_enabled w' = serial_enabled w /\
  muxerAtStream_enabled w' = muxerAtStream_enabled w /\
  conf_ w' = conf_ w.
Proof.
  unfold session, ncpId. intros H. injection H. intros.
  repeat split; congruence.
Qed.

Lemma session_ncpId (w w' : World) : session w' = session w -> ncpId w' = ncpId w.
Proof. intros H. apply (session_fields _ _ H). Qed.

Lemma waitForPowerOff_loop_frame (fuel : nat) (w w' : World) :
  waitForPowerOff_loop E fuel w = Some w' ->
  session w' = session w /\ extends w w' /\ guardTimers w' = guardTimers w /\
  powerOff_once w' = powerOff_once w.
Proof.
  revert w. induction fuel as [|fuel IH]; intros w; cbn [waitForPowerOff_loop]; [discriminate|].
  destruct (if negb (registeredTime_ w =? 0) then _ else _).
  - intros [= <-]. repeat split; auto using extends_refl.
  - destruct (modemPowerState E (HAL_Delay_Milliseconds 100 w)).
    + intros H. destruct (IH _ H) as (Hs & He & Hg & Ho).
      rewrite Hs, Hg, Ho. repeat split; try (destruct w; reflexivity).
      eapply extends_trans; [apply extends_HAL_Delay_Milliseconds | exact He].
    + intros [= <-]. repeat split; try (destruct w; reflexivity).
      apply extends_HAL_Delay_Milliseconds.
Qed.

Lemma waitForPowerOff_frame (fuel : nat) (w w' : World) :
  waitForPowerOff E fuel w = Some w' ->
  session w' = session w /\ extends w w' /\ powerOff_once w' = powerOff_once w.
Proof.
  unfold waitForPowerOff.
  set (w0 := if powerOnTime_ w =? 0 then _ else w).
  assert (H0 : session w0 = session w /\ log w0 = log w /\ powerOff_once w0 = powerOff_once w).
  { subst w0. destruct (powerOnTime_ w =? 0); destruct w; auto. }
  clearbody w0. destruct H0 as (Hs0 & Hl0 & Ho0).
  destruct (waitForPowerOff_loop E fuel w0) as [w1|] eqn:Hloop; [|discriminate].
  intros [= <-]. destruct (waitForPowerOff_loop_frame _ _ _ Hloop) as (Hs & [evs He] & _ & Ho).
  rewrite <- Hs0, <- Hs, <- Ho0, <- Ho. repeat split; try (destruct w1; reflexivity).
  exists evs. rewrite <- Hl0, <- He. destruct w1; reflexivity.
Qed.

Lemma ticks_after_delay (c t : Z) :
  ticks_since (u32 c) t + 100 < 2 ^ 32 ->
  ticks_since (u32 (c + 100)) t = ticks_since (u32 c) t + 100.
Proof.
  unfold ticks_since, u32. intros H.
  rewrite !Zminus_mod_idemp_l in *.
  replace (c + 100 - t) with ((c - t) + 100) by lia.
  rewrite <- Zplus_mod_idemp_l. apply Z.mod_small.
  pose proof (Z.mod_pos_bound (c - t) (2 ^ 32) ltac:(lia)). lia.
Qed.

Lemma waitForPowerOff_loop_terminates (n : nat) (w : World) :
  registeredTime_ w <> 0 \/ powerOnTime_ w <> 0 ->
  (if negb (registeredTime_ w =? 0)
   then 20000 <= ticks_since (millis w) (registeredTime_ w) + 100 * Z.of_nat n
   else 30000 <= ticks_since (millis w) (powerOnTime_ w) + 100 * Z.of_nat n) ->
  exists w', waitForPowerOff_loop E (S n) w = Some w'.
Proof.
  revert w. induction n as [|n IH]; intros w Hset Hd.
  - cbn [waitForPowerOff_loop].
    destruct (registeredTime_ w =? 0) eqn:Hr; cbn [negb] in *.
    + assert ((powerOnTime_ w =? 0) = false) as -> by lia. cbn [negb andb].
      assert ((ticks_since (millis w) (powerOnTime_ w) >=? 30000) = true) as -> by lia.
      eauto.
    + assert ((ticks_since (millis w) (registeredTime_ w) >=? 20000) = true) as -> by lia.
      eauto.
  - remember (S n) as m. cbn [waitForPowerOff_loop].
    destruct (if negb (registeredTime_ w =? 0) then _ else _) eqn:Ht; [eauto|].
    destruct (modemPowerState E (HAL_Delay_Milliseconds 100 w)); [|eauto].
    subst m. apply IH.
    + destruct w; exact Hset.
    + assert (Hm : millis (HAL_Delay_Milliseconds 100 w) = u32 (clock w + 100))
        by (destruct w; reflexivity).
      assert (Hr : registeredTime_ (HAL_Delay_Milliseconds 100 w) = registeredTime_ w)
        by (destruct w; reflexivity).
      assert (Hp : powerOnTime_ (HAL_Delay_Milliseconds 100 w) = powerOnTime_ w)
        by (destruct w; reflexivity).
      rewrite Hm, Hr, Hp. unfold millis in *.
      destruct (registeredTime_ w =? 0) eqn:Hz; cbn [negb] in *.
      * assert ((powerOnTime_ w =? 0) = false) as Hpz by lia.
        rewrite Hpz in Ht. cbn [negb andb] in Ht.
        rewrite ticks_after_delay by lia. lia.
      * rewrite ticks_after_delay by lia. lia.
Qed.

Lemma ticks_since_nonneg (a b : Z) : 0 <= ticks_since a b.
Proof. unfold ticks_since, u32. apply Z.mod_pos_bound. lia. Qed.

Lemma waitForPowerOff_terminates (w : World) :
  agingGuardBounded w -> exists w', waitForPowerOff E 301 w = Some w'.
Proof.
  intros Hb. unfold waitForPowerOff.
  set (w0 := if powerOnTime_ w =? 0 then _ else w).
  assert (H0 : registeredTime_ w0 <> 0 \/ powerOnTime_ w0 <> 0).
  { subst w0. unfold agingGuardBounded in Hb.
    destruct (powerOnTime_ w =? 0) eqn:Hp.
    - destruct Hb as [Hb | [Hb | Hb]]; [left | lia | right]; destruct w; cbn in *; auto.
    - right. lia. }
  clearbody w0.
  destruct (waitForPowerOff_loop_terminates 300 w0 H0) as [w1 H1].
  - pose proof (ticks_since_nonneg (millis w0) (registeredTime_ w0)).
    pose proof (ticks_since_nonneg (millis w0) (powerOnTime_ w0)).
    destruct (negb _); lia.
  - rewrite H1. eauto.
Qed.

(** Without a reference time the aging guard has no deadline: as long as
    power-good stays high it keeps waiting. *)
Lemma waitForPowerOff_needs_reference_time (fuel : nat) (w : World) :
  (forall c l, HAL_GPIO_Read_UBVINT E c l = true) ->
  registeredTime_ w = 0 -> powerOnTime_ w = 0 -> millis w = 0 ->
  waitForPowerOff E fuel w = None.
Proof.
  intros Hhigh Hr Hp Hm. unfold waitForPowerOff. rewrite Hp, Z.eqb_refl, Hm.
  assert (Hloop : forall n w0, registeredTime_ w0 = 0 -> powerOnTime_ w0 = 0 ->
                    waitForPowerOff_loop E n w0 = None).
  { induction n as [|n IH]; intros w0 Hr0 Hp0; cbn [waitForPowerOff_loop]; [reflexivity|].
    rewrite Hr0, Hp0. cbn [Z.eqb negb andb].
    unfold modemPowerState. rewrite Hhigh. apply IH; destruct w0; assumption. }
  rewrite Hloop; [reflexivity | destruct w; assumption | destruct w; reflexivity].
Qed.

Lemma powerOff_startup_guard_frame (w : World) :
  let w' := powerOff_startup_guard P E w in
  session w' = session w /\ extends w w' /\ guardTimers w' = guardTimers w /\
  powerOff_once w' = true.
Proof.
  unfold powerOff_startup_guard.
  destruct (powerOff_once w) eqn:Ho; [repeat split; auto using extends_refl|].
  destruct (negb _ && modemPowerState E _);
    [destruct (HAL_Core_Get_Last_Reset_Info E) as [rc reason];
     destruct (_ && _); [destruct (_ <? 5000)|]|];
    repeat split; try (destruct w; reflexivity);
    try (exists []; destruct w; reflexivity).
  exists [DelayMs (5000 - millis (set_powerOff_once true w))]. destruct w; reflexivity.
Qed.

Lemma powerOff_startup_guard_idle (w : World) :
  modemPowerState E w = false \/ ncpId w = PLATFORM_NCP_SARA_R410 P ->
  powerOff_startup_guard P E w = set_powerOff_once true w.
Proof.
  unfold powerOff_startup_guard. intros H.
  destruct (powerOff_once w) eqn:Ho; [destruct w; cbn in *; now subst|].
  assert (Hc : negb (ncpId (set_powerOff_once true w) =? PLATFORM_NCP_SARA_R410 P) &&
               modemPowerState E (set_powerOff_once true w) = false).
  { replace (ncpId (set_powerOff_once true w)) with (ncpId w) by (destruct w; reflexivity).
    replace (modemPowerState E (set_powerOff_once true w)) with (modemPowerState E w)
      by (destruct w; reflexivity).
    destruct H as [-> | ->]; [apply andb_false_r|]. now rewrite Z.eqb_refl. }
  now rewrite Hc.
Qed.

Lemma modemPowerOff_already_off (fuel : nat) (w : World) :
  modemPowerState E w = false ->
  modemPowerOff P E fuel w = Some (0, set_powerOff_once true w).
Proof.
  intros H. unfold modemPowerOff. rewrite powerOff_startup_guard_idle by auto.
  assert (Hp : modemPowerState E (set_powerOff_once true w) = false)
    by (destruct w; exact H).
  cbv zeta. rewrite Hp. cbv iota. rewrite Hp. reflexivity.
Qed.

Lemma pollPowerState_once (target : bool) (n : nat) (w : World) :
  powerOff_once (pollPowerState E target n w) = powerOff_once w.
Proof.
  revert w. induction n as [|n IH]; intros w; cbn [pollPowerState]; [reflexivity|].
  destruct (Bool.eqb _ _); [reflexivity|]. rewrite IH. destruct w; reflexivity.
Qed.

Lemma powerOffSequence_spec (fuel : nat) (w w1 : World) :
  powerOffSequence P E fuel w = Some w1 ->
  exists w0 : World,
    extends w w0 /\ session w1 = session w /\ powerOff_once w1 = powerOff_once w /\
    log w1 = powerOffPulse w ++ log w0.
Proof.
  unfold powerOffSequence, powerOffPulse.
  destruct (negb (ncpId w =? PLATFORM_NCP_SARA_R410 P)).
  - intros [= <-]. exists w. split; [apply extends_refl|]. destruct w; auto.
  - destruct (if memoryIssuePresent_ w then waitForPowerOff E fuel w else Some w)
      as [w0|] eqn:Hw0; [|discriminate].
    assert (H0 : session w0 = session w /\ extends w w0 /\ powerOff_once w0 = powerOff_once w).
    { destruct (memoryIssuePresent_ w).
      - apply (waitForPowerOff_frame _ _ _ Hw0).
      - injection Hw0 as <-. auto using extends_refl. }
    destruct H0 as (Hs & Hex & Hon).
    intros [= <-]. exists w0. split; [exact Hex|].
    rewrite <- Hs, <- Hon. destruct w0; auto.
Qed.

Lemma modemPowerOff_outcome (fuel : nat) (w w' : World) (r : Z) :
  modemPowerOff P E fuel w = Some (r, w') ->
  r = (if modemPowerState E w' then SYSTEM_ERROR_INVALID_STATE P else 0) /\
  session w' = session w /\ extends w w' /\ powerOff_once w' = true /\
  (modemPowerState E (powerOff_startup_guard P E w) = true ->
     exists (w0 : World) (k : nat),
       extends (HAL_GPIO_Write BUFEN 1 (powerOff_startup_guard P E w)) w0 /\
       (k <= 100)%nat /\
       log w' = repeat (DelayMs 100) k ++ powerOffPulse w ++ log w0 /\
       ((k < 100)%nat -> modemPowerState E w' = false)).
Proof.
  unfold modemPowerOff.
  destruct (powerOff_startup_guard_frame w) as (Hs0 & He0 & _ & Ho0).
  set (g := powerOff_startup_guard P E w) in *. cbn zeta in *.
  destruct (modemPowerState E g) eqn:Hg.
  - change (snd (modemSetUartState false g)) with (HAL_GPIO_Write BUFEN 1 g).
    set (u := HAL_GPIO_Write BUFEN 1 g).
    assert (Hu : session u = session g /\ powerOff_once u = powerOff_once g /\ extends g u)
      by (subst u; split; [apply session_HAL_GPIO_Write|
                           split; [destruct g; reflexivity | apply extends_HAL_GPIO_Write]]).
    destruct Hu as (Hsu & Hou & Heu).
    destruct (powerOffSequence P E fuel u) as [w1|] eqn:Hseq; [|discriminate].
    destruct (powerOffSequence_spec _ _ _ Hseq) as (w0 & Hex & Hs1 & Ho1 & Hl1).
    destruct (pollPowerState_spec false 100 w1) as (k & Hk & Hl & _ & Hsp & Ht).
    pose proof (pollPowerState_once false 100 w1) as Hop.
    set (w2 := pollPowerState E false 100 w1) in *.
    intros Hres.
    assert (Hfin : w' = w2 /\ r = if modemPowerState E w2
                                  then SYSTEM_ERROR_INVALID_STATE P else 0)
      by (destruct (modemPowerState E w2); injection Hres as <- <-; auto).
    destruct Hfin as [-> ->].
    assert (Hpulse : powerOffPulse u = powerOffPulse w).
    { unfold powerOffPulse. now rewrite (session_ncpId _ _ Hsu), (session_ncpId _ _ Hs0). }
    split; [reflexivity|]. split; [congruence|]. split; [|split].
    + eapply extends_trans; [exact He0|]. eapply extends_trans; [exact Heu|].
      eapply extends_trans; [exact Hex|].
      exists (repeat (DelayMs 100) k ++ powerOffPulse u).
      rewrite Hl, Hl1. now rewrite app_assoc.
    + congruence.
    + intros _. exists w0, k. rewrite Hl, Hl1, Hpulse. auto.
  - rewrite Hg. intros [= <- <-]. rewrite Hg. repeat split; auto. discriminate.
Qed.

Lemma modemPowerOff_terminates (w : World) :
  agingGuardBounded w -> exists r w', modemPowerOff P E 301 w = Some (r, w').
Proof.
  intros Hb. unfold modemPowerOff.
  set (g := powerOff_startup_guard P E w). cbn zeta.
  destruct (modemPowerState E g) eqn:Hg.
  - change (snd (modemSetUartState false g)) with (HAL_GPIO_Write BUFEN 1 g).
    set (u := HAL_GPIO_Write BUFEN 1 g).
    assert (Hseq : exists w1, powerOffSequence P E 301 u = Some w1).
    { unfold powerOffSequence.
      destruct (negb (ncpId u =? PLATFORM_NCP_SARA_R410 P)) eqn:Hfam; [eauto|].
      destruct (memoryIssuePresent_ u); [|eauto].
      destruct (waitForPowerOff_terminates u) as [w0 H0]; [|rewrite H0; eauto].
      assert (Hr : ncpId w = PLATFORM_NCP_SARA_R410 P).
      { replace (ncpId u) with (ncpId w) in Hfam; [lia|].
        destruct (powerOff_startup_guard_frame w) as (Hs0 & _).
        fold g in Hs0. rewrite <- (session_ncpId _ _ Hs0).
        symmetry. apply session_ncpId, session_HAL_GPIO_Write. }
      subst u g. rewrite powerOff_startup_guard_idle by auto.
      destruct w; exact Hb. }
    destruct Hseq as [w1 ->].
    destruct (modemPowerState E (pollPowerState E false 100 w1)); eauto.
  - rewrite Hg. eauto.
Qed.

Lemma set_powerOff_once_idem (w : World) :
  powerOff_once w = true -> set_powerOff_once true w = w.
Proof. destruct w; cbn; intros ->; reflexivity. Qed.

(** C5, as amended: [modemPowerOn] and [modemPowerOff] read the power-good
    input first and, when the modem is already in the state asked for,
    return 0 without a pulse (the history of pin writes and delays is
    unchanged).  Whenever one of them returns, it returns 0 when power-good
    shows the target level at the final read and invalid-state when it does
    not.  A second call right after a call that reached the target level
    returns 0 and changes nothing, so there is no second pulse and the
    power-good level stays; a call that finds the modem in the other state,
    as after a call that failed, issues the pulse.  When a pulse is issued
    it is followed by at most 10 (power-on) or 100 (power-off) waits of
    100 ms, and the polling stops early only at the target level.
    [modemPowerOn] always returns; [modemPowerOff] returns whenever the
    aging guard has a reference time (registration time, power-on time or
    tick counter other than zero) when it is called. *)
Theorem modemPower_idempotent (fuel : nat) (w : World) :
  (modemPowerState E w = true -> modemPowerOn P E w = (0, w)) /\
  (fst (modemPowerOn P E w) =
     (if modemPowerState E (snd (modemPowerOn P E w))
      then 0 else SYSTEM_ERROR_INVALID_STATE P)) /\
  (modemPowerState E (snd (modemPowerOn P E w)) = true ->
     modemPowerOn P E (snd (modemPowerOn P E w)) = (0, snd (modemPowerOn P E w))) /\
  (modemPowerState E w = false ->
     exists k : nat,
       (k <= 10)%nat /\
       log (snd (modemPowerOn P E w)) = repeat (DelayMs 100) k ++ powerOnPulse w ++ log w /\
       ((k < 10)%nat -> modemPowerState E (snd (modemPowerOn P E w)) = true)) /\
  (modemPowerState E w = false ->
     modemPowerOff P E fuel w = Some (0, set_powerOff_once true w) /\
     log (set_powerOff_once true w) = log w) /\
  (forall r w', modemPowerOff P E fuel w = Some (r, w') ->
     r = (if modemPowerState E w' then SYSTEM_ERROR_INVALID_STATE P else 0) /\
     (modemPowerState E w' = false ->
        forall fuel', modemPowerOff P E fuel' w' = Some (0, w')) /\
     (modemPowerState E (powerOff_startup_guard P E w) = true ->
        exists (w0 : World) (k : nat),
          extends (HAL_GPIO_Write BUFEN 1 (powerOff_startup_guard P E w)) w0 /\
          (k <= 100)%nat /\
          log w' = repeat (DelayMs 100) k ++ powerOffPulse w ++ log w0 /\
          ((k < 100)%nat -> modemPowerState E w' = false))) /\
  (agingGuardBounded w -> exists r w', modemPowerOff P E 301 w = Some (r, w')).
Proof.
  split; [apply modemPowerOn_already_on|].
  split; [apply modemPowerOn_outcome|].
  split; [apply modemPowerOn_already_on|].
  split; [apply modemPowerOn_pulse|].
  split.
  { intros H. split; [now apply modemPowerOff_already_off | destruct w; reflexivity]. }
  split; [|apply modemPowerOff_terminates].
  intros r w' Hoff.
  destruct (modemPowerOff_outcome _ _ _ _ Hoff) as (Hr & _ & _ & Ho & Hp).
  split; [exact Hr|]. split; [|exact Hp].
  intros Hlow fuel'. rewrite modemPowerOff_already_off by exact Hlow.
  now rewrite set_powerOff_once_idem.
Qed.

(** *** Life cycle: on, off, enable, disable *)

Lemma connectionState_DISCONNECTED_post (w : World) :
  ncpState_ w <> DISABLED ->
  let w' := connectionState E DISCONNECTED w in
  connState_ w' = DISCONNECTED /\ ncpState_ w' = ncpState_ w /\ ready_ w' = ready_ w /\
  prevNcpState_ w' = prevNcpState_ w /\ conf_ w' = conf_ w /\
  serial_enabled w' = serial_enabled w /\
  muxerAtStream_enabled w' = muxerAtStream_enabled w /\ extends w w'.
Proof.
  unfold connectionState. intros Hn.
  destruct (NcpState_eq_dec (ncpState_ w) DISABLED); [contradiction|].
  destruct (NcpConnectionState_eq_dec (connState_ w) DISCONNECTED) as [Hd|Hd];
    [repeat split; auto using extends_refl|].
  destruct w as [cf ns pns cs cr cg ce rst rct pot rgt mip pe rdy rto cgi act fw lw biw clk lg se me po].
  unfold extends. cbn. destruct (eventHandler cf); cbn; repeat split;
    first [exists []; reflexivity | eexists [_]; reflexivity].
Qed.

Lemma ncpState_OFF_post (w : World) :
  ncpState_ w <> DISABLED ->
  let w' := ncpState E OFF w in
  ncpState_ w' = OFF /\ connState_ w' = DISCONNECTED /\ ready_ w' = false /\
  prevNcpState_ w' = prevNcpState_ w /\ conf_ w' = conf_ w /\
  serial_enabled w' = serial_enabled w /\
  muxerAtStream_enabled w' = muxerAtStream_enabled w /\ extends w w'.
Proof.
  unfold ncpState. intros Hn.
  destruct (NcpState_eq_dec (ncpState_ w) DISABLED); [contradiction|].
  destruct (NcpState_eq_dec OFF OFF); [|congruence].
  assert (Hn' : ncpState_ (set_ready false w) <> DISABLED) by (destruct w; exact Hn).
  destruct (connectionState_DISCONNECTED_post (set_ready false w) Hn')
    as (Hc & Hs & Hr & Hp & Hf & Hse & Hme & He).
  set (w1 := connectionState E DISCONNECTED (set_ready false w)) in *.
  assert (Hr1 : ready_ w1 = false) by (rewrite Hr; destruct w; reflexivity).
  assert (Hw : prevNcpState_ w1 = prevNcpState_ w /\ conf_ w1 = conf_ w /\
               serial_enabled w1 = serial_enabled w /\
               muxerAtStream_enabled w1 = muxerAtStream_enabled w /\ extends w w1).
  { rewrite Hp, Hf, Hse, Hme. repeat split; try (destruct w; reflexivity).
    destruct He as [evs He]. exists evs. rewrite He. destruct w; reflexivity. }
  clearbody w1. destruct Hw as (Hp1 & Hf1 & Hse1 & Hme1 & He1).
  destruct (NcpState_eq_dec (ncpState_ w1) OFF) as [Ho|Ho]; [repeat split; auto|].
  destruct w1 as [cf ns pns cs cr cg ce rst rct pot rgt mip pe rdy rto cgi act fw lw biw clk lg se me po].
  cbn in *. destruct (eventHandler cf); cbn; repeat split; auto.
  destruct He1 as [evs He1]. cbn in He1. exists (NcpStateChangedEvent OFF :: evs).
  cbn. now rewrite He1.
Qed.

Lemma off_spec (fuel : nat) (w w' : World) (r : Z) :
  ncpState_ w <> DISABLED ->
  off P E fuel w = Some (r, w') ->
  r = 0 /\ ncpState_ w' = OFF /\ connState_ w' = DISCONNECTED /\ ready_ w' = false /\
  prevNcpState_ w' = prevNcpState_ w /\
  serial_enabled w' = serial_enabled w /\
  muxerAtStream_enabled w' = muxerAtStream_enabled w /\
  exists (rv : Z) (w1 : World),
    modemPowerOff P E fuel (HAL_GPIO_Write BUFEN 1 (muxer_stop w)) = Some (rv, w1) /\
    extends w1 w'.
Proof.
  unfold off. intros Hn.
  destruct (NcpState_eq_dec (ncpState_ w) DISABLED); [contradiction|].
  change (snd (modemSetUartState false (muxer_stop w)))
    with (HAL_GPIO_Write BUFEN 1 (muxer_stop w)).
  set (u := HAL_GPIO_Write BUFEN 1 (muxer_stop w)).
  assert (Hsu : session u = session w)
    by (subst u; rewrite session_HAL_GPIO_Write; apply session_muxer_stop).
  destruct (modemPowerOff P E fuel u) as [[rv w1]|] eqn:Hoff; [|discriminate].
  intros [= <- <-].
  destruct (modemPowerOff_outcome _ _ _ _ Hoff) as (_ & Hs1 & _).
  destruct (session_fields _ _ Hs1) as (_ & Hns1 & Hp1 & _ & _ & _ & _ & _ & _ & Hse1 & Hme1 & _).
  destruct (session_fields _ _ Hsu) as (_ & Hns & Hp & _ & _ & _ & _ & _ & _ & Hse & Hme & _).
  assert (Hn2 : ncpState_ (set_ready false w1) <> DISABLED)
    by (replace (ncpState_ (set_ready false w1)) with (ncpState_ w1)
          by (destruct w1; reflexivity); congruence).
  destruct (ncpState_OFF_post _ Hn2) as (Ho & Hc & Hr & Hpp & _ & Hsp & Hmp & He).
  split; [reflexivity|]. split; [exact Ho|]. split; [exact Hc|]. split; [exact Hr|].
  split; [rewrite Hpp; replace (prevNcpState_ (set_ready false w1)) with (prevNcpState_ w1)
            by (destruct w1; reflexivity); congruence|].
  split; [rewrite Hsp; replace (serial_enabled (set_ready false w1)) with (serial_enabled w1)
            by (destruct w1; reflexivity); congruence|].
  split; [rewrite Hmp;
          replace (muxerAtStream_enabled (set_ready false w1)) with (muxerAtStream_enabled w1)
            by (destruct w1; reflexivity); congruence|].
  exists rv, w1. split; [reflexivity|].
  destruct He as [evs He]. exists evs. rewrite He. destruct w1; reflexivity.
Qed.

Lemma off_terminates (w : World) :
  ncpState_ w <> DISABLED -> agingGuardBounded w ->
  exists w', off P E 301 w = Some (0, w').
Proof.
  unfold off. intros Hn Hb.
  destruct (NcpState_eq_dec (ncpState_ w) DISABLED); [contradiction|].
  change (snd (modemSetUartState false (muxer_stop w)))
    with (HAL_GPIO_Write BUFEN 1 (muxer_stop w)).
  destruct (modemPowerOff_terminates (HAL_GPIO_Write BUFEN 1 (muxer_stop w)))
    as (rv & w1 & ->); [destruct w; exact Hb | eauto].
Qed.

(** On the R410 with the memory issue [modemPowerOff] starts with the aging
    guard: without a reference time it does not come to an end while
    power-good stays high, and neither does what calls it. *)
Lemma modemPowerOff_needs_reference_time (fuel : nat) (w : World) :
  (forall c l, HAL_GPIO_Read_UBVINT E c l = true) ->
  ncpId w = PLATFORM_NCP_SARA_R410 P -> memoryIssuePresent_ w = true ->
  registeredTime_ w = 0 -> powerOnTime_ w = 0 -> millis w = 0 ->
  modemPowerOff P E fuel w = None.
Proof.
  intros Hhigh Hid Hmem Hr Hp Hm. unfold modemPowerOff, powerOff_startup_guard.
  assert (Hg : forall u, ncpId u = ncpId w -> memoryIssuePresent_ u = true ->
                 registeredTime_ u = 0 -> powerOnTime_ u = 0 -> millis u = 0 ->
                 match
                   (if modemPowerState E u
                    then match powerOffSequence P E fuel (snd (modemSetUartState false u)) with
                         | None => None
                         | Some w0 => Some (pollPowerState E false 100 w0)
                         end
                    else Some u)
                 with
                 | None => None
                 | Some w0 =>
                     if modemPowerState E w0
                     then Some (SYSTEM_ERROR_INVALID_STATE P, w0) else Some (0, w0)
                 end = None).
  { intros u Hu1 Hu2 Hu3 Hu4 Hu5. unfold modemPowerState at 1. rewrite Hhigh.
    unfold powerOffSequence.
    change (snd (modemSetUartState false u)) with (HAL_GPIO_Write BUFEN 1 u).
    replace (ncpId (HAL_GPIO_Write BUFEN 1 u)) with (ncpId w) by (destruct u; exact (eq_sym Hu1)).
    rewrite Hid, Z.eqb_refl. cbn [negb].
    replace (memoryIssuePresent_ (HAL_GPIO_Write BUFEN 1 u)) with true
      by (destruct u; exact (eq_sym Hu2)).
    rewrite waitForPowerOff_needs_reference_time;
      [reflexivity | exact Hhigh | destruct u; exact Hu3 | destruct u; exact Hu4
      | destruct u; exact Hu5]. }
  cbv zeta. destruct (powerOff_once w); [now apply Hg|].
  replace (ncpId (set_powerOff_once true w)) with (ncpId w) by (destruct w; reflexivity).
  rewrite Hid, Z.eqb_refl. cbn [negb andb].
  apply Hg; destruct w; auto.
Qed.

Lemma off_needs_reference_time (fuel : nat) (w : World) :
  (forall c l, HAL_GPIO_Read_UBVINT E c l = true) ->
  ncpState_ w <> DISABLED ->
  ncpId w = PLATFORM_NCP_SARA_R410 P -> memoryIssuePresent_ w = true ->
  registeredTime_ w = 0 -> powerOnTime_ w = 0 -> millis w = 0 ->
  off P E fuel w = None.
Proof.
  intros Hhigh Hn Hid Hmem Hr Hp Hm. unfold off.
  destruct (NcpState_eq_dec (ncpState_ w) DISABLED); [contradiction|].
  change (snd (modemSetUartState false (muxer_stop w)))
    with (HAL_GPIO_Write BUFEN 1 (muxer_stop w)).
  rewrite modemPowerOff_needs_reference_time; [reflexivity | exact Hhigh | ..];
    destruct w; assumption.
Qed.

Lemma enable_needs_reference_time (fuel : nat) (w : World) :
  (forall c l, HAL_GPIO_Read_UBVINT E c l = true) ->
  ncpState_ w = DISABLED -> prevNcpState_ w <> DISABLED ->
  ncpId w = PLATFORM_NCP_SARA_R410 P -> memoryIssuePresent_ w = true ->
  registeredTime_ w = 0 -> powerOnTime_ w = 0 -> millis w = 0 ->
  enable P E fuel w = None.
Proof.
  intros Hhigh Hd Hprev Hid Hmem Hr Hp Hm. unfold enable. rewrite Hd.
  destruct (NcpState_eq_dec DISABLED DISABLED); [|congruence].
  rewrite off_needs_reference_time; [reflexivity | exact Hhigh | ..];
    destruct w; assumption.
Qed.

(** X21: [on] called while the state is On returns 0 and changes nothing;
    called while Disabled it returns invalid-state and changes nothing.
    [off] called while Disabled returns invalid-state and changes nothing.
    Whenever [off] returns from another state, it has stopped the
    multiplexer, disabled the voltage translator (BUFEN high) and run
    [modemPowerOff], and it has ended with the readiness flag cleared,
    NcpState = Off, a Disconnected session and the result 0, whatever
    [modemPowerOff] returned.  That was 0 if power-good was low at its last
    read and invalid-state if not; and if power-good was high after its
    start-up guard, [modemPowerOff] has issued the power-off pulse of the
    chip family on PWR_ON and then waited at most 100 times 100 ms, ending
    early only with power-good low.  [off] returns whenever the aging guard
    has a reference time to go by. *)
Theorem on_off_lifecycle (fuel : nat) (w : World) :
  (ncpState_ w = ON -> on P E waitReady fuel w = Some (0, w)) /\
  (ncpState_ w = DISABLED ->
     on P E waitReady fuel w = Some (SYSTEM_ERROR_INVALID_STATE P, w)) /\
  (ncpState_ w = DISABLED -> off P E fuel w = Some (SYSTEM_ERROR_INVALID_STATE P, w)) /\
  (ncpState_ w <> DISABLED ->
     forall r w', off P E fuel w = Some (r, w') ->
       r = 0 /\ ncpState_ w' = OFF /\ connState_ w' = DISCONNECTED /\ ready_ w' = false /\
       exists (rv : Z) (w1 : World),
         log (HAL_GPIO_Write BUFEN 1 (muxer_stop w)) = GpioWrite BUFEN 1 :: MuxStop :: log w /\
         modemPowerOff P E fuel (HAL_GPIO_Write BUFEN 1 (muxer_stop w)) = Some (rv, w1) /\
         rv = (if modemPowerState E w1 then SYSTEM_ERROR_INVALID_STATE P else 0) /\
         (modemPowerState E
            (powerOff_startup_guard P E (HAL_GPIO_Write BUFEN 1 (muxer_stop w))) = true ->
          exists (w0 : World) (k : nat),
            extends (HAL_GPIO_Write BUFEN 1
                       (powerOff_startup_guard P E (HAL_GPIO_Write BUFEN 1 (muxer_stop w))))
                    w0 /\
            (k <= 100)%nat /\
            log w1 = repeat (DelayMs 100) k ++
                     powerOffPulse (HAL_GPIO_Write BUFEN 1 (muxer_stop w)) ++ log w0 /\
            ((k < 100)%nat -> modemPowerState E w1 = false)) /\
         w' = ncpState E OFF (set_ready false w1)) /\
  (ncpState_ w <> DISABLED -> agingGuardBounded w ->
     exists w', off P E 301 w = Some (0, w')).
Proof.
  split; [|split; [|split; [|split]]].
  - unfold on. intros ->. reflexivity.
  - unfold on. intros ->. reflexivity.
  - unfold off. intros ->. reflexivity.
  - intros Hn r w' Hoff.
    destruct (off_spec _ _ _ _ Hn Hoff) as (Hr & Ho & Hc & Hrd & _ & _ & _ & rv & w1 & Hp & _).
    repeat split; auto. exists rv, w1.
    destruct (modemPowerOff_outcome _ _ _ _ Hp) as (Hrv & _ & _ & _ & Hpulse).
    split; [destruct w; reflexivity|]. split; [exact Hp|]. split; [exact Hrv|].
    split; [exact Hpulse|].
    revert Hoff. unfold off.
    destruct (NcpState_eq_dec (ncpState_ w) DISABLED); [contradiction|].
    change (snd (modemSetUartState false (muxer_stop w)))
      with (HAL_GPIO_Write BUFEN 1 (muxer_stop w)).
    rewrite Hp. intros [= _ <-]. reflexivity.
  - apply off_terminates.
Qed.

Lemma disable_when_disabled (w : World) : ncpState_ w = DISABLED -> disable w = w.
Proof. unfold disable. intros ->. reflexivity. Qed.

Lemma disable_first (w : World) :
  ncpState_ w <> DISABLED ->
  ncpState_ (disable w) = DISABLED /\ prevNcpState_ (disable w) = ncpState_ w /\
  serial_enabled (disable w) = false /\ muxerAtStream_enabled (disable w) = false /\
  clock (disable w) = clock w /\ guardTimers (disable w) = guardTimers w.
Proof.
  unfold disable. intros Hn.
  destruct (NcpState_eq_dec (ncpState_ w) DISABLED); [contradiction|].
  destruct w; cbn; auto 10.
Qed.

Lemma disable_run (n : nat) (w : World) :
  ncpState_ w <> DISABLED -> Nat.iter (S n) disable w = disable w.
Proof.
  intros Hn. induction n as [|n IH]; [reflexivity|].
  change (Nat.iter (S (S n)) disable w) with (disable (Nat.iter (S n) disable w)).
  rewrite IH. apply disable_when_disabled. now apply disable_first.
Qed.

Lemma enable_spec (fuel : nat) (w w' : World) (r : Z) :
  ncpState_ w = DISABLED -> prevNcpState_ w <> DISABLED ->
  enable P E fuel w = Some (r, w') ->
  r = 0 /\ ncpState_ w' = OFF /\ connState_ w' = DISCONNECTED /\
  serial_enabled w' = true /\ muxerAtStream_enabled w' = true.
Proof.
  unfold enable. intros Hd Hp. rewrite Hd.
  destruct (NcpState_eq_dec DISABLED DISABLED); [|congruence].
  set (w0 := set_ncpState _ _).
  assert (H0 : ncpState_ w0 <> DISABLED /\ serial_enabled w0 = true /\
               muxerAtStream_enabled w0 = true)
    by (subst w0; destruct w; cbn in *; auto).
  clearbody w0. destruct H0 as (Hn0 & Hse & Hme).
  destruct (off P E fuel w0) as [[r0 w1]|] eqn:Hoff; [|discriminate].
  intros [= <- <-].
  destruct (off_spec _ _ _ _ Hn0 Hoff) as (_ & Ho & Hc & _ & _ & Hs1 & Hm1 & _).
  repeat split; congruence.
Qed.

Lemma enable_terminates (w : World) :
  ncpState_ w = DISABLED -> prevNcpState_ w <> DISABLED -> agingGuardBounded w ->
  exists w', enable P E 301 w = Some (0, w').
Proof.
  unfold enable. intros Hd Hp Hb. rewrite Hd.
  destruct (NcpState_eq_dec DISABLED DISABLED); [|congruence].
  set (w0 := set_ncpState _ _).
  destruct (off_terminates w0) as [w' ->]; [| |eauto];
    subst w0; destruct w; cbn in *; auto.
Qed.

(** X22: [disable] called while the state is Disabled changes nothing, so
    after a run of one or more [disable] calls from a state that was not
    Disabled the client is Disabled with both streams disabled and the saved
    state is still the one the first call found.  [enable] called while not
    Disabled returns 0 and changes nothing.  Called after such a run it
    enables both streams, puts the saved state back and runs [off] from
    there: whenever it returns, it returns 0 and leaves the client as that
    [off] left it, in the Off state with a Disconnected session and both
    streams enabled, whatever state had been saved; and it returns whenever
    the aging guard has a reference time to go by. *)
Theorem enable_disable_lifecycle (fuel : nat) (n : nat) (w : World) :
  (ncpState_ w = DISABLED -> disable w = w) /\
  (ncpState_ w <> DISABLED -> enable P E fuel w = Some (0, w)) /\
  (ncpState_ w <> DISABLED ->
     let wd := Nat.iter (S n) disable w in
     ncpState_ wd = DISABLED /\ prevNcpState_ wd = ncpState_ w /\
     serial_enabled wd = false /\ muxerAtStream_enabled wd = false /\
     (forall r w', enable P E fuel wd = Some (r, w') ->
        r = 0 /\ ncpState_ w' = OFF /\ connState_ w' = DISCONNECTED /\
        serial_enabled w' = true /\ muxerAtStream_enabled w' = true /\
        exists r0,
          off P E fuel
            (set_ncpState (ncpState_ w)
               (set_muxerAtStream_enabled true (set_serial_enabled true wd)))
          = Some (r0, w')) /\
     (agingGuardBounded w -> exists w', enable P E 301 wd = Some (0, w'))).
Proof.
  split; [apply disable_when_disabled|]. split.
  - unfold enable. intros Hn.
    destruct (NcpState_eq_dec (ncpState_ w) DISABLED); [contradiction|reflexivity].
  - intros Hn. cbv zeta. rewrite disable_run by exact Hn.
    destruct (disable_first w Hn) as (Hd & Hp & Hse & Hme & Hc & Hg).
    split; [exact Hd|]. split; [exact Hp|]. split; [exact Hse|]. split; [exact Hme|].
    split.
    + intros r w' Hen.
      assert (Hp' : prevNcpState_ (disable w) <> DISABLED) by congruence.
      destruct (enable_spec _ _ _ _ Hd Hp' Hen) as (A1 & A2 & A3 & A4 & A5).
      repeat split; auto.
      revert Hen. unfold enable. rewrite Hd.
      destruct (NcpState_eq_dec DISABLED DISABLED); [|congruence].
      replace (prevNcpState_
                 (set_muxerAtStream_enabled true (set_serial_enabled true (disable w))))
        with (ncpState_ w) by (rewrite <- Hp; destruct (disable w); reflexivity).
      destruct (off P E fuel _) as [[r0 w1]|]; [|discriminate].
      intros [= _ <-]. exists r0. reflexivity.
    + intros Hb. apply enable_terminates; auto; [congruence|].
      unfold agingGuardBounded, millis, guardTimers in *.
      injection Hg as Hg1 Hg2. rewrite Hc, Hg1, Hg2. exact Hb.
Qed.

(** *** Registration watchdog *)

Lemma sameNcp_refl w : sameNcp w w.
Proof. split; reflexivity. Qed.

Lemma sameNcp_trans w1 w2 w3 : sameNcp w1 w2 -> sameNcp w2 w3 -> sameNcp w1 w3.
Proof. intros [H1 H2] [H3 H4]. split; congruence. Qed.

Lemma connectionState_sameNcp (state : NcpConnectionState) (w : World) :
  sameNcp w (connectionState E state w).
Proof.
  unfold connectionState, sameNcp.
  destruct w as [cf ns pns cs cr cg ce rst rct pot rgt mip pe rdy rto cgi act fw lw biw clk lg se me po].
  cbn. destruct (NcpState_eq_dec ns DISABLED); [auto|].
  destruct (NcpConnectionState_eq_dec cs state); [auto|]. cbn.
  destruct (NcpConnectionState_eq_dec state CONNECTED); cbn;
    [destruct (negb _); cbn|]; destruct (eventHandler cf); cbn; auto.
Qed.

Lemma checkRegistrationState_sameNcp (w : World) :
  sameNcp w (checkRegistrationState E w).
Proof.
  unfold checkRegistrationState.
  destruct (connState_ w); [apply sameNcp_refl| |];
    (destruct (registered w);
     [ eapply sameNcp_trans; [|apply connectionState_sameNcp];
       destruct (_ && _); [destruct w; split; reflexivity | apply sameNcp_refl]
     | destruct (NcpConnectionState_eq_dec _ CONNECTED); [|apply sameNcp_refl];
       destruct (connectionState_sameNcp CONNECTING w) as [H1 H2];
       destruct (connectionState E CONNECTING w); split; cbn in *; assumption ]).
Qed.

Lemma scanRegistrationLine_sameNcp (line : UrcLine) (w w1 : World) (res : Z + Scan) :
  scanRegistrationLine line w = (w1, res) -> sameNcp w w1 /\ clock w1 = clock w /\
  connState_ w1 = connState_ w /\ regCheckTime_ w1 = regCheckTime_ w.
Proof.
  unfold scanRegistrationLine, parserError, sameNcp.
  destruct (urc_readLine line <? 0).
  - intros H; injection H as <- _; destruct w; auto.
  - destruct (0 >=? _).
    + destruct (_ <? 0); intros H; injection H as <- _; destruct w; auto.
    + intros H; injection H as <- _; auto.
Qed.

Lemma connectionState_CONNECTED_not_connecting (w : World) :
  connState_ (connectionState E CONNECTED w) = CONNECTING -> connState_ w = CONNECTING.
Proof.
  unfold connectionState.
  destruct w as [cf ns pns cs cr cg ce rst rct pot rgt mip pe rdy rto cgi act fw lw biw clk lg se me po].
  cbn. destruct (NcpState_eq_dec ns DISABLED); [auto|].
  destruct (NcpConnectionState_eq_dec cs CONNECTED); [auto|]. cbn.
  destruct (negb _); cbn; destruct (eventHandler cf); cbn; discriminate.
Qed.

Lemma connectionState_times (state : NcpConnectionState) (w : World) :
  regCheckTime_ (connectionState E state w) = regCheckTime_ w /\
  clock (connectionState E state w) = clock w.
Proof.
  unfold connectionState.
  destruct w as [cf ns pns cs cr cg ce rst rct pot rgt mip pe rdy rto cgi act fw lw biw clk lg se me po].
  cbn. destruct (NcpState_eq_dec ns DISABLED); [auto|].
  destruct (NcpConnectionState_eq_dec cs state); [auto|]. cbn.
  destruct (NcpConnectionState_eq_dec state CONNECTED); cbn;
    [destruct (negb _); cbn|]; destruct (eventHandler cf); cbn; auto.
Qed.

Lemma checkRegistrationState_clock (w : World) :
  clock (checkRegistrationState E w) = clock w.
Proof.
  unfold checkRegistrationState.
  destruct (connState_ w); [reflexivity| |];
    (destruct (registered w);
     [ match goal with |- clock (connectionState E CONNECTED ?x) = _ =>
         rewrite (proj2 (connectionState_times CONNECTED x)) end;
       destruct (_ && _); destruct w; reflexivity
     | destruct (NcpConnectionState_eq_dec _ CONNECTED); [|reflexivity];
       pose proof (proj2 (connectionState_times CONNECTING w)) as H;
       destruct (connectionState E CONNECTING w); cbn in *; exact H ]).
Qed.

Lemma checkRegistrationState_justDemoted (w : World) :
  justDemoted w -> justDemoted (checkRegistrationState E w).
Proof.
  unfold justDemoted, checkRegistrationState, millis.
  destruct (connState_ w) eqn:Hcs; [rewrite Hcs; auto| |].
  - destruct (registered w).
    + intros Hj Hc. apply connectionState_CONNECTED_not_connecting in Hc.
      match goal with |- regCheckTime_ (connectionState E CONNECTED ?x) = _ =>
        rewrite (proj1 (connectionState_times CONNECTED x)),
                (proj2 (connectionState_times CONNECTED x)) end.
      destruct (_ && _); destruct w; cbn in *; auto.
    + destruct (NcpConnectionState_eq_dec CONNECTING CONNECTED); [discriminate|].
      rewrite Hcs. auto.
  - destruct (registered w).
    + intros _ Hc. apply connectionState_CONNECTED_not_connecting in Hc.
      exfalso. destruct (_ && _); destruct w; cbn in *; congruence.
    + destruct (NcpConnectionState_eq_dec CONNECTED CONNECTED); [|congruence].
      intros _ _. pose proof (proj2 (connectionState_times CONNECTING w)) as Hk.
      destruct (connectionState E CONNECTING w); cbn in *. now rewrite Hk.
Qed.

Lemma urcStep_refl w : urcStep w w.
Proof. split; [apply sameNcp_refl | auto]. Qed.

Lemma urcStep_trans w0 w1 w2 : urcStep w0 w1 -> urcStep w1 w2 -> urcStep w0 w2.
Proof.
  intros (A1 & A2 & A3) (B1 & B2 & B3).
  split; [eapply sameNcp_trans; eauto|]. split; [congruence | auto].
Qed.

Lemma urcStep_fields (w w' : World) :
  ncpState_ w' = ncpState_ w -> conf_ w' = conf_ w -> clock w' = clock w ->
  connState_ w' = connState_ w -> regCheckTime_ w' = regCheckTime_ w ->
  urcStep w w'.
Proof.
  intros H1 H2 H3 H4 H5. unfold urcStep, sameNcp, justDemoted, millis.
  rewrite H1, H2, H3, H4, H5. auto.
Qed.

Lemma urcStep_check (w : World) : urcStep w (checkRegistrationState E w).
Proof.
  split; [apply checkRegistrationState_sameNcp|].
  split; [apply checkRegistrationState_clock | apply checkRegistrationState_justDemoted].
Qed.

Lemma urcStep_scan (line : UrcLine) (w w1 : World) (res : Z + Scan) :
  scanRegistrationLine line w = (w1, res) -> urcStep w w1.
Proof.
  intros Hs. destruct (scanRegistrationLine_sameNcp _ _ _ _ Hs) as ([A A'] & B & C & D).
  now apply urcStep_fields.
Qed.

Lemma urcStep_set_lac_cid (lac cid : Z) (w : World) : urcStep w (set_lac_cid lac cid w).
Proof. apply urcStep_fields; destruct w; reflexivity. Qed.

Lemma urcStep_set_creg (v : RegistrationState) (w : World) : urcStep w (set_creg v w).
Proof. apply urcStep_fields; destruct w; reflexivity. Qed.

Lemma urcStep_set_cgreg (v : RegistrationState) (w : World) : urcStep w (set_cgreg v w).
Proof. apply urcStep_fields; destruct w; reflexivity. Qed.

Lemma urcStep_set_cereg (v : RegistrationState) (w : World) : urcStep w (set_cereg v w).
Proof. apply urcStep_fields; destruct w; reflexivity. Qed.

Lemma urcHandler_invariants (line : UrcLine) (w : World) :
  urcStep w (snd (urcHandler P E line w)).
Proof.
  unfold urcHandler, urc_CREG, urc_CGREG, urc_CEREG.
  destruct (urc_prefix line);
    destruct (scanRegistrationLine line w) as [w1 [e|sc]] eqn:Hs;
    cbn [snd]; try (eapply urcStep_scan; exact Hs).
  - destruct (negb (scan_r sc >=? 1)); cbn [snd]; [eapply urcStep_scan; exact Hs|].
    eapply urcStep_trans; [eapply urcStep_scan; exact Hs|].
    eapply urcStep_trans; [apply urcStep_set_creg|].
    eapply urcStep_trans; [apply urcStep_check|].
    destruct (scan_r sc >=? 3); [|apply urcStep_refl].
    destruct (_ && _); [apply urcStep_set_lac_cid | apply urcStep_refl].
  - destruct (negb (scan_r sc >=? 1)); cbn [snd]; [eapply urcStep_scan; exact Hs|].
    eapply urcStep_trans; [eapply urcStep_scan; exact Hs|].
    eapply urcStep_trans; [apply urcStep_set_cgreg|].
    eapply urcStep_trans; [apply urcStep_check|].
    destruct (scan_r sc >=? 3); [|apply urcStep_refl].
    destruct (is_gsm_utran_rat _ _); [apply urcStep_set_lac_cid | apply urcStep_refl].
  - destruct (negb (scan_r sc >=? 1)); cbn [snd]; [eapply urcStep_scan; exact Hs|].
    eapply urcStep_trans; [eapply urcStep_scan; exact Hs|].
    eapply urcStep_trans; [apply urcStep_set_cereg|].
    eapply urcStep_trans; [apply urcStep_check|].
    destruct (scan_r sc >=? 3); [|apply urcStep_refl].
    destruct (is_lte_rat _ _); [apply urcStep_set_lac_cid | apply urcStep_refl].
Qed.

Lemma dispatchUrcs_invariants (lines : list UrcLine) (w : World) :
  urcStep w (dispatchUrcs P E lines w).
Proof.
  unfold dispatchUrcs. revert w.
  induction lines as [|line lines IH]; intros w; cbn [fold_left]; [apply urcStep_refl|].
  eapply urcStep_trans; [apply urcHandler_invariants | apply IH].
Qed.

Lemma parser_exchange_sameNcp (request : Event) (w : World) :
  sameNcp w (snd (parser_exchange P E request w)).
Proof.
  unfold parser_exchange. cbn [snd].
  eapply sameNcp_trans; [|apply dispatchUrcs_invariants].
  destruct w; split; reflexivity.
Qed.


Lemma check_parser_ok_sameNcp (cmd : string) (w : World) :
  sameNcp w (snd (check_parser_ok P E cmd w)).
Proof.
  unfold check_parser_ok, execCommand.
  pose proof (parser_exchange_sameNcp (AtCommand cmd) w) as H.
  destruct (parser_exchange P E (AtCommand cmd) w) as [reply w1]. cbn [snd] in *.
  destruct (_ <? 0); [|destruct (negb _); exact H].
  eapply sameNcp_trans; [exact H|]. unfold parserError. destruct w1; split; reflexivity.
Qed.

Lemma registrationQueries_sameNcp (w : World) :
  sameNcp w (snd (registrationQueries P E w)).
Proof.
  unfold registrationQueries.
  destruct (negb _); [|apply check_parser_ok_sameNcp].
  pose proof (check_parser_ok_sameNcp "AT+CREG?" w) as H.
  destruct (check_parser_ok P E "AT+CREG?" w) as [[e|[]] w1]; cbn [snd] in *; [exact H|].
  eapply sameNcp_trans; [exact H | apply check_parser_ok_sameNcp].
Qed.

Lemma processEvents_reconcile_sameNcp (w : World) :
  sameNcp w (processEvents_reconcile P E w).
Proof.
  unfold processEvents_reconcile, processUrc.
  pose proof (parser_exchange_sameNcp ProcessUrc w) as H.
  destruct (parser_exchange P E ProcessUrc w) as [reply w1]. cbn [snd] in *.
  eapply sameNcp_trans; [exact H | apply checkRegistrationState_sameNcp].
Qed.



Lemma modemHardReset_frame (fuel : nat) (powerOff : bool) (w w' : World) (r : Z) :
  modemHardReset P E fuel powerOff w = Some (r, w') -> session w' = session w.
Proof.
  unfold modemHardReset.
  destruct (negb (modemPowerState E w)); [intros [= <- <-]; reflexivity|].
  destruct (negb (ncpId w =? PLATFORM_NCP_SARA_R410 P)).
  - intros [= <- <-]. destruct w; reflexivity.
  - destruct (if memoryIssuePresent_ w then waitForPowerOff E fuel w else Some w)
      as [w0|] eqn:Hw0; [|discriminate].
    assert (H0 : session w0 = session w).
    { destruct (memoryIssuePresent_ w).
      - apply (waitForPowerOff_frame _ _ _ Hw0).
      - now injection Hw0 as <-. }
    set (w1 := HAL_Delay_Milliseconds 1000 _).
    assert (H1 : session w1 = session w) by (subst w1; rewrite <- H0; destruct w0; reflexivity).
    clearbody w1. destruct (negb powerOff).
    + intros [= Hr]. pose proof (proj2 (modemPowerOn_outcome w1)) as Hs. cbv zeta in Hs.
      destruct (modemPowerOn P E w1) as [r1 w2]. cbn [snd] in *.
      injection Hr as <- <-. congruence.
    + intros [= <- <-]. exact H1.
Qed.

Lemma modemHardReset_terminates (powerOff : bool) (w : World) :
  agingGuardBounded w -> exists r w', modemHardReset P E 301 powerOff w = Some (r, w').
Proof.
  intros Hb. unfold modemHardReset.
  destruct (negb (modemPowerState E w)); [eauto|].
  destruct (negb (ncpId w =? PLATFORM_NCP_SARA_R410 P)); [eauto|].
  destruct (memoryIssuePresent_ w).
  - destruct (waitForPowerOff_terminates w Hb) as [w0 ->].
    destruct (negb powerOff); [destruct (modemPowerOn P E _)|]; eauto.
  - destruct (negb powerOff); [destruct (modemPowerOn P E _)|]; eauto.
Qed.

Lemma registrationTimeoutReset_spec (fuel : nat) (w w' : World) :
  ncpState_ w <> DISABLED ->
  registrationTimeoutReset P E fuel w = Some w' ->
  ncpState_ w' = OFF /\ connState_ w' = DISCONNECTED /\ ready_ w' = false /\
  exists (rv : Z) (wp : World),
    modemPowerOff P E fuel (muxer_stop w) = Some (rv, wp) /\
    (rv = 0 -> w' = ncpState E OFF wp) /\
    (rv <> 0 -> exists (rh : Z) (wh : World),
                  modemHardReset P E fuel true wp = Some (rh, wh) /\
                  w' = ncpState E OFF wh).
Proof.
  unfold registrationTimeoutReset. intros Hn.
  destruct (modemPowerOff P E fuel (muxer_stop w)) as [[rv wp]|] eqn:Hoff; [|discriminate].
  destruct (modemPowerOff_outcome _ _ _ _ Hoff) as (_ & Hsp & _).
  assert (Hnp : ncpState_ wp <> DISABLED).
  { destruct (session_fields _ _ Hsp) as (_ & Hx & _). rewrite Hx.
    destruct w; exact Hn. }
  destruct (rv =? 0) eqn:Hrv; cbn [negb].
  - intros [= <-]. destruct (ncpState_OFF_post wp Hnp) as (A & B & C & _).
    repeat split; auto. exists rv, wp. split; [reflexivity|]. split; [auto | lia].
  - destruct (modemHardReset P E fuel true wp) as [[rh wh]|] eqn:Hhr; [|discriminate].
    intros [= <-].
    assert (Hnh : ncpState_ wh <> DISABLED).
    { pose proof (modemHardReset_frame _ _ _ _ _ Hhr) as Hsh.
      destruct (session_fields _ _ Hsh) as (_ & Hx & _). congruence. }
    destruct (ncpState_OFF_post wh Hnh) as (A & B & C & _).
    repeat split; auto. exists rv, wp. split; [reflexivity|]. split; [lia|].
    intros _. exists rh, wh. auto.
Qed.

Lemma registrationTimeoutReset_terminates (w : World) :
  agingGuardBounded w ->
  (forall rv wp, modemPowerOff P E 301 (muxer_stop w) = Some (rv, wp) -> agingGuardBounded wp) ->
  exists w', registrationTimeoutReset P E 301 w = Some w'.
Proof.
  intros Hb Hb2. unfold registrationTimeoutReset.
  destruct (modemPowerOff_terminates (muxer_stop w)) as (rv & wp & Hoff);
    [destruct w; exact Hb|].
  rewrite Hoff. destruct (negb (rv =? 0)); [|eauto].
  destruct (modemHardReset_terminates true wp (Hb2 _ _ Hoff)) as (rh & wh & ->). eauto.
Qed.



Lemma processEventsImpl_not_on (fuel : nat) (w : World) :
  ncpState_ w <> ON ->
  processEventsImpl P E fuel w = Some (SYSTEM_ERROR_INVALID_STATE P, w).
Proof.
  unfold processEventsImpl. intros Hn.
  destruct (NcpState_eq_dec (ncpState_ w) ON); [contradiction | reflexivity].
Qed.

Lemma regCheckTime_guard_ncpState (w : World) :
  ncpState_ (regCheckTime_guard w) = ncpState_ w /\
  connState_ (regCheckTime_guard w) = connState_ w /\
  ready_ (regCheckTime_guard w) = ready_ w.
Proof. destruct w; auto. Qed.

Lemma processEventsImpl_no_reset (fuel : nat) (w : World) :
  ncpState_ w = ON ->
  let w1 := processEvents_reconcile P E w in
  let q := fst (registrationQueries P E w1) in
  let w2 := snd (registrationQueries P E w1) in
  (pollNotDue w1 = true -> processEventsImpl P E fuel w = Some (0, w1)) /\
  (pollNotDue w1 = false -> forall e, q = inl e ->
     processEventsImpl P E fuel w = Some (e, regCheckTime_guard w2)) /\
  (pollNotDue w1 = false -> q = inr tt -> registrationTimedOut w2 = false ->
     processEventsImpl P E fuel w = Some (0, regCheckTime_guard w2)) /\
  ncpState_ w1 = ON /\ ncpState_ (regCheckTime_guard w2) = ON.
Proof.
  intros Hon. cbv zeta. unfold processEventsImpl.
  destruct (NcpState_eq_dec (ncpState_ w) ON) as [_|]; [|contradiction].
  pose proof (processEvents_reconcile_sameNcp w) as [H1 _].
  set (w1 := processEvents_reconcile P E w) in *.
  pose proof (registrationQueries_sameNcp w1) as [H2 _].
  destruct (registrationQueries P E w1) as [q w2]. cbn [fst snd] in *.
  split; [intros ->; reflexivity|].
  split; [intros -> e ->; reflexivity|].
  split; [intros -> -> ->; reflexivity|].
  split; [congruence|]. rewrite (proj1 (regCheckTime_guard_ncpState w2)). congruence.
Qed.

Lemma processEventsImpl_reset (fuel : nat) (w : World) :
  ncpState_ w = ON ->
  let w1 := processEvents_reconcile P E w in
  let q := fst (registrationQueries P E w1) in
  let w2 := snd (registrationQueries P E w1) in
  pollNotDue w1 = false -> q = inr tt -> registrationTimedOut w2 = true ->
  (forall r w', processEventsImpl P E fuel w = Some (r, w') ->
     r = 0 /\ ncpState_ w' = OFF /\ connState_ w' = DISCONNECTED /\ ready_ w' = false /\
     log (muxer_stop w2) = MuxStop :: log w2 /\
     exists (rv : Z) (wp : World),
       modemPowerOff P E fuel (muxer_stop w2) = Some (rv, wp) /\
       (rv = 0 -> w' = regCheckTime_guard (ncpState E OFF wp)) /\
       (rv <> 0 -> exists (rh : Z) (wh : World),
                     modemHardReset P E fuel true wp = Some (rh, wh) /\
                     w' = regCheckTime_guard (ncpState E OFF wh))) /\
  (agingGuardBounded w2 ->
   (forall rv wp, modemPowerOff P E 301 (muxer_stop w2) = Some (rv, wp) ->
                  agingGuardBounded wp) ->
   exists w', processEventsImpl P E 301 w = Some (0, w')).
Proof.
  intros Hon. cbv zeta. unfold processEventsImpl.
  destruct (NcpState_eq_dec (ncpState_ w) ON) as [_|]; [|contradiction].
  pose proof (processEvents_reconcile_sameNcp w) as [H1 _].
  set (w1 := processEvents_reconcile P E w) in *.
  pose proof (registrationQueries_sameNcp w1) as [H2 _].
  destruct (registrationQueries P E w1) as [q w2]. cbn [fst snd] in *.
  intros -> -> ->.
  assert (Hn2 : ncpState_ w2 <> DISABLED) by congruence.
  split.
  - intros r w'.
    destruct (registrationTimeoutReset P E fuel w2) as [w3|] eqn:Hreset; [|discriminate].
    intros [= <- <-].
    destruct (registrationTimeoutReset_spec _ _ _ Hn2 Hreset)
      as (A & B & C & rv & wp & Hoff & Hz & Hnz).
    destruct (regCheckTime_guard_ncpState w3) as (G1 & G2 & G3).
    split; [reflexivity|]. split; [congruence|]. split; [congruence|]. split; [congruence|].
    split; [destruct w2; reflexivity|].
    exists rv, wp. split; [exact Hoff|]. split.
    + intros Hrv. now rewrite (Hz Hrv).
    + intros Hrv. destruct (Hnz Hrv) as (rh & wh & Hh & ->). eauto.
  - intros Hb Hb2.
    destruct (registrationTimeoutReset_terminates w2 Hb Hb2) as [w3 ->]. eauto.
Qed.


Lemma processEventsImpl_ncpState (fuel : nat) (w w' : World) (r : Z) :
  processEventsImpl P E fuel w = Some (r, w') ->
  (ncpState_ w <> ON -> w' = w) /\ (ncpState_ w' = ncpState_ w \/ ncpState_ w' = OFF).
Proof.
  intros H. destruct (NcpState_eq_dec (ncpState_ w) ON) as [Hon|Hoff].
  - split; [contradiction|].
    destruct (processEventsImpl_no_reset fuel w Hon) as (A & B & C & D1 & D2).
    cbv zeta in *.
    destruct (pollNotDue (processEvents_reconcile P E w)) eqn:Hdue.
    + rewrite (A eq_refl) in H. injection H as <- <-. left. congruence.
    + destruct (registrationQueries P E (processEvents_reconcile P E w)) as [q w2] eqn:Hq.
      cbn [fst snd] in *. destruct q as [e|[]].
      * rewrite (B eq_refl e eq_refl) in H. injection H as <- <-. left. congruence.
      * destruct (registrationTimedOut w2) eqn:Hto.
        -- pose proof (processEventsImpl_reset fuel w Hon) as R. cbv zeta in R.
           rewrite Hq in R. cbn [fst snd] in R.
           destruct (R Hdue eq_refl Hto) as [R1 _].
           destruct (R1 _ _ H) as (_ & Hoff & _). now right.
        -- rewrite (C eq_refl eq_refl eq_refl) in H. injection H as <- <-. left. congruence.
  - rewrite (processEventsImpl_not_on fuel w Hoff) in H. injection H as <- <-. auto.
Qed.




(** *** A client that is Off has no session *)

Lemma offIsDisconnected_sameNcp (w w' : World) :
  sameNcp w w' -> (connState_ w = DISCONNECTED -> connState_ w' = DISCONNECTED) ->
  offIsDisconnected w -> offIsDisconnected w'.
Proof. unfold offIsDisconnected. intros [Hn _] Hd Hi Hoff. rewrite Hn in Hoff. auto. Qed.

Lemma checkRegistrationState_disconnected (w : World) :
  connState_ w = DISCONNECTED -> checkRegistrationState E w = w.
Proof. unfold checkRegistrationState. now intros ->. Qed.

Lemma urcHandler_disconnected (line : UrcLine) (w : World) :
  connState_ w = DISCONNECTED ->
  connState_ (snd (urcHandler P E line w)) = DISCONNECTED.
Proof.
  intros Hd.
  assert (Htail : forall (w2 : World) (b : bool) (lac cid : Z),
            connState_ w2 = DISCONNECTED ->
            connState_ (if b then set_lac_cid lac cid w2 else w2) = DISCONNECTED)
    by (intros w2 [] lac cid H2; [destruct w2|]; exact H2).
  unfold urcHandler, urc_CREG, urc_CGREG, urc_CEREG.
  destruct (urc_prefix line);
    destruct (scanRegistrationLine line w) as [w1 [e|sc]] eqn:Hs; cbn [snd];
    destruct (scanRegistrationLine_sameNcp _ _ _ _ Hs) as (_ & _ & Hc & _);
    try congruence;
    (destruct (negb (scan_r sc >=? 1)); cbn [snd]; [congruence|]);
    rewrite checkRegistrationState_disconnected by (destruct w1; cbn in *; congruence);
    (destruct (scan_r sc >=? 3); [apply Htail|]); destruct w1; cbn in *; congruence.
Qed.

Lemma connectionState_disconnects (w : World) :
  ncpState_ w <> DISABLED -> connState_ (connectionState E DISCONNECTED w) = DISCONNECTED.
Proof. intros Hn. apply (connectionState_DISCONNECTED_post w Hn). Qed.

Lemma ncpState_offIsDisconnected (state : NcpState) (w : World) :
  offIsDisconnected w -> offIsDisconnected (ncpState E state w).
Proof.
  intros Hi. destruct (NcpState_eq_dec (ncpState_ w) DISABLED) as [Hd|Hd].
  - unfold ncpState. destruct (NcpState_eq_dec (ncpState_ w) DISABLED); [exact Hi|contradiction].
  - destruct state.
    + intros _. apply (ncpState_OFF_post w Hd).
    + unfold ncpState, offIsDisconnected.
      destruct (NcpState_eq_dec (ncpState_ w) DISABLED); [contradiction|].
      destruct (NcpState_eq_dec ON OFF); [discriminate|].
      destruct (NcpState_eq_dec (ncpState_ w) ON) as [Hon|Hon]; [congruence|].
      destruct w; cbn. destruct (eventHandler conf_0); cbn; discriminate.
    + unfold ncpState, offIsDisconnected.
      destruct (NcpState_eq_dec (ncpState_ w) DISABLED); [contradiction|].
      destruct (NcpState_eq_dec DISABLED OFF); [discriminate|].
      destruct (NcpState_eq_dec (ncpState_ w) DISABLED); [contradiction|].
      destruct w; cbn. destruct (eventHandler conf_0); cbn; discriminate.
Qed.

Lemma disable_offIsDisconnected (w : World) :
  offIsDisconnected w -> offIsDisconnected (disable w).
Proof.
  intros Hi. destruct (NcpState_eq_dec (ncpState_ w) DISABLED) as [Hd|Hd].
  - now rewrite disable_when_disabled.
  - intros Hoff. destruct (disable_first w Hd) as (H & _). congruence.
Qed.

Lemma processEventsImpl_offIsDisconnected (fuel : nat) (w w' : World) (r : Z) :
  processEventsImpl P E fuel w = Some (r, w') ->
  offIsDisconnected w -> offIsDisconnected w'.
Proof.
  intros H Hi. destruct (NcpState_eq_dec (ncpState_ w) ON) as [Hon|Hoff].
  - destruct (processEventsImpl_no_reset fuel w Hon) as (A & B & C & D1 & D2).
    cbv zeta in *.
    destruct (pollNotDue (processEvents_reconcile P E w)) eqn:Hdue.
    + rewrite (A eq_refl) in H. injection H as <- <-. intros Hx. congruence.
    + destruct (registrationQueries P E (processEvents_reconcile P E w)) as [q w2] eqn:Hq.
      cbn [fst snd] in *. destruct q as [e|[]].
      * rewrite (B eq_refl e eq_refl) in H. injection H as <- <-. intros Hx. congruence.
      * destruct (registrationTimedOut w2) eqn:Hto.
        -- pose proof (processEventsImpl_reset fuel w Hon) as R. cbv zeta in R.
           rewrite Hq in R. cbn [fst snd] in R.
           destruct (R Hdue eq_refl Hto) as [R1 _].
           destruct (R1 _ _ H) as (_ & _ & Hdisc & _). intros _. exact Hdisc.
        -- rewrite (C eq_refl eq_refl eq_refl) in H. injection H as <- <-.
           intros Hx. congruence.
  - rewrite (processEventsImpl_not_on fuel w Hoff) in H. now injection H as <- <-.
Qed.

(** X17: every operation on the session keeps the rule that a client which
    is Off is Disconnected: the reconciliation of the registration state,
    the URC handlers, [ncpState], the channel state callback, [disable],
    [off], [enable], [processEventsImpl] and [dataChannelWrite]. *)
Lemma offIsDisconnected_kept (w : World) :
  offIsDisconnected w ->
  offIsDisconnected (checkRegistrationState E w) /\
  (forall line, offIsDisconnected (snd (urcHandler P E line w))) /\
  (forall state, offIsDisconnected (ncpState E state w)) /\
  (forall channel closed, offIsDisconnected (snd (muxChannelStateCb E channel closed w))) /\
  offIsDisconnected (disable w) /\
  (forall fuel r w', off P E fuel w = Some (r, w') -> offIsDisconnected w') /\
  (forall fuel r w', enable P E fuel w = Some (r, w') -> offIsDisconnected w') /\
  (forall fuel r w', processEventsImpl P E fuel w = Some (r, w') -> offIsDisconnected w') /\
  (forall id size, offIsDisconnected (snd (dataChannelWrite P E id size w))).
Proof.
  intros Hi.
  split; [|split; [|split; [|split; [|split; [|split; [|split; [|split]]]]]]].
  - eapply offIsDisconnected_sameNcp; [apply checkRegistrationState_sameNcp| |exact Hi].
    intros Hd. now rewrite checkRegistrationState_disconnected.
  - intros line. eapply offIsDisconnected_sameNcp; [apply urcHandler_invariants| |exact Hi].
    apply urcHandler_disconnected.
  - intros state. now apply ncpState_offIsDisconnected.
  - intros channel closed. unfold muxChannelStateCb.
    destruct closed; [|exact Hi].
    destruct (channel =? 0); [now apply disable_offIsDisconnected|].
    destruct (channel =? UBLOX_NCP_PPP_CHANNEL); [|exact Hi].
    destruct (connState_ w) eqn:Hc; cbn [snd]; [exact Hi| |];
      (intros Hoff; exfalso;
       rewrite (proj1 (connectionState_sameNcp CONNECTING w)) in Hoff;
       specialize (Hi Hoff); congruence).
  - now apply disable_offIsDisconnected.
  - intros fuel r w' Hoff. destruct (NcpState_eq_dec (ncpState_ w) DISABLED) as [Hd|Hd].
    + unfold off in Hoff. destruct (NcpState_eq_dec (ncpState_ w) DISABLED); [|contradiction].
      now injection Hoff as <- <-.
    + intros _. apply (off_spec _ _ _ _ Hd Hoff).
  - intros fuel r w'. unfold enable.
    destruct (NcpState_eq_dec (ncpState_ w) DISABLED) as [Hd|Hd];
      [|intros [= <- <-]; exact Hi].
    set (w0 := set_ncpState _ _).
    destruct (off P E fuel w0) as [[r0 w1]|] eqn:Hoff; [|discriminate].
    intros [= <- <-].
    destruct (NcpState_eq_dec (ncpState_ w0) DISABLED) as [H0|H0].
    + unfold off in Hoff. destruct (NcpState_eq_dec (ncpState_ w0) DISABLED); [|contradiction].
      injection Hoff as <- <-. intros Hx. congruence.
    + intros _. apply (off_spec _ _ _ _ H0 Hoff).
  - intros fuel r w' H. exact (processEventsImpl_offIsDisconnected _ _ _ _ H Hi).
  - intros id size.
    assert (Hs : (ncpState_ (snd (dataChannelWrite P E id size w)) = ncpState_ w \/
                  ncpState_ (snd (dataChannelWrite P E id size w)) = DISABLED) /\
                 connState_ (snd (dataChannelWrite P E id size w)) = connState_ w).
    { clear. unfold dataChannelWrite, disable.
      destruct w as [cf ns pns cs cr cg ce rst rct pot rgt mip pe rdy rto cgi act fw lw biw clk lg se me po].
      cbn. unfold rate_limited, ncpId. cbn.
      repeat (match goal with
              | |- context [if ?c then _ else _] => destruct c eqn:?
              end; cbn in *); auto. }
    destruct Hs as [[Hn|Hn] Hc]; intros Hoff; [rewrite Hc; apply Hi|]; congruence.
Qed.

End Properties.

(** ** Properties of the rest of the client *)

(** *** Reasoning about computations with early return *)

Section Wp.

Context {S : Type}.

Lemma wp_ret {A : Type} (a : A) (Post : Z + A -> S -> Prop) (s : S) :
  Post (inr a) s -> wp (ret a) Post s.
Proof. intros HP. exact HP. Qed.

Lemma wp_Return {A : Type} (r : Z) (Post : Z + A -> S -> Prop) (s : S) :
  Post (inl r) s -> wp (Return r) Post s.
Proof. intros HP. exact HP. Qed.

Lemma wp_bind {A B : Type} (m : Run S A) (k : A -> Run S B)
    (Post : Z + B -> S -> Prop) (s : S) :
  wp m (fun res s' => match res with
                      | inl r => Post (inl r) s'
                      | inr a => wp (k a) Post s'
                      end) s ->
  wp (bind m k) Post s.
Proof.
  unfold wp, bind. destruct (m s) as [[[r|a] s']|]; auto.
Qed.

Lemma wp_fn (body : Run S Z) (Post : Z + Z -> S -> Prop) (s : S) :
  wp body (fun res s' => Post (inr (returned res)) s') s ->
  wp (fn body) Post s.
Proof.
  unfold wp, fn. destruct (body s) as [[[r|r] s']|]; auto.
Qed.

Lemma wp_mono {A : Type} (m : Run S A) (Q Q' : Z + A -> S -> Prop) (s : S) :
  wp m Q s -> (forall res s', Q res s' -> Q' res s') -> wp m Q' s.
Proof.
  unfold wp. destruct (m s) as [[res s']|]; auto.
Qed.

Lemma wp_CHECK (m : Run S Z) (Post : Z + Z -> S -> Prop) (s : S) :
  wp m (fun res s' => match res with
                      | inl r => Post (inl r) s'
                      | inr r => if r <? 0 then Post (inl r) s' else Post (inr r) s'
                      end) s ->
  wp (CHECK m) Post s.
Proof.
  intros Hm. unfold CHECK. apply wp_bind. eapply wp_mono; [exact Hm|].
  intros [r|r] s'; [auto|]. destruct (r <? 0); auto.
Qed.

Lemma wp_CHECK_TRUE (cond : bool) (r : Z) (Post : Z + unit -> S -> Prop) (s : S) :
  (cond = true -> Post (inr tt) s) -> (cond = false -> Post (inl r) s) ->
  wp (CHECK_TRUE cond r) Post s.
Proof. unfold CHECK_TRUE, wp. destruct cond; cbn; auto. Qed.

(** From a run to what [wp] says about it. *)
Lemma run_wp (m : Run S Z) (Q : Z -> S -> Prop) (s s' : S) (r : Z) :
  wp m (fun res s' => Q (returned res) s') s -> run m s = Some (r, s') -> Q r s'.
Proof.
  unfold wp, run. destruct (m s) as [[[r0|r0] s0]|]; intros HQ [= <- <-]; exact HQ.
Qed.

End Wp.

Section Triples.

Context {S : Type}.

Lemma triple_conseq {A : Type} (I I' : S -> Prop) (m : Run S A)
    (E E' : Z -> S -> Prop) (Q Q' : A -> S -> Prop) :
  triple I m E Q ->
  (forall s, I' s -> I s) -> (forall e s, E e s -> E' e s) ->
  (forall a s, Q a s -> Q' a s) ->
  triple I' m E' Q'.
Proof.
  intros Hm HI HE HQ s Hs. eapply wp_mono; [apply Hm; auto|].
  intros [e|a] s'; auto.
Qed.

Lemma triple_bind {A B : Type} (I : S -> Prop) (m : Run S A) (k : A -> Run S B)
    (E : Z -> S -> Prop) (Q1 : A -> S -> Prop) (Q : B -> S -> Prop) :
  triple I m E Q1 -> (forall a, triple (Q1 a) (k a) E Q) -> triple I (bind m k) E Q.
Proof.
  intros Hm Hk s Hs. apply wp_bind. eapply wp_mono; [apply Hm; exact Hs|].
  intros [e|a] s'; [auto|]. intros Ha. apply Hk. exact Ha.
Qed.

Lemma triple_ret {A : Type} (I : S -> Prop) (a : A) (E : Z -> S -> Prop) :
  triple I (ret a) E (fun _ => I).
Proof. intros s Hs. exact Hs. Qed.

Lemma triple_Return {A : Type} (I : S -> Prop) (r : Z) (E : Z -> S -> Prop)
    (Q : A -> S -> Prop) :
  (forall s, I s -> E r s) -> triple I (Return r) E Q.
Proof. intros HE s Hs. apply HE. exact Hs. Qed.

(** A function has no early return for its caller. *)
Lemma triple_fn (I : S -> Prop) (body : Run S Z) (E : Z -> S -> Prop) (Q : Z -> S -> Prop) :
  triple I body Q Q -> triple I (fn body) E Q.
Proof.
  intros Hb s Hs. apply wp_fn. eapply wp_mono; [apply Hb; exact Hs|].
  intros [e|a] s'; auto.
Qed.

Lemma triple_CHECK (I : S -> Prop) (m : Run S Z) (E : Z -> S -> Prop) (Q : Z -> S -> Prop) :
  triple I m E (fun r s => if r <? 0 then E r s else Q r s) -> triple I (CHECK m) E Q.
Proof.
  intros Hm s Hs. apply wp_CHECK. eapply wp_mono; [apply Hm; exact Hs|].
  intros [e|r] s'; auto.
Qed.

Lemma triple_CHECK_TRUE (I : S -> Prop) (cond : bool) (r : Z) (E : Z -> S -> Prop) :
  (cond = false -> forall s, I s -> E r s) ->
  triple I (CHECK_TRUE cond r) E (fun _ => I).
Proof.
  intros HE s Hs. apply wp_CHECK_TRUE; intros Hc; [exact Hs | now apply HE].
Qed.

End Triples.

Section BootProperties.

Variable P : Platform.
Variable H : Headers.
Variable E : Env.
Variable X : Host.

Local Open Scope run_scope.

(** *** What an exchange with the parser leaves alone *)

Ltac solve_frame :=
  unfold parserFrame, settings; cbn;
  repeat match goal with |- _ /\ _ => split end;
  cbn; try reflexivity; auto; try lia; try congruence;
  try (first [ exists []; reflexivity | eexists [_]; reflexivity
             | eexists [_; _]; reflexivity | eexists [_; _; _]; reflexivity ]).

Lemma parserFrame_refl (w : World) : parserFrame w w.
Proof. solve_frame. Qed.

Lemma parserFrame_trans (w1 w2 w3 : World) :
  parserFrame w1 w2 -> parserFrame w2 w3 -> parserFrame w1 w3.
Proof.
  intros (A1 & A2 & A3 & [e1 A4] & A5) (B1 & B2 & B3 & [e2 B4] & B5).
  unfold parserFrame. split; [congruence|]. split; [auto|]. split; [auto|].
  split; [|lia]. exists (e2 ++ e1). rewrite B4, A4. now rewrite app_assoc.
Qed.

Lemma connectionState_parserFrame (state : NcpConnectionState) (w : World) :
  (connState_ w = DISCONNECTED -> state = DISCONNECTED) ->
  parserFrame w (connectionState E state w).
Proof.
  unfold connectionState.
  destruct w as [cf ns pns cs cr cg ce rst rct pot rgt mip pe rdy rto cgi act fw lw biw clk lg se me po].
  cbn. intros Hs.
  destruct (NcpState_eq_dec ns DISABLED); [solve_frame|].
  destruct (NcpConnectionState_eq_dec cs state); [solve_frame|].
  cbn. destruct (NcpConnectionState_eq_dec state CONNECTED); cbn;
    [destruct (negb _); cbn|]; destruct (eventHandler cf); cbn;
    solve_frame; intros Hd; specialize (Hs Hd); congruence.
Qed.

Lemma checkRegistrationState_parserFrame (w : World) :
  parserFrame w (checkRegistrationState E w).
Proof.
  unfold checkRegistrationState.
  destruct (connState_ w) eqn:Hcs; [apply parserFrame_refl| |];
    (destruct (registered w);
     [ eapply parserFrame_trans; [|apply connectionState_parserFrame];
       [destruct (_ && _); [destruct w; solve_frame|apply parserFrame_refl]|
        destruct (_ && _); destruct w; cbn in *; congruence]
     | destruct (NcpConnectionState_eq_dec _ CONNECTED); [|apply parserFrame_refl];
       eapply parserFrame_trans;
         [apply (connectionState_parserFrame CONNECTING w); congruence|];
       destruct (connectionState E CONNECTING w); solve_frame ]).
Qed.

Lemma scanRegistrationLine_parserFrame (line : UrcLine) (w w1 : World) (res : Z + Scan) :
  scanRegistrationLine line w = (w1, res) -> parserFrame w w1.
Proof.
  unfold scanRegistrationLine, parserError.
  destruct (urc_readLine line <? 0).
  - intros [= <- _]. destruct w; solve_frame.
  - destruct (0 >=? _).
    + destruct (_ <? 0); intros [= <- _]; destruct w; solve_frame.
    + intros [= <- _]. apply parserFrame_refl.
Qed.

Lemma urcHandler_parserFrame (line : UrcLine) (w : World) :
  parserFrame w (snd (urcHandler P E line w)).
Proof.
  assert (Hset : forall (w2 : World) (b : bool) (lac cid : Z),
            parserFrame w2 (if b then set_lac_cid lac cid w2 else w2))
    by (intros w2 [] lac cid; [destruct w2; solve_frame | apply parserFrame_refl]).
  unfold urcHandler, urc_CREG, urc_CGREG, urc_CEREG.
  destruct (urc_prefix line);
    destruct (scanRegistrationLine line w) as [w1 [e|sc]] eqn:Hs; cbn [snd];
    pose proof (scanRegistrationLine_parserFrame _ _ _ _ Hs) as Hf; try exact Hf;
    (destruct (negb (scan_r sc >=? 1)); cbn [snd]; [exact Hf|]);
    (eapply parserFrame_trans; [exact Hf|]);
    (eapply parserFrame_trans; [|destruct (scan_r sc >=? 3); [apply Hset | apply parserFrame_refl]]);
    (eapply parserFrame_trans; [|apply checkRegistrationState_parserFrame]);
    destruct w1; solve_frame.
Qed.

Lemma dispatchUrcs_parserFrame (lines : list UrcLine) (w : World) :
  parserFrame w (dispatchUrcs P E lines w).
Proof.
  unfold dispatchUrcs. revert w.
  induction lines as [|line lines IH]; intros w; cbn [fold_left]; [apply parserFrame_refl|].
  eapply parserFrame_trans; [apply urcHandler_parserFrame | apply IH].
Qed.

Lemma parser_exchange_parserFrame (request : Event) (w : World) :
  parserFrame w (snd (parser_exchange P E request w)).
Proof.
  unfold parser_exchange. cbn [snd].
  eapply parserFrame_trans; [|apply dispatchUrcs_parserFrame].
  destruct w; solve_frame.
Qed.

(** *** Rules for the steps of the client *)

Section Rules.

Variable J : World -> Prop.
Hypothesis HJ : Stable P E J.

Lemma keeps_checks {A : Type} (m : Run Client A) : keeps J m -> checks P H J m.
Proof. intros Hm Ex _. apply Hm. Qed.

Lemma checks_bind {A B : Type} (m : Run Client A) (k : A -> Run Client B) :
  checks P H J m -> (forall a, checks P H J (k a)) -> checks P H J (bind m k).
Proof.
  intros Hm Hk Ex HEx. eapply triple_bind; [apply Hm; exact HEx|].
  intros a. apply Hk. exact HEx.
Qed.

Lemma keeps_bind {A B : Type} (m : Run Client A) (k : A -> Run Client B) :
  keeps J m -> (forall a, keeps J (k a)) -> keeps J (bind m k).
Proof.
  intros Hm Hk Ex. eapply triple_bind; [apply Hm|]. intros a. apply Hk.
Qed.

Lemma keeps_ret {A : Type} (a : A) : keeps J (ret a).
Proof. intros Ex c Hc. exact Hc. Qed.

Lemma checks_Return {A : Type} (e : Z) : exitCode P H e -> checks P H J (@Return Client A e).
Proof. intros He Ex HEx c Hc. apply HEx; assumption. Qed.

(** A function keeps what its body keeps, whatever the body returns
    early. *)
Lemma keeps_fn (body : Run Client Z) :
  triple (fun c => J (world c)) body (fun _ c => J (world c)) (fun _ c => J (world c)) ->
  keeps J (fn body).
Proof. intros Hb Ex. apply triple_fn. exact Hb. Qed.

Lemma checks_CHECK (m : Run Client Z) : checks P H J m -> checks P H J (CHECK m).
Proof.
  intros Hm Ex HEx. apply triple_CHECK.
  eapply triple_conseq; [apply Hm; exact HEx | auto | auto |].
  intros r c Hc. destruct (r <? 0) eqn:Hr; [|exact Hc].
  apply HEx; [exact Hc | left; lia].
Qed.

Lemma checks_CHECK_TRUE (cond : bool) (e : Z) :
  exitCode P H e -> checks P H J (CHECK_TRUE cond e).
Proof.
  intros He Ex HEx. apply triple_CHECK_TRUE. intros _ c Hc. apply HEx; assumption.
Qed.

Lemma keeps_read {A : Type} (f : World -> A) : keeps J (read f).
Proof. intros Ex c Hc. exact Hc. Qed.

Lemma keeps_member {A : Type} (f : Client -> A) : keeps J (member f).
Proof. intros Ex c Hc. exact Hc. Qed.

Lemma keeps_modify (f : World -> World) :
  (forall w, J w -> J (f w)) -> keeps J (modify f).
Proof. intros Hf Ex c Hc. apply Hf. exact Hc. Qed.

Lemma keeps_call {A : Type} (f : World -> A * World) :
  (forall w, J w -> J (snd (f w))) -> keeps J (call f).
Proof.
  intros Hf Ex c Hc. unfold wp, call. specialize (Hf _ Hc).
  destruct (f (world c)) as [a w]. exact Hf.
Qed.

Lemma keeps_call_fuel {A : Type} (f : World -> option (A * World)) :
  (forall w a w', J w -> f w = Some (a, w') -> J w') -> keeps J (call_fuel f).
Proof.
  intros Hf Ex c Hc. unfold wp, call_fuel.
  destruct (f (world c)) as [[a w]|] eqn:Hfw; [|exact I].
  eapply Hf; eauto.
Qed.

Lemma keeps_host (h : HostCall) : keeps J (host X h).
Proof. intros Ex c Hc. exact Hc. Qed.

Lemma keeps_skipAll (timeout : Z) : keeps J (skipAll X timeout).
Proof. intros Ex c Hc. unfold wp, skipAll. cbn. now apply (stable_clock P E J HJ). Qed.

Lemma keeps_sendCommand (cmd : string) : keeps J (sendCommand P E X cmd).
Proof.
  intros Ex c Hc. unfold wp, sendCommand.
  pose proof (stable_exchange P E J HJ cmd _ Hc) as Hx.
  destruct (parser_exchange P E (AtCommand cmd) (world c)) as [reply w]. exact Hx.
Qed.

Lemma keeps_sendCommand_timeout (timeout : option Z) (cmd : string) :
  keeps J (sendCommand_timeout P E X timeout cmd).
Proof. apply keeps_sendCommand. Qed.

Lemma keeps_exec (cmd : string) : keeps J (exec P E cmd).
Proof.
  apply keeps_call. intros w Hw. unfold execCommand.
  pose proof (stable_exchange P E J HJ cmd _ Hw) as Hx.
  destruct (parser_exchange P E (AtCommand cmd) w) as [reply w1]. exact Hx.
Qed.

Lemma keeps_exec_timeout (timeout : option Z) (cmd : string) :
  keeps J (exec_timeout P E timeout cmd).
Proof. apply keeps_exec. Qed.

Lemma checks_CHECK_PARSER (m : Run Client Z) :
  checks P H J m -> checks P H J (CHECK_PARSER m).
Proof.
  intros Hm Ex HEx. unfold CHECK_PARSER.
  eapply triple_bind; [apply Hm; exact HEx|]. intros r. cbv beta.
  destruct (r <? 0) eqn:Hr.
  - eapply triple_bind; [apply keeps_modify; apply (stable_parserError P E J HJ)|].
    intros u. apply triple_Return. intros c Hc. apply HEx; [exact Hc | left; lia].
  - apply triple_ret.
Qed.

Lemma checks_CHECK_PARSER_OK (m : Run Client Z) :
  checks P H J m -> checks P H J (CHECK_PARSER_OK P m).
Proof.
  intros Hm Ex HEx. unfold CHECK_PARSER_OK.
  eapply triple_bind; [apply Hm; exact HEx|]. intros r. cbv beta.
  destruct (r <? 0) eqn:Hr.
  - eapply triple_bind; [apply keeps_modify; apply (stable_parserError P E J HJ)|].
    intros u. apply triple_Return. intros c Hc. apply HEx; [exact Hc | left; lia].
  - destruct (negb _).
    + apply triple_Return. intros c Hc. apply HEx; [exact Hc | unfold exitCode; auto].
    + apply triple_ret.
Qed.

Lemma wp_read {A : Type} (f : World -> A) (Post : Z + A -> Client -> Prop) (c : Client) :
  Post (inr (f (world c))) c -> wp (read f) Post c.
Proof. intros HP. exact HP. Qed.

Lemma wp_member {A : Type} (f : Client -> A) (Post : Z + A -> Client -> Prop) (c : Client) :
  Post (inr (f c)) c -> wp (member f) Post c.
Proof. intros HP. exact HP. Qed.

Lemma wp_modify (f : World -> World) (Post : Z + unit -> Client -> Prop) (c : Client) :
  (forall c', world c' = f (world c) -> Post (inr tt) c') -> wp (modify f) Post c.
Proof. intros HP. apply HP. reflexivity. Qed.

Lemma wp_call {A : Type} (f : World -> A * World) (Post : Z + A -> Client -> Prop)
    (c : Client) :
  (forall c', world c' = snd (f (world c)) -> Post (inr (fst (f (world c)))) c') ->
  wp (call f) Post c.
Proof.
  intros HP. unfold wp, call. specialize (HP (set_world (snd (f (world c))) c) eq_refl).
  destruct (f (world c)) as [a w]. exact HP.
Qed.

Lemma wp_call_fuel {A : Type} (f : World -> option (A * World))
    (Post : Z + A -> Client -> Prop) (c : Client) :
  (forall a w c', f (world c) = Some (a, w) -> world c' = w -> Post (inr a) c') ->
  wp (call_fuel f) Post c.
Proof.
  intros HP. unfold wp, call_fuel.
  destruct (f (world c)) as [[a w]|] eqn:Hf; [|exact I]. now apply (HP a w).
Qed.

Lemma wp_host (h : HostCall) (Post : Z + Z -> Client -> Prop) (c : Client) :
  (forall r c', world c' = world c -> Post (inr r) c') -> wp (host X h) Post c.
Proof. intros HP. apply HP. reflexivity. Qed.

Lemma wp_skipAll (timeout : Z) (Post : Z + unit -> Client -> Prop) (c : Client) :
  (forall t c', world c' = set_clock t (world c) -> Post (inr tt) c') ->
  wp (skipAll X timeout) Post c.
Proof. intros HP. unfold wp, skipAll. cbn. eapply HP. reflexivity. Qed.

Lemma wp_keeps {A : Type} (m : Run Client A) (Post : Z + A -> Client -> Prop) (c : Client) :
  keeps J m -> J (world c) ->
  (forall a c', J (world c') -> Post (inr a) c') ->
  wp m Post c.
Proof.
  intros Hm Hc HP.
  eapply wp_mono; [apply (Hm (fun _ _ => False)); exact Hc|].
  intros [e|a] c'; [contradiction | apply HP].
Qed.

Lemma wp_checks {A : Type} (m : Run Client A) (Post : Z + A -> Client -> Prop) (c : Client) :
  checks P H J m -> J (world c) ->
  (forall e c', exitCode P H e -> J (world c') -> Post (inl e) c') ->
  (forall a c', J (world c') -> Post (inr a) c') ->
  wp m Post c.
Proof.
  intros Hm Hc HE HP.
  eapply wp_mono;
    [apply (Hm (fun e c' => exitCode P H e /\ J (world c'))); [|exact Hc]|].
  - intros e c' Hc' He. auto.
  - intros [e|a] c'; [intros [He Hc']; now apply HE | apply HP].
Qed.

Lemma triple_scope_guard {A : Type} (I0 : Client -> Prop) (cleanup : World -> World)
    (body : Run Client A) (E0 E1 : Z -> Client -> Prop) (Q : A -> Client -> Prop) :
  triple I0 body E0 Q ->
  (forall e c, E0 e c -> E1 e (set_world (cleanup (world c)) c)) ->
  triple I0 (scope_guard cleanup body) E1 Q.
Proof.
  intros Hb Hc c Hi. specialize (Hb c Hi). unfold wp, scope_guard in *.
  destruct (body c) as [[[e|a] c']|]; auto.
Qed.

Lemma checks_scope_guard {A : Type} (cleanup : World -> World) (body : Run Client A) :
  (forall w, J w -> J (cleanup w)) -> checks P H J body ->
  checks P H J (scope_guard cleanup body).
Proof.
  intros Hc Hb Ex HEx.
  eapply triple_scope_guard;
    [apply (Hb (fun e c => exitCode P H e /\ J (world c))); intros e c; auto|].
  intros e c [He Hj]. apply HEx; [apply Hc; exact Hj | exact He].
Qed.

Lemma keeps_assign (f : Client -> Client) :
  (forall c, world (f c) = world c) -> keeps J (assign f).
Proof. intros Hf Ex c Hc. unfold wp, assign. now rewrite Hf. Qed.

(** Inside a function body any value may be returned early. *)

Lemma inv_of_checks {A : Type} (m : Run Client A) : checks P H J m -> inv J m.
Proof. intros Hm. apply Hm. intros e c Hc _. exact Hc. Qed.

Lemma inv_bind {A B : Type} (m : Run Client A) (k : A -> Run Client B) :
  inv J m -> (forall a, inv J (k a)) -> inv J (bind m k).
Proof. intros Hm Hk. eapply triple_bind; [exact Hm | exact Hk]. Qed.

Lemma inv_Return {A : Type} (e : Z) : inv J (@Return Client A e).
Proof. apply triple_Return. auto. Qed.

Lemma keeps_of_inv (body : Run Client Z) : inv J body -> keeps J (fn body).
Proof. exact (keeps_fn body). Qed.

End Rules.

Create HintDb keeps.
Create HintDb checks.

#[local] Hint Resolve keeps_ret keeps_read keeps_member keeps_host keeps_skipAll
  keeps_sendCommand keeps_sendCommand_timeout keeps_exec keeps_exec_timeout : keeps.

(** One step of a derivation of [inv], [checks] or [keeps]. *)
Ltac exit_code := unfold exitCode; auto 10.

(** A property that talks about fields which an update leaves alone is
    closed under it. *)
Ltac closed :=
  intros;
  repeat match goal with w : World |- _ => destruct w end;
  cbn in *;
  first [assumption | tauto | intuition congruence].

Ltac stable := try lazymatch goal with |- Stable _ _ _ => eassumption end.

Ltac step :=
  lazymatch goal with
  | |- inv _ (bind _ _) => apply inv_bind; [|intro]
  | |- inv _ (Return _) => apply inv_Return
  | |- inv _ (if ?b then _ else _) => destruct b
  | |- inv _ (match ?x with _ => _ end) => destruct x
  | |- inv _ _ => apply inv_of_checks; stable
  | |- checks _ _ _ (bind _ _) => apply checks_bind; [|intro]
  | |- checks _ _ _ (CHECK _) => apply checks_CHECK
  | |- checks _ _ _ (CHECK_TRUE _ _) => apply checks_CHECK_TRUE; exit_code
  | |- checks _ _ _ (CHECK_PARSER _) => apply checks_CHECK_PARSER; stable
  | |- checks _ _ _ (CHECK_PARSER_OK _ _) => apply checks_CHECK_PARSER_OK; stable
  | |- checks _ _ _ (Return _) => apply checks_Return; exit_code
  | |- checks _ _ _ (if ?b then _ else _) => destruct b
  | |- checks _ _ _ (match ?x with _ => _ end) => destruct x
  | |- checks _ _ _ (scope_guard _ _) => apply checks_scope_guard; [solve [closed]|]
  | |- checks _ _ _ _ => first [solve [eauto with checks] | apply keeps_checks]
  | |- keeps _ (bind _ _) => apply keeps_bind; [|intro]
  | |- keeps _ (if ?b then _ else _) => destruct b
  | |- keeps _ (match ?x with _ => _ end) => destruct x
  | |- keeps _ (modify (HAL_Delay_Milliseconds _)) =>
      apply keeps_modify; eapply stable_delay; eassumption
  | |- keeps _ (modify _) => apply keeps_modify; solve [closed]
  | |- keeps _ (call _) => apply keeps_call; solve [closed]
  | |- keeps _ (assign _) => apply keeps_assign; reflexivity
  | |- keeps _ (fn _) => apply keeps_of_inv
  | |- keeps _ _ => solve [eauto with keeps]
  end.

(** *** The functions that only talk to the modem keep every stable
    property *)

Section Talk.

Variable J : World -> Prop.
Hypothesis HJ : Stable P E J.

Lemma modemInit_keeps : keeps J (modemInit X).
Proof. unfold modemInit. repeat step. Qed.

Lemma initParser_keeps (stream : Stream) : keeps J (initParser X stream).
Proof. unfold initParser. repeat step. Qed.

Lemma waitAtResponse_loop_inv (fuel : nat) (t1 timeout : Z) (period : option Z) :
  inv J (waitAtResponse_loop P H E fuel t1 timeout period).
Proof.
  induction fuel as [|fuel IH]; cbn [waitAtResponse_loop].
  - intros c _. exact I.
  - repeat first [exact IH | step].
Qed.

Lemma waitAtResponse_keeps (fuel : nat) (timeout : Z) (period : option Z) :
  keeps J (waitAtResponse P H E fuel timeout period).
Proof.
  unfold waitAtResponse. apply keeps_of_inv.
  apply inv_bind; [repeat step | intro].
  apply inv_bind; [apply waitAtResponse_loop_inv | intro]. repeat step.
Qed.

Lemma checkSimCard_keeps : keeps J (checkSimCard P H E X).
Proof. unfold checkSimCard. repeat step. Qed.

Lemma scanGpioConfiguration_checks (lines : list Scan) (mode : Z) :
  checks P H J (scanGpioConfiguration lines mode).
Proof.
  revert mode. induction lines as [|l rest IH]; intros mode; cbn [scanGpioConfiguration].
  - repeat step.
  - repeat first [apply IH | step].
Qed.

Lemma pollSimCard_keeps (n : nat) (simState : Z) :
  keeps J (pollSimCard P H E X n simState).
Proof.
  revert simState. induction n as [|n IH]; intros simState; cbn [pollSimCard].
  - repeat step.
  - apply keeps_bind; [apply checkSimCard_keeps | intro]. repeat first [apply IH | step].
Qed.

#[local] Hint Resolve waitAtResponse_keeps pollSimCard_keeps checkSimCard_keeps
  modemInit_keeps initParser_keeps : keeps.
#[local] Hint Resolve scanGpioConfiguration_checks : checks.

Lemma selectSimCard_keeps (fuel : nat) : keeps J (selectSimCard P H E X fuel).
Proof. unfold selectSimCard. repeat step. Qed.

Lemma changeBaudRate_keeps (baud : Z) : keeps J (changeBaudRate P E X baud).
Proof. unfold changeBaudRate. repeat step. Qed.

Lemma getAppFirmwareVersion_keeps : keeps J (getAppFirmwareVersion P E X).
Proof. unfold getAppFirmwareVersion. repeat step. Qed.

Lemma scanEdrxActs_checks (lines : list Scan) (acts : list Z) :
  checks P H J (scanEdrxActs H X lines acts).
Proof.
  revert acts. induction lines as [|l rest IH]; intros acts; cbn [scanEdrxActs].
  - repeat step.
  - cbv zeta. destruct (scan_r l =? 1); [|apply IH]. repeat first [apply IH | step].
Qed.

Lemma disableEdrx_checks (acts : list Z) (lastError : Z) :
  checks P H J (disableEdrx P E acts lastError).
Proof.
  revert lastError. induction acts as [|act rest IH]; intros lastError; cbn [disableEdrx].
  - repeat step.
  - repeat first [apply IH | step].
Qed.

End Talk.

#[local] Hint Resolve waitAtResponse_keeps pollSimCard_keeps checkSimCard_keeps
  modemInit_keeps initParser_keeps selectSimCard_keeps changeBaudRate_keeps
  getAppFirmwareVersion_keeps : keeps.
#[local] Hint Resolve scanGpioConfiguration_checks scanEdrxActs_checks
  disableEdrx_checks : checks.


(** *** Stable properties *)

Lemma Stable_parserFrame (J : World -> Prop) :
  (forall w w', parserFrame w w' -> J w -> J w') ->
  (forall r w, J w -> J (parserError r w)) ->
  (forall t w, J w -> J (set_clock t w)) ->
  Stable P E J.
Proof.
  intros Hf Hp Hc. split; [| |exact Hp|exact Hc].
  - intros req w Hw. eapply Hf; [apply parser_exchange_parserFrame | exact Hw].
  - intros ms w Hw. unfold HAL_Delay_Milliseconds.
    apply Hc. eapply Hf; [|exact Hw]. destruct w; solve_frame.
Qed.

Lemma Stable_and (J1 J2 : World -> Prop) :
  Stable P E J1 -> Stable P E J2 -> Stable P E (fun w => J1 w /\ J2 w).
Proof.
  intros [A1 A2 A3 A4] [B1 B2 B3 B4]. split; intros; intuition auto.
Qed.

Lemma Stable_ncp (s : NcpState) (cf : CellularNcpClientConfig) :
  Stable P E (fun w => ncpState_ w = s /\ conf_ w = cf).
Proof.
  apply Stable_parserFrame.
  - intros w w' (Hs & _) [Hn Hc]. unfold settings in Hs. injection Hs. intros. split; congruence.
  - closed.
  - closed.
Qed.

Lemma Stable_notReady : Stable P E (fun w => ready_ w = false).
Proof.
  apply Stable_parserFrame.
  - intros w w' (_ & Hr & _) Hw. destruct (ready_ w') eqn:Hr'; [|reflexivity].
    rewrite (Hr eq_refl) in Hw. discriminate.
  - closed.
  - closed.
Qed.

(** *** The boot sequence *)

Lemma ncpState_ON_post (w : World) :
  ncpState_ w <> DISABLED ->
  ncpState_ (ncpState E ON w) = ON /\ conf_ (ncpState E ON w) = conf_ w /\
  ready_ (ncpState E ON w) = ready_ w.
Proof.
  unfold ncpState. intros Hn.
  destruct (NcpState_eq_dec (ncpState_ w) DISABLED); [contradiction|].
  destruct (NcpState_eq_dec ON OFF); [discriminate|].
  destruct (NcpState_eq_dec (ncpState_ w) ON); [auto|].
  destruct w as [cf ns pns cs cr cg ce rst rct pot rgt mip pe rdy rto cgi act fw lw biw clk lg se me po].
  cbn. destruct (eventHandler cf); cbn; auto.
Qed.


Lemma Stable_booting (s0 : NcpState) (cf : CellularNcpClientConfig) (d : bool) :
  Stable P E (booting s0 cf d).
Proof.
  apply Stable_parserFrame.
  - intros w w' (Hs & _ & Hd & _) (Hn & Hc & Hcs). unfold settings in Hs. injection Hs.
    intros. unfold booting. repeat split; try congruence. auto.
  - unfold booting. closed.
  - unfold booting. closed.
Qed.

Lemma ncpState_ON_booting (s0 : NcpState) (cf : CellularNcpClientConfig) (d : bool) (w : World) :
  booting s0 cf d w -> booting (booted s0) cf d (ncpState E ON w) /\
                       ready_ (ncpState E ON w) = ready_ w.
Proof.
  unfold booting, ncpState. intros (Hn & Hc & Hd).
  destruct (NcpState_eq_dec (ncpState_ w) DISABLED) as [e|ne].
  - rewrite <- Hn, e. auto.
  - destruct (NcpState_eq_dec ON OFF); [discriminate|].
    destruct (NcpState_eq_dec (ncpState_ w) ON) as [e|ne'].
    + rewrite <- Hn, e. auto.
    + assert (booted s0 = ON) as -> by (rewrite <- Hn; destruct (ncpState_ w); cbn; congruence).
      destruct w as [cf0 ns pns cs cr cg ce rst rct pot rgt mip pe rdy rto cgi act fw lw biw clk lg se me po].
      cbn in *. destruct (eventHandler cf0); cbn; auto.
Qed.

(** [initReady] ends with [ncpState(NcpState::ON)] when it returns 0 and
    leaves the state alone when it fails; it does not touch the
    configuration and does not connect a Disconnected session. *)
Lemma initReady_post (fuel : nat) (s0 : NcpState) (cf : CellularNcpClientConfig) (d : bool)
    (Ex : Z -> Client -> Prop) :
  errorCodes P H ->
  triple (fun c => booting s0 cf d (world c))
    (initReady P H E X fuel) Ex
    (fun r c => if r =? 0 then booting (booted s0) cf d (world c)
                else booting s0 cf d (world c)).
Proof.
  intros Hcodes.
  pose proof (Stable_booting s0 cf d) as HJ.
  set (J := booting s0 cf d) in *.
  set (Q := fun (r : Z) (c : Client) =>
              if r =? 0 then booting (booted s0) cf d (world c) else J (world c)).
  assert (Hadm : admits P H J Q).
  { intros e c Hc He. unfold Q.
    assert (e <> 0) by (unfold errorCodes in Hcodes; unfold exitCode in He; lia).
    destruct (e =? 0) eqn:He0; [lia | exact Hc]. }
  unfold initReady. apply triple_fn.
  repeat (eapply triple_bind;
          [solve [refine ((_ : checks P H J _) _ Hadm); repeat step] | intro; cbv beta]).
  eapply triple_bind with (Q1 := fun _ c => booting (booted s0) cf d (world c)).
  - eapply triple_scope_guard with (E0 := fun e c => exitCode P H e /\ J (world c)).
    + repeat (eapply triple_bind;
              [solve [refine ((_ : checks P H J _) _ _);
                      [repeat step | intros e c; auto]] | intro; cbv beta]).
      intros c Hc. apply wp_modify. intros c' Hw. rewrite Hw.
      apply ncpState_ON_booting. exact Hc.
    + intros e c [He Hc]. apply Hadm; [|exact He].
      cbn. revert Hc. unfold J, booting. destruct (world c); cbn; auto.
  - intros u. apply triple_Return. intros c Hc. exact Hc.
Qed.

Lemma waitReady_ready (fuel : nat) (c : Client) :
  ready_ (world c) = true -> waitReady P H E X fuel c = Some (inr 0, c).
Proof. intros Hr. unfold waitReady, fn, bind, read. rewrite Hr. reflexivity. Qed.

Lemma triple_read {A : Type} (I : Client -> Prop) (f : World -> A) (Ex : Z -> Client -> Prop) :
  triple I (read f) Ex (fun a c => I c /\ a = f (world c)).
Proof. intros c Hc. split; [exact Hc | reflexivity]. Qed.

Lemma triple_modify (I : Client -> Prop) (f : World -> World) (Ex : Z -> Client -> Prop)
    (Q : unit -> Client -> Prop) :
  (forall c c', I c -> world c' = f (world c) -> Q tt c') -> triple I (modify f) Ex Q.
Proof. intros HQ c Hc. apply wp_modify. intros c' Hw. eapply HQ; eauto. Qed.

Lemma triple_false {S A : Type} (I : S -> Prop) (m : Run S A) (Ex : Z -> S -> Prop)
    (Q : A -> S -> Prop) :
  (forall s, ~ I s) -> triple I m Ex Q.
Proof. intros HI s Hs. destruct (HI s Hs). Qed.

Lemma triple_pre {S A : Type} (I I' : S -> Prop) (m : Run S A) (Ex : Z -> S -> Prop)
    (Q : A -> S -> Prop) :
  (forall s, I' s -> I s) -> triple I m Ex Q -> triple I' m Ex Q.
Proof. intros HI Hm. eapply triple_conseq; eauto. Qed.

Lemma triple_post {S A : Type} (I : S -> Prop) (m : Run S A) (Ex : Z -> S -> Prop)
    (Q Q' : A -> S -> Prop) :
  (forall a s, Q a s -> Q' a s) -> triple I m Ex Q -> triple I m Ex Q'.
Proof. intros HQ Hm. eapply triple_conseq; eauto. Qed.

Lemma ncpState_OFF_booting (s : NcpState) (cf : CellularNcpClientConfig) (d : bool) (w : World) :
  booting s cf d w -> ready_ w = false ->
  conf_ (ncpState E OFF w) = cf /\ ready_ (ncpState E OFF w) = false /\
  (d = true -> connState_ (ncpState E OFF w) = DISCONNECTED) /\
  (ncpState_ (ncpState E OFF w) = OFF \/
   (s = DISABLED /\ ncpState_ (ncpState E OFF w) = DISABLED)).
Proof.
  intros (Hn & Hc & Hd) Hr.
  destruct (NcpState_eq_dec (ncpState_ w) DISABLED) as [e|ne].
  - assert (ncpState E OFF w = w) as ->
      by (unfold ncpState; destruct (NcpState_eq_dec (ncpState_ w) DISABLED); congruence).
    repeat split; auto. right. split; congruence.
  - destruct (ncpState_OFF_post E w ne) as (A1 & A2 & A3 & _ & A5 & _).
    repeat split; auto. congruence.
Qed.

Lemma modemHardReset_booting (fuel : nat) (powerOff : bool) (K : World -> Prop) :
  (forall w w', session w' = session w -> K w -> K w') ->
  keeps K (call_fuel (modemHardReset P E fuel powerOff)).
Proof.
  intros HK. apply keeps_call_fuel. intros w r w' Hw Hm.
  eapply HK; [|exact Hw]. eapply modemHardReset_frame; eauto.
Qed.

Lemma waitReady_post (fuel : nat) (s0 : NcpState) (cf : CellularNcpClientConfig) (d : bool)
    (Ex : Z -> Client -> Prop) :
  errorCodes P H ->
  triple (fun c => booting s0 cf d (world c) /\ ready_ (world c) = false)
    (waitReady P H E X fuel) Ex
    (fun r c => if r =? 0
                then booting (booted s0) cf d (world c) /\ ready_ (world c) = true
                else r < 0 /\ conf_ (world c) = cf /\ ready_ (world c) = false /\
                     (d = true -> connState_ (world c) = DISCONNECTED) /\
                     (ncpState_ (world c) = s0 \/ ncpState_ (world c) = OFF)).
Proof.
  intros Hcodes.
  set (J1 := fun w => booting s0 cf d w /\ ready_ w = false).
  set (J2 := booting s0 cf d).
  assert (HJ1 : Stable P E J1) by (apply Stable_and; [apply Stable_booting | apply Stable_notReady]).
  assert (HJ2 : Stable P E J2) by apply Stable_booting.
  set (Q := fun (r : Z) (c : Client) => if r =? 0 then _ else _).
  assert (Hadm : admits P H J1 Q).
  { intros e c [(Hn & Hc & Hd) Hr] He. unfold Q.
    assert (e < 0) by (unfold errorCodes in Hcodes; unfold exitCode in He; lia).
    destruct (e =? 0) eqn:He0; [lia | repeat split; auto]. }
  unfold waitReady. apply triple_fn.
  eapply triple_bind; [apply triple_read|]. intros ready. cbv beta.
  destruct ready; [apply triple_false; intros c [[_ Hr] Hx]; congruence|].
  apply triple_pre with (I := fun c => J1 (world c)); [intros c [Hc _]; exact Hc|].
  do 6 (eapply triple_bind;
          [solve [refine ((_ : checks P H J1 _) _ Hadm); repeat step] | intro; cbv beta]).
  assert (Hset : forall (I : Client -> Prop) b,
            (forall c, I c -> J2 (world c)) ->
            triple I (modify (set_ready b)) Q (fun _ c => J2 (world c))).
  { intros I b HI. apply triple_modify. intros c c' Hc Hw. rewrite Hw.
    specialize (HI c Hc). revert HI. unfold J2, booting. destruct (world c); cbn; auto. }
  eapply triple_bind;
    [refine ((_ : checks P H J1 _) _ Hadm); repeat step | intro r; cbv beta].
  eapply triple_bind; [apply Hset; intros c [Hc _]; exact Hc | intros u].
  eapply triple_bind; [apply triple_read | intros ready].
  eapply triple_bind; [apply triple_read | intros id]. cbv beta.
  eapply triple_bind with (Q1 := fun _ c => J2 (world c)).
  { destruct ready; cbn [negb andb].
    - intros c [[Hc _] _]. exact Hc.
    - destruct (id =? PLATFORM_NCP_SARA_R410 P).
      + apply triple_pre with (I := fun c => J1 (world c));
          [intros c [[Hc Hr] _]; split; auto|].
        do 4 (eapply triple_bind;
                [solve [refine ((_ : checks P H J1 _) _ Hadm); repeat step]
                | intro; cbv beta]).
        apply Hset. intros c [Hc _]; exact Hc.
      + intros c [[Hc _] _]. exact Hc. }
  intros u1.
  eapply triple_bind; [apply triple_read | intros ready0]. cbv beta.
  set (A3 := fun c => booting (booted s0) cf d (world c) \/ J1 (world c)).
  eapply triple_bind with (Q1 := fun _ c => A3 c).
  { destruct ready0.
    - apply triple_pre with (I := fun c => J2 (world c)); [intros c [Hc _]; exact Hc|].
      do 6 (eapply triple_bind;
              [solve [refine ((_ : keeps J2 _) _); repeat step] | intro; cbv beta]).
      eapply triple_bind; [apply initReady_post; exact Hcodes | intros r0; cbv beta].
      destruct Hcodes as [HN _]. rewrite HN.
      destruct (r0 =? 0); cbn [negb].
      + intros c Hc. left. exact Hc.
      + apply triple_modify. intros c c' Hc Hw. right. rewrite Hw.
        revert Hc. unfold J1, booting. destruct (world c); cbn; auto.
    - intros c [Hc Hr]. right. split; auto. }
  intros u2.
  eapply triple_bind; [apply triple_read | intros ready1]. cbv beta.
  destruct ready1; cbn [negb].
  - eapply triple_bind; [apply triple_ret | intros u3]. apply triple_Return.
    intros c [[Hb|[_ Hr]] Hx]; [|congruence]. unfold Q. cbn. auto.
  - set (J4 := fun w => (booting (booted s0) cf d w \/ booting s0 cf d w) /\
                        ready_ w = false).
    apply triple_pre with (I := fun c => J4 (world c)).
    { intros c [[Hb|[Hb Hr]] Hx]; split; auto. }
    eapply triple_bind with (Q1 := fun _ _ => False); [|intros u9 c []].
    eapply triple_bind;
      [refine ((_ : keeps J4 _) _); repeat step | intros u3].
    eapply triple_bind; [refine ((_ : keeps J4 _) _) | intros u4].
    { apply modemHardReset_booting. intros w w' Hs. unfold J4, booting.
      unfold session in Hs. injection Hs. intros.
      repeat match goal with Heq : _ = _ |- _ => rewrite Heq; clear Heq end. assumption. }
    eapply triple_bind with (Q1 := fun _ c => Q (SYSTEM_ERROR_INVALID_STATE P) c);
      [|intros u5; apply triple_Return; auto].
    apply triple_modify. intros c c' [Hb Hr] Hw. unfold Q.
    assert ((SYSTEM_ERROR_INVALID_STATE P =? 0) = false) as ->
      by (unfold errorCodes in Hcodes; lia).
    rewrite Hw.
    destruct Hb as [Hb|Hb];
      destruct (ncpState_OFF_booting _ _ _ _ Hb Hr) as (A & B & C & [D|[D1 D2]]);
      repeat split; auto; try (unfold errorCodes in Hcodes; lia);
      left; rewrite D2; destruct s0; cbn in D1; congruence.
Qed.

Lemma run_triple {S : Type} (I : S -> Prop) (m : Run S Z) (Q : Z -> S -> Prop)
    (s s' : S) (r : Z) :
  triple I m Q Q -> I s -> run m s = Some (r, s') -> Q r s'.
Proof.
  intros Hm Hs. apply run_wp. eapply wp_mono; [apply Hm; exact Hs|].
  intros [e|a] s1; auto.
Qed.


(** [waitReady] from any state of the readiness flag. *)
Lemma waitReady_any (fuel : nat) (s0 : NcpState) (cf : CellularNcpClientConfig) (d : bool)
    (Ex : Z -> Client -> Prop) :
  errorCodes P H ->
  triple (fun c => booting s0 cf d (world c))
    (waitReady P H E X fuel) Ex
    (fun r c => if r =? 0
                then (booting s0 cf d (world c) \/ booting (booted s0) cf d (world c)) /\
                     ready_ (world c) = true
                else r < 0 /\ conf_ (world c) = cf /\ ready_ (world c) = false /\
                     (d = true -> connState_ (world c) = DISCONNECTED) /\
                     (ncpState_ (world c) = s0 \/ ncpState_ (world c) = OFF)).
Proof.
  intros Hcodes c Hc. destruct (ready_ (world c)) eqn:Hr.
  - unfold wp. rewrite (waitReady_ready fuel c Hr). cbn. auto.
  - eapply wp_mono; [apply (waitReady_post fuel s0 cf d Ex Hcodes); auto|].
    intros [e|r] c'; [auto|]. cbv beta. destruct (r =? 0); [|auto]. intros [A B]. auto.
Qed.

(** [checkParser] returns 0 only with the client On and ready. *)
Lemma checkParser_post (fuel : nat) (s0 : NcpState) (cf : CellularNcpClientConfig) (d : bool)
    (Ex : Z -> Client -> Prop) :
  errorCodes P H ->
  triple (fun c => booting s0 cf d (world c))
    (checkParser P H E X fuel) Ex
    (fun r c => if r =? 0
                then booting ON cf d (world c) /\ ready_ (world c) = true
                else r < 0 /\ conf_ (world c) = cf /\
                     (d = true -> connState_ (world c) = DISCONNECTED) /\
                     (ncpState_ (world c) = s0 \/ ncpState_ (world c) = OFF)).
Proof.
  intros Hcodes.
  set (Q := fun (r : Z) (c : Client) => if r =? 0 then _ else _).
  pose proof (Stable_booting ON cf d) as HJ.
  unfold checkParser. apply triple_fn.
  eapply triple_bind; [apply triple_read | intros ns; cbv beta].
  eapply triple_bind with (Q1 := fun _ c => booting ON cf d (world c) /\ s0 = ON).
  { destruct (NcpState_eq_dec ns ON) as [e|ne].
    - intros c [Hc Hn]. cbn. split; [|destruct Hc; congruence].
      destruct Hc as (A & B & C). unfold booting. repeat split; auto; congruence.
    - apply triple_Return. intros c [(A & B & C) Hn]. unfold Q.
      assert (SYSTEM_ERROR_INVALID_STATE P < 0) by (unfold errorCodes in Hcodes; lia).
      destruct (_ =? 0) eqn:He; [lia|]. repeat split; auto. }
  intros u.
  apply triple_pre with (I := fun c => booting ON cf d (world c) /\ s0 = ON); [auto|].
  destruct (NcpState_eq_dec s0 ON) as [->|ne]; [|apply triple_false; intros c [_ e]; auto].
  apply triple_pre with (I := fun c => booting ON cf d (world c)); [intros c [Hc _]; exact Hc|].
  eapply triple_bind; [refine ((_ : keeps (booting ON cf d) _) _); repeat step | intros ready].
  eapply triple_bind; [refine ((_ : keeps (booting ON cf d) _) _); repeat step | intros pe].
  cbv beta.
  eapply triple_bind; [refine ((_ : keeps (booting ON cf d) _) _); repeat step | intros u1].
  eapply triple_bind with (Q1 := fun _ c => Q 0 c); [|intros r; apply triple_Return; auto].
  apply triple_CHECK.
  eapply triple_post; [|apply (waitReady_any fuel ON cf d Q Hcodes)].
  intros r c. cbv beta. unfold Q. destruct (r =? 0) eqn:Hr.
  - assert ((r <? 0) = false) as -> by lia. cbn. intros [[A|A] B]; auto.
  - intros (A & B & C & D & F). assert ((r <? 0) = true) as -> by lia.
    repeat split; auto.
Qed.

Lemma booting_now (w : World) :
  booting (ncpState_ w) (conf_ w) (isDisconnected w) w.
Proof.
  unfold booting, isDisconnected. repeat split.
  destruct (NcpConnectionState_eq_dec _ DISCONNECTED); [auto | discriminate].
Qed.

Lemma booting_now_false (w : World) : booting (ncpState_ w) (conf_ w) false w.
Proof. unfold booting. repeat split. discriminate. Qed.

Lemma isDisconnected_true (w : World) :
  connState_ w = DISCONNECTED -> isDisconnected w = true.
Proof.
  unfold isDisconnected. destruct (NcpConnectionState_eq_dec _ DISCONNECTED); congruence.
Qed.

Lemma run_post {S : Type} (I : S -> Prop) (m : Run S Z) (Q : Z -> S -> Prop)
    (s s' : S) (r : Z) :
  (forall Ex, triple I m Ex Q) -> I s -> run m s = Some (r, s') -> Q r s'.
Proof. intros Hm. apply run_triple. apply Hm. Qed.

(** *** Leaving and joining the network *)

Lemma connectionState_DISCONNECTED_flags (w : World) :
  ncpState_ w <> DISABLED ->
  let w' := connectionState E DISCONNECTED w in
  connState_ w' = DISCONNECTED /\ ncpState_ w' = ncpState_ w /\
  creg_ w' = creg_ w /\ cgreg_ w' = cgreg_ w /\ cereg_ w' = cereg_ w.
Proof.
  unfold connectionState. intros Hn.
  destruct (NcpState_eq_dec (ncpState_ w) DISABLED); [contradiction|].
  destruct (NcpConnectionState_eq_dec (connState_ w) DISCONNECTED); [auto|].
  destruct w as [cf ns pns cs cr cg ce rst rct pot rgt mip pe rdy rto cgi act fw lw biw clk lg se me po].
  cbn. destruct (eventHandler cf); cbn; auto.
Qed.

Lemma disconnect_post (fuel : nat) (c0 : Client) (Ex : Z -> Client -> Prop) :
  errorCodes P H ->
  triple (fun c => c = c0) (disconnect P H E X fuel) Ex
    (fun r c => if r =? 0
                then connState_ (world c) = DISCONNECTED /\
                     (connState_ (world c0) = DISCONNECTED \/
                      ncpState_ (world c) = ON /\ creg_ (world c) = NotRegistered /\
                      cgreg_ (world c) = NotRegistered /\ cereg_ (world c) = NotRegistered)
                else r < 0).
Proof.
  intros Hcodes.
  set (Q := fun (r : Z) (c : Client) => if r =? 0 then _ else _).
  set (cf := conf_ (world c0)).
  pose proof (Stable_booting ON cf false) as HJ.
  assert (Hneg : forall e c, e < 0 -> Q e c).
  { intros e c He. unfold Q. destruct (e =? 0) eqn:H0; [lia | exact He]. }
  assert (Hadm : admits P H (booting ON cf false) Q).
  { intros e c _ He. apply Hneg. unfold errorCodes in Hcodes. unfold exitCode in He. lia. }
  unfold disconnect. apply triple_fn.
  eapply triple_bind; [apply triple_read | intros ns; cbv beta].
  eapply triple_bind with (Q1 := fun _ c => c = c0).
  { destruct (NcpState_eq_dec ns DISABLED).
    - apply triple_Return. intros c _. apply Hneg. unfold errorCodes in Hcodes. lia.
    - intros c [Hc _]. exact Hc. }
  intros u.
  eapply triple_bind; [apply triple_read | intros cs; cbv beta].
  eapply triple_bind with (Q1 := fun _ c => booting (ncpState_ (world c0)) cf false (world c)).
  { destruct (NcpConnectionState_eq_dec cs DISCONNECTED) as [e|ne].
    - apply triple_Return. intros c [-> Hcs]. unfold Q. cbn. split; [congruence | left; congruence].
    - intros c [-> _]. cbn. unfold booting, cf. repeat split. discriminate. }
  intros u1.
  eapply triple_bind with (Q1 := fun _ c => booting ON cf false (world c)).
  { apply triple_CHECK. eapply triple_post; [|apply (checkParser_post fuel _ cf false Q Hcodes)].
    intros r c. cbv beta. destruct (r =? 0) eqn:Hr.
    - assert ((r <? 0) = false) as -> by lia. intros [A _]. exact A.
    - intros [A _]. assert ((r <? 0) = true) as -> by lia. now apply Hneg. }
  intros r1.
  eapply triple_bind;
    [refine ((_ : checks P H (booting ON cf false) _) _ Hadm); repeat step | intros r2].
  eapply triple_bind with
    (Q1 := fun _ c => ncpState_ (world c) = ON /\ creg_ (world c) = NotRegistered /\
                      cgreg_ (world c) = NotRegistered /\ cereg_ (world c) = NotRegistered).
  - apply triple_modify. intros c c' (Hn & _) ->. revert Hn.
    unfold resetRegistrationState. destruct (world c); cbn; auto.
  - intros u2.
    eapply triple_bind with (Q1 := fun _ c => Q 0 c); [|intros u3; apply triple_Return; auto].
    apply triple_modify. intros c c' (Hn & A & B & C) Hw.
    destruct (connectionState_DISCONNECTED_flags (world c)) as (D1 & D2 & D3 & D4 & D5);
      [congruence|].
    unfold Q. cbn. rewrite Hw. split; [exact D1|right]. repeat split; congruence.
Qed.

Lemma sameNcp_booting (s : NcpState) (cf : CellularNcpClientConfig) (w w' : World) :
  sameNcp w w' -> booting s cf false w -> booting s cf false w'.
Proof.
  intros [A B] (Hn & Hc & _). unfold booting. repeat split; congruence.
Qed.

Ltac step_ncp :=
  first
    [ lazymatch goal with
      | |- keeps _ (modify (connectionState _ _)) =>
          apply keeps_modify; intros w Hw; eapply sameNcp_booting;
          [apply connectionState_sameNcp | exact Hw]
      | |- keeps _ (modify (checkRegistrationState _)) =>
          apply keeps_modify; intros w Hw; eapply sameNcp_booting;
          [apply checkRegistrationState_sameNcp | exact Hw]
      end
    | step ].

Lemma configureApn_keeps (J : World -> Prop) (conf : CellularNetworkConfig) :
  Stable P E J -> keeps J (configureApn P E X conf).
Proof. intros HJ. unfold configureApn. repeat step. Qed.

Lemma registerNet_booting (s : NcpState) (cf : CellularNcpClientConfig) :
  keeps (booting s cf false) (registerNet P E X).
Proof.
  pose proof (Stable_booting s cf false) as HJ.
  unfold registerNet. repeat step_ncp.
Qed.

Lemma connect_post (fuel : nat) (conf : CellularNetworkConfig) (c0 : Client)
    (Ex : Z -> Client -> Prop) :
  errorCodes P H ->
  triple (fun c => c = c0) (connect P H E X fuel conf) Ex
    (fun r c => if r =? 0
                then connState_ (world c0) = DISCONNECTED /\
                     ncpState_ (world c) = ON /\ conf_ (world c) = conf_ (world c0)
                else r < 0).
Proof.
  intros Hcodes.
  set (Q := fun (r : Z) (c : Client) => if r =? 0 then _ else _).
  set (cf := conf_ (world c0)).
  set (J := fun w => booting ON cf false w /\ connState_ (world c0) = DISCONNECTED).
  assert (HJ : Stable P E J).
  { destruct (Stable_booting ON cf false) as [A1 A2 A3 A4].
    split; intros; unfold J in *; intuition auto. }
  assert (Hneg : forall e c, e < 0 -> Q e c).
  { intros e c He. unfold Q. destruct (e =? 0) eqn:H0; [lia | exact He]. }
  assert (Hadm : admits P H J Q).
  { intros e c _ He. apply Hneg. unfold errorCodes in Hcodes. unfold exitCode in He. lia. }
  unfold connect. apply triple_fn.
  eapply triple_bind; [apply triple_read | intros cs; cbv beta].
  eapply triple_bind with
    (Q1 := fun _ c => booting (ncpState_ (world c0)) cf false (world c) /\
                      connState_ (world c0) = DISCONNECTED).
  { destruct (NcpConnectionState_eq_dec cs DISCONNECTED) as [e|ne]; cbn.
    - intros c [-> Hcs]. cbn. split; [|congruence]. unfold booting, cf. repeat split. discriminate.
    - apply triple_Return. intros c _. apply Hneg. unfold errorCodes in Hcodes. lia. }
  intros u.
  eapply triple_bind with (Q1 := fun _ c => J (world c)).
  { apply triple_CHECK. intros c [Hb Hd].
    eapply wp_mono;
      [apply (checkParser_post fuel (ncpState_ (world c0)) cf false Q Hcodes); exact Hb|].
    intros [e|r] c'; [auto|]. cbv beta. destruct (r =? 0) eqn:Hr.
    - assert ((r <? 0) = false) as -> by lia. intros [A _]. split; assumption.
    - intros [A _]. assert ((r <? 0) = true) as -> by lia. now apply Hneg. }
  intros r1.
  assert (HJcf : keeps J (configureApn P E X conf)) by (apply configureApn_keeps; exact HJ).
  assert (HJrn : keeps J (registerNet P E X)).
  { intros Ex0 c [Hb Hd]. eapply wp_mono; [apply (registerNet_booting ON cf Ex0); exact Hb|].
    intros [e|a] c' Hc; [exact Hc | split; assumption]. }
  eapply triple_bind; [refine ((_ : checks P H J _) _ Hadm); repeat step | intros u1].
  eapply triple_bind;
    [refine ((_ : checks P H J _) _ Hadm); apply checks_CHECK, keeps_checks, HJcf | intros r2].
  eapply triple_bind;
    [refine ((_ : checks P H J _) _ Hadm); apply checks_CHECK, keeps_checks, HJrn | intros r3].
  eapply triple_bind with (Q1 := fun _ c => J (world c)).
  - apply triple_modify. intros c c' [Hb Hd] ->. split; [|exact Hd].
    eapply sameNcp_booting; [apply checkRegistrationState_sameNcp | exact Hb].
  - intros u2. apply triple_Return. intros c [(A & B & _) Hd]. unfold Q. cbn. auto.
Qed.

(** *** When no registration line tells of a registration *)

Lemma checkRegistrationState_unregistered (w : World) :
  creg_ w = NotRegistered -> cgreg_ w = NotRegistered -> cereg_ w = NotRegistered ->
  connState_ w <> CONNECTED -> checkRegistrationState E w = w.
Proof.
  intros A B C Hc. unfold checkRegistrationState, registered.
  destruct (connState_ w) eqn:Hcs; [reflexivity| |contradiction].
  rewrite A, ?B, ?C. cbn. rewrite ?B, ?C.
  destruct (NcpConnectionState_eq_dec CONNECTING CONNECTED); [discriminate | reflexivity].
Qed.

Lemma scanRegistrationLine_unregistered (line : UrcLine) (w w1 : World) (res : Z + Scan) :
  reportsUnregistered line ->
  scanRegistrationLine line w = (w1, res) ->
  (ncpState_ w1 = ncpState_ w /\ connState_ w1 = connState_ w /\
   creg_ w1 = creg_ w /\ cgreg_ w1 = cgreg_ w /\ cereg_ w1 = cereg_ w /\
   registeredTime_ w1 = registeredTime_ w) /\
  match res with
  | inl _ => True
  | inr sc => registrationOf (scan_val sc 0) = NotRegistered
  end.
Proof.
  intros [Hm Hp]. unfold scanRegistrationLine, parserError. intros Hs.
  repeat (match type of Hs with
          | context [if ?c then _ else _] => destruct c
          end);
    injection Hs as <- <-; (split; [destruct w; cbn; auto 10 | auto]).
Qed.

Lemma urcHandler_unregistered (line : UrcLine) (w : World) :
  reportsUnregistered line ->
  creg_ w = NotRegistered -> cgreg_ w = NotRegistered -> cereg_ w = NotRegistered ->
  connState_ w <> CONNECTED ->
  ncpState_ (snd (urcHandler P E line w)) = ncpState_ w /\
  connState_ (snd (urcHandler P E line w)) = connState_ w /\
  creg_ (snd (urcHandler P E line w)) = NotRegistered /\
  cgreg_ (snd (urcHandler P E line w)) = NotRegistered /\
  cereg_ (snd (urcHandler P E line w)) = NotRegistered /\
  registeredTime_ (snd (urcHandler P E line w)) = registeredTime_ w.
Proof.
  intros Hline A B C Hc.
  assert (Hfield : forall u : World,
            ncpState_ u = ncpState_ w /\ connState_ u = connState_ w /\
            creg_ u = NotRegistered /\ cgreg_ u = NotRegistered /\
            cereg_ u = NotRegistered /\ registeredTime_ u = registeredTime_ w ->
            forall lac cid b,
              let u' := if b : bool then set_lac_cid lac cid (checkRegistrationState E u)
                        else checkRegistrationState E u in
              ncpState_ u' = ncpState_ w /\ connState_ u' = connState_ w /\
              creg_ u' = NotRegistered /\ cgreg_ u' = NotRegistered /\
              cereg_ u' = NotRegistered /\ registeredTime_ u' = registeredTime_ w).
  { intros u (U1 & U2 & U3 & U4 & U5 & U6) lac cid b. cbv zeta.
    rewrite (checkRegistrationState_unregistered u U3 U4 U5) by congruence.
    destruct b; [|auto 10]. destruct u; cbn in *. auto 10. }
  unfold urcHandler, urc_CREG, urc_CGREG, urc_CEREG.
  destruct (urc_prefix line);
    destruct (scanRegistrationLine line w) as [w1 [e|sc]] eqn:Hs;
    destruct (scanRegistrationLine_unregistered _ _ _ _ Hline Hs)
      as [(S1 & S2 & S3 & S4 & S5 & S6) Hreg];
    cbn [snd]; try (repeat split; congruence);
    (destruct (negb (scan_r sc >=? 1)); cbn [snd]; [repeat split; congruence|]);
    rewrite Hreg.
  - assert (Hu : ncpState_ (set_creg NotRegistered w1) = ncpState_ w /\
                 connState_ (set_creg NotRegistered w1) = connState_ w /\
                 creg_ (set_creg NotRegistered w1) = NotRegistered /\
                 cgreg_ (set_creg NotRegistered w1) = NotRegistered /\
                 cereg_ (set_creg NotRegistered w1) = NotRegistered /\
                 registeredTime_ (set_creg NotRegistered w1) = registeredTime_ w)
      by (destruct w1; cbn in *; repeat split; congruence).
    destruct (scan_r sc >=? 3).
    + match goal with
      | |- context [if ?b then set_lac_cid ?lac ?cid _ else _] =>
          exact (Hfield _ Hu lac cid b)
      end.
    + exact (Hfield _ Hu 0 0 false).
  - assert (Hu : ncpState_ (set_cgreg NotRegistered w1) = ncpState_ w /\
                 connState_ (set_cgreg NotRegistered w1) = connState_ w /\
                 creg_ (set_cgreg NotRegistered w1) = NotRegistered /\
                 cgreg_ (set_cgreg NotRegistered w1) = NotRegistered /\
                 cereg_ (set_cgreg NotRegistered w1) = NotRegistered /\
                 registeredTime_ (set_cgreg NotRegistered w1) = registeredTime_ w)
      by (destruct w1; cbn in *; repeat split; congruence).
    destruct (scan_r sc >=? 3).
    + match goal with
      | |- context [if ?b then set_lac_cid ?lac ?cid _ else _] =>
          exact (Hfield _ Hu lac cid b)
      end.
    + exact (Hfield _ Hu 0 0 false).
  - assert (Hu : ncpState_ (set_cereg NotRegistered w1) = ncpState_ w /\
                 connState_ (set_cereg NotRegistered w1) = connState_ w /\
                 creg_ (set_cereg NotRegistered w1) = NotRegistered /\
                 cgreg_ (set_cereg NotRegistered w1) = NotRegistered /\
                 cereg_ (set_cereg NotRegistered w1) = NotRegistered /\
                 registeredTime_ (set_cereg NotRegistered w1) = registeredTime_ w)
      by (destruct w1; cbn in *; repeat split; congruence).
    destruct (scan_r sc >=? 3).
    + match goal with
      | |- context [if ?b then set_lac_cid ?lac ?cid _ else _] =>
          exact (Hfield _ Hu lac cid b)
      end.
    + exact (Hfield _ Hu 0 0 false).
Qed.

Lemma Stable_unregistered (J : World -> Prop) :
  unregistered E ->
  (forall e w, J w -> J (emit e w)) ->
  (forall t w, J w -> J (set_clock t w)) ->
  (forall r w, J w -> J (parserError r w)) ->
  (forall line w, reportsUnregistered line -> J w -> J (snd (urcHandler P E line w))) ->
  Stable P E J.
Proof.
  intros Hq He Hc Hp Hh. split; [| |exact Hp|exact Hc].
  - intros cmd w Hw. unfold parser_exchange. cbn [snd]. cbv zeta.
    set (reply := parser_reply E _ _).
    assert (Hlines : forall line, In line (reply_urcs reply) -> reportsUnregistered line)
      by (intros line; apply Hq).
    assert (Hstart : J (set_clock (clock (emit (AtCommand cmd) w) +
                                   Z.of_N (reply_elapsed reply))
                          (emit (AtCommand cmd) w))) by auto.
    revert Hlines Hstart. generalize (reply_urcs reply).
    generalize (set_clock (clock (emit (AtCommand cmd) w) + Z.of_N (reply_elapsed reply))
                  (emit (AtCommand cmd) w)).
    intros w0 lines. revert w0. unfold dispatchUrcs.
    induction lines as [|line lines IH]; intros w0 Hlines Hw0; cbn [fold_left];
      [exact Hw0|].
    apply IH; [intros l Hl; apply Hlines; right; exact Hl|].
    apply Hh; [apply Hlines; left; reflexivity | exact Hw0].
  - intros ms w Hw. unfold HAL_Delay_Milliseconds. auto.
Qed.

Ltac unregistered_handler :=
  let line := fresh "line" in
  let w := fresh "w" in
  let Hline := fresh "Hline" in
  let HJ := fresh "HJ" in
  let U := fresh "U" in
  intros line w Hline HJ;
  pose proof (urcHandler_unregistered line w Hline) as U;
  assert (connState_ w <> CONNECTED) by (intuition congruence);
  intuition congruence.

Lemma connectionState_CONNECTING_post (w : World) :
  ncpState_ w = ON -> connState_ w = DISCONNECTED ->
  let w' := connectionState E CONNECTING w in
  ncpState_ w' = ON /\ connState_ w' = CONNECTING /\
  creg_ w' = creg_ w /\ cgreg_ w' = cgreg_ w /\ cereg_ w' = cereg_ w.
Proof.
  unfold connectionState. intros Hn Hc.
  destruct (NcpState_eq_dec (ncpState_ w) DISABLED); [congruence|].
  destruct (NcpConnectionState_eq_dec (connState_ w) CONNECTING); [congruence|].
  destruct w as [cf ns pns cs cr cg ce rst rct pot rgt mip pe rdy rto cgi act fw lw biw clk lg se me po].
  cbn in *. destruct (eventHandler cf); cbn; auto.
Qed.

Lemma checkRegistrationState_registering (w : World) :
  registering w -> checkRegistrationState E w = w.
Proof.
  intros (_ & Hc & A & B & C & _). unfold checkRegistrationState, registered.
  rewrite Hc, A, ?B, ?C. cbn. rewrite ?B, ?C.
  destruct (NcpConnectionState_eq_dec CONNECTING CONNECTED); [discriminate | reflexivity].
Qed.

Lemma registerNet_unregistered (Ex : Z -> Client -> Prop) :
  unregistered E -> errorCodes P H ->
  triple (fun c => ncpState_ (world c) = ON /\ connState_ (world c) = DISCONNECTED /\
                   creg_ (world c) = NotRegistered /\ cgreg_ (world c) = NotRegistered /\
                   cereg_ (world c) = NotRegistered)
    (registerNet P E X) Ex
    (fun r c => r < 0 \/ registering (world c)).
Proof.
  intros Hq Hcodes.
  set (Ja := fun w => ncpState_ w = ON /\ connState_ w = DISCONNECTED /\
                      creg_ w = NotRegistered /\ cgreg_ w = NotRegistered /\
                      cereg_ w = NotRegistered).
  set (Jc := fun w => ncpState_ w = ON /\ connState_ w = CONNECTING /\
                      creg_ w = NotRegistered /\ cgreg_ w = NotRegistered /\
                      cereg_ w = NotRegistered /\ registeredTime_ w = 0).
  assert (HJa : Stable P E Ja)
    by (apply Stable_unregistered; [exact Hq | | | |]; unfold Ja;
        first [unregistered_handler | closed]).
  assert (HJc : Stable P E Jc)
    by (apply Stable_unregistered; [exact Hq | | | |]; unfold Jc;
        first [unregistered_handler | closed]).
  set (Q := fun (r : Z) (c : Client) => r < 0 \/ registering (world c)).
  assert (Hadm : forall J, admits P H J Q).
  { intros J e c _ He. left.
    unfold errorCodes in Hcodes. unfold exitCode in He. lia. }
  unfold registerNet. apply triple_fn.
  do 2 (eapply triple_bind;
          [solve [refine ((_ : checks P H Ja _) _ (Hadm Ja)); repeat step] | intro; cbv beta]).
  eapply triple_bind with
    (Q1 := fun _ c => ncpState_ (world c) = ON /\ connState_ (world c) = CONNECTING /\
                      creg_ (world c) = NotRegistered /\ cgreg_ (world c) = NotRegistered /\
                      cereg_ (world c) = NotRegistered).
  { apply triple_modify. intros c c' (A & B & C & D & F) ->.
    destruct (connectionState_CONNECTING_post (world c) A B) as (G1 & G2 & G3 & G4 & G5).
    repeat split; congruence. }
  intros u.
  eapply triple_bind with (Q1 := fun _ c => Jc (world c)).
  { apply triple_modify. intros c c' Hc ->. revert Hc. unfold Jc.
    destruct (world c); cbn. intuition auto. }
  intros u1.
  do 8 (eapply triple_bind;
          [solve [refine ((_ : checks P H Jc _) _ (Hadm Jc)); repeat step] | intro; cbv beta]).
  intros c Hc. apply wp_bind, wp_read. apply wp_bind, wp_modify. intros c1 H1.
  apply wp_bind, wp_read. apply wp_bind, wp_modify. intros c2 H2. apply wp_Return.
  right. unfold registering. rewrite H2, H1. revert Hc. unfold Jc.
  destruct (world c); cbn. intuition auto.
Qed.

Lemma connect_unregistered_post (fuel : nat) (conf : CellularNetworkConfig)
    (Ex : Z -> Client -> Prop) :
  unregistered E -> errorCodes P H ->
  triple (fun c => True) (connect P H E X fuel conf) Ex
    (fun r c => r = 0 -> registering (world c)).
Proof.
  intros Hq Hcodes.
  set (Q := fun (r : Z) (c : Client) => r = 0 -> registering (world c)).
  set (Ja := fun w => ncpState_ w = ON /\ connState_ w = DISCONNECTED /\
                      creg_ w = NotRegistered /\ cgreg_ w = NotRegistered /\
                      cereg_ w = NotRegistered).
  assert (HJa : Stable P E Ja)
    by (apply Stable_unregistered; [exact Hq | | | |]; unfold Ja;
        first [unregistered_handler | closed]).
  assert (Hneg : forall e c, e < 0 -> Q e c) by (intros e c He; unfold Q; lia).
  assert (Hadm : forall J, admits P H J Q).
  { intros J e c _ He. apply Hneg. unfold errorCodes in Hcodes. unfold exitCode in He. lia. }
  unfold connect. apply triple_fn.
  eapply triple_bind; [apply triple_read | intros cs; cbv beta].
  eapply triple_bind with
    (Q1 := fun _ c => exists s cf, booting s cf true (world c)).
  { destruct (NcpConnectionState_eq_dec cs DISCONNECTED) as [e|ne]; cbn.
    - intros c [_ Hcs]. cbn. exists (ncpState_ (world c)), (conf_ (world c)).
      unfold booting. repeat split. congruence.
    - apply triple_Return. intros c _. apply Hneg. unfold errorCodes in Hcodes. lia. }
  intros u.
  eapply triple_bind with
    (Q1 := fun _ c => ncpState_ (world c) = ON /\ connState_ (world c) = DISCONNECTED).
  { apply triple_CHECK. intros c (s & cf & Hb).
    eapply wp_mono; [apply (checkParser_post fuel s cf true Q Hcodes); exact Hb|].
    intros [e|r] c'; [auto|]. cbv beta. destruct (r =? 0) eqn:Hr.
    - assert ((r <? 0) = false) as -> by lia. intros [(A & B & C) _]. auto.
    - intros [A _]. assert ((r <? 0) = true) as -> by lia. now apply Hneg. }
  intros r1.
  eapply triple_bind with (Q1 := fun _ c => Ja (world c)).
  { apply triple_modify. intros c c' [A B] ->. revert A B. unfold Ja, resetRegistrationState.
    destruct (world c); cbn. auto. }
  intros u1.
  eapply triple_bind;
    [refine ((_ : checks P H Ja _) _ (Hadm Ja));
     apply checks_CHECK, keeps_checks, configureApn_keeps, HJa | intros r2].
  eapply triple_bind with (Q1 := fun _ c => registering (world c)).
  { apply triple_CHECK. eapply triple_post; [|apply (registerNet_unregistered Q Hq Hcodes)].
    intros r c Hr. cbv beta in Hr. destruct (r <? 0) eqn:Hn; [apply Hneg; lia|].
    destruct Hr as [Hr|Hr]; [lia | exact Hr]. }
  intros r3.
  eapply triple_bind with (Q1 := fun _ c => registering (world c)).
  - apply triple_modify. intros c c' Hc ->.
    rewrite (checkRegistrationState_registering _ Hc). exact Hc.
  - intros u2. apply triple_Return. intros c Hc _. exact Hc.
Qed.

(** *** Waiting for an answer *)

Lemma execCommand_clock (cmd : string) (w : World) :
  clock (snd (execCommand P E cmd w)) =
    clock w + Z.of_N (reply_elapsed (parser_reply E (clock w) (AtCommand cmd :: log w))).
Proof.
  unfold execCommand, parser_exchange. cbn [snd].
  destruct (dispatchUrcs_invariants P E
              (reply_urcs (parser_reply E (clock (emit (AtCommand cmd) w))
                             (log (emit (AtCommand cmd) w))))
              (set_clock (clock (emit (AtCommand cmd) w) +
                          Z.of_N (reply_elapsed
                                    (parser_reply E (clock (emit (AtCommand cmd) w))
                                       (log (emit (AtCommand cmd) w)))))
                 (emit (AtCommand cmd) w))) as (_ & Hc & _).
  rewrite Hc. destruct w; reflexivity.
Qed.

Lemma ticks_since_u32 (a b : Z) : ticks_since (u32 a) (u32 b) = (a - b) mod 2 ^ 32.
Proof. unfold ticks_since, u32. now rewrite <- Zminus_mod. Qed.


Lemma waitAtResponse_loop_returns (timeout : Z) (period : option Z) (t0 : Z) :
  (forall t evs, 1 <= Z.of_N (reply_elapsed (parser_reply E t evs)) <= 2 ^ 32 - timeout) ->
  forall (fuel : nat) (c : Client),
    0 <= clock (world c) - t0 < Z.max timeout 1 ->
    (Z.to_nat (Z.max timeout 1 - (clock (world c) - t0)) <= fuel)%nat ->
    waitAtResponse_loop P H E fuel (u32 t0) timeout period c <> None.
Proof.
  intros Hpace. induction fuel as [|fuel IH]; intros c HD Hfuel; [lia|].
  cbn [waitAtResponse_loop]. unfold bind at 1. unfold exec_timeout, call.
  pose proof (execCommand_clock "AT" (world c)) as Hclk.
  specialize (Hpace (clock (world c)) (AtCommand "AT" :: log (world c))).
  destruct (execCommand P E "AT" (world c)) as [r w1]. cbn [snd] in Hclk.
  destruct ((r <? 0) && negb (r =? SYSTEM_ERROR_TIMEOUT H)); [discriminate|].
  destruct (r =? AtResponse_OK P); [discriminate|].
  unfold bind, read. cbn [world set_world]. unfold millis.
  rewrite ticks_since_u32.
  destruct ((clock w1 - t0) mod 2 ^ 32 >=? timeout) eqn:Ht; [discriminate|].
  assert (Hsmall : 0 <= clock w1 - t0 < 2 ^ 32).
  { destruct (Z.max_spec timeout 1) as [[A B]|[A B]]; [|lia].
    (* timeout < 1: the loop is left at once *)
    exfalso. pose proof (Z.mod_pos_bound (clock w1 - t0) (2 ^ 32) ltac:(lia)). lia. }
  rewrite Z.mod_small in Ht by lia.
  apply IH; cbn [world set_world]; lia.
Qed.

(** *** Functions that write to an object of the caller *)

Lemma wp_on_client {T A : Type} (m : Run Client A) (Post : Z + A -> Client -> Prop)
    (Post' : Z + A -> Client * T -> Prop) (s : Client * T) :
  wp m Post (fst s) ->
  (forall res c, Post res c -> Post' res (c, snd s)) ->
  wp (on_client m) Post' s.
Proof.
  unfold wp, on_client. destruct (m (fst s)) as [[res c]|]; auto.
Qed.

Lemma wp_on_object {T : Type} (f : T -> T) (Post' : Z + unit -> Client * T -> Prop)
    (s : Client * T) :
  Post' (inr tt) (fst s, f (snd s)) -> wp (on_object f) Post' s.
Proof. intros HP. exact HP. Qed.

Lemma wp_object {T : Type} (Post' : Z + T -> Client * T -> Prop) (s : Client * T) :
  Post' (inr (snd s)) s -> wp object Post' s.
Proof. intros HP. exact HP. Qed.

(** A function called with [CHECK] leaves early with a negative value
    only. *)
Lemma wp_CHECK_fn {S : Type} (body : Run S Z) (s : S) :
  wp (CHECK (fn body))
     (fun res _ => match res with inl e => e < 0 | inr r => 0 <= r end) s.
Proof.
  apply wp_CHECK. apply wp_fn. unfold wp. destruct (body s) as [[res s']|]; [|exact I].
  destruct (returned res <? 0) eqn:Hr; lia.
Qed.

Lemma wp_CHECK_PARSER_ret (x : Z) (c : Client) :
  wp (CHECK_PARSER (ret x))
     (fun res _ => match res with inl e => e < 0 | inr r => r = x /\ 0 <= x end) c.
Proof.
  unfold CHECK_PARSER, wp, bind, ret. destruct (x <? 0) eqn:Hx; cbn; lia.
Qed.

Lemma wp_CHECK_PARSER_OK_ret (x : Z) (c : Client) :
  wp (CHECK_PARSER_OK P (ret x))
     (fun res _ => match res with
                   | inl e => e < 0 \/ e = SYSTEM_ERROR_AT_NOT_OK P
                   | inr _ => x = AtResponse_OK P
                   end) c.
Proof.
  unfold CHECK_PARSER_OK, wp, bind, ret. destruct (x <? 0) eqn:Hx; cbn; [lia|].
  destruct (x =? AtResponse_OK P) eqn:Ho; cbn; [lia | auto].
Qed.

Lemma wp_total {S A : Type} (m : Run S A) (s : S) : wp m (fun _ _ => True) s.
Proof. unfold wp. destruct (m s) as [[res s']|]; exact I. Qed.

Lemma wp_sendCommand_normal (cmd : string) (c : Client) :
  wp (sendCommand P E X cmd)
     (fun res _ => match res with inl _ => False | inr _ => True end) c.
Proof.
  unfold wp, sendCommand. destruct (parser_exchange P E (AtCommand cmd) (world c)). exact I.
Qed.

Lemma run_with_wp {T : Type} (body : Run (Client * T) Z) (Q : Z -> T -> Client -> Prop)
    (obj obj' : T) (c c' : Client) (r : Z) :
  wp body (fun res s' => Q (returned res) (snd s') (fst s')) (c, obj) ->
  run_with body obj c = Some (r, obj', c') -> Q r obj' c'.
Proof.
  unfold wp, run_with. destruct (body (c, obj)) as [[[r0|r0] [c0 o0]]|];
    intros HQ [= <- <- <-]; exact HQ.
Qed.

Lemma substring_length_le (n m : nat) (s : string) :
  (String.length (substring n m s) <= m)%nat.
Proof.
  revert n m. induction s as [|a s IH]; intros n m.
  - destruct n, m; cbn; lia.
  - destruct n as [|n]; [destruct m as [|m]; cbn; [lia|]|cbn; apply IH].
    specialize (IH 0%nat m). lia.
Qed.

Lemma length_list_ascii_of_string (s : string) :
  List.length (list_ascii_of_string s) = String.length s.
Proof. induction s; cbn; congruence. Qed.

Lemma wp_on_client_read {T A : Type} (f : World -> A) (Post' : Z + A -> Client * T -> Prop)
    (c : Client) (o : T) :
  Post' (inr (f (world c))) (c, o) -> wp (on_client (read f)) Post' (c, o).
Proof. intros HP. exact HP. Qed.

Lemma wp_CHECK_PARSER_OK_exec (cmd : string) (c : Client) :
  wp (CHECK_PARSER_OK P (exec P E cmd))
     (fun res _ => match res with
                   | inl e => e < 0 \/ e = SYSTEM_ERROR_AT_NOT_OK P
                   | inr _ => True
                   end) c.
Proof.
  unfold CHECK_PARSER_OK, wp, bind, exec, call.
  destruct (execCommand P E cmd (world c)) as [r w].
  destruct (r <? 0) eqn:Hr; cbn; [lia|].
  destruct (negb (r =? AtResponse_OK P)); cbn; auto.
Qed.

Lemma wp_call_normal {A : Type} (f : World -> A * World) (c : Client) :
  wp (call f) (fun res _ => res = inr (fst (f (world c)))) c.
Proof. unfold wp, call. destruct (f (world c)). reflexivity. Qed.

Lemma wp_modify_normal (f : World -> World) (c : Client) :
  wp (modify f) (fun res _ => res = inr tt) c.
Proof. reflexivity. Qed.

(** *** Signal quality *)

Lemma rsrp_strength_index (rsrp : Z) : rsrpIndex (rsrp_strength rsrp).
Proof.
  unfold rsrpIndex, rsrp_strength.
  destruct ((rsrp <? -140) && (rsrp >=? -200)) eqn:H1; [lia|].
  destruct ((rsrp >=? -44) && (rsrp <=? 0)) eqn:H2; [lia|].
  destruct ((rsrp >=? -140) && (rsrp <? -44)) eqn:H3; lia.
Qed.

Lemma rsrq_quality_index (rsrq_n rsrq_f : Z) : rsrqIndex (rsrq_quality rsrq_n rsrq_f).
Proof.
  unfold rsrqIndex, rsrq_quality. cbv zeta.
  set (x := s32 (rsrq_n * 100 - rsrq_f)).
  destruct ((x <? -1950) && (x >=? -2000)) eqn:H1; [lia|].
  destruct ((x >=? -300) && (x <=? 0)) eqn:H2; [lia|].
  destruct ((x >=? -1950) && (x <? -300)) eqn:H3; [|lia].
  left. assert (Hx : 50 <= x + 2000 < 1700) by lia.
  pose proof (Z.quot_le_mono 50 (x + 2000) 50 ltac:(lia) ltac:(lia)).
  pose proof (Z.quot_le_mono (x + 2000) 1700 50 ltac:(lia) ltac:(lia)).
  change (Z.quot 50 50) with 1 in *. change (Z.quot 1700 50) with 34 in *. lia.
Qed.

Lemma scanUcged_index (lines : list Scan) (c : Client) (q : CellularSignalQuality) :
  rsrpIndex (strength q) -> rsrqIndex (quality q) ->
  wp (scanUcged lines)
     (fun res s' => match res with
                    | inl e => e < 0
                    | inr _ => rsrpIndex (strength (snd s')) /\ rsrqIndex (quality (snd s'))
                    end) (c, q).
Proof.
  revert c q. induction lines as [|l rest IH]; intros c q Hs Hq; cbn [scanUcged].
  - apply wp_ret. auto.
  - cbv zeta. apply wp_bind. eapply wp_on_client; [apply wp_CHECK_PARSER_ret|].
    intros [e|r] c1 Hr; cbn [fst snd]; [exact Hr|].
    apply wp_bind.
    destruct (r >=? 2).
    + destruct (line_int l 0 =? Z.of_nat (nat_of_ascii "P")).
      * apply wp_on_object. cbn [fst snd]. apply IH; cbn; [apply rsrp_strength_index | exact Hq].
      * destruct ((line_int l 0 =? Z.of_nat (nat_of_ascii "Q")) && (r =? 3)).
        -- apply wp_on_object. cbn [fst snd].
           apply IH; cbn; [exact Hs | apply rsrq_quality_index].
        -- apply wp_ret. apply IH; assumption.
    + apply wp_ret. apply IH; assumption.
Qed.

Lemma queryAndParseAtCops_conf (qual : option Z) (w : World) :
  conf_ (snd (queryAndParseAtCops P E qual w)) = conf_ w.
Proof.
  unfold queryAndParseAtCops, execCommand.
  pose proof (parser_exchange_sameNcp P E (AtCommand "AT+COPS=3,2") w) as [_ H1].
  destruct (parser_exchange P E (AtCommand "AT+COPS=3,2") w) as [rp w1]. cbn [snd] in H1.
  destruct (reply_result rp <? 0); [cbn; destruct w1; exact H1|].
  destruct (negb (reply_result rp =? AtResponse_OK P)); [exact H1|].
  pose proof (parser_exchange_sameNcp P E (AtCommand "AT+COPS?") w1) as [_ H2].
  destruct (parser_exchange P E (AtCommand "AT+COPS?") w1) as [resp w2]. cbn [snd] in H2.
  assert (Hc : conf_ w2 = conf_ w) by congruence. clear H1 H2.
  destruct (reply_scanf resp <? 0); [cbn; destruct w2; exact Hc|].
  destruct (negb (reply_scanf resp =? 3)); [exact Hc|].
  destruct (reply_result resp <? 0); [cbn; destruct w2; exact Hc|].
  destruct (negb (reply_result resp =? AtResponse_OK P)); [exact Hc|].
  destruct (negb _); [exact Hc|].
  cbv zeta. destruct (negb (is_known_act P _)); cbn [snd];
    destruct (2 =? _); destruct w2; exact Hc.
Qed.

Lemma wp_CHECK_checkParser (fuel : nat) (c : Client) :
  errorCodes P H ->
  wp (CHECK (checkParser P H E X fuel))
     (fun res c1 => match res with
                    | inl e => e < 0
                    | inr _ => conf_ (world c1) = conf_ (world c)
                    end) c.
Proof.
  intros Hcodes. apply wp_CHECK.
  eapply wp_mono;
    [apply (checkParser_post fuel _ _ _ (fun _ _ => False) Hcodes c (booting_now _))|].
  intros [e|r] c1; [tauto|]. cbv beta.
  destruct (r =? 0) eqn:H0.
  - assert ((r <? 0) = false) as -> by lia. intros [(_ & A & _) _]. exact A.
  - intros (A & B & _). assert ((r <? 0) = true) as -> by lia. exact A.
Qed.

Lemma wp_CHECK_queryAndParseAtCops_on (f : CellularSignalQuality -> option Z)
    (c : Client) (q : CellularSignalQuality) :
  wp (CHECK (queryAndParseAtCops_on P E f))
     (fun res s' => match res with
                    | inl e => e < 0
                    | inr _ => conf_ (world (fst s')) = conf_ (world c)
                    end) (c, q).
Proof.
  apply wp_CHECK. unfold wp, queryAndParseAtCops_on. cbn [fst snd].
  pose proof (queryAndParseAtCops_conf (f q) (world c)) as Hc.
  destruct (queryAndParseAtCops P E (f q) (world c)) as [[r act] w]. cbn [snd] in Hc.
  destruct (r <? 0) eqn:Hr; [lia | exact Hc].
Qed.

(** *** Calls that configure the host leave the members alone *)

Lemma triple_host (I : Client -> Prop) (h : HostCall) (Ex : Z -> Client -> Prop) :
  (forall c h, I c -> I (set_calls (h :: calls c) c)) ->
  triple I (host X h) Ex (fun _ => I).
Proof. intros HI c Hc. unfold wp, host. cbn. apply HI. exact Hc. Qed.

Lemma triple_CHECK_host (I : Client -> Prop) (h : HostCall) :
  (forall c h, I c -> I (set_calls (h :: calls c) c)) ->
  triple I (CHECK (host X h)) (fun e c => e < 0 /\ I c) (fun _ => I).
Proof.
  intros HI. apply triple_CHECK. eapply triple_post; [|apply triple_host; exact HI].
  intros r c Hc. cbv beta. destruct (r <? 0) eqn:Hr; [split; [lia | exact Hc] | exact Hc].
Qed.

Lemma triple_checked_calls (I : Client -> Prop) (body : Run Client Z)
    (Ex : Z -> Client -> Prop) :
  triple I body (fun e c => e < 0 /\ I c) (fun _ => I) ->
  triple I (fn body) Ex (fun _ => I).
Proof.
  intros Hb. apply triple_fn. eapply triple_conseq; [exact Hb | auto | | auto].
  intros e c [_ Hc]. exact Hc.
Qed.

Lemma triple_modemInit (I : Client -> Prop) (Ex : Z -> Client -> Prop) :
  (forall c h, I c -> I (set_calls (h :: calls c) c)) ->
  triple I (modemInit X) Ex (fun _ => I).
Proof.
  intros HI. unfold modemInit. apply triple_checked_calls.
  repeat (eapply triple_bind; [apply triple_CHECK_host; exact HI | intros ?]).
  apply triple_ret.
Qed.





(** *** The firmware version read at boot *)

Lemma Stable_firmware (fw : Z) (mip : bool) (cf : CellularNcpClientConfig) :
  Stable P E (firmware fw mip cf).
Proof.
  apply Stable_parserFrame.
  - intros w w' (Hs & _) (A & B & C). unfold settings in Hs. injection Hs.
    intros. unfold firmware. repeat split; congruence.
  - unfold firmware. closed.
  - unfold firmware. closed.
Qed.

Lemma ncpState_firmware (fw : Z) (mip : bool) (cf : CellularNcpClientConfig)
    (state : NcpState) (w : World) :
  firmware fw mip cf w -> firmware fw mip cf (ncpState E state w).
Proof.
  unfold firmware, ncpState, connectionState.
  destruct w as [cf0 ns pns cs cr cg ce rst rct pot rgt mip0 pe rdy rto cgi act fw0 lw biw clk lg se me po].
  cbn. intros Hw.
  repeat match goal with
         | |- context [if ?b then _ else _] => destruct b; cbn
         end; exact Hw.
Qed.

Ltac step_fw :=
  first
    [ lazymatch goal with
      | |- keeps _ (modify (ncpState _ _)) =>
          apply keeps_modify; intros w Hw; apply ncpState_firmware; exact Hw
      end
    | step ].

Lemma triple_exists {S A B : Type} (I : B -> S -> Prop) (m : Run S A)
    (Ex : Z -> S -> Prop) (Q : A -> S -> Prop) :
  (forall b, triple (I b) m Ex Q) -> triple (fun s => exists b, I b s) m Ex Q.
Proof. intros Hm s [b Hb]. apply (Hm b). exact Hb. Qed.

Lemma initReady_firmware (fuel : nat) (fw0 : Z) (mip0 : bool) (cf : CellularNcpClientConfig)
    (Ex : Z -> Client -> Prop) :
  errorCodes P H ->
  triple (fun c => firmware fw0 mip0 cf (world c))
    (initReady P H E X fuel) Ex
    (fun r c =>
       r = 0 ->
       if ncpIdentifier cf =? PLATFORM_NCP_SARA_R410 P
       then exists v, firmware v (if v >? 0 then v =? 200 else mip0) cf (world c)
       else firmware fw0 mip0 cf (world c)).
Proof.
  intros Hcodes.
  set (Q := fun (r : Z) (c : Client) => r = 0 -> if _ =? _ then _ else _).
  assert (Hadm : forall J, admits P H J Q).
  { intros J e c _ He. unfold Q. intros ->. exfalso.
    unfold errorCodes in Hcodes. unfold exitCode in He. lia. }
  set (J0 := firmware fw0 mip0 cf).
  pose proof (Stable_firmware fw0 mip0 cf) as HJ0.
  unfold initReady. apply triple_fn.
  do 2 (eapply triple_bind;
          [solve [refine ((_ : checks P H J0 _) _ (Hadm J0)); repeat step] | intro; cbv beta]).
  eapply triple_bind; [apply triple_read | intros id; cbv beta].
  destruct (ncpIdentifier cf =? PLATFORM_NCP_SARA_R410 P) eqn:Hid.
  - (* R410 *)
    eapply triple_bind with
      (Q1 := fun _ c => exists v, firmware v (if v >? 0 then v =? 200 else mip0) cf (world c)).
    { apply triple_pre with
        (I := fun c => J0 (world c) /\ (id =? PLATFORM_NCP_SARA_R410 P) = true).
      { intros c [Hc ->]. split; [exact Hc|]. destruct Hc as (_ & _ & Hc).
        unfold ncpId. rewrite Hc. exact Hid. }
      destruct (id =? PLATFORM_NCP_SARA_R410 P);
        [cbn [negb] | apply triple_false; intros c [_ Hf]; discriminate].
      apply triple_pre with (I := fun c => J0 (world c)); [intros c [Hc _]; exact Hc|].
      eapply triple_bind;
        [refine ((_ : checks P H J0 _) _ (Hadm J0)); repeat step | intros v; cbv beta].
      eapply triple_bind with (Q1 := fun _ c => firmware v mip0 cf (world c)).
      { apply triple_modify. intros c c' Hc ->. revert Hc. unfold J0, firmware.
        destruct (world c); cbn. intuition auto. }
      intros u.
      eapply triple_bind with
        (Q1 := fun fw c => firmware v mip0 cf (world c) /\ fw = v).
      { eapply triple_post; [|apply triple_read]. intros fw c [Hc ->]. split; [exact Hc|].
        apply Hc. }
      intros fw.
      eapply triple_bind with
        (Q1 := fun _ c => firmware v (if v >? 0 then v =? 200 else mip0) cf (world c)).
      { destruct (fw >? 0) eqn:Hfw.
        - apply triple_modify. intros c c' [Hc ->] ->. rewrite Hfw. revert Hc.
          unfold firmware. destruct (world c); cbn. intuition auto.
        - intros c [Hc ->]. rewrite Hfw. exact Hc. }
      intros u1.
      pose proof (Stable_firmware v (if v >? 0 then v =? 200 else mip0) cf) as HJ1.
      eapply triple_bind;
        [refine ((_ : checks P H _ _) _ (Hadm _)); repeat step | intros r1].
      intros c Hc. exists v. exact Hc. }
    intros u2. apply triple_exists. intros v.
    pose proof (Stable_firmware v (if v >? 0 then v =? 200 else mip0) cf) as HJ1.
    repeat (eapply triple_bind;
              [solve [refine ((_ : checks P H _ _) _ (Hadm _)); repeat step_fw]
              | intro; cbv beta]).
    apply triple_Return. intros c Hc _. exists v. exact Hc.
  - eapply triple_bind with (Q1 := fun _ c => J0 (world c)).
    { apply triple_pre with
        (I := fun c => J0 (world c) /\ (id =? PLATFORM_NCP_SARA_R410 P) = false).
      { intros c [Hc ->]. split; [exact Hc|]. destruct Hc as (_ & _ & Hc).
        unfold ncpId. rewrite Hc. exact Hid. }
      destruct (id =? PLATFORM_NCP_SARA_R410 P);
        [apply triple_false; intros c [_ Hf]; discriminate | cbn [negb]].
      apply triple_pre with (I := fun c => J0 (world c)); [intros c [Hc _]; exact Hc|].
      refine ((_ : checks P H J0 _) _ (Hadm J0)); repeat step. }
    intros u2.
    repeat (eapply triple_bind;
              [solve [refine ((_ : checks P H J0 _) _ (Hadm _)); repeat step_fw]
              | intro; cbv beta]).
    apply triple_Return. intros c Hc _. exact Hc.
Qed.

(** *** A client that is Off has no session: the boot sequence *)

Lemma Stable_offIsDisconnected : Stable P E offIsDisconnected.
Proof.
  apply Stable_parserFrame.
  - intros w w' (Hs & _ & Hd & _) Hi. unfold settings in Hs. injection Hs. intros.
    unfold offIsDisconnected in *. intros Hoff. apply Hd, Hi. congruence.
  - unfold offIsDisconnected. closed.
  - unfold offIsDisconnected. closed.
Qed.

Lemma offIsDisconnected_session (w w' : World) :
  session w' = session w -> offIsDisconnected w -> offIsDisconnected w'.
Proof.
  intros Hs Hi Hoff. destruct (session_fields _ _ Hs) as (_ & Hn & _ & Hc & _).
  rewrite Hc. apply Hi. congruence.
Qed.

Lemma connectionState_DISCONNECTED_offIsDisconnected (w : World) :
  offIsDisconnected w -> offIsDisconnected (connectionState E DISCONNECTED w).
Proof.
  intros Hi. destruct (NcpState_eq_dec (ncpState_ w) DISABLED) as [Hd|Hd].
  - unfold connectionState. destruct (NcpState_eq_dec (ncpState_ w) DISABLED);
      [exact Hi | contradiction].
  - intros _. now apply connectionState_disconnects.
Qed.

Ltac step_off :=
  first
    [ lazymatch goal with
      | |- keeps _ (modify (ncpState _ _)) =>
          apply keeps_modify; intros w Hw; apply ncpState_offIsDisconnected; exact Hw
      | |- keeps _ (modify (connectionState _ DISCONNECTED)) =>
          apply keeps_modify; intros w Hw;
          apply connectionState_DISCONNECTED_offIsDisconnected; exact Hw
      | |- keeps _ (call_fuel (modemHardReset _ _ _ _)) =>
          apply modemHardReset_booting; apply offIsDisconnected_session
      end
    | step ].

Lemma initReady_offIsDisconnected (fuel : nat) :
  keeps offIsDisconnected (initReady P H E X fuel).
Proof.
  pose proof Stable_offIsDisconnected as HJ.
  unfold initReady. repeat step_off.
Qed.

Lemma waitReady_offIsDisconnected (fuel : nat) :
  keeps offIsDisconnected (waitReady P H E X fuel).
Proof.
  pose proof Stable_offIsDisconnected as HJ.
  pose proof (initReady_offIsDisconnected fuel) as Hinit.
  unfold waitReady. repeat first [exact Hinit | apply keeps_checks; exact Hinit | step_off].
Qed.

Lemma checkParser_offIsDisconnected (fuel : nat) :
  keeps offIsDisconnected (checkParser P H E X fuel).
Proof.
  pose proof Stable_offIsDisconnected as HJ.
  pose proof (waitReady_offIsDisconnected fuel) as Hwait.
  unfold checkParser.
  repeat first [exact Hwait | apply keeps_checks; exact Hwait | step_off].
Qed.

Lemma disconnect_offIsDisconnected (fuel : nat) :
  keeps offIsDisconnected (disconnect P H E X fuel).
Proof.
  pose proof Stable_offIsDisconnected as HJ.
  pose proof (checkParser_offIsDisconnected fuel) as Hcheck.
  unfold disconnect.
  repeat first [exact Hcheck | apply keeps_checks; exact Hcheck | step_off].
Qed.

Lemma triple_and {S A : Type} (I1 I2 : S -> Prop) (m : Run S A) (E1 E2 : Z -> S -> Prop)
    (Q1 Q2 : A -> S -> Prop) :
  triple I1 m E1 Q1 -> triple I2 m E2 Q2 ->
  triple (fun s => I1 s /\ I2 s) m (fun e s => E1 e s /\ E2 e s) (fun a s => Q1 a s /\ Q2 a s).
Proof.
  intros H1 H2 s [A1 A2]. specialize (H1 s A1). specialize (H2 s A2).
  unfold wp in *. destruct (m s) as [[[e|a] s']|]; auto.
Qed.

Lemma connect_offIsDisconnected (fuel : nat) (conf : CellularNetworkConfig) :
  errorCodes P H ->
  keeps offIsDisconnected (connect P H E X fuel conf).
Proof.
  intros Hcodes.
  pose proof Stable_offIsDisconnected as HJ.
  set (J := offIsDisconnected).
  assert (Hon : forall cf w, booting ON cf false w -> J w).
  { intros cf w (Hn & _) Hoff. congruence. }
  unfold connect. apply keeps_of_inv.
  eapply triple_bind; [refine ((_ : keeps J _) _); repeat step | intros cs; cbv beta].
  eapply triple_bind;
    [refine ((_ : checks P H J _) _ _); [repeat step | intros e c Hc _; exact Hc]
    | intros u].
  eapply triple_bind with (Q1 := fun _ c => exists cf, booting ON cf false (world c)).
  { apply triple_CHECK. intros c Hc.
    pose proof (triple_and _ _ _ _ _ _ _
                  (checkParser_offIsDisconnected fuel (fun _ c => J (world c)))
                  (checkParser_post fuel _ _ false (fun _ _ => True) Hcodes)
                  c (conj Hc (booting_now_false (world c)))) as Hw.
    eapply wp_mono; [exact Hw|].
    intros [e|r] c'; cbv beta; [intros [A _]; exact A|].
    destruct (r =? 0) eqn:Hr.
    - assert ((r <? 0) = false) as -> by lia. intros [_ [A _]]. eauto.
    - intros [A [B _]]. assert ((r <? 0) = true) as -> by lia. exact A. }
  intros r1. apply triple_exists. intros cf.
  pose proof (Stable_booting ON cf false) as HJ'.
  eapply triple_conseq with (E := fun _ c => booting ON cf false (world c))
                            (Q := fun _ c => booting ON cf false (world c));
    [|intros s Hs; exact Hs|intros e s; apply Hon|intros a s; apply Hon].
  assert (HJcf : keeps (booting ON cf false) (configureApn P E X conf))
    by (apply configureApn_keeps; exact HJ').
  pose proof (registerNet_booting ON cf) as HJrn.
  match goal with
  | |- triple _ ?m _ _ => change (inv (booting ON cf false) m)
  end.
  repeat first [ apply keeps_checks; first [exact HJcf | exact HJrn] | step_ncp ].
Qed.

(** *** The aging guard *)

Lemma waitForPowerOff_loop_bounded (fuel : nat) (w w' : World) :
  registeredTime_ w <> 0 \/ powerOnTime_ w <> 0 ->
  waitForPowerOff_loop E fuel w = Some w' ->
  exists k : nat,
    log w' = repeat (DelayMs 100) k ++ log w /\
    clock w' = clock w + 100 * Z.of_nat k /\
    100 * Z.of_nat k <= Z.max 0 (guardLimit w - guardElapsed w) + 99 /\
    guardTimers w' = guardTimers w /\
    (modemPowerState E w' = true -> guardLimit w' <= guardElapsed w').
Proof.
  revert w. induction fuel as [|fuel IH]; intros w Href; [discriminate|].
  cbn [waitForPowerOff_loop].
  assert (Hto : (if negb (registeredTime_ w =? 0)
                 then ticks_since (millis w) (registeredTime_ w) >=? 20000
                 else negb (powerOnTime_ w =? 0) &&
                      (ticks_since (millis w) (powerOnTime_ w) >=? 30000))
                = (guardElapsed w >=? guardLimit w)).
  { unfold guardElapsed, guardLimit, millis.
    destruct (registeredTime_ w =? 0) eqn:Hr; cbn [negb]; [|reflexivity].
    assert ((powerOnTime_ w =? 0) = false) as -> by lia. reflexivity. }
  rewrite Hto. clear Hto.
  destruct (guardElapsed w >=? guardLimit w) eqn:Hdone.
  - intros [= <-]. exists 0%nat. cbn [repeat app]. repeat split; lia.
  - set (w1 := HAL_Delay_Milliseconds 100 w).
    assert (H1 : log w1 = DelayMs 100 :: log w /\ clock w1 = clock w + 100 /\
                 guardTimers w1 = guardTimers w /\
                 powerOnTime_ w1 = powerOnTime_ w /\ registeredTime_ w1 = registeredTime_ w)
      by (subst w1; destruct w; cbn; auto 10).
    destruct H1 as (Hl1 & Hc1 & Hg1 & Hp1 & Hr1).
    assert (Hlim : guardLimit w1 = guardLimit w)
      by (unfold guardLimit; rewrite Hr1; reflexivity).
    assert (Hlim' : 20000 <= guardLimit w <= 30000)
      by (unfold guardLimit; destruct (_ =? 0); lia).
    assert (Hel : guardElapsed w1 = guardElapsed w + 100).
    { unfold guardElapsed. rewrite Hp1, Hr1, Hc1.
      apply ticks_after_delay. fold (guardElapsed w). lia. }
    destruct (modemPowerState E w1) eqn:Hp.
    + intros Hloop.
      destruct (IH w1 ltac:(rewrite Hp1, Hr1; exact Href) Hloop)
        as (k & Hl & Hc & Hk & Hg & Hd).
      exists (S k). rewrite Hl, Hc, Hl1, Hc1, Hg, Hg1.
      rewrite Hlim, Hel in Hk.
      split; [rewrite repeat_shift; reflexivity|].
      repeat split; try lia. exact Hd.
    + intros [= <-]. exists 1%nat. cbn [repeat app].
      repeat split; try lia; try assumption. congruence.
Qed.

(** *** The event handler is kept up to date *)

Lemma informed_told (w w' : World) : told w' = told w -> informed w -> informed w'.
Proof.
  unfold told, informed, standingNcpState. intros Ht. injection Ht.
  intros -> -> -> -> -> ->. auto.
Qed.

Lemma told_HAL_GPIO_Write pin v w : told (HAL_GPIO_Write pin v w) = told w.
Proof. destruct w; reflexivity. Qed.

Lemma told_HAL_Delay_Milliseconds ms w : told (HAL_Delay_Milliseconds ms w) = told w.
Proof. destruct w; reflexivity. Qed.

Lemma told_HAL_Delay_Microseconds us w : told (HAL_Delay_Microseconds us w) = told w.
Proof. destruct w; reflexivity. Qed.

Lemma told_muxer_stop w : told (muxer_stop w) = told w.
Proof. destruct w; reflexivity. Qed.

Lemma told_pollPowerState (target : bool) (n : nat) (w : World) :
  told (pollPowerState E target n w) = told w.
Proof.
  revert w. induction n as [|n IH]; intros w; cbn [pollPowerState]; [reflexivity|].
  destruct (Bool.eqb _ _); [reflexivity|].
  rewrite IH. apply told_HAL_Delay_Milliseconds.
Qed.

Lemma told_waitForPowerOff_loop (fuel : nat) (w w' : World) :
  waitForPowerOff_loop E fuel w = Some w' -> told w' = told w.
Proof.
  revert w. induction fuel as [|fuel IH]; intros w; cbn [waitForPowerOff_loop];
    [discriminate|].
  cbv zeta. destruct (if negb _ then _ else _); [now intros [= <-]|].
  destruct (modemPowerState E _).
  - intros Hl. rewrite (IH _ Hl). apply told_HAL_Delay_Milliseconds.
  - intros [= <-]. apply told_HAL_Delay_Milliseconds.
Qed.

Lemma told_waitForPowerOff (fuel : nat) (w w' : World) :
  waitForPowerOff E fuel w = Some w' -> told w' = told w.
Proof.
  unfold waitForPowerOff. cbv zeta.
  destruct (waitForPowerOff_loop E fuel _) as [w1|] eqn:Hl; [|discriminate].
  intros [= <-]. apply told_waitForPowerOff_loop in Hl.
  transitivity (told w1); [destruct w1; reflexivity|].
  rewrite Hl. destruct (powerOnTime_ w =? 0); destruct w; reflexivity.
Qed.

Lemma told_powerOff_startup_guard (w : World) :
  told (powerOff_startup_guard P E w) = told w.
Proof.
  unfold powerOff_startup_guard.
  destruct (powerOff_once w); [reflexivity|]. cbv zeta.
  destruct (_ && _); [|destruct w; reflexivity].
  destruct (HAL_Core_Get_Last_Reset_Info E) as [rc reason].
  destruct (_ && _); [|destruct w; reflexivity].
  destruct (_ <? _); destruct w; reflexivity.
Qed.

Lemma told_powerOnSequence (w : World) : told (powerOnSequence P w) = told w.
Proof. unfold powerOnSequence. destruct (negb _); destruct w; reflexivity. Qed.

Lemma told_modemPowerOn (w : World) : told (snd (modemPowerOn P E w)) = told w.
Proof.
  unfold modemPowerOn. cbv zeta.
  assert (Ht : told (if negb (modemPowerState E w)
                     then pollPowerState E true 10 (powerOnSequence P w) else w) = told w).
  { destruct (negb (modemPowerState E w)); [|reflexivity].
    rewrite told_pollPowerState. apply told_powerOnSequence. }
  destruct (negb (modemPowerState E (if negb (modemPowerState E w) then _ else w)));
    cbn [snd]; exact Ht.
Qed.

Lemma told_powerOffSequence (fuel : nat) (w w' : World) :
  powerOffSequence P E fuel w = Some w' -> told w' = told w.
Proof.
  unfold powerOffSequence. destruct (negb _).
  - intros [= <-]. destruct w; reflexivity.
  - destruct (if memoryIssuePresent_ w then _ else _) as [w1|] eqn:Hw; [|discriminate].
    intros [= <-]. transitivity (told w1); [destruct w1; reflexivity|].
    destruct (memoryIssuePresent_ w); [now apply told_waitForPowerOff in Hw|].
    now injection Hw as <-.
Qed.

Lemma told_modemPowerOff (fuel : nat) (w w' : World) (r : Z) :
  modemPowerOff P E fuel w = Some (r, w') -> told w' = told w.
Proof.
  unfold modemPowerOff. cbv zeta.
  pose proof (told_powerOff_startup_guard w) as Hg.
  set (w0 := powerOff_startup_guard P E w) in *.
  destruct (modemPowerState E w0).
  - destruct (powerOffSequence P E fuel _) as [w1|] eqn:Hs; [|discriminate].
    apply told_powerOffSequence in Hs. cbn [snd modemSetUartState] in Hs.
    rewrite told_HAL_GPIO_Write, Hg in Hs.
    intros Hr.
    assert (Hw : w' = pollPowerState E false 100 w1)
      by (destruct (modemPowerState E (pollPowerState E false 100 w1)); congruence).
    rewrite Hw, told_pollPowerState. exact Hs.
  - intros Hr. assert (Hw : w' = w0) by (destruct (modemPowerState E w0); congruence).
    rewrite Hw. exact Hg.
Qed.

Lemma told_modemHardReset (fuel : nat) (powerOff : bool) (w w' : World) (r : Z) :
  modemHardReset P E fuel powerOff w = Some (r, w') -> told w' = told w.
Proof.
  unfold modemHardReset.
  destruct (negb (modemPowerState E w)); [now intros [= <- <-]|].
  destruct (negb (ncpId w =? _)); [intros [= <- <-]; destruct w; reflexivity|].
  destruct (if memoryIssuePresent_ w then _ else _) as [w1|] eqn:Hw; [|discriminate].
  assert (H1 : told w1 = told w).
  { destruct (memoryIssuePresent_ w); [now apply told_waitForPowerOff in Hw|].
    now injection Hw as <-. }
  cbv zeta. destruct (negb powerOff).
  - intros [= Hr]. 
    assert (Hm := told_modemPowerOn
      (HAL_Delay_Milliseconds 1000 (HAL_GPIO_Write UBRST 1
         (HAL_Delay_Milliseconds 10000 (HAL_GPIO_Write UBRST 0 w1))))).
    rewrite Hr in Hm. cbn [snd] in Hm. rewrite Hm, <- H1. destruct w1; reflexivity.
  - intros [= <- <-]. rewrite <- H1. destruct w1; reflexivity.
Qed.

Lemma informed_connectionState (s : NcpConnectionState) (w : World) :
  informed w -> informed (connectionState E s w).
Proof.
  unfold connectionState.
  destruct (NcpState_eq_dec (ncpState_ w) DISABLED) as [Hd|Hd]; [auto|].
  destruct (NcpConnectionState_eq_dec (connState_ w) s); [auto|].
  unfold informed, standingNcpState. intros (Hh & Hc & Hn).
  destruct (NcpState_eq_dec (ncpState_ w) DISABLED); [contradiction|].
  destruct w as [cf ns pns cs cr cg ce rst rct pot rgt mip pe rdy rto cgi act fw lw biw clk lg se me po].
  cbn in *.
  destruct (NcpConnectionState_eq_dec s CONNECTED) as [->|Hs]; cbn.
  - destruct (negb (_ =? 0)); cbn; rewrite Hh; cbn;
      destruct (NcpState_eq_dec ns DISABLED); try contradiction; auto.
  - rewrite Hh. cbn. destruct (NcpState_eq_dec ns DISABLED); try contradiction; auto.
Qed.

Lemma informed_set_ready (b : bool) (w : World) : informed w -> informed (set_ready b w).
Proof. apply informed_told. destruct w; reflexivity. Qed.

Lemma informed_ncpState (s : NcpState) (w : World) :
  s <> DISABLED -> informed w -> informed (ncpState E s w).
Proof.
  intros Hsd Hi. unfold ncpState.
  destruct (NcpState_eq_dec (ncpState_ w) DISABLED) as [Hd|Hd]; [exact Hi|].
  cbv zeta.
  set (w1 := if NcpState_eq_dec s OFF
             then connectionState E DISCONNECTED (set_ready false w) else w).
  assert (H1 : informed w1 /\ ncpState_ w1 = ncpState_ w).
  { subst w1. destruct (NcpState_eq_dec s OFF); [|auto].
    split; [apply informed_connectionState, informed_set_ready, Hi|].
    rewrite (proj1 (connectionState_sameNcp E DISCONNECTED _)). destruct w; reflexivity. }
  destruct H1 as [(Hh & Hc & Hn) Hs].
  destruct (NcpState_eq_dec (ncpState_ w1) s); [repeat split; assumption|].
  unfold informed, standingNcpState in *.
  destruct (NcpState_eq_dec (ncpState_ w1) DISABLED); [congruence|].
  destruct w1 as [cf ns pns cs cr cg ce rst rct pot rgt mip pe rdy rto cgi act fw lw biw clk lg se me po].
  cbn in *. rewrite Hh. cbn.
  destruct (NcpState_eq_dec s DISABLED); [contradiction|auto].
Qed.

Lemma informed_checkRegistrationState (w : World) :
  informed w -> informed (checkRegistrationState E w).
Proof.
  intros Hi. unfold checkRegistrationState.
  assert (Hreg : forall t, informed (set_registeredTime t w))
    by (intros t; revert Hi; apply informed_told; destruct w; reflexivity).
  assert (Hdem : forall u : World, informed u ->
            informed (set_registeredTime 0
              (set_regCheckTime (regStartTime_ (set_regStartTime (millis u) u))
                 (set_regStartTime (millis u) u))))
    by (intros u; apply informed_told; destruct u; reflexivity).
  destruct (connState_ w); [exact Hi| |]; cbv zeta;
    (destruct (registered w);
     [ apply informed_connectionState; destruct (_ && _); [apply Hreg | exact Hi]
     | destruct (NcpConnectionState_eq_dec _ CONNECTED); [|exact Hi];
       apply Hdem, informed_connectionState, Hi ]).
Qed.

Lemma informed_scanRegistrationLine (line : UrcLine) (w w1 : World) (res : Z + Scan) :
  scanRegistrationLine line w = (w1, res) -> informed w -> informed w1.
Proof.
  unfold scanRegistrationLine, parserError. intros Hs. apply informed_told.
  repeat (match type of Hs with
          | context [if ?c then _ else _] => destruct c
          end);
    injection Hs as <- _; destruct w; reflexivity.
Qed.

Lemma informed_set_lac_cid (lac cid : Z) (w : World) :
  informed w -> informed (set_lac_cid lac cid w).
Proof. apply informed_told. destruct w; reflexivity. Qed.

Lemma informed_urcHandler (line : UrcLine) (w : World) :
  informed w -> informed (snd (urcHandler P E line w)).
Proof.
  intros Hi.
  assert (Hcreg : forall v u, informed u -> informed (set_creg v u))
    by (intros v u; apply informed_told; destruct u; reflexivity).
  assert (Hcgreg : forall v u, informed u -> informed (set_cgreg v u))
    by (intros v u; apply informed_told; destruct u; reflexivity).
  assert (Hcereg : forall v u, informed u -> informed (set_cereg v u))
    by (intros v u; apply informed_told; destruct u; reflexivity).
  unfold urcHandler, urc_CREG, urc_CGREG, urc_CEREG.
  destruct (urc_prefix line);
    destruct (scanRegistrationLine line w) as [w1 [e|sc]] eqn:Hs;
    pose proof (informed_scanRegistrationLine _ _ _ _ Hs Hi) as H1;
    cbn [snd]; try exact H1;
    (destruct (negb (scan_r sc >=? 1)); cbn [snd]; [exact H1|]);
    (destruct (scan_r sc >=? 3);
     [ match goal with
       | |- context [if ?c then set_lac_cid _ _ _ else _] =>
           destruct c; [apply informed_set_lac_cid|]
       end
     | ]);
    apply informed_checkRegistrationState; auto.
Qed.

Lemma informed_dispatchUrcs (lines : list UrcLine) (w : World) :
  informed w -> informed (dispatchUrcs P E lines w).
Proof.
  unfold dispatchUrcs. revert w.
  induction lines as [|line lines IH]; intros w Hi; cbn [fold_left]; [exact Hi|].
  apply IH, informed_urcHandler, Hi.
Qed.

Lemma Stable_informed : Stable P E informed.
Proof.
  split.
  - intros cmd w Hi. unfold parser_exchange. cbn [snd]. cbv zeta.
    apply informed_dispatchUrcs. revert Hi. apply informed_told.
    destruct w; reflexivity.
  - intros ms w. apply informed_told, told_HAL_Delay_Milliseconds.
  - intros r w. apply informed_told. destruct w; reflexivity.
  - intros t w. apply informed_told. destruct w; reflexivity.
Qed.

Lemma informed_parser_exchange (req : Event) (w : World) :
  told (emit req w) = told w ->
  informed w -> informed (snd (parser_exchange P E req w)).
Proof.
  intros Ht Hi. unfold parser_exchange. cbn [snd]. cbv zeta.
  apply informed_dispatchUrcs.
  apply (informed_told (emit req w)); [destruct w; reflexivity|].
  exact (informed_told _ _ Ht Hi).
Qed.

Lemma informed_check_parser_ok (cmd : string) (w : World) :
  informed w -> informed (snd (check_parser_ok P E cmd w)).
Proof.
  intros Hi. unfold check_parser_ok, execCommand.
  pose proof (informed_parser_exchange (AtCommand cmd) w
                ltac:(destruct w; reflexivity) Hi) as Hx.
  destruct (parser_exchange P E (AtCommand cmd) w) as [reply w1]. cbn [snd] in Hx.
  destruct (_ <? 0); cbn [snd];
    [revert Hx; apply informed_told; destruct w1; reflexivity|].
  destruct (negb _); exact Hx.
Qed.

Lemma informed_registrationQueries (w : World) :
  informed w -> informed (snd (registrationQueries P E w)).
Proof.
  intros Hi. unfold registrationQueries.
  destruct (negb _); [|now apply informed_check_parser_ok].
  pose proof (informed_check_parser_ok "AT+CREG?" w Hi) as H1.
  destruct (check_parser_ok P E "AT+CREG?" w) as [[e|u] w1]; cbn [snd] in *; [exact H1|].
  now apply informed_check_parser_ok.
Qed.

Lemma informed_disable (w : World) : informed w -> informed (disable w).
Proof.
  unfold disable. cbv zeta.
  destruct (NcpState_eq_dec (ncpState_ w) DISABLED) as [Hd|Hd]; [auto|].
  unfold informed, standingNcpState. intros (Hh & Hc & Hn).
  destruct (NcpState_eq_dec (ncpState_ w) DISABLED); [contradiction|].
  destruct w; cbn in *. auto.
Qed.

Lemma informed_off (fuel : nat) (w w' : World) (r : Z) :
  off P E fuel w = Some (r, w') -> informed w -> informed w'.
Proof.
  unfold off. destruct (NcpState_eq_dec (ncpState_ w) DISABLED); [now intros [= <- <-]|].
  cbv zeta. destruct (modemPowerOff P E fuel _) as [[rv w1]|] eqn:Hp; [|discriminate].
  intros [= <- <-] Hi. apply told_modemPowerOff in Hp.
  cbn [snd modemSetUartState] in Hp. rewrite told_HAL_GPIO_Write, told_muxer_stop in Hp.
  apply informed_ncpState; [discriminate|]. apply informed_set_ready.
  exact (informed_told _ _ Hp Hi).
Qed.

Lemma informed_enable (fuel : nat) (w w' : World) (r : Z) :
  enable P E fuel w = Some (r, w') -> informed w -> informed w'.
Proof.
  unfold enable. destruct (NcpState_eq_dec (ncpState_ w) DISABLED) as [Hd|Hd];
    [|now intros [= <- <-]].
  cbv zeta. destruct (off P E fuel _) as [[r0 w1]|] eqn:Hoff; [|discriminate].
  intros [= <- <-] Hi. apply (informed_off _ _ _ _ Hoff).
  unfold informed, standingNcpState in *. destruct Hi as (Hh & Hc & Hn).
  destruct (NcpState_eq_dec (ncpState_ w) DISABLED); [|contradiction].
  destruct w; cbn in *.
  repeat split; auto.
  match goal with |- context [NcpState_eq_dec ?a DISABLED] =>
    destruct (NcpState_eq_dec a DISABLED); congruence end.
Qed.

Lemma informed_muxChannelStateCb (channel : Z) (closed : bool) (w : World) :
  informed w -> informed (snd (muxChannelStateCb E channel closed w)).
Proof.
  intros Hi. unfold muxChannelStateCb.
  destruct closed; [|exact Hi].
  destruct (channel =? 0); [now apply informed_disable|].
  destruct (channel =? UBLOX_NCP_PPP_CHANNEL); [|exact Hi].
  destruct (connState_ w); cbn [snd]; [exact Hi| |];
    now apply informed_connectionState.
Qed.

Lemma informed_registrationTimeoutReset (fuel : nat) (w w' : World) :
  registrationTimeoutReset P E fuel w = Some w' -> informed w -> informed w'.
Proof.
  unfold registrationTimeoutReset. cbv zeta.
  destruct (modemPowerOff P E fuel _) as [[rv w1]|] eqn:Hp; [|discriminate].
  apply told_modemPowerOff in Hp. rewrite told_muxer_stop in Hp.
  destruct (if negb (rv =? 0) then _ else _) as [[r2 w2]|] eqn:Hr; [|discriminate].
  intros [= <-] Hi. apply informed_ncpState; [discriminate|].
  assert (H2 : told w2 = told w1).
  { destruct (negb (rv =? 0)); [now apply told_modemHardReset in Hr|].
    now injection Hr as _ <-. }
  apply (informed_told w); [congruence | exact Hi].
Qed.

Lemma informed_processEventsImpl (fuel : nat) (w w' : World) (r : Z) :
  processEventsImpl P E fuel w = Some (r, w') -> informed w -> informed w'.
Proof.
  intros Hrun Hi. unfold processEventsImpl in Hrun.
  assert (Hg : forall u, informed u -> informed (regCheckTime_guard u))
    by (intros u; apply informed_told; destruct u; reflexivity).
  destruct (NcpState_eq_dec (ncpState_ w) ON); [|now injection Hrun as _ <-].
  cbv zeta in Hrun.
  assert (H1 : informed (processEvents_reconcile P E w)).
  { unfold processEvents_reconcile, processUrc. cbv zeta.
    apply informed_checkRegistrationState.
    pose proof (informed_parser_exchange ProcessUrc w ltac:(destruct w; reflexivity) Hi) as Hx.
    destruct (parser_exchange P E ProcessUrc w) as [reply w1]. exact Hx. }
  destruct (pollNotDue (processEvents_reconcile P E w)); [now injection Hrun as _ <-|].
  pose proof (informed_registrationQueries _ H1) as H2.
  destruct (registrationQueries P E (processEvents_reconcile P E w)) as [[e0|u] w2];
    cbn [snd] in H2; [injection Hrun as _ <-; now apply Hg|].
  destruct (registrationTimedOut w2); [|injection Hrun as _ <-; now apply Hg].
  destruct (registrationTimeoutReset P E fuel w2) as [w3|] eqn:Hreset; [|discriminate].
  injection Hrun as _ <-. apply Hg. exact (informed_registrationTimeoutReset _ _ _ Hreset H2).
Qed.

Lemma informed_dataChannelWrite (id size : Z) (w : World) :
  informed w -> informed (snd (dataChannelWrite P E id size w)).
Proof.
  intros Hi. unfold dataChannelWrite. cbv zeta.
  set (w0 := if rate_limited P w then _ else w).
  assert (H0 : informed w0).
  { subst w0. destruct (rate_limited P w); [|exact Hi].
    destruct (_ >=? _); [|exact Hi].
    revert Hi. apply informed_told. destruct w; reflexivity. }
  clearbody w0.
  destruct (rate_limited P w0 && _); cbn [snd]; [exact H0|].
  match goal with
  | |- informed (if _ then disable ?u else ?u) =>
      assert (Hu : informed u); [|destruct (negb _); [apply informed_disable|]; exact Hu]
  end.
  match goal with
  | |- informed (if ?c then _ else _) => destruct c
  end.
  - match goal with
    | |- informed (if ?c then _ else _) => destruct c
    end; revert H0; apply informed_told; destruct w0; reflexivity.
  - revert H0; apply informed_told; destruct w0; reflexivity.
Qed.

Ltac step_inf :=
  first
    [ lazymatch goal with
      | |- keeps _ (modify (ncpState _ _)) =>
          apply keeps_modify; intros w Hw; apply informed_ncpState; [discriminate | exact Hw]
      | |- keeps _ (modify (connectionState _ _)) =>
          apply keeps_modify; intros w; apply informed_connectionState
      | |- keeps _ (modify (checkRegistrationState _)) =>
          apply keeps_modify; intros w; apply informed_checkRegistrationState
      | |- keeps _ (modify (HAL_Delay_Milliseconds _)) =>
          apply keeps_modify; intros w; apply informed_told, told_HAL_Delay_Milliseconds
      | |- keeps _ (modify _) =>
          apply keeps_modify; intros w; apply informed_told; destruct w; reflexivity
      | |- keeps _ (call_fuel (modemHardReset _ _ _ _)) =>
          apply keeps_call_fuel; intros w r w' Hw Hm;
          apply told_modemHardReset in Hm; exact (informed_told _ _ Hm Hw)
      | |- keeps _ (call (modemSetUartState _)) =>
          apply keeps_call; intros w; apply informed_told; destruct w; reflexivity
      end
    | step ].

Lemma initReady_informed (fuel : nat) : keeps informed (initReady P H E X fuel).
Proof.
  pose proof Stable_informed as HJ.
  unfold initReady. repeat step_inf.
Qed.

Lemma waitReady_informed (fuel : nat) : keeps informed (waitReady P H E X fuel).
Proof.
  pose proof Stable_informed as HJ.
  pose proof (initReady_informed fuel) as Hinit.
  unfold waitReady. repeat first [exact Hinit | apply keeps_checks; exact Hinit | step_inf].
Qed.

Lemma checkParser_informed (fuel : nat) : keeps informed (checkParser P H E X fuel).
Proof.
  pose proof Stable_informed as HJ.
  pose proof (waitReady_informed fuel) as Hwait.
  unfold checkParser.
  repeat first [exact Hwait | apply keeps_checks; exact Hwait | step_inf].
Qed.

Lemma disconnect_informed (fuel : nat) : keeps informed (disconnect P H E X fuel).
Proof.
  pose proof Stable_informed as HJ.
  pose proof (checkParser_informed fuel) as Hcheck.
  unfold disconnect.
  repeat first [exact Hcheck | apply keeps_checks; exact Hcheck | step_inf].
Qed.

Lemma registerNet_informed : keeps informed (registerNet P E X).
Proof.
  pose proof Stable_informed as HJ.
  unfold registerNet. repeat step_inf.
Qed.

Lemma connect_informed (fuel : nat) (conf : CellularNetworkConfig) :
  keeps informed (connect P H E X fuel conf).
Proof.
  pose proof Stable_informed as HJ.
  pose proof (checkParser_informed fuel) as Hcheck.
  pose proof (configureApn_keeps informed conf HJ) as Hapn.
  pose proof registerNet_informed as Hreg.
  unfold connect.
  repeat first [ exact Hcheck | exact Hapn | exact Hreg
               | apply keeps_checks; first [exact Hcheck | exact Hapn | exact Hreg]
               | step_inf ].
Qed.

(** *** The pins that [modemInit] configures *)


(** *** What a step leaves behind, with the call that made it *)

Lemma wp_CHECK_fn_eq {S : Type} (body : Run S Z) (s : S) :
  wp (CHECK (fn body))
     (fun res s' => match res with
                    | inl e => e < 0
                    | inr r => 0 <= r /\ fn body s = Some (inr r, s')
                    end) s.
Proof.
  unfold wp, CHECK, bind, fn. destruct (body s) as [[[r|r] s']|]; [| |exact I];
    destruct (r <? 0) eqn:Hr; cbn; first [lia | split; [lia | reflexivity]].
Qed.

Lemma wp_sendCommand_eq (cmd : string) (c : Client) :
  wp (sendCommand P E X cmd)
     (fun res c' =>
        match res with
        | inl _ => False
        | inr resp =>
            response_reply resp = fst (parser_exchange P E (AtCommand cmd) (world c)) /\
            c' = set_world (snd (parser_exchange P E (AtCommand cmd) (world c))) c
        end) c.
Proof.
  unfold wp, sendCommand. destruct (parser_exchange P E (AtCommand cmd) (world c)).
  cbn. split; reflexivity.
Qed.

Lemma wp_CHECK_PARSER_ret_eq (x : Z) (c : Client) :
  wp (CHECK_PARSER (ret x))
     (fun res c' => match res with
                    | inl e => e < 0
                    | inr r => r = x /\ 0 <= x /\ c' = c
                    end) c.
Proof.
  unfold CHECK_PARSER, wp, bind, ret. destruct (x <? 0) eqn:Hx; cbn; [lia|].
  repeat split; lia.
Qed.

(** *** Coming to an end *)

Section Ends.

Variable J : World -> Prop.

Lemma total_bind {A B : Type} (m : Run Client A) (k : A -> Run Client B) :
  total J m -> (forall a, total J (k a)) -> total J (bind m k).
Proof.
  intros Hm Hk c Hc. unfold bind. destruct (Hm c Hc) as ([e|a] & c1 & -> & H1).
  - eauto.
  - apply Hk. exact H1.
Qed.

Lemma total_leaf {A : Type} (m : Run Client A) :
  inv J m -> (forall c, m c <> None) -> total J m.
Proof.
  intros Hi Hn c Hc. specialize (Hi c Hc). specialize (Hn c). unfold wp in Hi.
  destruct (m c) as [[[e|a] c1]|]; [eauto | eauto | contradiction].
Qed.

Lemma total_fn (body : Run Client Z) : total J body -> total J (fn body).
Proof.
  intros Hb c Hc. unfold fn. destruct (Hb c Hc) as ([e|a] & c1 & -> & H1); eauto.
Qed.

Lemma total_CHECK (m : Run Client Z) : total J m -> total J (CHECK m).
Proof.
  intros Hm. unfold CHECK. apply total_bind; [exact Hm|].
  intros r c Hc. destruct (r <? 0); unfold Return, ret; eauto.
Qed.

Lemma total_scope_guard {A : Type} (cleanup : World -> World) (body : Run Client A) :
  (forall w, J w -> J (cleanup w)) -> total J body -> total J (scope_guard cleanup body).
Proof.
  intros Hcl Hb c Hc. unfold scope_guard.
  destruct (Hb c Hc) as ([e|a] & c1 & -> & H1); [|eauto].
  eexists _, _. split; [reflexivity|]. destruct c1; cbn in *. auto.
Qed.

End Ends.

Lemma ncpState_conf (s : NcpState) (w : World) : conf_ (ncpState E s w) = conf_ w.
Proof.
  unfold ncpState, connectionState.
  destruct w as [cf ns pns cs cr cg ce rst rct pot rgt mip pe rdy rto cgi act fw lw biw clk lg se me po].
  cbn.
  repeat match goal with
         | |- context [if ?b then _ else _] => destruct b; cbn
         end; reflexivity.
Qed.

Ltac step_conf :=
  first
    [ lazymatch goal with
      | |- keeps _ (modify (ncpState _ _)) =>
          apply keeps_modify; intros ? ?; hnf; rewrite ncpState_conf; assumption
      end
    | step ].

(** A computation without a loop of its own returns. *)
Ltac returns :=
  intro;
  cbv [CHECK CHECK_PARSER CHECK_PARSER_OK CHECK_TRUE bind ret Return read modify call host
       skipAll sendCommand sendCommand_timeout exec exec_timeout member assign];
  repeat match goal with
         | |- context [let (_, _) := ?x in _] => destruct x
         | |- context [if ?b then _ else _] => destruct b
         | |- context [match ?x with _ => _ end] => destruct x
         end;
  let Hx := fresh "Hx" in intros Hx; discriminate Hx.

Create HintDb total.

(** One step of a proof that a computation comes to an end. *)
Ltac finish :=
  lazymatch goal with
  | |- total _ (bind _ _) => apply total_bind; [|intro]
  | |- total _ (fn _) => apply total_fn
  | |- total _ (scope_guard _ _) => apply total_scope_guard; [solve [closed]|]
  | |- total _ (if ?b then _ else _) => destruct b
  | |- total _ (match ?x with _ => _ end) => destruct x
  | |- total _ _ =>
      first [ solve [eauto with total]
            | apply total_leaf; [solve [repeat step_conf] | solve [returns]]
            | apply total_CHECK ]
  end.

(** The boot sequence on a chip other than the R410, when every exchange
    with the parser takes from 1 to 2^32 - 20000 ms: each of its functions
    comes to an end, and the configuration stays. *)
Section Booting.

Variable cf : CellularNcpClientConfig.
Variable fuel : nat.
Hypothesis Hchip : ncpIdentifier cf <> PLATFORM_NCP_SARA_R410 P.
Hypothesis Hpace :
  forall t evs, 1 <= Z.of_N (reply_elapsed (parser_reply E t evs)) <= 2 ^ 32 - 20000.
Hypothesis Hfuel : (Z.to_nat 20000 <= fuel)%nat.

Lemma Stable_conf : Stable P E (configured cf).
Proof.
  apply Stable_parserFrame.
  - intros w w' (Hs & _) Hw. unfold settings in Hs. injection Hs. intros. congruence.
  - closed.
  - closed.
Qed.

Local Hint Resolve Stable_conf : core.

Lemma total_waitAtResponse (timeout : Z) (period : option Z) :
  0 <= timeout <= 20000 -> total (configured cf) (waitAtResponse P H E fuel timeout period).
Proof.
  intros Ht. pose proof Stable_conf as HJ. apply total_leaf; [solve [repeat step]|].
  intros c.
  assert (Hp : forall t evs,
             1 <= Z.of_N (reply_elapsed (parser_reply E t evs)) <= 2 ^ 32 - timeout)
    by (intros t evs; specialize (Hpace t evs); lia).
  pose proof (waitAtResponse_loop_returns timeout period (clock (world c)) Hp fuel c) as Hl.
  unfold waitAtResponse, fn. unfold bind at 1. unfold read. unfold bind at 1.
  change (millis (world c)) with (u32 (clock (world c))).
  destruct (waitAtResponse_loop P H E fuel (u32 (clock (world c))) timeout period c)
    as [[[e|u] c1]|]; [discriminate | cbn; discriminate | exfalso; apply Hl; [lia | lia | reflexivity]].
Qed.

Lemma total_modemHardReset (powerOff : bool) :
  total (configured cf) (call_fuel (modemHardReset P E fuel powerOff)).
Proof.
  intros c Hc. unfold call_fuel, modemHardReset.
  destruct (negb (modemPowerState E (world c)));
    [eexists _, _; split; [reflexivity|]; destruct c; exact Hc|].
  assert ((ncpId (world c) =? PLATFORM_NCP_SARA_R410 P) = false) as ->
    by (unfold ncpId; rewrite Hc; lia).
  cbn [negb]. eexists _, _. split; [reflexivity|].
  destruct c as [w ? ? ?]; destruct w; cbn in *; exact Hc.
Qed.

Local Hint Resolve total_modemHardReset : total.
Local Hint Extern 1 (total _ (waitAtResponse _ _ _ _ _ _)) =>
  apply total_waitAtResponse; lia : total.

Lemma total_checkSimCard : total (configured cf) (checkSimCard P H E X).
Proof. pose proof Stable_conf as HJ. unfold checkSimCard. repeat finish. Qed.

Lemma total_scanGpioConfiguration (lines : list Scan) (mode : Z) :
  total (configured cf) (scanGpioConfiguration lines mode).
Proof.
  pose proof Stable_conf as HJ. revert mode.
  induction lines as [|l rest IH]; intros mode; cbn [scanGpioConfiguration];
    [repeat finish|].
  apply total_bind; [repeat finish | intros r; apply IH].
Qed.

Lemma total_pollSimCard (n : nat) (simState : Z) :
  total (configured cf) (pollSimCard P H E X n simState).
Proof.
  pose proof Stable_conf as HJ. revert simState.
  induction n as [|n IH]; intros simState; cbn [pollSimCard]; [repeat finish|].
  apply total_bind; [apply total_checkSimCard | intros r].
  destruct (r =? 0); [repeat finish|].
  apply total_bind; [repeat finish | intros u; apply IH].
Qed.

Lemma total_scanEdrxActs (lines : list Scan) (acts : list Z) :
  total (configured cf) (scanEdrxActs H X lines acts).
Proof.
  pose proof Stable_conf as HJ. revert acts.
  induction lines as [|l rest IH]; intros acts; cbn [scanEdrxActs]; [repeat finish|].
  destruct (scan_r l =? 1); [|apply IH].
  apply total_bind; [repeat finish | intros ok].
  apply total_bind; [repeat finish | intros u; apply IH].
Qed.

Lemma total_disableEdrx (acts : list Z) (lastError : Z) :
  total (configured cf) (disableEdrx P E acts lastError).
Proof.
  pose proof Stable_conf as HJ. revert lastError.
  induction acts as [|act rest IH]; intros lastError; cbn [disableEdrx]; [repeat finish|].
  apply total_bind; [repeat finish | intros r; apply IH].
Qed.

Local Hint Resolve total_checkSimCard total_scanGpioConfiguration total_pollSimCard
  total_scanEdrxActs total_disableEdrx : total.

Lemma total_selectSimCard : total (configured cf) (selectSimCard P H E X fuel).
Proof.
  pose proof Stable_conf as HJ. unfold selectSimCard. repeat finish.
Qed.

Lemma total_initParser (stream : Stream) : total (configured cf) (initParser X stream).
Proof. pose proof Stable_conf as HJ. unfold initParser. repeat finish. Qed.

Lemma total_changeBaudRate (baud : Z) : total (configured cf) (changeBaudRate P E X baud).
Proof. pose proof Stable_conf as HJ. unfold changeBaudRate. repeat finish. Qed.

Lemma total_getAppFirmwareVersion : total (configured cf) (getAppFirmwareVersion P E X).
Proof. pose proof Stable_conf as HJ. unfold getAppFirmwareVersion. repeat finish. Qed.

Local Hint Resolve total_selectSimCard total_initParser total_changeBaudRate
  total_getAppFirmwareVersion : total.

Lemma total_initReady : total (configured cf) (initReady P H E X fuel).
Proof.
  pose proof Stable_conf as HJ. unfold initReady. repeat finish.
Qed.

Local Hint Resolve total_initReady : total.

Lemma total_waitReady : total (configured cf) (waitReady P H E X fuel).
Proof.
  pose proof Stable_conf as HJ. unfold waitReady. repeat finish.
Qed.

End Booting.

(** *** The boot sequence *)

(** X1: [waitReady] returns 0 exactly when the client is ready on return.
    A client that is ready already is left as it is.  Booting a client that
    was not ready ends with NcpState = On when it succeeds (a Disabled
    client stays Disabled); when it fails the result is negative and the
    state is Off or what it was.  The configuration is never touched and a
    Disconnected session stays Disconnected. *)
Theorem waitReady_outcome (fuel : nat) (c c' : Client) (r : Z) :
  errorCodes P H ->
  run (waitReady P H E X fuel) c = Some (r, c') ->
  (r = 0 <-> ready_ (world c') = true) /\
  (ready_ (world c) = true -> c' = c) /\
  (ready_ (world c) = false -> r = 0 ->
     ncpState_ (world c') = booted (ncpState_ (world c))) /\
  (r <> 0 ->
     r < 0 /\
     (ncpState_ (world c') = ncpState_ (world c) \/ ncpState_ (world c') = OFF)) /\
  conf_ (world c') = conf_ (world c) /\
  (connState_ (world c) = DISCONNECTED -> connState_ (world c') = DISCONNECTED).
Proof.
  intros Hcodes Hrun. destruct (ready_ (world c)) eqn:Hr.
  - unfold run in Hrun. rewrite (waitReady_ready fuel c Hr) in Hrun.
    injection Hrun as <- <-. repeat split; auto; try congruence.
  - set (d := if NcpConnectionState_eq_dec (connState_ (world c)) DISCONNECTED
              then true else false).
    assert (Hpre : booting (ncpState_ (world c)) (conf_ (world c)) d (world c)).
    { unfold booting, d. repeat split.
      destruct (NcpConnectionState_eq_dec _ DISCONNECTED); [auto | discriminate]. }
    assert (Hpost := fun Q HQ => run_triple (fun c0 => booting (ncpState_ (world c))
                        (conf_ (world c)) d (world c0) /\ ready_ (world c0) = false)
                       (waitReady P H E X fuel) Q c c' r HQ (conj Hpre Hr) Hrun).
    specialize (Hpost _ (waitReady_post fuel _ _ d _ Hcodes)). cbv beta in Hpost.
    destruct (r =? 0) eqn:Hr0.
    + destruct Hpost as [(A & B & C) D]. assert (r = 0) by lia.
      repeat split; auto; try congruence; try lia.
      intros Hd. apply C. unfold d. destruct (NcpConnectionState_eq_dec _ _); congruence.
    + destruct Hpost as (A & B & C & D & F). assert (r <> 0) by lia.
      repeat split; auto; try congruence; try lia.
      intros Hd. apply D. unfold d. destruct (NcpConnectionState_eq_dec _ _); congruence.
Qed.

(** X2: [on] with the boot sequence as its [waitReady], called on a client
    that is Off and not ready.  Whenever it returns, it returns 0 with the
    client On and ready, or a negative value with the client Off and not
    ready, and the configuration is as it was.  It does return when the
    chip is not the R410 and every exchange with the parser takes at least
    one millisecond and at most 2^32 - 20000 (each of its loops then ends
    within 20000 rounds). *)
Theorem on_boots (fuel : nat) (c : Client) :
  errorCodes P H ->
  ncpState_ (world c) = OFF -> ready_ (world c) = false ->
  (ncpId (world c) <> PLATFORM_NCP_SARA_R410 P ->
   (forall t evs, 1 <= Z.of_N (reply_elapsed (parser_reply E t evs)) <= 2 ^ 32 - 20000) ->
   (Z.to_nat 20000 <= fuel)%nat ->
   exists r w', on P E (waitReady_of P H E X c) fuel (world c) = Some (r, w')) /\
  (forall r w',
     on P E (waitReady_of P H E X c) fuel (world c) = Some (r, w') ->
     (r = 0 /\ ncpState_ w' = ON /\ ready_ w' = true \/
      r < 0 /\ ncpState_ w' = OFF /\ ready_ w' = false) /\
     conf_ w' = conf_ (world c)).
Proof.
  intros Hcodes Hoff Hnr. unfold on. rewrite Hoff.
  destruct (NcpState_eq_dec OFF DISABLED); [discriminate|].
  destruct (NcpState_eq_dec OFF ON); [discriminate|].
  pose proof (modemPowerOn_outcome P E (world c)) as Hp. cbv zeta in Hp.
  destruct (modemPowerOn P E (world c)) as [r1 w1]. cbn [fst snd] in Hp.
  destruct Hp as [Hr1 Hs1]. destruct (session_fields _ _ Hs1) as (_ & A & _ & _ & B & F).
  destruct F as (_ & _ & _ & _ & _ & _ & F).
  split.
  - intros Hchip Hpace Hfuel. destruct (r1 <? 0); [eauto|].
    assert (Hchip' : ncpIdentifier (conf_ (world c)) <> PLATFORM_NCP_SARA_R410 P)
      by exact Hchip.
    destruct (total_waitReady (conf_ (world c)) fuel Hchip' Hpace Hfuel (set_world w1 c))
      as (res & c2 & Hrun & _); [destruct c; exact F|].
    unfold waitReady_of, run. rewrite Hrun.
    destruct res as [e|r2]; [destruct (e <? 0) | destruct (r2 <? 0)]; eauto.
  - intros r w'. destruct (r1 <? 0) eqn:Hneg.
    + intros [= <- <-]. split; [right|congruence].
      repeat split; [lia | congruence | congruence].
    + unfold waitReady_of.
      destruct (run (waitReady P H E X fuel) (set_world w1 c)) as [[r2 c2]|] eqn:Hrun;
        [|discriminate].
      assert (Hpre : booting OFF (conf_ (world c)) false (world (set_world w1 c)) /\
                     ready_ (world (set_world w1 c)) = false).
      { cbn. unfold booting. repeat split; try congruence. }
      pose proof (run_post _ _ _ _ _ _
                    (fun Ex => waitReady_post fuel OFF (conf_ (world c)) false Ex Hcodes)
                    Hpre Hrun) as Hpost.
      cbv beta in Hpost. destruct (r2 =? 0) eqn:Hr2.
      * assert ((r2 <? 0) = false) as -> by lia. intros [= <- <-].
        destruct Hpost as [(A1 & A2 & _) A3]. cbn in A1. auto.
      * destruct Hpost as (A1 & A2 & A3 & _ & A5).
        assert ((r2 <? 0) = true) as -> by lia. intros [= <- <-].
        split; [right|exact A2]. repeat split; auto. destruct A5; auto.
Qed.

(** X3: [checkParser] on a client that is not On returns invalid-state and
    does nothing; on a client that is On, ready and without a pending
    parser error it returns 0 and does nothing.  Whenever it returns 0 the
    client is On and ready; otherwise the result is negative.  The
    configuration is not touched and a Disconnected session stays
    Disconnected. *)
Theorem checkParser_outcome (fuel : nat) (c c' : Client) (r : Z) :
  errorCodes P H ->
  run (checkParser P H E X fuel) c = Some (r, c') ->
  (ncpState_ (world c) <> ON -> r = SYSTEM_ERROR_INVALID_STATE P /\ c' = c) /\
  (ncpState_ (world c) = ON -> ready_ (world c) = true -> parserError_ (world c) = 0 ->
     r = 0 /\ c' = c) /\
  (r = 0 -> ncpState_ (world c') = ON /\ ready_ (world c') = true) /\
  (r <> 0 -> r < 0) /\
  conf_ (world c') = conf_ (world c) /\
  (connState_ (world c) = DISCONNECTED -> connState_ (world c') = DISCONNECTED).
Proof.
  intros Hcodes Hrun.
  pose proof (run_post _ _ _ _ _ _
                (fun Ex => checkParser_post fuel _ _ _ Ex Hcodes)
                (booting_now (world c)) Hrun) as Hpost.
  cbv beta in Hpost.
  split; [|split].
  - intros Hn. revert Hrun. unfold run, checkParser, fn, bind, read.
    destruct (NcpState_eq_dec (ncpState_ (world c)) ON); [contradiction|].
    cbn. intros [= <- <-]. auto.
  - intros Hn Hr He. revert Hrun. unfold run, checkParser, fn, bind, read, CHECK, bind.
    destruct (NcpState_eq_dec (ncpState_ (world c)) ON); [|contradiction].
    cbn. rewrite Hr, He. cbn. rewrite (waitReady_ready fuel c Hr). cbn.
    intros [= <- <-]. auto.
  - destruct (r =? 0) eqn:Hr0.
    + destruct Hpost as [(A & B & C) D]. assert (r = 0) by lia.
      repeat split; auto; try lia. intros Hd. apply C. now apply isDisconnected_true.
    + destruct Hpost as (A & B & C & D). assert (r <> 0) by lia.
      repeat split; auto; try lia. intros Hd. apply C. now apply isDisconnected_true.
Qed.

(** *** Leaving and joining the network *)

(** X4: [disconnect] on a Disabled client returns invalid-state and does
    nothing; on a session that is Disconnected already it returns 0 and
    does nothing.  Whenever it returns 0 the session is Disconnected, and
    if it was not before, the client is On and the three registration
    flags are cleared.  Any other result is negative. *)
Theorem disconnect_outcome (fuel : nat) (c c' : Client) (r : Z) :
  errorCodes P H ->
  run (disconnect P H E X fuel) c = Some (r, c') ->
  (ncpState_ (world c) = DISABLED -> r = SYSTEM_ERROR_INVALID_STATE P /\ c' = c) /\
  (ncpState_ (world c) <> DISABLED -> connState_ (world c) = DISCONNECTED ->
     r = 0 /\ c' = c) /\
  (r = 0 -> connState_ (world c') = DISCONNECTED) /\
  (r = 0 -> connState_ (world c) <> DISCONNECTED ->
     ncpState_ (world c') = ON /\ creg_ (world c') = NotRegistered /\
     cgreg_ (world c') = NotRegistered /\ cereg_ (world c') = NotRegistered) /\
  (r <> 0 -> r < 0).
Proof.
  intros Hcodes Hrun.
  pose proof (run_post _ _ _ _ _ _ (fun Ex => disconnect_post fuel c Ex Hcodes)
                eq_refl Hrun) as Hpost.
  cbv beta in Hpost.
  split; [|split].
  - intros Hn. revert Hrun. unfold run, disconnect, fn, bind, read. rewrite Hn.
    cbn. intros [= <- <-]. auto.
  - intros Hn Hd. revert Hrun. unfold run, disconnect, fn, bind, read, ret.
    destruct (NcpState_eq_dec (ncpState_ (world c)) DISABLED); [contradiction|].
    cbv beta iota. rewrite Hd. cbn. intros [= <- <-]. auto.
  - destruct (r =? 0) eqn:Hr0.
    + destruct Hpost as [A B]. split; [auto|]. split; [|lia].
      intros _ Hd. destruct B as [B|B]; [contradiction | exact B].
    + split; [lia|]. split; [lia|]. intros _. exact Hpost.
Qed.

(** X5: [connect] on a session that is not Disconnected returns
    invalid-state and does nothing.  It returns 0 only for a session that
    was Disconnected, and then the client is On; any other result is
    negative. *)
Theorem connect_outcome (fuel : nat) (conf : CellularNetworkConfig) (c c' : Client) (r : Z) :
  errorCodes P H ->
  run (connect P H E X fuel conf) c = Some (r, c') ->
  (connState_ (world c) <> DISCONNECTED -> r = SYSTEM_ERROR_INVALID_STATE P /\ c' = c) /\
  (r = 0 -> connState_ (world c) = DISCONNECTED /\ ncpState_ (world c') = ON /\
            conf_ (world c') = conf_ (world c)) /\
  (r <> 0 -> r < 0).
Proof.
  intros Hcodes Hrun.
  pose proof (run_post _ _ _ _ _ _ (fun Ex => connect_post fuel conf c Ex Hcodes)
                eq_refl Hrun) as Hpost.
  cbv beta in Hpost. split.
  - intros Hn. revert Hrun. unfold run, connect, fn, bind, read, CHECK_TRUE.
    destruct (NcpConnectionState_eq_dec (connState_ (world c)) DISCONNECTED);
      [contradiction|].
    cbn. intros [= <- <-]. auto.
  - destruct (r =? 0) eqn:Hr0; split; try lia; auto.
Qed.

(** X6: when every registration line that the parser hands to the URC
    handlers during the call, unsolicited or in direct response to the
    queries that [connect] sends, tells of a state other than registered,
    a [connect] that returns 0 leaves the client On and the session
    Connecting, with the three registration flags cleared, no registered
    time, and the registration timer and the poll timer started at the
    current time. *)
Theorem connect_registers (fuel : nat) (conf : CellularNetworkConfig) (c c' : Client) :
  unregistered E -> errorCodes P H ->
  run (connect P H E X fuel conf) c = Some (0, c') ->
  registering (world c').
Proof.
  intros Hq Hcodes Hrun.
  apply (run_post _ _ _ _ _ _ (fun Ex => connect_unregistered_post fuel conf Ex Hq Hcodes)
           I Hrun).
  reflexivity.
Qed.

(** *** Waiting for an answer *)


(** X8: when every exchange with the parser takes at least one millisecond
    and at most 2^32 - [timeout], [waitAtResponse] returns after at most
    [timeout] attempts (one when [timeout] is not positive). *)
Theorem waitAtResponse_returns (fuel : nat) (timeout : Z) (period : option Z) (c : Client) :
  (forall t evs, 1 <= Z.of_N (reply_elapsed (parser_reply E t evs)) <= 2 ^ 32 - timeout) ->
  (Z.to_nat timeout < fuel)%nat ->
  exists r c', run (waitAtResponse P H E fuel timeout period) c = Some (r, c').
Proof.
  intros Hpace Hfuel.
  pose proof (waitAtResponse_loop_returns timeout period (clock (world c)) Hpace fuel c) as Hl.
  unfold run, waitAtResponse, fn. unfold bind at 1. unfold read. unfold bind at 1.
  change (millis (world c)) with (u32 (clock (world c))).
  destruct (waitAtResponse_loop P H E fuel (u32 (clock (world c))) timeout period c)
    as [[[e|u] c1]|]; [eauto | cbn; eauto | exfalso; apply Hl; [lia | lia | reflexivity]].
Qed.

(** *** Queries *)

(** X9: [getIccid] with a buffer of [size] bytes.  A failure is a negative
    result and leaves the buffer as it was.  A success means that
    [checkParser] passed, that the "+CCID:" line of the reply to the
    "AT+CCID" sent next was scanned with one conversion and that the reply
    ended in OK; the identifier is the string scanned from that reply, cut
    to 31 characters.  The result is the number of characters of the
    identifier that fit in front of the terminating zero; the buffer then
    holds these characters followed by a zero and nothing is written
    behind it; with [size] zero nothing is written at all.  The buffer
    keeps its length, and the client is left as the exchange left it. *)
Theorem getIccid_buffer (fuel : nat) (size : Z) (buf buf' : list ascii)
    (c c' : Client) (r : Z) :
  errorCodes P H ->
  Z.of_nat (List.length buf) = size ->
  run_with (getIccid P H E X fuel size) buf c = Some (r, buf', c') ->
  List.length buf' = List.length buf /\
  (r < 0 /\ buf' = buf \/
   exists (c1 : Client) (r0 : Z) (iccid : string),
     checkParser P H E X fuel c = Some (inr r0, c1) /\ 0 <= r0 /\
     reply_scanf (fst (parser_exchange P E (AtCommand "AT+CCID") (world c1))) = 1 /\
     reply_result (fst (parser_exchange P E (AtCommand "AT+CCID") (world c1))) =
       AtResponse_OK P /\
     iccid = substring 0 31
               (nth 0 (reply_strs (fst (parser_exchange P E (AtCommand "AT+CCID") (world c1))))
                  EmptyString) /\
     c' = set_world (snd (parser_exchange P E (AtCommand "AT+CCID") (world c1))) c1 /\
     (String.length iccid <= 31)%nat /\
     r = Z.min (strlen iccid) (Z.max (size - 1) 0) /\
     buf' = if size =? 0 then buf
            else firstn (Z.to_nat r) (list_ascii_of_string iccid) ++
                 zero :: skipn (S (Z.to_nat r)) buf).
Proof.
  intros Hcodes Hsize.
  set (Success := fun (r : Z) (buf' : list ascii) (c' : Client) =>
    exists (c1 : Client) (r0 : Z) (iccid : string),
      checkParser P H E X fuel c = Some (inr r0, c1) /\ 0 <= r0 /\
      reply_scanf (fst (parser_exchange P E (AtCommand "AT+CCID") (world c1))) = 1 /\
      reply_result (fst (parser_exchange P E (AtCommand "AT+CCID") (world c1))) =
        AtResponse_OK P /\
      iccid = substring 0 31
                (nth 0 (reply_strs (fst (parser_exchange P E (AtCommand "AT+CCID") (world c1))))
                   EmptyString) /\
      c' = set_world (snd (parser_exchange P E (AtCommand "AT+CCID") (world c1))) c1 /\
      (String.length iccid <= 31)%nat /\
      r = Z.min (strlen iccid) (Z.max (size - 1) 0) /\
      buf' = if size =? 0 then buf
             else firstn (Z.to_nat r) (list_ascii_of_string iccid) ++
                  zero :: skipn (S (Z.to_nat r)) buf).
  apply (run_with_wp _
    (fun r buf' c' =>
       List.length buf' = List.length buf /\ (r < 0 /\ buf' = buf \/ Success r buf' c'))).
  assert (Hfail : forall e (c0 : Client), e < 0 ->
            List.length buf = List.length buf /\ (e < 0 /\ buf = buf \/ Success e buf c0))
    by auto.
  assert (Hu : SYSTEM_ERROR_AT_RESPONSE_UNEXPECTED P < 0 /\ SYSTEM_ERROR_AT_NOT_OK P < 0)
    by (unfold errorCodes in Hcodes; lia).
  unfold getIccid. apply wp_fn.
  apply wp_bind. eapply wp_on_client; [unfold checkParser at 1; apply wp_CHECK_fn_eq|].
  intros [e|r0] c1 Hr0; cbn [returned fst snd]; [now apply Hfail|].
  destruct Hr0 as [Hr0 Hcp]. fold (checkParser P H E X fuel) in Hcp.
  apply wp_bind. eapply wp_on_client; [apply wp_sendCommand_eq|].
  intros [e|resp] c2 Hresp; [destruct Hresp|]. cbn [fst snd].
  destruct Hresp as [Hreply Hc2].
  set (iccid := substring 0 31 (scanned_str resp 0)).
  assert (Hlen : (String.length iccid <= 31)%nat) by apply substring_length_le.
  apply wp_bind. eapply wp_on_client; [apply wp_CHECK_PARSER_ret_eq|].
  intros [e|r1] c3 Hr1; cbn [returned fst snd]; [now apply Hfail|].
  destruct Hr1 as (Hr1 & Hr1' & Hc3).
  apply wp_bind. apply wp_CHECK_TRUE; intros Hone; cbn [returned fst snd];
    [|apply Hfail; lia].
  apply wp_bind. eapply wp_on_client; [apply wp_CHECK_PARSER_ret_eq|].
  intros [e|r2] c4 Hr2; cbn [returned fst snd]; [now apply Hfail|].
  destruct Hr2 as (Hr2 & Hr2' & Hc4).
  apply wp_bind. apply wp_CHECK_TRUE; intros Hok; cbn [returned fst snd];
    [|apply Hfail; lia].
  apply wp_bind, wp_on_object. cbn [fst snd].
  assert (Hsucc : forall k buf1,
            k = Z.min (strlen iccid) (Z.max (size - 1) 0) ->
            buf1 = (if size =? 0 then buf
                    else firstn (Z.to_nat k) (list_ascii_of_string iccid) ++
                         zero :: skipn (S (Z.to_nat k)) buf) ->
            Success k buf1 c4).
  { intros k buf1 Hk Hb. exists c1, r0, iccid.
    apply Z.eqb_eq in Hone, Hok. cbn [fst snd] in *.
    assert (Hid : iccid =
              substring 0 31
                (nth 0 (reply_strs (fst (parser_exchange P E (AtCommand "AT+CCID") (world c1))))
                   EmptyString))
      by (unfold iccid, scanned_str; rewrite Hreply; reflexivity).
    unfold scanf, readResult in *. rewrite Hreply in Hr1, Hr2.
    split; [exact Hcp|]. split; [exact Hr0|].
    split; [congruence|]. split; [congruence|]. split; [exact Hid|].
    split; [congruence|]. split; [exact Hlen|]. split; [exact Hk | exact Hb]. }
  pose proof (length_list_ascii_of_string iccid) as Hl.
  unfold strlen in *. set (l := list_ascii_of_string iccid) in *.
  destruct (size >? 0) eqn:Hpos.
  - apply wp_bind, wp_bind, wp_on_object. cbn [fst snd]. apply wp_ret, wp_Return.
    cbn [returned fst snd].
    assert (Hz : (size =? 0) = false) by lia.
    set (n := Z.min (Z.of_nat (String.length iccid)) size).
    set (k := if n =? size then n - 1 else n).
    assert (Hk : k = Z.min (Z.of_nat (String.length iccid)) (Z.max (size - 1) 0))
      by (unfold k, n; destruct (_ =? size) eqn:Hn; lia).
    assert (Hkn : (Z.to_nat k <= Z.to_nat n)%nat) by (unfold k; destruct (n =? size); lia).
    assert (Hkl : (Z.to_nat k <= List.length l)%nat) by lia.
    assert (Hks : (Z.to_nat k < List.length buf)%nat) by lia.
    assert (Hbuf' : store (memcpy buf l (Z.to_nat n)) (Z.to_nat k) zero =
                    firstn (Z.to_nat k) l ++ zero :: skipn (S (Z.to_nat k)) buf).
    { unfold store, memcpy. f_equal.
      - rewrite firstn_app, firstn_firstn, length_firstn.
        replace (Nat.min (Z.to_nat k) (Z.to_nat n)) with (Z.to_nat k) by lia.
        replace (Z.to_nat k - Nat.min (Z.to_nat n) (List.length l))%nat with 0%nat by lia.
        cbn. now rewrite app_nil_r.
      - f_equal. rewrite skipn_app, length_firstn.
        assert (Hn' : (Z.to_nat n <= List.length l)%nat) by (unfold n; lia).
        replace (Nat.min (Z.to_nat n) (List.length l)) with (Z.to_nat n) by lia.
        rewrite skipn_skipn.
        destruct (Nat.eq_dec (Z.to_nat k) (Z.to_nat n)) as [Heq|Hne].
        + rewrite Heq. rewrite skipn_all2 with (l := firstn (Z.to_nat n) l)
            by (rewrite length_firstn; lia).
          cbn [app]. f_equal. lia.
        + (* truncated: k = n - 1 and n = size *)
          assert (n = size) by (unfold k in *; destruct (n =? size) eqn:Hn; lia).
          assert (Hsk : S (Z.to_nat k) = Z.to_nat n)
            by (unfold k in *; destruct (n =? size); lia).
          rewrite Hsk. rewrite skipn_all2 with (l := firstn (Z.to_nat n) l)
            by (rewrite length_firstn; lia).
          cbn [app]. f_equal. lia. }
    rewrite Hbuf'. split.
    + rewrite length_app, length_firstn. cbn [List.length]. rewrite length_skipn. lia.
    + right. apply Hsucc; [exact Hk | rewrite Hz; reflexivity].
  - apply wp_bind, wp_ret, wp_Return. cbn [returned fst snd].
    assert (Hz : size = 0) by lia.
    assert (Hm : Z.to_nat (Z.min (Z.of_nat (String.length iccid)) size) = 0%nat) by lia.
    rewrite Hm. unfold memcpy. cbn [firstn skipn app]. split; [reflexivity|].
    right. apply Hsucc; [lia | rewrite Hz; reflexivity].
Qed.

(** X10: [getCellularGlobalIdentity].  With a Disconnected session it
    returns invalid-state, and with a null pointer invalid-argument, and
    in both cases nothing is sent to the modem.  Every failure is a
    negative result and leaves the structure of the caller as it was.  A
    success needs a structure of at least [sizeof(cgi_)] bytes and stores
    in it the identity held by the client on return, with the size and
    the version set. *)
Theorem getCellularGlobalIdentity_outcome (fuel : nat) (qual : CellularSignalQuality)
    (arg arg' : option CgiArgument) (c c' : Client) (r : Z) :
  errorCodes P H ->
  run_with (getCellularGlobalIdentity P H E X fuel qual) arg c = Some (r, arg', c') ->
  (connState_ (world c) = DISCONNECTED -> r = SYSTEM_ERROR_INVALID_STATE P /\ c' = c) /\
  (connState_ (world c) <> DISCONNECTED -> arg = None ->
     r = SYSTEM_ERROR_INVALID_ARGUMENT H /\ c' = c) /\
  (r < 0 /\ arg' = arg \/
   r = 0 /\
   exists a, arg = Some a /\ sizeof_cgi H <= cgi_size a /\
             arg' = Some {| cgi_size := sizeof_cgi H;
                            cgi_version := CGI_VERSION_1 H;
                            cgi_identity := cgi_ (world c') |}).
Proof.
  intros Hcodes Hrun. split; [|split].
  - intros Hd. revert Hrun.
    unfold run_with, getCellularGlobalIdentity, fn, bind, on_client, read, CHECK_TRUE.
    cbn [fst snd]. rewrite Hd. cbn. intros [= <- _ <-]. auto.
  - intros Hd ->. revert Hrun.
    unfold run_with, getCellularGlobalIdentity, fn, bind, on_client, read, CHECK_TRUE, object.
    cbn [fst snd].
    destruct (NcpConnectionState_eq_dec (connState_ (world c)) DISCONNECTED);
      [contradiction|].
    cbn. intros [= <- _ <-]. auto.
  - revert Hrun.
    apply (run_with_wp _
      (fun r arg' c' =>
         r < 0 /\ arg' = arg \/
         r = 0 /\
         exists a, arg = Some a /\ sizeof_cgi H <= cgi_size a /\
                   arg' = Some {| cgi_size := sizeof_cgi H;
                                  cgi_version := CGI_VERSION_1 H;
                                  cgi_identity := cgi_ (world c') |})).
    assert (Hneg : SYSTEM_ERROR_INVALID_STATE P < 0 /\ SYSTEM_ERROR_INVALID_ARGUMENT H < 0 /\
                   SYSTEM_ERROR_AT_NOT_OK P < 0 /\ SYSTEM_ERROR_NONE P = 0)
      by (unfold errorCodes in Hcodes; lia).
    unfold getCellularGlobalIdentity. apply wp_fn. unfold checkParser.
    apply wp_bind, wp_on_client_read.
    apply wp_bind, wp_CHECK_TRUE; intros _; cbn [returned fst snd]; [|left; split; [lia|auto]].
    apply wp_bind, wp_object. cbn [snd].
    apply wp_bind, wp_CHECK_TRUE; intros Harg; cbn [returned fst snd]; [|left; split; [lia|auto]].
    destruct arg as [a|]; [clear Harg | discriminate Harg].
    apply wp_bind. eapply wp_on_client; [apply wp_CHECK_fn|].
    intros [e|r0] c1 Hr0; cbn [returned fst snd]; [left; auto|].
    apply wp_bind. eapply wp_on_client; [apply wp_call_normal|].
    intros res c2 ->. cbn [fst snd].
    apply wp_bind, wp_CHECK, wp_ret.
    destruct (fst (fst _) <? 0) eqn:Hq; cbn [returned fst snd]; [left; split; [lia|auto]|].
    apply wp_bind, wp_CHECK_TRUE; intros _; cbn [returned fst snd]; [|left; split; [lia|auto]].
    apply wp_bind. eapply wp_on_client; [apply wp_modify_normal|].
    intros res c3 ->. cbn [fst snd].
    apply wp_bind. eapply wp_on_client; [apply wp_modify_normal|].
    intros res c4 ->. cbn [fst snd].
    apply wp_bind, wp_on_client_read.
    apply wp_bind.
    assert (Hq2 : forall cmd1 cmd2 (c5 : Client),
              wp (on_client (CHECK_PARSER_OK P (exec P E cmd1));;
                  on_client (CHECK_PARSER_OK P (exec P E cmd2)))%run
                 (fun (res : Z + unit) (s' : Client * option CgiArgument) =>
                    match res with
                    | inl e => e < 0 /\ snd s' = Some a
                    | inr _ => snd s' = Some a
                    end) (c5, Some a)).
    { intros cmd1 cmd2 c5. apply wp_bind.
      eapply wp_on_client; [apply wp_CHECK_PARSER_OK_exec|].
      intros [e|u] c6 He; cbn [fst snd]; [split; [lia|reflexivity]|].
      eapply wp_on_client; [apply wp_CHECK_PARSER_OK_exec|].
      intros [e|u1] c7 He1; cbn [fst snd]; [split; [lia|reflexivity] | reflexivity]. }
    eapply wp_mono;
      [destruct (negb _); apply Hq2|].
    intros [e|u] [c5 o5]; cbn [returned fst snd]; [intros [He ->]; left; auto | intros ->].
    apply wp_bind, wp_object. cbn [snd].
    apply wp_bind, wp_CHECK_TRUE; intros Hsz; cbn [returned fst snd]; [|left; split; [lia|auto]].
    apply wp_bind, wp_on_client_read.
    apply wp_bind, wp_on_object, wp_Return. cbn [returned fst snd].
    right. split; [lia|]. exists a. repeat split. lia.
Qed.

(** X11: [getSignalQuality].  With a Disconnected session it returns
    invalid-state, and with a null pointer invalid-argument, and in both
    cases nothing is sent to the modem and nothing is written.  Otherwise
    the result is 0 or negative.  On the R410 a success leaves in the
    object of the caller a strength between 0 and 97 and a quality
    between 0 and 34, or 255 for a value that was not reported or is out
    of range. *)
Theorem getSignalQuality_outcome (fuel : nat) (c : Client) :
  errorCodes P H ->
  (connState_ (world c) = DISCONNECTED ->
     forall qual,
       getSignalQuality P H E X fuel qual c
         = Some (SYSTEM_ERROR_INVALID_STATE P, qual, c)) /\
  (connState_ (world c) <> DISCONNECTED ->
     getSignalQuality P H E X fuel None c
       = Some (SYSTEM_ERROR_INVALID_ARGUMENT H, None, c)) /\
  (forall q r q' c',
     getSignalQuality P H E X fuel (Some q) c = Some (r, q', c') ->
     (r < 0 \/ r = 0) /\
     (r = 0 -> ncpId (world c) = PLATFORM_NCP_SARA_R410 P ->
        exists q1, q' = Some q1 /\ rsrpIndex (strength q1) /\ rsrqIndex (quality q1))).
Proof.
  intros Hcodes. split; [|split].
  - intros Hd qual. unfold getSignalQuality. rewrite Hd. reflexivity.
  - intros Hd. unfold getSignalQuality.
    destruct (NcpConnectionState_eq_dec (connState_ (world c)) DISCONNECTED);
      [contradiction | reflexivity].
  - intros q r q' c'. unfold getSignalQuality.
    destruct (NcpConnectionState_eq_dec (connState_ (world c)) DISCONNECTED).
    { intros [= <- <- <-]. unfold errorCodes in Hcodes. split; [lia|]. intros; lia. }
    destruct (run_with (getSignalQuality_on P H E X fuel) q c) as [[[r1 q1] c1]|] eqn:Hrun;
      [|discriminate].
    intros [= <- <- <-]. revert Hrun.
    apply (run_with_wp _
      (fun r q1 _ =>
         (r < 0 \/ r = 0) /\
         (r = 0 -> ncpId (world c) = PLATFORM_NCP_SARA_R410 P ->
            exists q2, Some q1 = Some q2 /\ rsrpIndex (strength q2) /\
                       rsrqIndex (quality q2)))).
    assert (Hneg : SYSTEM_ERROR_AT_RESPONSE_UNEXPECTED P < 0 /\ SYSTEM_ERROR_AT_NOT_OK P < 0)
      by (unfold errorCodes in Hcodes; lia).
    assert (Hfail : forall e (q0 : CellularSignalQuality), e < 0 ->
              (e < 0 \/ e = 0) /\
              (e = 0 -> ncpId (world c) = PLATFORM_NCP_SARA_R410 P ->
                 exists q2, Some q0 = Some q2 /\ rsrpIndex (strength q2) /\
                            rsrqIndex (quality q2)))
      by (intros e q0 He; split; [lia | intros; lia]).
    unfold getSignalQuality_on. apply wp_fn.
    apply wp_bind. eapply wp_on_client; [apply wp_CHECK_checkParser; exact Hcodes|].
    intros [e|r0] c2 Hc2; cbn [returned fst snd]; [now apply Hfail|].
    apply wp_bind. eapply wp_mono; [apply wp_CHECK_queryAndParseAtCops_on|].
    intros [e|r2] [c3 q3]; cbn [returned fst snd]; [now apply Hfail|]. intros Hc3.
    cbn [fst snd] in *. apply wp_bind, wp_on_client_read.
    replace (ncpId (world c3)) with (ncpId (world c)) by (unfold ncpId; congruence).
    destruct (ncpId (world c) =? PLATFORM_NCP_SARA_R410 P) eqn:Hid.
    + apply wp_bind.
      apply wp_bind, wp_on_object. cbn [fst snd].
      apply wp_bind, wp_on_object. cbn [fst snd].
      apply wp_bind. eapply wp_on_client; [apply wp_CHECK_PARSER_OK_exec|].
      intros [e|u] c4 He; cbn [returned fst snd]; [apply Hfail; lia|].
      apply wp_bind. eapply wp_on_client; [apply wp_sendCommand_normal|].
      intros [e|resp] c5 Hresp; [destruct Hresp|]. cbn [fst snd].
      apply wp_bind. eapply wp_mono; [apply scanUcged_index|].
      * cbn. right. reflexivity.
      * cbn. right. reflexivity.
      * intros [e|u1] [c6 q6]; cbn [returned fst snd]; [now apply Hfail|]. intros [Hs Hq].
        apply wp_bind. eapply wp_on_client; [apply wp_CHECK_PARSER_ret|].
        intros [e|r3] c7 Hr3; cbn [returned fst snd]; [now apply Hfail|].
        apply wp_CHECK_TRUE; intros _; cbn [returned fst snd]; [|apply Hfail; lia].
        apply wp_Return. cbn [returned fst snd]. split; [lia|]. intros _ _. eauto.
    + assert (Hdone : forall s : Client * CellularSignalQuality,
                wp (@Return (Client * CellularSignalQuality) Z 0)
                  (fun res s' =>
                     (returned res < 0 \/ returned res = 0) /\
                     (returned res = 0 ->
                      ncpId (world c) = PLATFORM_NCP_SARA_R410 P ->
                      exists q2, Some (snd s') = Some q2 /\ rsrpIndex (strength q2) /\
                                 rsrqIndex (quality q2))) s).
      { intros s. apply wp_Return. cbn. split; [lia|]. intros _ Hr. lia. }
      apply wp_bind.
      apply wp_bind. eapply wp_on_client; [apply wp_sendCommand_normal|].
      intros [e|resp] c5 Hresp; [destruct Hresp|]. cbn [fst snd]. cbv zeta.
      apply wp_bind. eapply wp_on_client; [apply wp_CHECK_PARSER_ret|].
      intros [e|r3] c6 Hr3; cbn [returned fst snd]; [now apply Hfail|].
      apply wp_bind, wp_CHECK_TRUE; intros _; cbn [returned fst snd]; [|apply Hfail; lia].
      apply wp_bind. eapply wp_on_client; [apply wp_CHECK_PARSER_ret|].
      intros [e|r4] c7 Hr4; cbn [returned fst snd]; [now apply Hfail|].
      apply wp_bind, wp_CHECK_TRUE; intros _; cbn [returned fst snd]; [|apply Hfail; lia].
      apply wp_bind, wp_object. cbn [snd].
      apply wp_bind.
      match goal with
      | |- wp (if ?b then _ else _) _ _ => destruct b
      end; [apply wp_on_object | apply wp_ret]; cbn [fst snd];
        (apply wp_bind, wp_object; cbn [snd];
         apply wp_bind;
         [match goal with
          | |- wp (match ?x with _ => _ end) _ _ => destruct x
          end; [apply wp_on_object | apply wp_ret]; cbn [fst snd];
            (apply wp_bind, wp_object; cbn [snd];
             match goal with
             | |- wp (match ?x with _ => _ end) _ _ => destruct x
             end; [apply wp_on_object | apply wp_ret]; cbn [fst snd]; apply Hdone)]).
Qed.

(** X12: the two conversions of [getSignalQuality] on the R410 are
    monotone over the range the modem reports: a stronger RSRP (between
    -200 and 0 dBm) never gives a smaller strength, and a better RSRQ
    (between -20.00 and 0.00 dB, given as integer part and hundredths)
    never gives a smaller quality. *)
Theorem signal_index_monotone (rsrp1 rsrp2 n1 f1 n2 f2 : Z) :
  -200 <= rsrp1 <= rsrp2 -> rsrp2 <= 0 ->
  -2000 <= n1 * 100 - f1 <= n2 * 100 - f2 -> n2 * 100 - f2 <= 0 ->
  rsrp_strength rsrp1 <= rsrp_strength rsrp2 /\
  rsrq_quality n1 f1 <= rsrq_quality n2 f2.
Proof.
  intros Ha Hb Hx Hy. split.
  - unfold rsrp_strength.
    destruct ((rsrp1 <? -140) && (rsrp1 >=? -200)) eqn:A1;
      destruct ((rsrp2 <? -140) && (rsrp2 >=? -200)) eqn:B1; try lia;
      destruct ((rsrp1 >=? -44) && (rsrp1 <=? 0)) eqn:A2;
      destruct ((rsrp2 >=? -44) && (rsrp2 <=? 0)) eqn:B2; try lia;
      destruct ((rsrp1 >=? -140) && (rsrp1 <? -44)) eqn:A3;
      destruct ((rsrp2 >=? -140) && (rsrp2 <? -44)) eqn:B3; lia.
  - unfold rsrq_quality. cbv zeta.
    assert (Hs : forall x, -2000 <= x <= 0 -> s32 x = x).
    { intros x Hx0. unfold s32. rewrite Z.mod_small; lia. }
    rewrite !Hs by lia.
    set (x1 := n1 * 100 - f1) in *. set (x2 := n2 * 100 - f2) in *.
    assert (Hq : forall x, -1950 <= x < -300 -> 1 <= Z.quot (x + 2000) 50 <= 33).
    { intros x Hx0.
      pose proof (Z.quot_le_mono 50 (x + 2000) 50 ltac:(lia) ltac:(lia)).
      pose proof (Z.quot_le_mono (x + 2000) 1699 50 ltac:(lia) ltac:(lia)).
      change (Z.quot 50 50) with 1 in *. change (Z.quot 1699 50) with 33 in *. lia. }
    destruct ((x1 <? -1950) && (x1 >=? -2000)) eqn:A1;
      destruct ((x2 <? -1950) && (x2 >=? -2000)) eqn:B1; try lia;
      destruct ((x1 >=? -300) && (x1 <=? 0)) eqn:A2;
      destruct ((x2 >=? -300) && (x2 <=? 0)) eqn:B2; try lia;
      destruct ((x1 >=? -1950) && (x1 <? -300)) eqn:A3;
      destruct ((x2 >=? -1950) && (x2 <? -300)) eqn:B3; try lia.
    + pose proof (Hq x2 ltac:(lia)). lia.
    + pose proof (Hq x1 ltac:(lia)). lia.
    + apply Z.quot_le_mono; lia.
Qed.

(** *** Construction and destruction *)



(** X15: what a successful [initReady] leaves in the firmware version
    and the memory-issue flag.  On a chip other than the R410 neither is
    written.  On the R410 the version holds what [getAppFirmwareVersion]
    returned, and when it is positive the flag tells whether it is the
    version with the memory issue (2.00); when it is not positive (the
    query failed) the flag keeps its value.  The configuration is not
    touched. *)
Theorem initReady_memory_issue (fuel : nat) (c c' : Client) :
  errorCodes P H ->
  run (initReady P H E X fuel) c = Some (0, c') ->
  conf_ (world c') = conf_ (world c) /\
  (ncpId (world c) <> PLATFORM_NCP_SARA_R410 P ->
     fwVersion_ (world c') = fwVersion_ (world c) /\
     memoryIssuePresent_ (world c') = memoryIssuePresent_ (world c)) /\
  (ncpId (world c) = PLATFORM_NCP_SARA_R410 P ->
     memoryIssuePresent_ (world c') =
       if fwVersion_ (world c') >? 0
       then fwVersion_ (world c') =? UBLOX_NCP_R4_APP_FW_VERSION_MEMORY_LEAK_ISSUE
       else memoryIssuePresent_ (world c)).
Proof.
  intros Hcodes Hrun.
  assert (Hpre : firmware (fwVersion_ (world c)) (memoryIssuePresent_ (world c))
                   (conf_ (world c)) (world c)) by (unfold firmware; auto).
  pose proof (run_post _ _ _ _ _ _
                (fun Ex => initReady_firmware fuel _ _ _ Ex Hcodes) Hpre Hrun eq_refl)
    as Hpost.
  cbv beta in Hpost. fold (ncpId (world c)) in Hpost.
  destruct (ncpId (world c) =? PLATFORM_NCP_SARA_R410 P) eqn:Hid.
  - destruct Hpost as (v & A & B & C). split; [exact C|]. split; [lia|].
    intros _. rewrite A, B. reflexivity.
  - destruct Hpost as (A & B & C). split; [exact C|]. split; [auto | lia].
Qed.

(** *** A client that is Off has no session *)

(** X16: the functions that boot the modem and that join and leave the
    network keep the rule that a client which is Off is Disconnected:
    whatever [waitReady], [checkParser], [connect] and [disconnect] return,
    a client for which the rule held before satisfies it afterwards. *)
Theorem offIsDisconnected_boot (fuel : nat) (c c' : Client) (r : Z) :
  errorCodes P H ->
  offIsDisconnected (world c) ->
  (run (waitReady P H E X fuel) c = Some (r, c') -> offIsDisconnected (world c')) /\
  (run (checkParser P H E X fuel) c = Some (r, c') -> offIsDisconnected (world c')) /\
  (forall conf,
     run (connect P H E X fuel conf) c = Some (r, c') -> offIsDisconnected (world c')) /\
  (run (disconnect P H E X fuel) c = Some (r, c') -> offIsDisconnected (world c')).
Proof.
  intros Hcodes Hi.
  assert (Hrun : forall m : Run Client Z,
            keeps offIsDisconnected m -> run m c = Some (r, c') -> offIsDisconnected (world c')).
  { intros m Hm. apply (run_triple (fun c0 => offIsDisconnected (world c0)) m
                          (fun _ c0 => offIsDisconnected (world c0))); [apply Hm | exact Hi]. }
  split; [|split; [|split]].
  - apply Hrun, waitReady_offIsDisconnected.
  - apply Hrun, checkParser_offIsDisconnected.
  - intros conf. apply Hrun, connect_offIsDisconnected, Hcodes.
  - apply Hrun, disconnect_offIsDisconnected.
Qed.

(** *** The aging guard *)

(** X18: [waitForPowerOff] comes to an end when a reference time is set
    or the tick counter is not zero.  It waits in steps of 100 ms and
    does nothing else; it waits at most 30 s, and at most 20 s when the
    registration time is set.  It ends before that only when the
    power-good input has gone low: if the modem is still powered when it
    returns, the allowed time since the reference (registration, else
    power-on, else the start of the wait) has passed.  It clears both
    reference times. *)
Theorem waitForPowerOff_bounded (w : World) :
  agingGuardBounded w ->
  (exists w', waitForPowerOff E 301 w = Some w') /\
  forall (fuel : nat) (w' : World),
    waitForPowerOff E fuel w = Some w' ->
    exists k : nat,
      log w' = repeat (DelayMs 100) k ++ log w /\
      clock w' = clock w + 100 * Z.of_nat k /\
      (k <= 300)%nat /\
      (registeredTime_ w <> 0 -> (k <= 200)%nat) /\
      (modemPowerState E w' = true ->
         guardLimit w <= ticks_since (u32 (clock w')) (guardReference w)) /\
      powerOnTime_ w' = 0 /\ registeredTime_ w' = 0.
Proof.
  intros Hb. split; [exact (waitForPowerOff_terminates E w Hb)|].
  intros fuel w'. unfold waitForPowerOff.
  set (w0 := if powerOnTime_ w =? 0 then set_powerOnTime (millis w) w else w).
  assert (H0 : log w0 = log w /\ clock w0 = clock w /\
               registeredTime_ w0 = registeredTime_ w /\
               powerOnTime_ w0 = (if powerOnTime_ w =? 0 then millis w else powerOnTime_ w))
    by (subst w0; destruct (powerOnTime_ w =? 0); destruct w; cbn; auto).
  destruct H0 as (Hl0 & Hc0 & Hr0 & Hp0).
  assert (Href : registeredTime_ w0 <> 0 \/ powerOnTime_ w0 <> 0).
  { rewrite Hr0, Hp0. unfold agingGuardBounded in Hb.
    destruct (powerOnTime_ w =? 0) eqn:Hp; [|lia].
    destruct Hb as [Hb | [Hb | Hb]]; [left; exact Hb | lia | right; exact Hb]. }
  destruct (waitForPowerOff_loop E fuel w0) as [w1|] eqn:Hloop; [|discriminate].
  intros [= <-].
  destruct (waitForPowerOff_loop_bounded fuel w0 w1 Href Hloop)
    as (k & Hl & Hc & Hk & Hg & Hd).
  assert (Hlim : guardLimit w0 = guardLimit w) by (unfold guardLimit; now rewrite Hr0).
  assert (Hlim' : guardLimit w = if registeredTime_ w =? 0 then 30000 else 20000)
    by reflexivity.
  pose proof (ticks_since_nonneg (u32 (clock w0))
                (if registeredTime_ w0 =? 0 then powerOnTime_ w0 else registeredTime_ w0))
    as Hnn. fold (guardElapsed w0) in Hnn.
  assert (Hg1 : powerOnTime_ w1 = powerOnTime_ w0 /\ registeredTime_ w1 = registeredTime_ w0)
    by (unfold guardTimers in Hg; injection Hg; auto).
  destruct Hg1 as [Hp1 Hr1].
  exists k. rewrite Hlim in Hk.
  split; [destruct w1; cbn in *; congruence|].
  split; [destruct w1; cbn in *; lia|].
  split; [destruct (registeredTime_ w =? 0); lia|].
  split; [intros Hreg; destruct (registeredTime_ w =? 0) eqn:Hz; lia|].
  split; [|split; destruct w1; reflexivity].
  intros Hpow.
  assert (Hpow1 : modemPowerState E w1 = true) by (destruct w1; exact Hpow).
  specialize (Hd Hpow1). unfold guardLimit, guardElapsed in Hd.
  rewrite Hp1, Hr1, Hr0, Hp0 in Hd. unfold guardReference, guardLimit.
  replace (clock (set_powerOnTime 0 (set_registeredTime 0 w1))) with (clock w1)
    by (destruct w1; reflexivity).
  unfold millis in Hd. exact Hd.
Qed.

(** *** The event handler is kept up to date *)

(** X19: with an event handler installed, the operations on the session
    keep it up to date: when the state notified last was the connection
    state, and the NCP state notified last the NCP state of the client
    (while it is disabled, the state [enable] comes back to), this is so
    again after [connectionState], after [ncpState] with On or Off, after
    the reconciliation of the registration state, a URC handler, the
    channel state callback, [disable], [off], [enable],
    [processEventsImpl] and [dataChannelWrite]. *)
Theorem informed_kept (w : World) :
  informed w ->
  (forall state, informed (connectionState E state w)) /\
  (forall state, state <> DISABLED -> informed (ncpState E state w)) /\
  informed (checkRegistrationState E w) /\
  (forall line, informed (snd (urcHandler P E line w))) /\
  (forall channel closed, informed (snd (muxChannelStateCb E channel closed w))) /\
  informed (disable w) /\
  (forall fuel r w', off P E fuel w = Some (r, w') -> informed w') /\
  (forall fuel r w', enable P E fuel w = Some (r, w') -> informed w') /\
  (forall fuel r w', processEventsImpl P E fuel w = Some (r, w') -> informed w') /\
  (forall id size, informed (snd (dataChannelWrite P E id size w))).
Proof.
  intros Hi.
  split; [|split; [|split; [|split; [|split; [|split; [|split; [|split; [|split]]]]]]]].
  - intros state. now apply informed_connectionState.
  - intros state Hs. now apply informed_ncpState.
  - now apply informed_checkRegistrationState.
  - intros line. now apply informed_urcHandler.
  - intros channel closed. now apply informed_muxChannelStateCb.
  - now apply informed_disable.
  - intros fuel r w' Hrun. exact (informed_off _ _ _ _ Hrun Hi).
  - intros fuel r w' Hrun. exact (informed_enable _ _ _ _ Hrun Hi).
  - intros fuel r w' Hrun. exact (informed_processEventsImpl _ _ _ _ Hrun Hi).
  - intros id size. now apply informed_dataChannelWrite.
Qed.

(** X20: with an event handler installed, the functions that boot the
    modem and that join and leave the network keep it up to date:
    whatever [on] (with the boot sequence as its [waitReady]),
    [waitReady], [checkParser], [connect] and [disconnect] return, the
    states notified last are the states of the client afterwards when
    they were before. *)
Theorem informed_boot (fuel : nat) (c c' : Client) (r : Z) :
  informed (world c) ->
  (forall w', on P E (waitReady_of P H E X c) fuel (world c) = Some (r, w') ->
     informed w') /\
  (run (waitReady P H E X fuel) c = Some (r, c') -> informed (world c')) /\
  (run (checkParser P H E X fuel) c = Some (r, c') -> informed (world c')) /\
  (forall conf,
     run (connect P H E X fuel conf) c = Some (r, c') -> informed (world c')) /\
  (run (disconnect P H E X fuel) c = Some (r, c') -> informed (world c')).
Proof.
  intros Hi.
  assert (Hrun : forall (m : Run Client Z) (c0 c1 : Client) (r0 : Z),
            keeps informed m -> informed (world c0) ->
            run m c0 = Some (r0, c1) -> informed (world c1)).
  { intros m c0 c1 r0 Hm H0.
    apply (run_triple (fun c2 => informed (world c2)) m
             (fun _ c2 => informed (world c2))); [apply Hm | exact H0]. }
  split; [|split; [|split; [|split]]].
  - intros w'. unfold on.
    destruct (NcpState_eq_dec (ncpState_ (world c)) DISABLED); [now intros [= _ <-]|].
    destruct (NcpState_eq_dec (ncpState_ (world c)) ON); [now intros [= _ <-]|].
    pose proof (told_modemPowerOn (world c)) as Hp.
    destruct (modemPowerOn P E (world c)) as [r1 w1]. cbn [snd] in Hp.
    pose proof (informed_told _ _ Hp Hi) as H1.
    destruct (r1 <? 0); [now intros [= _ <-]|].
    unfold waitReady_of.
    destruct (run (waitReady P H E X fuel) (set_world w1 c)) as [[r2 c2]|] eqn:Hw;
      [|discriminate].
    assert (H2 : informed (world c2))
      by (apply (Hrun _ (set_world w1 c) c2 r2 (waitReady_informed fuel)); [exact H1 | exact Hw]).
    destruct (r2 <? 0); now intros [= _ <-].
  - apply Hrun; [apply waitReady_informed | exact Hi].
  - apply Hrun; [apply checkParser_informed | exact Hi].
  - intros conf. apply Hrun; [apply connect_informed | exact Hi].
  - apply Hrun; [apply disconnect_informed | exact Hi].
Qed.

End BootProperties.

(** ** Worked examples *)

(** Reconciliation on a Connecting session with the LTE flag raised, where
    the data channel opens: the session is Connected. *)
Lemma checkRegistrationState_reconciles_witness :
  connState_ (checkRegistrationState env_ok lte_registered_world) = CONNECTED.
Proof.
  destruct (checkRegistrationState_reconciles env_ok lte_registered_world)
    as (_ & _ & _ & _ & H).
  destruct (H eq_refl ltac:(discriminate)) as (Hiff & _).
  apply Hiff. split; [reflexivity | right; reflexivity].
Defined.

(** The same session where the multiplexer refuses to open the data
    channel: NcpState is On, the session is Connecting and the LTE flag is
    raised, yet reconciliation leaves the session Disconnected. *)
Lemma checkRegistrationState_open_failure :
  ncpState_ lte_registered_world = ON /\
  connState_ lte_registered_world = CONNECTING /\
  cereg_ lte_registered_world = Registered /\
  connState_ (checkRegistrationState env_open_fails lte_registered_world) = DISCONNECTED /\
  ready_ (checkRegistrationState env_open_fails lte_registered_world) = false.
Proof. repeat split. Qed.

(** A +CGREG line on GSM rewrites an identity that was already set. *)
Lemma registration_urc_identity_updates_witness :
  lac_cid (snd (urcHandler sample_platform env_ok
                  (registration_line URC_CGREG 0x1A2B 0xC3D4E5 0) identified_world))
  = (0x1A2B, 0xC3D4E5).
Proof.
  destruct (registration_urc_identity_updates sample_platform env_ok
              (registration_line URC_CGREG 0x1A2B 0xC3D4E5 0) identified_world)
    as (_ & H).
  destruct (H identified_world
              (urc_scan_plain (registration_line URC_CGREG 0x1A2B 0xC3D4E5 0)) eq_refl)
    as (Hl & _).
  exact Hl.
Defined.

(** Four ways in which the handlers write the location/cell pair outside
    "only while unset, only for the own family": +CGREG on GSM overwrites a
    pair that was set; +CGREG on GSM overwrites a set pair with the sentinel
    values themselves; +CEREG on LTE overwrites a pair that a GSM
    notification had set; +CREG fills an unset pair from a line that
    reports LTE. *)
Lemma registration_urc_overwrites_identity :
  lac_cid identified_world = (0x1234, 0x5678) /\
  lac_cid (snd (urcHandler sample_platform env_ok
                  (registration_line URC_CGREG 0x1A2B 0xC3D4E5 0) identified_world))
    = (0x1A2B, 0xC3D4E5) /\
  lac_cid (snd (urcHandler sample_platform env_ok
                  (registration_line URC_CGREG 0xFFFF 0xFFFFFFFF 0) identified_world))
    = (LacType_max sample_platform, CidType_max sample_platform) /\
  lac_cid (snd (urcHandler sample_platform env_ok
                  (registration_line URC_CEREG 0x0042 0x0BADCAFE 7) identified_world))
    = (0x0042, 0x0BADCAFE) /\
  lac_cid (connecting_world sample_platform 35 0 1000)
    = (LacType_max sample_platform, CidType_max sample_platform) /\
  lac_cid (snd (urcHandler sample_platform env_ok
                  (registration_line URC_CREG 0x0042 0x0BADCAFE 7)
                  (connecting_world sample_platform 35 0 1000)))
    = (0x0042, 0x0BADCAFE).
Proof. repeat split. Qed.

(** A request to open the data channel that fails on the way from
    Connecting to Connected leaves the session Disconnected and not
    ready. *)
Lemma dataChannel_opened_on_connect_only_witness :
  connState_ (connectionState env_open_fails CONNECTED lte_registered_world) = DISCONNECTED /\
  ready_ (connectionState env_open_fails CONNECTED lte_registered_world) = false.
Proof.
  destruct (dataChannel_opened_on_connect_only env_open_fails lte_registered_world)
    as (_ & _ & _ & _ & H).
  destruct (H ltac:(discriminate) eq_refl) as (_ & Hfail).
  apply Hfail. discriminate.
Defined.

(** A write that finds 600 bytes counted in the running window is
    dropped: it returns 0 and nothing reaches the multiplexer. *)
Lemma dataChannelWrite_window_witness :
  fst (dataChannelWrite sample_platform env_ok 0 100
         (set_bytesInWindow 600 (set_lastWindow 990 rate_limited_world))) = 0 /\
  log (snd (dataChannelWrite sample_platform env_ok 0 100
              (set_bytesInWindow 600 (set_lastWindow 990 rate_limited_world))))
  = log rate_limited_world.
Proof.
  destruct (dataChannelWrite_window sample_platform env_ok 0 100
              (set_bytesInWindow 600 (set_lastWindow 990 rate_limited_world)))
    as (Hdrop & _).
  destruct (Hdrop eq_refl) as (Hr & Hl & _).
  split; [exact Hr | exact Hl].
Defined.

(** 600 bytes written within one window on the rate-limited family are all
    handed to the multiplexer, in one write or in six writes of 100 bytes;
    what is dropped is the write that comes next in the same window, and it
    is dropped whole. *)
Lemma dataChannelWrite_600_bytes_accepted :
  let write := fun size w => snd (dataChannelWrite sample_platform env_ok 0 size w) in
  rate_limited sample_platform rate_limited_world = true /\
  fst (dataChannelWrite sample_platform env_ok 0 600 rate_limited_world) = 0 /\
  log (write 600 rate_limited_world)
    = MuxWriteChannel UBLOX_NCP_PPP_CHANNEL 600 :: log rate_limited_world /\
  bytesWritten (log (write 600 rate_limited_world)) = 600 /\
  bytesWritten
    (log (write 100 (write 100 (write 100 (write 100 (write 100
            (write 100 rate_limited_world))))))) = 600 /\
  fst (dataChannelWrite sample_platform env_ok 0 10 (write 600 rate_limited_world)) = 0 /\
  log (write 10 (write 600 rate_limited_world)) = log (write 600 rate_limited_world).
Proof. repeat split. Qed.

(** A powered-off U201 with an obedient modem: [modemPowerOn] pulses and
    succeeds, and a second call returns 0 and changes nothing. *)
Lemma modemPower_idempotent_witness :
  let E := obedient_env (plain_reply 0) in
  let w := initial_world sample_platform 35 1000 in
  fst (modemPowerOn sample_platform E w) = 0 /\
  modemPowerOn sample_platform E (snd (modemPowerOn sample_platform E w))
    = (0, snd (modemPowerOn sample_platform E w)).
Proof.
  cbv zeta.
  destruct (modemPower_idempotent sample_platform (obedient_env (plain_reply 0)) 1
              (initial_world sample_platform 35 1000))
    as (_ & Hres & Hagain & _).
  split; [rewrite Hres; reflexivity | apply Hagain; reflexivity].
Defined.

(** [off] on a Connecting session of a U201 with an obedient modem. *)
Lemma on_off_lifecycle_witness :
  exists w',
    off sample_platform (obedient_env (plain_reply 0)) 1
      (connecting_world sample_platform 35 0 1000) = Some (0, w') /\
    ncpState_ w' = OFF /\ connState_ w' = DISCONNECTED /\ ready_ w' = false.
Proof.
  destruct (on_off_lifecycle sample_platform (obedient_env (plain_reply 0))
              (fun _ w => Some (0, w)) 1 (connecting_world sample_platform 35 0 1000))
    as (_ & _ & _ & Hoff & _).
  destruct (off sample_platform (obedient_env (plain_reply 0)) 1
              (connecting_world sample_platform 35 0 1000)) as [[r w']|] eqn:Hrun;
    [|discriminate Hrun].
  destruct (Hoff ltac:(discriminate) r w' eq_refl) as (Hr & Hn & Hc & Hrd & _).
  exists w'. rewrite Hr. auto.
Defined.

(** The operator query of network 310/08 stores a code that reads back as
    08. *)
Lemma queryAndParseAtCops_mnc_digits_witness :
  let E := steady_env true 0 0 (cops_reply "310" "08" 7) in
  let w := connecting_world sample_platform 68 0 1000 in
  mnc_string sample_platform (cgi_ (snd (queryAndParseAtCops sample_platform E None w)))
  = "08"%string.
Proof.
  cbv zeta.
  destruct (queryAndParseAtCops_mnc_digits sample_platform
              (steady_env true 0 0 (cops_reply "310" "08" 7)) None
              (connecting_world sample_platform 68 0 1000)
              ltac:(discriminate) eq_refl eq_refl ltac:(discriminate) eq_refl)
    as (_ & _ & _ & Hround & _).
  apply Hround; [discriminate | reflexivity | left; reflexivity].
Defined.

(** Two [disable] calls in a row, then [enable]: the client is Off with
    both streams enabled. *)
Lemma enable_disable_lifecycle_witness :
  let E := obedient_env (plain_reply 0) in
  let wd := Nat.iter 2 disable (connecting_world sample_platform 35 0 1000) in
  prevNcpState_ wd = ON /\
  exists w', enable sample_platform E 1 wd = Some (0, w') /\
             ncpState_ w' = OFF /\ serial_enabled w' = true.
Proof.
  cbv zeta.
  destruct (enable_disable_lifecycle sample_platform (obedient_env (plain_reply 0)) 1 1
              (connecting_world sample_platform 35 0 1000))
    as (_ & _ & H).
  destruct (H ltac:(discriminate)) as (_ & Hprev & _ & _ & Hen & _).
  split; [exact Hprev|].
  destruct (enable sample_platform (obedient_env (plain_reply 0)) 1
              (Nat.iter 2 disable (connecting_world sample_platform 35 0 1000)))
    as [[r w']|] eqn:Hrun; [|discriminate Hrun].
  destruct (Hen r w' eq_refl) as (Hr & Hn & _ & Hs & _).
  exists w'. rewrite Hr. repeat split; assumption.
Defined.



(** The scenarios of the specification, run on the model. *)

(** Scenario 1: +CREG reports status 1, then +CGREG reports status 1: the
    session becomes Connected. *)
Example scenario_creg_then_cgreg :
  let line prefix := {| urc_prefix := prefix; urc_readLine := 8;
                        urc_scan_mode := {| scan_r := 0; scan_vals := [] |};
                        urc_scan_plain := {| scan_r := 1; scan_vals := [1] |} |} in
  let w0 := connecting_world sample_platform 35 0 1000 in
  let w1 := snd (urcHandler sample_platform env_ok (line URC_CREG) w0) in
  let w2 := snd (urcHandler sample_platform env_ok (line URC_CGREG) w1) in
  connState_ w1 = CONNECTING /\ connState_ w2 = CONNECTED /\
  log w2 = [ConnectionStateChangedEvent CONNECTED; CellularNcpAuthEvent;
            MuxOpenChannel UBLOX_NCP_PPP_CHANNEL] ++ log w0.
Proof. repeat split. Qed.

(** Scenario 2: only +CEREG reports status 5 (roaming): Connected. *)
Example scenario_cereg_roaming :
  let line := {| urc_prefix := URC_CEREG; urc_readLine := 9;
                 urc_scan_mode := {| scan_r := 0; scan_vals := [] |};
                 urc_scan_plain := {| scan_r := 1; scan_vals := [5] |} |} in
  let w0 := connecting_world sample_platform 68 0 1000 in
  connState_ (snd (urcHandler sample_platform env_ok line w0)) = CONNECTED.
Proof. reflexivity. Qed.

(** Scenario 3: a Connected session whose last flag drops becomes
    Connecting and its watchdog times are reset to now. *)
Example scenario_registration_lost :
  let lost := {| urc_prefix := URC_CEREG; urc_readLine := 9;
                 urc_scan_mode := {| scan_r := 0; scan_vals := [] |};
                 urc_scan_plain := {| scan_r := 1; scan_vals := [0] |} |} in
  let w0 := set_clock 5000 (checkRegistrationState env_ok lte_registered_world) in
  let w1 := snd (urcHandler sample_platform env_ok lost w0) in
  connState_ w0 = CONNECTED /\ connState_ w1 = CONNECTING /\
  regStartTime_ w1 = 5000 /\ regCheckTime_ w1 = 5000 /\ registeredTime_ w1 = 0.
Proof. repeat split. Qed.

(** Scenario 6: the operator query returns the network code 07. *)
Example scenario_mnc_07 :
  let E := steady_env true 0 0 (cops_reply "234" "07" 0) in
  let w := snd (queryAndParseAtCops sample_platform E None
                  (connecting_world sample_platform 35 0 1000)) in
  mobile_country_code (cgi_ w) = 234 /\ mobile_network_code (cgi_ w) = 7 /\
  Z.land (cgi_flags (cgi_ w)) (CGI_FLAG_TWO_DIGIT_MNC sample_platform) = 1 /\
  mnc_string sample_platform (cgi_ w) = "07"%string.
Proof. repeat split. Qed.

(** [init] leaves a client that is Off and Disconnected. *)
Example initial_world_off_disconnected :
  offIsDisconnected (initial_world sample_platform 68 0).
Proof. intros _. reflexivity. Qed.


(** ** Worked examples for the rest of the client *)

Lemma sample_errorCodes : errorCodes sample_platform sample_headers.
Proof. unfold errorCodes. cbn. lia. Qed.

(** A U201 that answers: the boot succeeds and leaves the client On and
    ready. *)
Lemma waitReady_outcome_witness :
  exists c',
    run (waitReady sample_platform sample_headers env_boot sample_host 1)
      (sample_client 35 1000) = Some (0, c') /\
    ready_ (world c') = true /\ ncpState_ (world c') = ON.
Proof.
  destruct (run (waitReady sample_platform sample_headers env_boot sample_host 1)
              (sample_client 35 1000)) as [[r c']|] eqn:Hrun;
    [|vm_compute in Hrun; discriminate Hrun].
  assert (Hr : r = 0) by (vm_compute in Hrun; congruence).
  destruct (waitReady_outcome sample_platform sample_headers env_boot sample_host 1
              (sample_client 35 1000) c' r sample_errorCodes Hrun)
    as (Hiff & _ & Hon & _).
  exists c'. rewrite Hr in *. repeat split; [apply Hiff; reflexivity | apply Hon; reflexivity].
Defined.

(** A U201 that is Off, powered and answers every command after 10 ms:
    [on] returns, and it has booted the client. *)
Lemma on_boots_witness :
  exists w',
    on sample_platform env_boot
       (waitReady_of sample_platform sample_headers env_boot sample_host
          (sample_client 35 1000)) (Z.to_nat 20000)
       (world (sample_client 35 1000)) = Some (0, w') /\
    ncpState_ w' = ON /\ ready_ w' = true.
Proof.
  destruct (on_boots sample_platform sample_headers env_boot sample_host (Z.to_nat 20000)
              (sample_client 35 1000) sample_errorCodes eq_refl eq_refl) as [Hret Hpost].
  destruct Hret as (r & w' & Hrun).
  - vm_compute. discriminate.
  - intros t evs. vm_compute. split; discriminate.
  - apply Nat.le_refl.
  - assert (Hr : r = 0) by (vm_compute in Hrun; congruence).
    destruct (Hpost r w' Hrun) as [[(_ & A & B)|(A & _)] _]; [|lia].
    exists w'. rewrite Hr in Hrun. auto.
Defined.

(** A session that is On and ready with a parser error pending: the probe
    is answered, the error is cleared and [checkParser] returns 0. *)
Lemma checkParser_outcome_witness :
  let c := client_of (set_parserError (-1) (connecting_world sample_platform 35 0 1000)) in
  exists c',
    run (checkParser sample_platform sample_headers env_boot sample_host 1) c = Some (0, c') /\
    ncpState_ (world c') = ON /\ ready_ (world c') = true.
Proof.
  cbv zeta.
  set (c := client_of (set_parserError (-1) (connecting_world sample_platform 35 0 1000))).
  destruct (run (checkParser sample_platform sample_headers env_boot sample_host 1) c)
    as [[r c']|] eqn:Hrun; [|vm_compute in Hrun; discriminate Hrun].
  assert (Hr : r = 0) by (vm_compute in Hrun; congruence).
  destruct (checkParser_outcome sample_platform sample_headers env_boot sample_host 1
              c c' r sample_errorCodes Hrun) as (_ & _ & Hok & _).
  exists c'. rewrite Hr in *. split; [reflexivity | apply Hok; reflexivity].
Defined.

(** A Connecting session of a U201 that answers: [disconnect] returns 0 and
    the session is Disconnected. *)
Lemma disconnect_outcome_witness :
  let c := client_of (connecting_world sample_platform 35 0 1000) in
  exists c',
    run (disconnect sample_platform sample_headers env_boot sample_host 1) c = Some (0, c') /\
    connState_ (world c') = DISCONNECTED.
Proof.
  cbv zeta.
  set (c := client_of (connecting_world sample_platform 35 0 1000)).
  destruct (run (disconnect sample_platform sample_headers env_boot sample_host 1) c)
    as [[r c']|] eqn:Hrun; [|vm_compute in Hrun; discriminate Hrun].
  assert (Hr : r = 0) by (vm_compute in Hrun; congruence).
  destruct (disconnect_outcome sample_platform sample_headers env_boot sample_host 1
              c c' r sample_errorCodes Hrun) as (_ & _ & Hok & _).
  exists c'. rewrite Hr in *. split; [reflexivity | apply Hok; reflexivity].
Defined.

(** A client that is On, ready and Disconnected. *)
Lemma connect_outcome_witness :
  let c := client_of (set_connState DISCONNECTED (connecting_world sample_platform 35 0 1000)) in
  exists c',
    run (connect sample_platform sample_headers env_boot sample_host 1
           (networkConfigForImsi sample_host EmptyString)) c = Some (0, c') /\
    ncpState_ (world c') = ON.
Proof.
  cbv zeta.
  set (c := client_of (set_connState DISCONNECTED (connecting_world sample_platform 35 0 1000))).
  destruct (run (connect sample_platform sample_headers env_boot sample_host 1
                   (networkConfigForImsi sample_host EmptyString)) c)
    as [[r c']|] eqn:Hrun; [|vm_compute in Hrun; discriminate Hrun].
  assert (Hr : r = 0) by (vm_compute in Hrun; congruence).
  destruct (connect_outcome sample_platform sample_headers env_boot sample_host 1 _
              c c' r sample_errorCodes Hrun) as (_ & Hok & _).
  exists c'. rewrite Hr in *. split; [reflexivity | apply Hok; reflexivity].
Defined.

Lemma env_searching_unregistered : unregistered env_searching.
Proof.
  intros t evs line [<-|[<-|[<-|[]]]]; split; reflexivity.
Qed.

(** [connect] on a modem that is searching, whose every answer hands the
    handlers the lines "+CREG: 2,2", "+CGREG: 2,2" and "+CEREG: 2,2": the
    session is Connecting and the timers run from now. *)
Lemma connect_registers_witness :
  let c := client_of (set_connState DISCONNECTED (connecting_world sample_platform 35 0 1000)) in
  exists c',
    run (connect sample_platform sample_headers env_searching sample_host 1
           (networkConfigForImsi sample_host EmptyString)) c = Some (0, c') /\
    connState_ (world c') = CONNECTING /\ regStartTime_ (world c') = millis (world c').
Proof.
  cbv zeta.
  set (c := client_of (set_connState DISCONNECTED (connecting_world sample_platform 35 0 1000))).
  destruct (run (connect sample_platform sample_headers env_searching sample_host 1
                   (networkConfigForImsi sample_host EmptyString)) c)
    as [[r c']|] eqn:Hrun; [|vm_compute in Hrun; discriminate Hrun].
  assert (Hr : r = 0) by (vm_compute in Hrun; congruence).
  rewrite Hr in Hrun.
  destruct (connect_registers sample_platform sample_headers env_searching sample_host 1 _
              c c' env_searching_unregistered sample_errorCodes Hrun)
    as (_ & A & _ & _ & _ & _ & B & _).
  exists c'. rewrite Hr. auto.
Defined.


(** The same wait with its full allowance of attempts returns. *)
Lemma waitAtResponse_returns_witness :
  exists r c',
    run (waitAtResponse sample_platform sample_headers env_silent (S (Z.to_nat 20000))
           20000 None)
      (sample_client 35 1000) = Some (r, c').
Proof.
  apply (waitAtResponse_returns sample_platform sample_headers env_silent
           (S (Z.to_nat 20000)) 20000 None (sample_client 35 1000)).
  - intros t evs. cbn. lia.
  - lia.
Defined.

(** The identifier of 19 digits read into a buffer of 8 bytes: its first 7
    digits and the terminating zero, and the buffer is still 8 bytes
    long. *)
Lemma getIccid_buffer_witness :
  exists buf' c',
    run_with (getIccid sample_platform sample_headers env_iccid sample_host 1 8)
      (repeat "x"%char 8) ready_client = Some (7, buf', c') /\
    List.length buf' = 8%nat /\
    buf' = list_ascii_of_string "8991101" ++ [zero].
Proof.
  destruct (run_with (getIccid sample_platform sample_headers env_iccid sample_host 1 8)
              (repeat "x"%char 8) ready_client) as [[[r buf'] c']|] eqn:Hrun;
    [|vm_compute in Hrun; discriminate Hrun].
  assert (Hr : r = 7) by (vm_compute in Hrun; congruence).
  destruct (getIccid_buffer sample_platform sample_headers env_iccid sample_host 1 8
              (repeat "x"%char 8) buf' ready_client c' r sample_errorCodes eq_refl Hrun)
    as [Hlen [[Hneg _]|(c1 & r0 & iccid & Hcp & _ & _ & _ & Hid & _ & _ & _ & Hbuf)]];
    [exfalso; lia|].
  exists buf', c'. rewrite Hr. split; [reflexivity|]. split; [exact Hlen|].
  assert (Hx : checkParser sample_platform sample_headers env_iccid sample_host 1
                 ready_client = Some (inr 0, ready_client)) by (vm_compute; reflexivity).
  assert (Hc1 : c1 = ready_client) by congruence.
  rewrite Hbuf, Hid, Hc1, Hr. reflexivity.
Defined.

(** A Connecting session on operator 310/260: the structure of the caller
    receives the identity with the size and the version set. *)
Lemma getCellularGlobalIdentity_outcome_witness :
  let arg := Some {| cgi_size := 20; cgi_version := 1;
                     cgi_identity := unset_cgi sample_platform |} in
  exists c',
    run_with (getCellularGlobalIdentity sample_platform sample_headers env_operator
                sample_host 1 fresh_quality) arg ready_client
      = Some (0, Some {| cgi_size := 20; cgi_version := 1;
                         cgi_identity := cgi_ (world c') |}, c') /\
    mobile_country_code (cgi_ (world c')) = 310.
Proof.
  cbv zeta.
  set (arg := Some {| cgi_size := 20; cgi_version := 1;
                      cgi_identity := unset_cgi sample_platform |}).
  destruct (run_with (getCellularGlobalIdentity sample_platform sample_headers env_operator
                        sample_host 1 fresh_quality) arg ready_client)
    as [[[r arg'] c']|] eqn:Hrun; [|vm_compute in Hrun; discriminate Hrun].
  assert (Hr : r = 0) by (vm_compute in Hrun; congruence).
  assert (Hm : mobile_country_code (cgi_ (world c')) = 310)
    by (vm_compute in Hrun; injection Hrun as _ _ <-; reflexivity).
  destruct (getCellularGlobalIdentity_outcome sample_platform sample_headers env_operator
              sample_host 1 fresh_quality arg arg' ready_client c' r sample_errorCodes Hrun)
    as (_ & _ & [[Hneg _]|(_ & a & _ & _ & Harg)]); [lia|].
  exists c'. rewrite Hr, Harg. split; [reflexivity | exact Hm].
Defined.

(** An R410 that reports RSRP -100 dBm and RSRQ -10.50 dB: strength 41 and
    quality 19. *)
Lemma getSignalQuality_outcome_witness :
  exists q1 c',
    getSignalQuality sample_platform sample_headers env_lte ucged_host 1
      (Some fresh_quality) ready_client_r410 = Some (0, Some q1, c') /\
    strength q1 = 41 /\ quality q1 = 19 /\
    rsrpIndex (strength q1) /\ rsrqIndex (quality q1).
Proof.
  destruct (getSignalQuality_outcome sample_platform sample_headers env_lte ucged_host 1
              ready_client_r410 sample_errorCodes) as (_ & _ & Hq).
  destruct (getSignalQuality sample_platform sample_headers env_lte ucged_host 1
              (Some fresh_quality) ready_client_r410) as [[[r q'] c']|] eqn:Hrun;
    [|vm_compute in Hrun; discriminate Hrun].
  assert (Hr : r = 0) by (vm_compute in Hrun; congruence).
  destruct (Hq fresh_quality r q' c' Hrun) as [_ Hidx].
  destruct (Hidx Hr eq_refl) as (q1 & -> & Hs & Hqq).
  exists q1, c'. rewrite Hr.
  assert (Hv : strength q1 = 41 /\ quality q1 = 19)
    by (vm_compute in Hrun; injection Hrun as _ <- _; split; reflexivity).
  destruct Hv. auto.
Defined.

(** From -120 dBm to -90 dBm and from -15.00 dB to -9.50 dB. *)
Lemma signal_index_monotone_witness :
  rsrp_strength (-120) <= rsrp_strength (-90) /\
  rsrq_quality (-15) 0 <= rsrq_quality (-9) 50.
Proof.
  apply (signal_index_monotone (-120) (-90) (-15) 0 (-9) 50); lia.
Defined.



(** An R410 with application firmware 2.00: the early initialisation
    succeeds and raises the memory-issue flag. *)
Lemma initReady_memory_issue_witness :
  exists c',
    run (initReady sample_platform sample_headers env_r410 sample_host 1)
      (sample_client 68 1000) = Some (0, c') /\
    fwVersion_ (world c') = 200 /\ memoryIssuePresent_ (world c') = true.
Proof.
  destruct (run (initReady sample_platform sample_headers env_r410 sample_host 1)
              (sample_client 68 1000)) as [[r c']|] eqn:Hrun;
    [|vm_compute in Hrun; discriminate Hrun].
  assert (Hr : r = 0) by (vm_compute in Hrun; congruence).
  assert (Hv : fwVersion_ (world c') = 200)
    by (vm_compute in Hrun; injection Hrun as _ <-; reflexivity).
  rewrite Hr in Hrun.
  destruct (initReady_memory_issue sample_platform sample_headers env_r410 sample_host 1
              (sample_client 68 1000) c' sample_errorCodes Hrun) as (_ & _ & Hm).
  exists c'. rewrite Hr. repeat split; [exact Hv|].
  rewrite (Hm eq_refl), Hv. reflexivity.
Defined.

(** A Connecting session whose modem has stopped answering: the boot
    gives up after 20 s, resets the modem and leaves the client Off, and
    with that Disconnected. *)
Lemma offIsDisconnected_boot_witness :
  let c := client_of (set_ready false (connecting_world sample_platform 35 0 1000)) in
  exists r c',
    run (waitReady sample_platform sample_headers env_silent sample_host 21) c
      = Some (r, c') /\
    ncpState_ (world c') = OFF /\ connState_ (world c') = DISCONNECTED.
Proof.
  cbv zeta.
  set (c := client_of (set_ready false (connecting_world sample_platform 35 0 1000))).
  destruct (run (waitReady sample_platform sample_headers env_silent sample_host 21) c)
    as [[r c']|] eqn:Hrun; [|vm_compute in Hrun; discriminate Hrun].
  assert (Hoff : ncpState_ (world c') = OFF)
    by (vm_compute in Hrun; injection Hrun as _ <-; reflexivity).
  destruct (offIsDisconnected_boot sample_platform sample_headers env_silent sample_host 21
              c c' r sample_errorCodes ltac:(intros Hx; discriminate Hx)) as (Hw & _).
  exists r, c'. split; [reflexivity|]. split; [exact Hoff | exact (Hw Hrun Hoff)].
Defined.

(** A Connected session on which the multiplexer reports the control
    channel closed and which is then enabled again: the client ends Off,
    and with that Disconnected. *)
Lemma offIsDisconnected_kept_witness :
  let E := obedient_env (plain_reply 0) in
  let w := snd (muxChannelStateCb E 0 true rate_limited_world) in
  ncpState_ w = DISABLED /\
  exists w',
    enable sample_platform E 1 w = Some (0, w') /\
    ncpState_ w' = OFF /\ connState_ w' = DISCONNECTED.
Proof.
  cbv zeta.
  set (E := obedient_env (plain_reply 0)).
  set (w := snd (muxChannelStateCb E 0 true rate_limited_world)).
  split; [reflexivity|].
  destruct (enable sample_platform E 1 w) as [[r w']|] eqn:Hrun;
    [|vm_compute in Hrun; discriminate Hrun].
  assert (Hr : r = 0) by (vm_compute in Hrun; congruence).
  assert (Hoff : ncpState_ w' = OFF)
    by (vm_compute in Hrun; injection Hrun as _ <-; reflexivity).
  destruct (offIsDisconnected_kept sample_platform E w ltac:(intros Hx; discriminate Hx))
    as (_ & _ & _ & _ & _ & _ & Hen & _).
  exists w'. rewrite Hr. split; [reflexivity|]. split; [exact Hoff|].
  rewrite Hr in Hrun. exact (Hen 1%nat 0 w' Hrun Hoff).
Defined.

(** A modem that stays powered, 5 ms after start with no reference time
    set: the guard waits the full 30 s from then and clears the
    reference times. *)
Lemma waitForPowerOff_bounded_witness :
  agingGuardBounded (initial_world sample_platform 35 5) /\
  exists w' : World,
    waitForPowerOff env_silent 301 (initial_world sample_platform 35 5) = Some w' /\
    clock w' = 30005 /\ powerOnTime_ w' = 0 /\ registeredTime_ w' = 0.
Proof.
  assert (Hb : agingGuardBounded (initial_world sample_platform 35 5))
    by (right; right; vm_compute; discriminate).
  split; [exact Hb|].
  destruct (waitForPowerOff_bounded env_silent (initial_world sample_platform 35 5) Hb)
    as [[w' Hrun] Hall].
  destruct (Hall 301%nat w' Hrun) as (k & _ & _ & _ & _ & _ & Hp & Hr).
  exists w'. split; [exact Hrun|]. split; [|split; [exact Hp | exact Hr]].
  vm_compute in Hrun. injection Hrun as <-. reflexivity.
Defined.

(** A client as [init] leaves it, which is told to look for the network,
    then finds the LTE registration flag raised and the data channel
    refused by the multiplexer: the handler heard of Connecting and then
    of Disconnected, which is the state of the client. *)
Lemma informed_kept_witness :
  informed (initial_world sample_platform 68 0) /\
  connState_ (checkRegistrationState env_open_fails
                (set_cereg Registered
                   (connectionState env_open_fails CONNECTING
                      (initial_world sample_platform 68 0)))) = DISCONNECTED /\
  informed (checkRegistrationState env_open_fails
              (set_cereg Registered
                 (connectionState env_open_fails CONNECTING
                    (initial_world sample_platform 68 0)))).
Proof.
  assert (H0 : informed (initial_world sample_platform 68 0))
    by (repeat split; reflexivity).
  split; [exact H0|]. split; [reflexivity|].
  destruct (informed_kept sample_platform env_open_fails _ H0) as (Hc & _).
  assert (H1 : informed (set_cereg Registered
                 (connectionState env_open_fails CONNECTING
                    (initial_world sample_platform 68 0)))).
  { exact (Hc CONNECTING). }
  destruct (informed_kept sample_platform env_open_fails _ H1) as (_ & _ & Hr & _).
  exact Hr.
Defined.

(** A U201 that is Off, powered and answers: after [on] the handler has
    heard that the client is On. *)
Lemma informed_boot_witness :
  informed (world (sample_client 35 1000)) /\
  exists w',
    on sample_platform env_boot
       (waitReady_of sample_platform sample_headers env_boot sample_host
          (sample_client 35 1000)) 1
       (world (sample_client 35 1000)) = Some (0, w') /\
    ncpState_ w' = ON /\ notifiedNcp (log w') = ON.
Proof.
  assert (H0 : informed (world (sample_client 35 1000)))
    by (repeat split; reflexivity).
  split; [exact H0|].
  destruct (on sample_platform env_boot
              (waitReady_of sample_platform sample_headers env_boot sample_host
                 (sample_client 35 1000)) 1
              (world (sample_client 35 1000))) as [[r w']|] eqn:Hrun;
    [|vm_compute in Hrun; discriminate Hrun].
  assert (Hr : r = 0) by (vm_compute in Hrun; congruence).
  assert (Hon : ncpState_ w' = ON)
    by (vm_compute in Hrun; injection Hrun as _ <-; reflexivity).
  destruct (informed_boot sample_platform sample_headers env_boot sample_host 1
              (sample_client 35 1000) (sample_client 35 1000) r H0) as (Hb & _).
  destruct (Hb w' Hrun) as (_ & _ & Hn).
  exists w'. rewrite Hr. split; [reflexivity|]. split; [exact Hon|].
  rewrite Hn. unfold standingNcpState. rewrite Hon. reflexivity.
Defined.

(** A U201 whose power-good input stays low whatever is done to PWR_ON:
    the first [modemPowerOn] pulses and returns invalid-state, and the
    second call, right after it, pulses again.  Likewise two calls of
    [modemPowerOff] in a row while power-good stays high. *)
Lemma modemPower_second_pulse :
  let w := initial_world sample_platform 35 1000 in
  let on1 := modemPowerOn sample_platform (steady_env false 0 0 (plain_reply 0)) w in
  let on2 := modemPowerOn sample_platform (steady_env false 0 0 (plain_reply 0)) (snd on1) in
  fst on1 = SYSTEM_ERROR_INVALID_STATE sample_platform /\
  fst on2 = SYSTEM_ERROR_INVALID_STATE sample_platform /\
  pulses (log w) = 0%nat /\ pulses (log (snd on1)) = 1%nat /\
  pulses (log (snd on2)) = 2%nat /\
  exists w1 w2,
    modemPowerOff sample_platform env_ok 1 w
      = Some (SYSTEM_ERROR_INVALID_STATE sample_platform, w1) /\
    modemPowerOff sample_platform env_ok 1 w1
      = Some (SYSTEM_ERROR_INVALID_STATE sample_platform, w2) /\
    pulses (log w1) = 1%nat /\ pulses (log w2) = 2%nat.
Proof.
  cbv zeta. do 5 (split; [vm_compute; reflexivity|]).
  eexists _, _. split; [vm_compute; reflexivity|]. split; [vm_compute; reflexivity|].
  split; vm_compute; reflexivity.
Qed.

(** C7: [off] does not return on every client that is not Disabled.  On
    an R410 with the memory issue [modemPowerOff] begins with the aging
    guard [waitForPowerOff]; started at tick 0 with neither of its timers
    set, the guard has no deadline and waits for as long as power-good
    stays high.  So [off] called on the session [unreferenced_world], which
    is On, returns nothing, and NcpState is never set to Off. *)
Theorem off_without_deadline (fuel : nat) :
  ncpState_ unreferenced_world = ON /\
  ncpId unreferenced_world = PLATFORM_NCP_SARA_R410 sample_platform /\
  memoryIssuePresent_ unreferenced_world = true /\
  registeredTime_ unreferenced_world = 0 /\ powerOnTime_ unreferenced_world = 0 /\
  millis unreferenced_world = 0 /\
  off sample_platform env_ok fuel unreferenced_world = None.
Proof.
  do 6 (split; [vm_compute; reflexivity|]).
  apply off_needs_reference_time;
    [intros c l; reflexivity | discriminate | vm_compute; reflexivity ..].
Qed.

(** C10: [enable] does not return after every [disable].  The session
    [unreferenced_world] is On; after [disable] the saved state is On, and
    [enable] puts it back and runs [off], which does not return there: the
    client is not left in the Off state, and the state put back is not
    replaced. *)
Theorem enable_without_deadline (fuel : nat) :
  ncpState_ (disable unreferenced_world) = DISABLED /\
  prevNcpState_ (disable unreferenced_world) = ON /\
  enable sample_platform env_ok fuel (disable unreferenced_world) = None.
Proof.
  do 2 (split; [vm_compute; reflexivity|]).
  apply enable_needs_reference_time;
    [intros c l; reflexivity | vm_compute; reflexivity | discriminate
    | vm_compute; reflexivity ..].
Qed.
